(** * Sensoray 626 comedi driver: acquisition engine

    A shallow embedding of the counter/timer control, the RPS program
    builder and the analog-input command state machine of
    [drivers/staging/comedi/drivers/s626.c], followed by the properties
    of the design specification that were checked against it.

    Conventions.
    - C integers are [Z]; a value stored in a [uintN_t] object is
      truncated with [u8], [u16] or [u32], an [int] with [s32].
    - [s626.h], [comedi.h] and [comedi_fc.h] are not among the sources.
      Every constant and macro they provide is a field of the records
      [s626_h] and [comedi_h]; the functions take the records as
      arguments and the theorems state which properties of the constants
      they rely on.
    - The gate array behind the DEBI port and the SAA7146 register window
      are register files indexed by address.  A transfer over the DEBI
      port is one step on the gate-array file ([lp], [lp_trace]).  The
      handshake that carries a transfer (the writes to [P_DEBICMD] and
      [P_DEBIAD], the upload strobe written to [P_MC2] and the two polls
      of [s626_debi_transfer]) is not modelled: [mmio_trace] holds the
      writes that the driver makes with [writel] outside of DEBI
      transfers.  What is stated of a function that makes DEBI
      transfers therefore concerns the writes to registers that no
      transfer touches; an equation on the whole of [mmio_trace] across
      a transfer is a lemma about the model and no claim about the
      sequence of [writel] calls of the driver. *)

From Stdlib Require Import ZArith List Bool Lia.
Import ListNotations.
Local Open Scope Z_scope.

(* ================================================================== *)
(** * Part I: the model *)
(* ================================================================== *)

(** ** Machine integers *)

Definition u8 (x : Z) : Z := Z.land x 255.
Definition u16 (x : Z) : Z := Z.land x 65535.
Definition u32 (x : Z) : Z := Z.land x 4294967295.

(** [int]: the value of a 32-bit pattern read as two's complement. *)
Definition s32 (x : Z) : Z := (x + 2147483648) mod 4294967296 - 2147483648.

(** C truth value of an integer expression. *)
Definition nz (x : Z) : bool := negb (x =? 0).

(** ** Bit fields

    Every [S626_SET_xxx(x)] macro used by the driver has the shape
    [((x) & mask) << bit], the matching [S626_GET_xxx(r)] is
    [((r) >> bit) & mask] and the mask constant is [S626_SET_xxx(~0)].
    A field is described by its bit position and its width. *)

Record field : Set := mkfield { f_bit : Z; f_width : Z }.

Definition fset (f : field) (x : Z) : Z :=
  Z.shiftl (Z.land x (Z.ones (f_width f))) (f_bit f).

Definition fget (f : field) (r : Z) : Z :=
  Z.land (Z.shiftr r (f_bit f)) (Z.ones (f_width f)).

Definition fmsk (f : field) : Z := fset f (-1).

(** A field that lies inside a 16-bit register. *)
Definition field_okb (f : field) : bool :=
  (0 <=? f_bit f) && (0 <? f_width f) && (f_bit f + f_width f <=? 16).

Definition disjointb (f g : field) : bool :=
  (f_bit f + f_width f <=? f_bit g) || (f_bit g + f_width g <=? f_bit f).

(** A register layout: fields inside the register, no two overlapping. *)
Fixpoint layout_okb (l : list field) : bool :=
  match l with
  | [] => true
  | f :: l' => field_okb f && forallb (disjointb f) l' && layout_okb l'
  end.

(** ** The constants of [s626.h]

    The header is not part of the sources; its constants are the fields
    of this record.  Counter register fields are named after the macro
    family they stand for: [CRA_LOADSRC_A] is the field behind
    [S626_SET_CRA_LOADSRC_A], [S626_GET_CRA_LOADSRC_A] and
    [S626_CRAMSK_LOADSRC_A]. *)

Record s626_h : Type := {
  (* counter control register A *)
  CRA_INDXSRC_B : field;  CRA_CNTSRC_B : field;  CRA_INDXPOL_A : field;
  CRA_LOADSRC_A : field;  CRA_CLKMULT_A : field; CRA_INTSRC_A : field;
  CRA_CLKPOL_A : field;   CRA_INDXSRC_A : field; CRA_CNTSRC_A : field;
  (* counter control register B *)
  CRB_INTRESETCMD : field; CRB_INTRESET_B : field; CRB_INTRESET_A : field;
  CRB_CLKENAB_A : field;   CRB_INTSRC_B : field;   CRB_LATCHSRC : field;
  CRB_LOADSRC_B : field;   CRB_CLKMULT_B : field;  CRB_CLKENAB_B : field;
  CRB_INDXPOL_B : field;   CRB_CLKPOL_B : field;
  (* standardized counter setup *)
  STD_INTSRC : field;  STD_LATCHSRC : field; STD_LOADSRC : field;
  STD_INDXSRC : field; STD_INDXPOL : field;  STD_ENCMODE : field;
  STD_CLKPOL : field;  STD_CLKMULT : field;  STD_CLKENAB : field;
  (* field values *)
  S626_CLKMULT_1X : Z;      S626_CLKMULT_SPECIAL : Z;
  S626_CNTSRC_ENCODER : Z;  S626_CNTSRC_SYSCLK : Z;
  S626_ENCMODE_COUNTER : Z; S626_ENCMODE_TIMER : Z; S626_ENCMODE_EXTENDER : Z;
  S626_INDXSRC_SOFT : Z;    S626_LOADSRC_INDX : Z;  S626_CNTDIR_DOWN : Z;
  S626_CLKENAB_ALWAYS : Z;  S626_CLKENAB_INDEX : Z;
  S626_LATCHSRC_A_INDXA : Z; S626_INTSRC_OVER : Z;
  (* gate array (local bus) addresses *)
  S626_LP_CR0A : Z; S626_LP_CR0B : Z; S626_LP_CR1A : Z;
  S626_LP_CR1B : Z; S626_LP_CR2A : Z; S626_LP_CR2B : Z;
  S626_LP_CNTR0ALSW : Z; S626_LP_CNTR1ALSW : Z; S626_LP_CNTR2ALSW : Z;
  S626_LP_CNTR0BLSW : Z; S626_LP_CNTR1BLSW : Z; S626_LP_CNTR2BLSW : Z;
  S626_LP_MISC1 : Z; S626_LP_RDMISC2 : Z; S626_LP_GSEL : Z; S626_LP_ISEL : Z;
  S626_LP_RDEDGSEL : Z -> Z; S626_LP_WREDGSEL : Z -> Z;
  S626_LP_RDINTSEL : Z -> Z; S626_LP_WRINTSEL : Z -> Z;
  S626_LP_RDCAPSEL : Z -> Z; S626_LP_WRCAPSEL : Z -> Z;
  S626_LP_RDCAPFLG : Z -> Z;
  S626_MISC1_EDCAP : Z; S626_MISC1_NOEDCAP : Z; S626_DIO_BANKS : Z;
  (* SAA7146 registers and their bits *)
  S626_P_IER : Z; S626_P_ISR : Z; S626_P_MC1 : Z; S626_P_MC2 : Z;
  S626_P_RPSADDR1 : Z; S626_P_DEBICMD : Z; S626_P_DEBIAD : Z;
  S626_P_GPIO : Z; S626_P_FB_BUFFER1 : Z;
  S626_MC1_ERPS1 : Z; S626_MC2_ADC_RPS : Z;
  S626_IRQ_RPS1 : Z; S626_IRQ_GPIO3 : Z;
  S626_IRQ_COINT1A : Z; S626_IRQ_COINT2A : Z; S626_IRQ_COINT3A : Z;
  S626_IRQ_COINT1B : Z; S626_IRQ_COINT2B : Z; S626_IRQ_COINT3B : Z;
  (* RPS instruction set *)
  S626_RPS_CLRSIGNAL : Z; S626_RPS_NOP : Z; S626_RPS_PAUSE : Z;
  S626_RPS_UPLOAD : Z; S626_RPS_JUMP : Z; S626_RPS_LDREG : Z;
  S626_RPS_STREG : Z; S626_RPS_IRQ : Z; S626_RPS_DEBI : Z;
  S626_RPS_SIGADC : Z; S626_RPS_GPIO2 : Z; S626_RPSCLK_PER_US : Z;
  S626_DEBI_CMD_WRWORD : Z;
  S626_GPIO_BASE : Z; S626_GPIO1_LO : Z; S626_GPIO1_HI : Z;
  (* analog input *)
  S626_GSEL_BIPOLAR5V : Z; S626_GSEL_BIPOLAR10V : Z;
  S626_RANGE_5V : Z; S626_RANGE_10V : Z; S626_EOPL : Z
}.

(** The fields of the three register images, in the order of the record. *)
Definition cra_fields (h : s626_h) : list field :=
  [ CRA_INDXSRC_B h; CRA_CNTSRC_B h; CRA_INDXPOL_A h; CRA_LOADSRC_A h;
    CRA_CLKMULT_A h; CRA_INTSRC_A h; CRA_CLKPOL_A h; CRA_INDXSRC_A h;
    CRA_CNTSRC_A h ].

Definition crb_fields (h : s626_h) : list field :=
  [ CRB_INTRESETCMD h; CRB_INTRESET_B h; CRB_INTRESET_A h; CRB_CLKENAB_A h;
    CRB_INTSRC_B h; CRB_LATCHSRC h; CRB_LOADSRC_B h; CRB_CLKMULT_B h;
    CRB_CLKENAB_B h; CRB_INDXPOL_B h; CRB_CLKPOL_B h ].

Definition std_fields (h : s626_h) : list field :=
  [ STD_INTSRC h; STD_LATCHSRC h; STD_LOADSRC h; STD_INDXSRC h;
    STD_INDXPOL h; STD_ENCMODE h; STD_CLKPOL h; STD_CLKMULT h;
    STD_CLKENAB h ].

(** [S626_CRBMSK_INTCTRL]: the three interrupt reset command bits. *)
Definition S626_CRBMSK_INTCTRL (h : s626_h) : Z :=
  Z.lor (fmsk (CRB_INTRESETCMD h))
        (Z.lor (fmsk (CRB_INTRESET_B h)) (fmsk (CRB_INTRESET_A h))).

(** ** The constants of [comedi.h] and the helpers of [comedi_fc.h]

    Trigger sources, event bits and the channel specification macros
    come from the comedi core; the [cfc_check_*] helpers take the
    checked value and return the value they leave behind together with
    their error code (0 on success). *)

Record comedi_h : Type := {
  TRIG_NONE : Z; TRIG_NOW : Z; TRIG_FOLLOW : Z; TRIG_TIMER : Z;
  TRIG_COUNT : Z; TRIG_EXT : Z; TRIG_INT : Z;
  TRIG_ROUND_MASK : Z; TRIG_ROUND_NEAREST : Z;
  TRIG_ROUND_DOWN : Z; TRIG_ROUND_UP : Z;
  COMEDI_CB_EOS : Z; COMEDI_CB_EOA : Z;
  EBUSY : Z; EINVAL : Z;
  CR_CHAN : Z -> Z; CR_RANGE : Z -> Z;
  cfc_check_trigger_src : Z -> Z -> Z * Z;
  cfc_check_trigger_is_unique : Z -> Z;
  cfc_check_trigger_arg_is : Z -> Z -> Z * Z;
  cfc_check_trigger_arg_min : Z -> Z -> Z * Z;
  cfc_check_trigger_arg_max : Z -> Z -> Z * Z
}.

(** [struct comedi_cmd]; [chanlist_len] is the length of [chanlist]. *)
Record comedi_cmd : Set := {
  start_src : Z;      start_arg : Z;
  scan_begin_src : Z; scan_begin_arg : Z;
  convert_src : Z;    convert_arg : Z;
  scan_end_src : Z;   scan_end_arg : Z;
  stop_src : Z;       stop_arg : Z;
  chanlist : list Z;
  flags : Z
}.

Definition chanlist_len (c : comedi_cmd) : Z := Z.of_nat (length (chanlist c)).

(** ** Arrays written through a pointer

    [cells] are the elements of the array; [writes] is the trace of all
    stores made through the pointer, oldest first.  A store beyond the
    last cell is undefined behaviour in C.  The model leaves the cells
    alone and records the store in the trace: the trace tells where a
    store falls outside the array, and the content of the poll list is
    only reasoned about for channel lists that fit its 16 entries. *)

Record buffer : Set := { cells : list Z; writes : list (nat * Z) }.

Fixpoint upd (i : nat) (v : Z) (l : list Z) : list Z :=
  match l, i with
  | [], _ => []
  | _ :: l', O => v :: l'
  | x :: l', S i' => x :: upd i' v l'
  end.

Definition store (i : nat) (v : Z) (b : buffer) : buffer :=
  {| cells := upd i v (cells b); writes := writes b ++ [(i, v)] |}.

(** The last value stored at [i] according to the trace. *)
Fixpoint last_write (i : nat) (t : list (nat * Z)) (dflt : Z) : Z :=
  match t with
  | [] => dflt
  | (j, v) :: t' => last_write i t' (if (j =? i)%nat then v else dflt)
  end.

Definition peek (i : nat) (b : buffer) : Z :=
  match nth_error (cells b) i with
  | Some v => v
  | None => last_write i (writes b) 0
  end.

(** Consecutive stores [*p++ = w] starting at index [i]. *)
Fixpoint blit (ws : list Z) (i : nat) (b : buffer) : buffer :=
  match ws with
  | [] => b
  | w :: ws' => blit ws' (S i) (store i w b)
  end.

(** An array of [n] bytes with indeterminate initial contents [g]. *)
Definition stack_array (n : nat) (g : nat -> Z) : buffer :=
  {| cells := map (fun i => u8 (g i)) (seq 0 n); writes := [] |}.

(** ** Device state

    [struct s626_private] together with the parts of the comedi device
    and of the asynchronous subdevice that the driver reads or writes. *)

Record s626_dev : Type := {
  attached : bool;
  ai_cmd_running : Z;            (* uint8_t *)
  ai_continuous : Z;             (* uint8_t *)
  ai_sample_count : Z;           (* int *)
  ai_convert_count : Z;          (* int *)
  counter_int_enabs : Z;         (* uint16_t *)
  adc_items : Z;                 (* uint8_t *)
  rps_phys : Z;                  (* rps_buf.physical_base *)
  ana_phys : Z;                  (* ana_buf.physical_base *)
  rps_buf : buffer;              (* the RPS program, 32-bit words *)
  ana_buf : nat -> Z;            (* captured ADC words, by word index *)
  lp : Z -> Z;                   (* gate array registers *)
  lp_trace : list (Z * Z);       (* DEBI writes (address, data) *)
  mmio : Z -> Z;                 (* SAA7146 registers *)
  mmio_trace : list (Z * Z);     (* writel (address, data), outside of
                                    DEBI transfers *)
  cmd : comedi_cmd;              (* s->async->cmd *)
  events : Z;                    (* s->async->events *)
  inttrig : bool;                (* s->async->inttrig == s626_ai_inttrig *)
  scan_buf : list Z;             (* samples written since the last event *)
  published : list (list Z * Z)  (* scans handed over, with event mask *)
}.

(** Field updates. *)
Definition with_ai_cmd_running (v : Z) (d : s626_dev) : s626_dev :=
  {| attached := attached d; ai_cmd_running := v;
     ai_continuous := ai_continuous d;
     ai_sample_count := ai_sample_count d;
     ai_convert_count := ai_convert_count d;
     counter_int_enabs := counter_int_enabs d; adc_items := adc_items d;
     rps_phys := rps_phys d; ana_phys := ana_phys d; rps_buf := rps_buf d;
     ana_buf := ana_buf d; lp := lp d; lp_trace := lp_trace d;
     mmio := mmio d; mmio_trace := mmio_trace d; cmd := cmd d;
     events := events d; inttrig := inttrig d; scan_buf := scan_buf d;
     published := published d |}.
Definition with_ai_continuous (v : Z) (d : s626_dev) : s626_dev :=
  {| attached := attached d; ai_cmd_running := ai_cmd_running d;
     ai_continuous := v; ai_sample_count := ai_sample_count d;
     ai_convert_count := ai_convert_count d;
     counter_int_enabs := counter_int_enabs d; adc_items := adc_items d;
     rps_phys := rps_phys d; ana_phys := ana_phys d; rps_buf := rps_buf d;
     ana_buf := ana_buf d; lp := lp d; lp_trace := lp_trace d;
     mmio := mmio d; mmio_trace := mmio_trace d; cmd := cmd d;
     events := events d; inttrig := inttrig d; scan_buf := scan_buf d;
     published := published d |}.
Definition with_ai_sample_count (v : Z) (d : s626_dev) : s626_dev :=
  {| attached := attached d; ai_cmd_running := ai_cmd_running d;
     ai_continuous := ai_continuous d; ai_sample_count := v;
     ai_convert_count := ai_convert_count d;
     counter_int_enabs := counter_int_enabs d; adc_items := adc_items d;
     rps_phys := rps_phys d; ana_phys := ana_phys d; rps_buf := rps_buf d;
     ana_buf := ana_buf d; lp := lp d; lp_trace := lp_trace d;
     mmio := mmio d; mmio_trace := mmio_trace d; cmd := cmd d;
     events := events d; inttrig := inttrig d; scan_buf := scan_buf d;
     published := published d |}.
Definition with_ai_convert_count (v : Z) (d : s626_dev) : s626_dev :=
  {| attached := attached d; ai_cmd_running := ai_cmd_running d;
     ai_continuous := ai_continuous d;
     ai_sample_count := ai_sample_count d; ai_convert_count := v;
     counter_int_enabs := counter_int_enabs d; adc_items := adc_items d;
     rps_phys := rps_phys d; ana_phys := ana_phys d; rps_buf := rps_buf d;
     ana_buf := ana_buf d; lp := lp d; lp_trace := lp_trace d;
     mmio := mmio d; mmio_trace := mmio_trace d; cmd := cmd d;
     events := events d; inttrig := inttrig d; scan_buf := scan_buf d;
     published := published d |}.
Definition with_counter_int_enabs (v : Z) (d : s626_dev) : s626_dev :=
  {| attached := attached d; ai_cmd_running := ai_cmd_running d;
     ai_continuous := ai_continuous d;
     ai_sample_count := ai_sample_count d;
     ai_convert_count := ai_convert_count d; counter_int_enabs := v;
     adc_items := adc_items d; rps_phys := rps_phys d;
     ana_phys := ana_phys d; rps_buf := rps_buf d; ana_buf := ana_buf d;
     lp := lp d; lp_trace := lp_trace d; mmio := mmio d;
     mmio_trace := mmio_trace d; cmd := cmd d; events := events d;
     inttrig := inttrig d; scan_buf := scan_buf d;
     published := published d |}.
Definition with_adc_items (v : Z) (d : s626_dev) : s626_dev :=
  {| attached := attached d; ai_cmd_running := ai_cmd_running d;
     ai_continuous := ai_continuous d;
     ai_sample_count := ai_sample_count d;
     ai_convert_count := ai_convert_count d;
     counter_int_enabs := counter_int_enabs d; adc_items := v;
     rps_phys := rps_phys d; ana_phys := ana_phys d; rps_buf := rps_buf d;
     ana_buf := ana_buf d; lp := lp d; lp_trace := lp_trace d;
     mmio := mmio d; mmio_trace := mmio_trace d; cmd := cmd d;
     events := events d; inttrig := inttrig d; scan_buf := scan_buf d;
     published := published d |}.
Definition with_rps_buf (v : buffer) (d : s626_dev) : s626_dev :=
  {| attached := attached d; ai_cmd_running := ai_cmd_running d;
     ai_continuous := ai_continuous d;
     ai_sample_count := ai_sample_count d;
     ai_convert_count := ai_convert_count d;
     counter_int_enabs := counter_int_enabs d; adc_items := adc_items d;
     rps_phys := rps_phys d; ana_phys := ana_phys d; rps_buf := v;
     ana_buf := ana_buf d; lp := lp d; lp_trace := lp_trace d;
     mmio := mmio d; mmio_trace := mmio_trace d; cmd := cmd d;
     events := events d; inttrig := inttrig d; scan_buf := scan_buf d;
     published := published d |}.
Definition with_ana_buf (v : nat -> Z) (d : s626_dev) : s626_dev :=
  {| attached := attached d; ai_cmd_running := ai_cmd_running d;
     ai_continuous := ai_continuous d;
     ai_sample_count := ai_sample_count d;
     ai_convert_count := ai_convert_count d;
     counter_int_enabs := counter_int_enabs d; adc_items := adc_items d;
     rps_phys := rps_phys d; ana_phys := ana_phys d; rps_buf := rps_buf d;
     ana_buf := v; lp := lp d; lp_trace := lp_trace d; mmio := mmio d;
     mmio_trace := mmio_trace d; cmd := cmd d; events := events d;
     inttrig := inttrig d; scan_buf := scan_buf d;
     published := published d |}.
Definition with_cmd (v : comedi_cmd) (d : s626_dev) : s626_dev :=
  {| attached := attached d; ai_cmd_running := ai_cmd_running d;
     ai_continuous := ai_continuous d;
     ai_sample_count := ai_sample_count d;
     ai_convert_count := ai_convert_count d;
     counter_int_enabs := counter_int_enabs d; adc_items := adc_items d;
     rps_phys := rps_phys d; ana_phys := ana_phys d; rps_buf := rps_buf d;
     ana_buf := ana_buf d; lp := lp d; lp_trace := lp_trace d;
     mmio := mmio d; mmio_trace := mmio_trace d; cmd := v;
     events := events d; inttrig := inttrig d; scan_buf := scan_buf d;
     published := published d |}.
Definition with_events (v : Z) (d : s626_dev) : s626_dev :=
  {| attached := attached d; ai_cmd_running := ai_cmd_running d;
     ai_continuous := ai_continuous d;
     ai_sample_count := ai_sample_count d;
     ai_convert_count := ai_convert_count d;
     counter_int_enabs := counter_int_enabs d; adc_items := adc_items d;
     rps_phys := rps_phys d; ana_phys := ana_phys d; rps_buf := rps_buf d;
     ana_buf := ana_buf d; lp := lp d; lp_trace := lp_trace d;
     mmio := mmio d; mmio_trace := mmio_trace d; cmd := cmd d; events := v;
     inttrig := inttrig d; scan_buf := scan_buf d;
     published := published d |}.
Definition with_inttrig (v : bool) (d : s626_dev) : s626_dev :=
  {| attached := attached d; ai_cmd_running := ai_cmd_running d;
     ai_continuous := ai_continuous d;
     ai_sample_count := ai_sample_count d;
     ai_convert_count := ai_convert_count d;
     counter_int_enabs := counter_int_enabs d; adc_items := adc_items d;
     rps_phys := rps_phys d; ana_phys := ana_phys d; rps_buf := rps_buf d;
     ana_buf := ana_buf d; lp := lp d; lp_trace := lp_trace d;
     mmio := mmio d; mmio_trace := mmio_trace d; cmd := cmd d;
     events := events d; inttrig := v; scan_buf := scan_buf d;
     published := published d |}.
Definition with_scan_buf (v : list Z) (d : s626_dev) : s626_dev :=
  {| attached := attached d; ai_cmd_running := ai_cmd_running d;
     ai_continuous := ai_continuous d;
     ai_sample_count := ai_sample_count d;
     ai_convert_count := ai_convert_count d;
     counter_int_enabs := counter_int_enabs d; adc_items := adc_items d;
     rps_phys := rps_phys d; ana_phys := ana_phys d; rps_buf := rps_buf d;
     ana_buf := ana_buf d; lp := lp d; lp_trace := lp_trace d;
     mmio := mmio d; mmio_trace := mmio_trace d; cmd := cmd d;
     events := events d; inttrig := inttrig d; scan_buf := v;
     published := published d |}.
Definition with_published (v : list (list Z * Z)) (d : s626_dev) : s626_dev :=
  {| attached := attached d; ai_cmd_running := ai_cmd_running d;
     ai_continuous := ai_continuous d;
     ai_sample_count := ai_sample_count d;
     ai_convert_count := ai_convert_count d;
     counter_int_enabs := counter_int_enabs d; adc_items := adc_items d;
     rps_phys := rps_phys d; ana_phys := ana_phys d; rps_buf := rps_buf d;
     ana_buf := ana_buf d; lp := lp d; lp_trace := lp_trace d;
     mmio := mmio d; mmio_trace := mmio_trace d; cmd := cmd d;
     events := events d; inttrig := inttrig d; scan_buf := scan_buf d;
     published := v |}.
Definition with_lp (a v : Z) (d : s626_dev) : s626_dev :=
  {| attached := attached d; ai_cmd_running := ai_cmd_running d;
     ai_continuous := ai_continuous d;
     ai_sample_count := ai_sample_count d;
     ai_convert_count := ai_convert_count d;
     counter_int_enabs := counter_int_enabs d; adc_items := adc_items d;
     rps_phys := rps_phys d; ana_phys := ana_phys d; rps_buf := rps_buf d;
     ana_buf := ana_buf d; lp := (fun x => if x =? a then v else lp d x);
     lp_trace := lp_trace d ++ [(a, v)]; mmio := mmio d;
     mmio_trace := mmio_trace d; cmd := cmd d; events := events d;
     inttrig := inttrig d; scan_buf := scan_buf d;
     published := published d |}.
Definition with_mmio (a v : Z) (d : s626_dev) : s626_dev :=
  {| attached := attached d; ai_cmd_running := ai_cmd_running d;
     ai_continuous := ai_continuous d;
     ai_sample_count := ai_sample_count d;
     ai_convert_count := ai_convert_count d;
     counter_int_enabs := counter_int_enabs d; adc_items := adc_items d;
     rps_phys := rps_phys d; ana_phys := ana_phys d; rps_buf := rps_buf d;
     ana_buf := ana_buf d; lp := lp d; lp_trace := lp_trace d;
     mmio := (fun x => if x =? a then v else mmio d x);
     mmio_trace := mmio_trace d ++ [(a, v)]; cmd := cmd d;
     events := events d; inttrig := inttrig d; scan_buf := scan_buf d;
     published := published d |}.

(** Updates of the command in place. *)
Definition set_start_src (v : Z) (c : comedi_cmd) : comedi_cmd :=
  {| start_src := v; start_arg := start_arg c;
     scan_begin_src := scan_begin_src c;
     scan_begin_arg := scan_begin_arg c; convert_src := convert_src c;
     convert_arg := convert_arg c; scan_end_src := scan_end_src c;
     scan_end_arg := scan_end_arg c; stop_src := stop_src c;
     stop_arg := stop_arg c; chanlist := chanlist c; flags := flags c |}.
Definition set_start_arg (v : Z) (c : comedi_cmd) : comedi_cmd :=
  {| start_src := start_src c; start_arg := v;
     scan_begin_src := scan_begin_src c;
     scan_begin_arg := scan_begin_arg c; convert_src := convert_src c;
     convert_arg := convert_arg c; scan_end_src := scan_end_src c;
     scan_end_arg := scan_end_arg c; stop_src := stop_src c;
     stop_arg := stop_arg c; chanlist := chanlist c; flags := flags c |}.
Definition set_scan_begin_src (v : Z) (c : comedi_cmd) : comedi_cmd :=
  {| start_src := start_src c; start_arg := start_arg c;
     scan_begin_src := v; scan_begin_arg := scan_begin_arg c;
     convert_src := convert_src c; convert_arg := convert_arg c;
     scan_end_src := scan_end_src c; scan_end_arg := scan_end_arg c;
     stop_src := stop_src c; stop_arg := stop_arg c;
     chanlist := chanlist c; flags := flags c |}.
Definition set_scan_begin_arg (v : Z) (c : comedi_cmd) : comedi_cmd :=
  {| start_src := start_src c; start_arg := start_arg c;
     scan_begin_src := scan_begin_src c; scan_begin_arg := v;
     convert_src := convert_src c; convert_arg := convert_arg c;
     scan_end_src := scan_end_src c; scan_end_arg := scan_end_arg c;
     stop_src := stop_src c; stop_arg := stop_arg c;
     chanlist := chanlist c; flags := flags c |}.
Definition set_convert_src (v : Z) (c : comedi_cmd) : comedi_cmd :=
  {| start_src := start_src c; start_arg := start_arg c;
     scan_begin_src := scan_begin_src c;
     scan_begin_arg := scan_begin_arg c; convert_src := v;
     convert_arg := convert_arg c; scan_end_src := scan_end_src c;
     scan_end_arg := scan_end_arg c; stop_src := stop_src c;
     stop_arg := stop_arg c; chanlist := chanlist c; flags := flags c |}.
Definition set_convert_arg (v : Z) (c : comedi_cmd) : comedi_cmd :=
  {| start_src := start_src c; start_arg := start_arg c;
     scan_begin_src := scan_begin_src c;
     scan_begin_arg := scan_begin_arg c; convert_src := convert_src c;
     convert_arg := v; scan_end_src := scan_end_src c;
     scan_end_arg := scan_end_arg c; stop_src := stop_src c;
     stop_arg := stop_arg c; chanlist := chanlist c; flags := flags c |}.
Definition set_scan_end_src (v : Z) (c : comedi_cmd) : comedi_cmd :=
  {| start_src := start_src c; start_arg := start_arg c;
     scan_begin_src := scan_begin_src c;
     scan_begin_arg := scan_begin_arg c; convert_src := convert_src c;
     convert_arg := convert_arg c; scan_end_src := v;
     scan_end_arg := scan_end_arg c; stop_src := stop_src c;
     stop_arg := stop_arg c; chanlist := chanlist c; flags := flags c |}.
Definition set_scan_end_arg (v : Z) (c : comedi_cmd) : comedi_cmd :=
  {| start_src := start_src c; start_arg := start_arg c;
     scan_begin_src := scan_begin_src c;
     scan_begin_arg := scan_begin_arg c; convert_src := convert_src c;
     convert_arg := convert_arg c; scan_end_src := scan_end_src c;
     scan_end_arg := v; stop_src := stop_src c; stop_arg := stop_arg c;
     chanlist := chanlist c; flags := flags c |}.
Definition set_stop_src (v : Z) (c : comedi_cmd) : comedi_cmd :=
  {| start_src := start_src c; start_arg := start_arg c;
     scan_begin_src := scan_begin_src c;
     scan_begin_arg := scan_begin_arg c; convert_src := convert_src c;
     convert_arg := convert_arg c; scan_end_src := scan_end_src c;
     scan_end_arg := scan_end_arg c; stop_src := v; stop_arg := stop_arg c;
     chanlist := chanlist c; flags := flags c |}.
Definition set_stop_arg (v : Z) (c : comedi_cmd) : comedi_cmd :=
  {| start_src := start_src c; start_arg := start_arg c;
     scan_begin_src := scan_begin_src c;
     scan_begin_arg := scan_begin_arg c; convert_src := convert_src c;
     convert_arg := convert_arg c; scan_end_src := scan_end_src c;
     scan_end_arg := scan_end_arg c; stop_src := stop_src c; stop_arg := v;
     chanlist := chanlist c; flags := flags c |}.

(** ** Register access

    [s626_debi_read], [s626_debi_write] and [s626_debi_replace] reach a
    gate array register through the DEBI port of the SAA7146.  The
    model reads and writes the addressed 16-bit register itself, which
    holds the last word written to it.  The handshake of the transfer is
    left out: the [writel] of the command to [P_DEBICMD] and of the data
    to [P_DEBIAD], the upload strobe that [s626_debi_transfer] writes to
    [P_MC2] and its bounded polls change neither [mmio] nor [mmio_trace]
    here. *)

Section Driver.

Variable h : s626_h.
Variable c : comedi_h.

Local Abbreviation SET f x := (fset (f h) x).
Local Abbreviation GET f r := (fget (f h) r).
Local Abbreviation MSK f := (fmsk (f h)).

Definition writel (v a : Z) (d : s626_dev) : s626_dev := with_mmio a (u32 v) d.
Definition readl (a : Z) (d : s626_dev) : Z := u32 (mmio d a).

Definition s626_mc_enable (cmd reg : Z) (d : s626_dev) : s626_dev :=
  let val := u32 (Z.lor (Z.shiftl cmd 16) cmd) in
  writel val reg d.

Definition s626_mc_disable (cmd reg : Z) (d : s626_dev) : s626_dev :=
  writel (Z.shiftl cmd 16) reg d.

Definition s626_mc_test (cmd reg : Z) (d : s626_dev) : bool :=
  let val := readl reg d in
  nz (Z.land val cmd).

Definition s626_debi_read (addr : Z) (d : s626_dev) : Z :=
  u16 (lp d (u16 addr)).

Definition s626_debi_write (addr wdata : Z) (d : s626_dev) : s626_dev :=
  with_lp (u16 addr) (u16 wdata) d.

Definition s626_debi_replace (addr mask wdata : Z) (d : s626_dev) : s626_dev :=
  let addr := Z.land (u32 addr) 65535 in
  let val := u32 (lp d addr) in
  let val := Z.land val (u32 mask) in
  let val := Z.lor val (u32 wdata) in
  with_lp addr (Z.land val 65535) d.

(** ** Counter functions *)

(** The register addresses and event bits of one [struct s626_enc_info]. *)
Record enc_regs : Set := {
  my_cra : Z;
  my_crb : Z;
  my_latch_lsw : Z;
  my_event_bits : list Z
}.

(** [k->my_event_bits[i]] *)
Definition event_bits (k : enc_regs) (i : Z) : Z :=
  nth (Z.to_nat i) (my_event_bits k) 0.

Definition s626_read_latch (k : enc_regs) (d : s626_dev) : Z :=
  let value := s626_debi_read (my_latch_lsw k) d in
  u32 (Z.lor value (Z.shiftl (s626_debi_read (my_latch_lsw k + 2) d) 16)).

Definition s626_set_latch_source (k : enc_regs) (value : Z) (d : s626_dev)
  : s626_dev :=
  s626_debi_replace (my_crb k)
    (Z.lnot (Z.lor (S626_CRBMSK_INTCTRL h) (MSK CRB_LATCHSRC)))
    (SET CRB_LATCHSRC value) d.

Definition s626_preload (k : enc_regs) (value : Z) (d : s626_dev) : s626_dev :=
  let d := s626_debi_write (my_latch_lsw k) (u32 value) d in
  s626_debi_write (my_latch_lsw k + 2) (Z.shiftr (u32 value) 16) d.

Definition s626_reset_cap_flags_a (k : enc_regs) (d : s626_dev) : s626_dev :=
  s626_debi_replace (my_crb k) (Z.lnot (S626_CRBMSK_INTCTRL h))
    (Z.lor (SET CRB_INTRESETCMD 1) (SET CRB_INTRESET_A 1)) d.

Definition s626_reset_cap_flags_b (k : enc_regs) (d : s626_dev) : s626_dev :=
  s626_debi_replace (my_crb k) (Z.lnot (S626_CRBMSK_INTCTRL h))
    (Z.lor (SET CRB_INTRESETCMD 1) (SET CRB_INTRESET_B 1)) d.

Definition s626_get_mode_a (k : enc_regs) (d : s626_dev) : Z :=
  let cra := s626_debi_read (my_cra k) d in
  let crb := s626_debi_read (my_crb k) d in
  let setup := u16
    (Z.lor (SET STD_LOADSRC (GET CRA_LOADSRC_A cra))
    (Z.lor (SET STD_LATCHSRC (GET CRB_LATCHSRC crb))
    (Z.lor (SET STD_INTSRC (GET CRA_INTSRC_A cra))
    (Z.lor (SET STD_INDXSRC (GET CRA_INDXSRC_A cra))
    (Z.lor (SET STD_INDXPOL (GET CRA_INDXPOL_A cra))
           (SET STD_CLKENAB (GET CRB_CLKENAB_A crb))))))) in
  let cntsrc := GET CRA_CNTSRC_A cra in
  let '(encmode, clkpol, clkmult) :=
    if nz (Z.land cntsrc (S626_CNTSRC_SYSCLK h)) then
      (S626_ENCMODE_TIMER h, Z.land cntsrc 1, S626_CLKMULT_1X h)
    else
      let clkmult := GET CRA_CLKMULT_A cra in
      (S626_ENCMODE_COUNTER h, GET CRA_CLKPOL_A cra,
       if clkmult =? S626_CLKMULT_SPECIAL h then S626_CLKMULT_1X h
       else clkmult) in
  u16 (Z.lor setup
        (Z.lor (SET STD_ENCMODE encmode)
        (Z.lor (SET STD_CLKMULT clkmult) (SET STD_CLKPOL clkpol)))).

Definition s626_get_mode_b (k : enc_regs) (d : s626_dev) : Z :=
  let cra := s626_debi_read (my_cra k) d in
  let crb := s626_debi_read (my_crb k) d in
  let setup := u16
    (Z.lor (SET STD_INTSRC (GET CRB_INTSRC_B crb))
    (Z.lor (SET STD_LATCHSRC (GET CRB_LATCHSRC crb))
    (Z.lor (SET STD_LOADSRC (GET CRB_LOADSRC_B crb))
    (Z.lor (SET STD_INDXPOL (GET CRB_INDXPOL_B crb))
    (Z.lor (SET STD_CLKENAB (GET CRB_CLKENAB_B crb))
           (SET STD_INDXSRC (GET CRA_INDXSRC_B cra))))))) in
  let cntsrc := GET CRA_CNTSRC_B cra in
  let clkmult := GET CRB_CLKMULT_B crb in
  let '(encmode, clkmult, clkpol) :=
    if clkmult =? S626_CLKMULT_SPECIAL h then
      (S626_ENCMODE_EXTENDER h, S626_CLKMULT_1X h, Z.land cntsrc 1)
    else if nz (Z.land cntsrc (S626_CNTSRC_SYSCLK h)) then
      (S626_ENCMODE_TIMER h, S626_CLKMULT_1X h, Z.land cntsrc 1)
    else
      (S626_ENCMODE_COUNTER h, clkmult, GET CRB_CLKPOL_B crb) in
  u16 (Z.lor setup
        (Z.lor (SET STD_ENCMODE encmode)
        (Z.lor (SET STD_CLKMULT clkmult) (SET STD_CLKPOL clkpol)))).

Definition s626_set_mode_a (k : enc_regs) (setup disable_int_src : Z)
  (d : s626_dev) : s626_dev :=
  let cra := u16 (SET CRA_LOADSRC_A (GET STD_LOADSRC setup)) in
  let cra := u16 (Z.lor cra (SET CRA_INDXSRC_A (GET STD_INDXSRC setup))) in
  let crb := u16 (Z.lor (SET CRB_INTRESETCMD 1) (SET CRB_INTRESET_A 1)) in
  let crb := u16 (Z.lor crb (SET CRB_CLKENAB_A (GET STD_CLKENAB setup))) in
  let cra :=
    if negb (nz disable_int_src)
    then u16 (Z.lor cra (SET CRA_INTSRC_A (GET STD_INTSRC setup)))
    else cra in
  let clkpol := GET STD_CLKPOL setup in
  let encmode := GET STD_ENCMODE setup in
  let '(cntsrc, clkpol, clkmult) :=
    if (encmode =? S626_ENCMODE_EXTENDER h) || (encmode =? S626_ENCMODE_TIMER h)
    then (Z.lor (S626_CNTSRC_SYSCLK h) clkpol, 1, S626_CLKMULT_1X h)
    else
      let clkmult := GET STD_CLKMULT setup in
      (S626_CNTSRC_ENCODER h, clkpol,
       if clkmult =? S626_CLKMULT_SPECIAL h then S626_CLKMULT_1X h
       else clkmult) in
  let cra := u16 (Z.lor cra
    (Z.lor (SET CRA_CNTSRC_A cntsrc)
    (Z.lor (SET CRA_CLKPOL_A clkpol) (SET CRA_CLKMULT_A clkmult)))) in
  let cra :=
    if negb (GET STD_INDXSRC setup =? S626_INDXSRC_SOFT h)
    then u16 (Z.lor cra (SET CRA_INDXPOL_A (GET STD_INDXPOL setup)))
    else cra in
  let d :=
    if nz disable_int_src
    then with_counter_int_enabs
           (u16 (Z.land (counter_int_enabs d) (Z.lnot (event_bits k 3)))) d
    else d in
  let d := s626_debi_replace (my_cra k)
             (Z.lor (MSK CRA_INDXSRC_B) (MSK CRA_CNTSRC_B)) cra d in
  s626_debi_replace (my_crb k)
    (Z.lnot (Z.lor (S626_CRBMSK_INTCTRL h) (MSK CRB_CLKENAB_A))) crb d.

Definition s626_set_mode_b (k : enc_regs) (setup disable_int_src : Z)
  (d : s626_dev) : s626_dev :=
  let cra := u16 (SET CRA_INDXSRC_B (GET STD_INDXSRC setup)) in
  let crb := u16 (Z.lor (SET CRB_INTRESETCMD 1) (SET CRB_INTRESET_B 1)) in
  let crb := u16 (Z.lor crb (SET CRB_CLKENAB_B (GET STD_CLKENAB setup))) in
  let crb := u16 (Z.lor crb (SET CRB_LOADSRC_B (GET STD_LOADSRC setup))) in
  let crb :=
    if negb (nz disable_int_src)
    then u16 (Z.lor crb (SET CRB_INTSRC_B (GET STD_INTSRC setup)))
    else crb in
  let clkpol := GET STD_CLKPOL setup in
  let encmode := GET STD_ENCMODE setup in
  let '(cntsrc, clkpol, clkmult) :=
    if encmode =? S626_ENCMODE_TIMER h then
      (Z.lor (S626_CNTSRC_SYSCLK h) clkpol, 1, S626_CLKMULT_1X h)
    else if encmode =? S626_ENCMODE_EXTENDER h then
      (Z.lor (S626_CNTSRC_SYSCLK h) clkpol, 1, S626_CLKMULT_SPECIAL h)
    else
      let clkmult := GET STD_CLKMULT setup in
      (S626_CNTSRC_ENCODER h, clkpol,
       if clkmult =? S626_CLKMULT_SPECIAL h then S626_CLKMULT_1X h
       else clkmult) in
  let cra := u16 (Z.lor cra (SET CRA_CNTSRC_B cntsrc)) in
  let crb := u16 (Z.lor crb
    (Z.lor (SET CRB_CLKPOL_B clkpol) (SET CRB_CLKMULT_B clkmult))) in
  let crb :=
    if negb (GET STD_INDXSRC setup =? S626_INDXSRC_SOFT h)
    then u16 (Z.lor crb (SET CRB_INDXPOL_B (GET STD_INDXPOL setup)))
    else crb in
  let d :=
    if nz disable_int_src
    then with_counter_int_enabs
           (u16 (Z.land (counter_int_enabs d) (Z.lnot (event_bits k 3)))) d
    else d in
  let d := s626_debi_replace (my_cra k)
             (Z.lnot (Z.lor (MSK CRA_INDXSRC_B) (MSK CRA_CNTSRC_B))) cra d in
  s626_debi_replace (my_crb k)
    (Z.lor (MSK CRB_CLKENAB_A) (MSK CRB_LATCHSRC)) crb d.

Definition s626_set_enable_a (k : enc_regs) (enab : Z) (d : s626_dev)
  : s626_dev :=
  s626_debi_replace (my_crb k)
    (Z.lnot (Z.lor (S626_CRBMSK_INTCTRL h) (MSK CRB_CLKENAB_A)))
    (SET CRB_CLKENAB_A enab) d.

Definition s626_set_enable_b (k : enc_regs) (enab : Z) (d : s626_dev)
  : s626_dev :=
  s626_debi_replace (my_crb k)
    (Z.lnot (Z.lor (S626_CRBMSK_INTCTRL h) (MSK CRB_CLKENAB_B)))
    (SET CRB_CLKENAB_B enab) d.

Definition s626_get_enable_a (k : enc_regs) (d : s626_dev) : Z :=
  u16 (GET CRB_CLKENAB_A (s626_debi_read (my_crb k) d)).

Definition s626_get_enable_b (k : enc_regs) (d : s626_dev) : Z :=
  u16 (GET CRB_CLKENAB_B (s626_debi_read (my_crb k) d)).

Definition s626_set_load_trig_a (k : enc_regs) (trig : Z) (d : s626_dev)
  : s626_dev :=
  s626_debi_replace (my_cra k) (Z.lnot (MSK CRA_LOADSRC_A))
    (SET CRA_LOADSRC_A trig) d.

Definition s626_set_load_trig_b (k : enc_regs) (trig : Z) (d : s626_dev)
  : s626_dev :=
  s626_debi_replace (my_crb k)
    (Z.lnot (Z.lor (MSK CRB_LOADSRC_B) (S626_CRBMSK_INTCTRL h)))
    (SET CRB_LOADSRC_B trig) d.

Definition s626_get_load_trig_a (k : enc_regs) (d : s626_dev) : Z :=
  u16 (GET CRA_LOADSRC_A (s626_debi_read (my_cra k) d)).

Definition s626_get_load_trig_b (k : enc_regs) (d : s626_dev) : Z :=
  u16 (GET CRB_LOADSRC_B (s626_debi_read (my_crb k) d)).

Definition s626_set_int_src_a (k : enc_regs) (int_source : Z) (d : s626_dev)
  : s626_dev :=
  let d := s626_debi_replace (my_crb k) (Z.lnot (S626_CRBMSK_INTCTRL h))
             (Z.lor (SET CRB_INTRESETCMD 1) (SET CRB_INTRESET_A 1)) d in
  let d := s626_debi_replace (my_cra k) (Z.lnot (MSK CRA_INTSRC_A))
             (SET CRA_INTSRC_A int_source) d in
  with_counter_int_enabs
    (u16 (Z.lor (Z.land (counter_int_enabs d) (Z.lnot (event_bits k 3)))
                (event_bits k int_source))) d.

Definition s626_set_int_src_b (k : enc_regs) (int_source : Z) (d : s626_dev)
  : s626_dev :=
  let crb := u16 (Z.land (s626_debi_read (my_crb k) d)
                         (Z.lnot (S626_CRBMSK_INTCTRL h))) in
  let d := s626_debi_write (my_crb k)
             (Z.lor crb (Z.lor (SET CRB_INTRESETCMD 1)
                               (SET CRB_INTRESET_B 1))) d in
  let d := s626_debi_write (my_crb k)
             (Z.lor (Z.land crb (Z.lnot (MSK CRB_INTSRC_B)))
                    (SET CRB_INTSRC_B int_source)) d in
  with_counter_int_enabs
    (u16 (Z.lor (Z.land (counter_int_enabs d) (Z.lnot (event_bits k 3)))
                (event_bits k int_source))) d.

Definition s626_get_int_src_a (k : enc_regs) (d : s626_dev) : Z :=
  u16 (GET CRA_INTSRC_A (s626_debi_read (my_cra k) d)).

Definition s626_get_int_src_b (k : enc_regs) (d : s626_dev) : Z :=
  u16 (GET CRB_INTSRC_B (s626_debi_read (my_crb k) d)).

Definition s626_pulse_index_a (k : enc_regs) (d : s626_dev) : s626_dev :=
  let cra := s626_debi_read (my_cra k) d in
  let d := s626_debi_write (my_cra k) (Z.lxor cra (MSK CRA_INDXPOL_A)) d in
  s626_debi_write (my_cra k) cra d.

Definition s626_pulse_index_b (k : enc_regs) (d : s626_dev) : s626_dev :=
  let crb := u16 (Z.land (s626_debi_read (my_crb k) d)
                         (Z.lnot (S626_CRBMSK_INTCTRL h))) in
  let d := s626_debi_write (my_crb k) (Z.lxor crb (MSK CRB_INDXPOL_B)) d in
  s626_debi_write (my_crb k) crb d.

(** [struct s626_enc_info]: the operations that differ between A and B
    counters, selected per counter, and the counter's registers. *)
Record s626_enc_info : Type := {
  get_enable : enc_regs -> s626_dev -> Z;
  get_int_src : enc_regs -> s626_dev -> Z;
  get_load_trig : enc_regs -> s626_dev -> Z;
  get_mode : enc_regs -> s626_dev -> Z;
  pulse_index : enc_regs -> s626_dev -> s626_dev;
  set_enable : enc_regs -> Z -> s626_dev -> s626_dev;
  set_int_src : enc_regs -> Z -> s626_dev -> s626_dev;
  set_load_trig : enc_regs -> Z -> s626_dev -> s626_dev;
  set_mode : enc_regs -> Z -> Z -> s626_dev -> s626_dev;
  reset_cap_flags : enc_regs -> s626_dev -> s626_dev;
  regs : enc_regs
}.

Definition S626_INDXMASK (C : Z) : Z :=
  Z.shiftl 1 (if C >? 2 then C * 2 - 1 else C * 2 + 4).
Definition S626_OVERMASK (C : Z) : Z :=
  Z.shiftl 1 (if C >? 2 then C * 2 + 5 else C * 2 + 10).
Definition S626_EVBITS (C : Z) : list Z :=
  map u16 [ 0; S626_OVERMASK C; S626_INDXMASK C;
            Z.lor (S626_OVERMASK C) (S626_INDXMASK C) ].

Definition enc_info_a (cra crb lsw : Z) (C : Z) : s626_enc_info :=
  {| get_enable := s626_get_enable_a;
     get_int_src := s626_get_int_src_a;
     get_load_trig := s626_get_load_trig_a;
     get_mode := s626_get_mode_a;
     pulse_index := s626_pulse_index_a;
     set_enable := s626_set_enable_a;
     set_int_src := s626_set_int_src_a;
     set_load_trig := s626_set_load_trig_a;
     set_mode := s626_set_mode_a;
     reset_cap_flags := s626_reset_cap_flags_a;
     regs := {| my_cra := u16 cra; my_crb := u16 crb;
                my_latch_lsw := u16 lsw; my_event_bits := S626_EVBITS C |} |}.

Definition enc_info_b (cra crb lsw : Z) (C : Z) : s626_enc_info :=
  {| get_enable := s626_get_enable_b;
     get_int_src := s626_get_int_src_b;
     get_load_trig := s626_get_load_trig_b;
     get_mode := s626_get_mode_b;
     pulse_index := s626_pulse_index_b;
     set_enable := s626_set_enable_b;
     set_int_src := s626_set_int_src_b;
     set_load_trig := s626_set_load_trig_b;
     set_mode := s626_set_mode_b;
     reset_cap_flags := s626_reset_cap_flags_b;
     regs := {| my_cra := u16 cra; my_crb := u16 crb;
                my_latch_lsw := u16 lsw; my_event_bits := S626_EVBITS C |} |}.

(** The counter table: 0=0A, 1=1A, 2=2A, 3=0B, 4=1B, 5=2B.  An A counter
    and the B counter of the same number share their control registers. *)
Definition s626_enc_chan_info : list s626_enc_info :=
  [ enc_info_a (S626_LP_CR0A h) (S626_LP_CR0B h) (S626_LP_CNTR0ALSW h) 0;
    enc_info_a (S626_LP_CR1A h) (S626_LP_CR1B h) (S626_LP_CNTR1ALSW h) 1;
    enc_info_a (S626_LP_CR2A h) (S626_LP_CR2B h) (S626_LP_CNTR2ALSW h) 2;
    enc_info_b (S626_LP_CR0A h) (S626_LP_CR0B h) (S626_LP_CNTR0BLSW h) 3;
    enc_info_b (S626_LP_CR1A h) (S626_LP_CR1B h) (S626_LP_CNTR1BLSW h) 4;
    enc_info_b (S626_LP_CR2A h) (S626_LP_CR2B h) (S626_LP_CNTR2BLSW h) 5 ].

(** [&s626_enc_chan_info[n]]; the driver only uses indices 0 to 5. *)
Definition enc_chan (n : nat) : s626_enc_info :=
  nth n s626_enc_chan_info
      (enc_info_a (S626_LP_CR0A h) (S626_LP_CR0B h) (S626_LP_CNTR0ALSW h) 0).

(** ** Analog input: interrupts *)

Definition s626_ai_reg_to_uint (data : Z) : Z :=
  Z.lxor (Z.land (Z.shiftr (u32 data) 18) 16383) 8192.

Definition s626_dio_set_irq (chan : Z) (d : s626_dev) : s626_dev :=
  let group := u32 chan / 16 in
  let mask := u32 (Z.shiftl 1 (u32 (chan - 16 * group))) in
  (* set channel to capture positive edge *)
  let status := s626_debi_read (S626_LP_RDEDGSEL h group) d in
  let d := s626_debi_write (S626_LP_WREDGSEL h group) (Z.lor mask status) d in
  (* enable interrupt on selected channel *)
  let status := s626_debi_read (S626_LP_RDINTSEL h group) d in
  let d := s626_debi_write (S626_LP_WRINTSEL h group) (Z.lor mask status) d in
  (* enable edge capture write command *)
  let d := s626_debi_write (S626_LP_MISC1 h) (S626_MISC1_EDCAP h) d in
  (* enable edge capture on selected channel *)
  let status := s626_debi_read (S626_LP_RDCAPSEL h group) d in
  s626_debi_write (S626_LP_WRCAPSEL h group) (Z.lor mask status) d.

Definition s626_dio_reset_irq (group mask : Z) (d : s626_dev) : s626_dev :=
  let d := s626_debi_write (S626_LP_MISC1 h) (S626_MISC1_NOEDCAP h) d in
  s626_debi_write (S626_LP_WRCAPSEL h group) mask d.

(** The groups [0 .. S626_DIO_BANKS - 1] visited by the bank loops. *)
Definition dio_groups : list Z :=
  map Z.of_nat (seq 0 (Z.to_nat (S626_DIO_BANKS h))).

Definition s626_dio_clear_irq (d : s626_dev) : s626_dev :=
  let d := s626_debi_write (S626_LP_MISC1 h) (S626_MISC1_NOEDCAP h) d in
  fold_left (fun d group => s626_debi_write (S626_LP_WRCAPSEL h group) 65535 d)
            dio_groups d.

Definition s626_handle_dio_interrupt (irqbit group : Z) (d : s626_dev)
  : s626_dev :=
  let d := s626_dio_reset_irq group irqbit d in
  if nz (ai_cmd_running d) then
    (* s->async->cmd is read through the pointer at each use *)
    let d :=
      if (Z.shiftr irqbit (u32 (start_arg (cmd d) - 16 * group)) =? 1)
         && (start_src (cmd d) =? TRIG_EXT c)
      then
        let d := s626_mc_enable (S626_MC1_ERPS1 h) (S626_P_MC1 h) d in
        if scan_begin_src (cmd d) =? TRIG_EXT c
        then s626_dio_set_irq (scan_begin_arg (cmd d)) d
        else d
      else d in
    let d :=
      if (Z.shiftr irqbit (u32 (scan_begin_arg (cmd d) - 16 * group)) =? 1)
         && (scan_begin_src (cmd d) =? TRIG_EXT c)
      then
        let d := s626_mc_enable (S626_MC2_ADC_RPS h) (S626_P_MC2 h) d in
        let d :=
          if convert_src (cmd d) =? TRIG_EXT c then
            let d := with_ai_convert_count (s32 (chanlist_len (cmd d))) d in
            s626_dio_set_irq (convert_arg (cmd d)) d
          else d in
        if convert_src (cmd d) =? TRIG_TIMER c then
          let k := enc_chan 5 in
          let d := with_ai_convert_count (s32 (chanlist_len (cmd d))) d in
          set_enable k (regs k) (S626_CLKENAB_ALWAYS h) d
        else d
      else d in
    if (Z.shiftr irqbit (u32 (convert_arg (cmd d) - 16 * group)) =? 1)
       && (convert_src (cmd d) =? TRIG_EXT c)
    then
      let d := s626_mc_enable (S626_MC2_ADC_RPS h) (S626_P_MC2 h) d in
      let d := with_ai_convert_count (s32 (ai_convert_count d - 1)) d in
      if ai_convert_count d >? 0
      then s626_dio_set_irq (convert_arg (cmd d)) d
      else d
    else d
  else d.

(** The bank loop of [s626_check_dio_interrupts]: the first bank with a
    captured edge is handled and the function returns. *)
Fixpoint check_dio_banks (groups : list Z) (d : s626_dev) : s626_dev :=
  match groups with
  | [] => d
  | group :: rest =>
      let irqbit := s626_debi_read (S626_LP_RDCAPFLG h group) d in
      if nz irqbit then s626_handle_dio_interrupt irqbit (u8 group) d
      else check_dio_banks rest d
  end.

Definition s626_check_dio_interrupts (d : s626_dev) : s626_dev :=
  check_dio_banks dio_groups d.

Definition s626_check_counter_interrupts (d : s626_dev) : s626_dev :=
  let irqbit := s626_debi_read (S626_LP_RDMISC2 h) d in
  let clear n (d : s626_dev) :=
    let k := enc_chan n in reset_cap_flags k (regs k) d in
  let d := if nz (Z.land irqbit (S626_IRQ_COINT1A h)) then clear 0%nat d else d in
  let d := if nz (Z.land irqbit (S626_IRQ_COINT2A h)) then clear 1%nat d else d in
  let d := if nz (Z.land irqbit (S626_IRQ_COINT3A h)) then clear 2%nat d else d in
  let d := if nz (Z.land irqbit (S626_IRQ_COINT1B h)) then clear 3%nat d else d in
  let d :=
    if nz (Z.land irqbit (S626_IRQ_COINT2B h)) then
      let k := enc_chan 4 in
      let d := reset_cap_flags k (regs k) d in
      if ai_convert_count d >? 0 then
        let d := with_ai_convert_count (s32 (ai_convert_count d - 1)) d in
        let d :=
          if ai_convert_count d =? 0
          then set_enable k (regs k) (S626_CLKENAB_INDEX h) d
          else d in
        if convert_src (cmd d) =? TRIG_TIMER c
        then s626_mc_enable (S626_MC2_ADC_RPS h) (S626_P_MC2 h) d
        else d
      else d
    else d in
  if nz (Z.land irqbit (S626_IRQ_COINT3B h)) then
    let k := enc_chan 5 in
    let d := reset_cap_flags k (regs k) d in
    let d :=
      if scan_begin_src (cmd d) =? TRIG_TIMER c
      then s626_mc_enable (S626_MC2_ADC_RPS h) (S626_P_MC2 h) d
      else d in
    if convert_src (cmd d) =? TRIG_TIMER c then
      let k := enc_chan 4 in
      let d := with_ai_convert_count (s32 (chanlist_len (cmd d))) d in
      set_enable k (regs k) (S626_CLKENAB_ALWAYS h) d
    else d
  else d.

(** Modelled from the spec: [cfc_write_to_buffer] and [comedi_event]
    belong to the comedi core and are not among the sources.  The
    specification describes their effect as a [publishedScan] callback
    "invoked once per completed scan with the converted sample sequence
    and an end-of-acquisition flag": a sample written to the buffer joins
    the scan under construction, and the event notification hands the
    scan over together with the pending event mask and clears both. *)
Definition cfc_write_to_buffer (data : Z) (d : s626_dev) : s626_dev :=
  with_scan_buf (scan_buf d ++ [u16 data]) d.

Definition comedi_event (d : s626_dev) : s626_dev :=
  let d := with_published (published d ++ [(scan_buf d, events d)]) d in
  with_events 0 (with_scan_buf [] d).

(** The copy loop of [s626_handle_eos_interrupt]: [n] iterations left,
    [readaddr] the word index into the ADC buffer. *)
Fixpoint eos_copy (n : nat) (readaddr : nat) (d : s626_dev) : s626_dev :=
  match n with
  | O => d
  | S n' =>
      let tempdata := u16 (s626_ai_reg_to_uint (ana_buf d readaddr)) in
      eos_copy n' (S readaddr) (cfc_write_to_buffer tempdata d)
  end.

(** The branch of [s626_handle_eos_interrupt] taken when the last scan
    has been counted. *)
Definition eos_retire (d : s626_dev) : s626_dev :=
  let d := with_ai_cmd_running 0 d in
  (* Stop RPS program *)
  let d := s626_mc_disable (S626_MC1_ERPS1 h) (S626_P_MC1 h) d in
  (* send end of acquisition *)
  with_events (Z.lor (events d) (COMEDI_CB_EOA c)) d.

(** [if (devpriv->ai_cmd_running && cmd->scan_begin_src == TRIG_EXT)] *)
Definition eos_rearm (d : s626_dev) : s626_dev :=
  if nz (ai_cmd_running d) && (scan_begin_src (cmd d) =? TRIG_EXT c)
  then s626_dio_set_irq (scan_begin_arg (cmd d)) d
  else d.

Definition s626_handle_eos_interrupt (d : s626_dev) : bool * s626_dev :=
  let d := eos_copy (length (chanlist (cmd d))) 1 d in
  (* end of scan occurs *)
  let d := with_events (Z.lor (events d) (COMEDI_CB_EOS c)) d in
  let d :=
    if negb (nz (ai_continuous d))
    then with_ai_sample_count (s32 (ai_sample_count d - 1)) d
    else d in
  let finished := ai_sample_count d <=? 0 in
  let d := if finished then eos_retire d else d in
  let d := eos_rearm d in
  (* tell comedi that data is there *)
  (finished, comedi_event d).

Inductive irqreturn_t : Set := IRQ_NONE | IRQ_HANDLED.

(** The interrupt handler.  [irqtype] is the cause the hardware presents
    in the interrupt status register when the handler reads it. *)
Definition s626_irq_handler (irqtype : Z) (d : s626_dev)
  : irqreturn_t * s626_dev :=
  if negb (attached d) then (IRQ_NONE, d) else
  (* save interrupt enable register state *)
  let irqstatus := readl (S626_P_IER h) d in
  (* read interrupt type *)
  let irqtype := u32 irqtype in
  (* disable master interrupt *)
  let d := writel 0 (S626_P_IER h) d in
  (* clear interrupt *)
  let d := writel irqtype (S626_P_ISR h) d in
  let '(irqstatus, d) :=
    if irqtype =? S626_IRQ_RPS1 h then
      let '(finished, d) := s626_handle_eos_interrupt d in
      (if finished then 0 else irqstatus, d)
    else if irqtype =? S626_IRQ_GPIO3 h then
      let d := s626_check_dio_interrupts d in
      (irqstatus, s626_check_counter_interrupts d)
    else (irqstatus, d) in
  (* enable interrupt *)
  (IRQ_HANDLED, writel irqstatus (S626_P_IER h) d).

(** ** Analog input: the RPS program *)

Definition S626_BUGFIX_STREG (regadrs : Z) : Z := regadrs - 4.

(** The delay loop of [s626_reset_adc]: [count] jumps, each to the
    instruction that follows it. *)
Fixpoint rps_jump_pad (count : nat) (jmp_adrs : Z) : list Z :=
  match count with
  | O => []
  | S n =>
      let jmp_adrs := u32 (jmp_adrs + 8) in
      S626_RPS_JUMP h :: jmp_adrs :: rps_jump_pad n jmp_adrs
  end.

(** Begin and end of the ADC start pulse, wait for the conversion and
    transfer of the previous result to DMA slot [slot]. *)
Definition rps_convert (ana_base slot : Z) : list Z :=
  [ Z.lor (S626_RPS_LDREG h) (Z.shiftr (S626_P_GPIO h) 2);
    Z.lor (S626_GPIO_BASE h) (S626_GPIO1_LO h);
    S626_RPS_NOP h;
    Z.lor (S626_RPS_LDREG h) (Z.shiftr (S626_P_GPIO h) 2);
    Z.lor (S626_GPIO_BASE h) (S626_GPIO1_HI h);
    Z.lor (S626_RPS_PAUSE h) (S626_RPS_GPIO2 h);
    Z.lor (S626_RPS_STREG h)
          (Z.shiftr (S626_BUGFIX_STREG (S626_P_FB_BUFFER1 h)) 2);
    u32 ana_base + Z.shiftl slot 2 ].

(** A DEBI write of [data] to the gate array register [reg], as five
    RPS instructions (seven words). *)
Definition rps_debi_write (reg data : Z) : list Z :=
  [ Z.lor (S626_RPS_LDREG h) (Z.shiftr (S626_P_DEBICMD h) 2);
    Z.lor (S626_DEBI_CMD_WRWORD h) reg;
    Z.lor (S626_RPS_LDREG h) (Z.shiftr (S626_P_DEBIAD h) 2);
    data;
    Z.lor (S626_RPS_CLRSIGNAL h) (S626_RPS_DEBI h);
    Z.lor (S626_RPS_UPLOAD h) (S626_RPS_DEBI h);
    Z.lor (S626_RPS_PAUSE h) (S626_RPS_DEBI h) ].

Definition rps_wait_trigger : list Z :=
  [ Z.lor (S626_RPS_PAUSE h) (S626_RPS_SIGADC h);
    Z.lor (S626_RPS_CLRSIGNAL h) (S626_RPS_SIGADC h) ].

(** The words one iteration of the poll list loop appends when [here]
    words have been written, for list item [p] and slot [items]. *)
Definition rps_slot (d : s626_dev) (here : nat) (items p : Z) : list Z :=
  let local_ppl :=
    Z.lor (Z.shiftl p 8)
          (if nz (Z.land p 16) then S626_GSEL_BIPOLAR5V h
           else S626_GSEL_BIPOLAR10V h) in
  let gain := rps_debi_write (S626_LP_GSEL h) local_ppl ++
              rps_debi_write (S626_LP_ISEL h) local_ppl in
  let jmp_adrs :=
    u32 (u32 (rps_phys d) + u32 (4 * Z.of_nat (here + length gain))) in
  gain
  ++ rps_jump_pad (Z.to_nat (10 * S626_RPSCLK_PER_US h / 2)) jmp_adrs
  ++ (if negb (convert_src (cmd d) =? TRIG_NOW c) then rps_wait_trigger
      else [])
  ++ rps_convert (ana_phys d) items.

(** The poll list loop: at most [fuel] further slots; [pi] is the index
    of the item [ppl] points to, [prog] the words written so far. *)
Fixpoint rps_slots (d : s626_dev) (ppl : buffer) (fuel : nat) (items : Z)
  (pi : nat) (prog : list Z) : Z * list Z :=
  match fuel with
  | O => (items, prog)
  | S fuel' =>
      let p := u8 (peek pi ppl) in
      let prog := prog ++ rps_slot d (length prog) items p in
      if nz (Z.land p (S626_EOPL h)) then (u8 (items + 1), prog)
      else rps_slots d ppl fuel' (u8 (items + 1)) (S pi) prog
  end.

(** The words of the RPS program in the order they are written, and the
    final value of [adc_items]. *)
Definition rps_program (d : s626_dev) (ppl : buffer) : Z * list Z :=
  let prog :=
    if negb (scan_begin_src (cmd d) =? TRIG_FOLLOW c) then rps_wait_trigger
    else [] in
  (* dummy DEBI write (SAA7146 bug workaround) *)
  let prog := prog ++ rps_debi_write (S626_LP_GSEL h) (S626_GSEL_BIPOLAR5V h) in
  (* digitize all slots in the poll list, at most 16 *)
  let '(items, prog) := rps_slots d ppl 16 0 0 prog in
  (* stabilization delay *)
  let prog := prog ++ repeat (S626_RPS_NOP h)
                             (Z.to_nat (2 * S626_RPSCLK_PER_US h)) in
  (* dummy conversion *)
  let prog := prog ++ rps_convert (ana_phys d) items in
  (* invoke interrupt *)
  let prog := if ai_cmd_running d =? 1 then prog ++ [S626_RPS_IRQ h]
              else prog in
  (* restart the program at its beginning *)
  (items, prog ++ [S626_RPS_JUMP h; u32 (rps_phys d)]).

Definition s626_reset_adc (ppl : buffer) (d : s626_dev) : s626_dev :=
  (* Stop RPS program in case it is currently running *)
  let d := s626_mc_disable (S626_MC1_ERPS1 h) (S626_P_MC1 h) d in
  (* Initialize RPS instruction pointer *)
  let d := writel (u32 (rps_phys d)) (S626_P_RPSADDR1 h) d in
  let '(items, prog) := rps_program d ppl in
  let d := with_adc_items items d in
  with_rps_buf (blit (map u32 prog) 0 (rps_buf d)) d.

(** ** Analog input: commands *)

(** The loop of [s626_ai_load_polllist] over the remaining channels,
    [n] being the index of the next entry. *)
Fixpoint load_polllist_loop (chans : list Z) (n : nat) (ppl : buffer)
  : nat * buffer :=
  match chans with
  | [] => (n, ppl)
  | ch :: rest =>
      let v := if CR_RANGE c ch =? 0
               then Z.lor (CR_CHAN c ch) (S626_RANGE_5V h)
               else Z.lor (CR_CHAN c ch) (S626_RANGE_10V h) in
      load_polllist_loop rest (S n) (store n (u8 v) ppl)
  end.

Definition s626_ai_load_polllist (ppl : buffer) (cm : comedi_cmd)
  : Z * buffer :=
  let '(n, ppl) := load_polllist_loop (chanlist cm) 0 ppl in
  let ppl :=
    if negb (n =? 0)%nat
    then store (n - 1) (u8 (Z.lor (peek (n - 1) ppl) (S626_EOPL h))) ppl
    else ppl in
  (Z.of_nat n, ppl).

Definition s626_ai_inttrig (trignum : Z) (d : s626_dev) : Z * s626_dev :=
  if negb (trignum =? 0) then (- EINVAL c, d) else
  (* Start executing the RPS program *)
  let d := s626_mc_enable (S626_MC1_ERPS1 h) (S626_P_MC1 h) d in
  (1, with_inttrig false d).

(** [s626_ns_to_timer (nanosec, round_mode)] returns the function result
    and the value left in [*nanosec]. *)
Definition s626_ns_to_timer (nanosec round_mode : Z) : Z * Z :=
  let base := 500 in
  let divider :=
    if round_mode =? TRIG_ROUND_NEAREST c then
      Z.quot (s32 (nanosec + Z.quot base 2)) base
    else if round_mode =? TRIG_ROUND_DOWN c then
      Z.quot nanosec base
    else if round_mode =? TRIG_ROUND_UP c then
      Z.quot (s32 (s32 (nanosec + base) - 1)) base
    else
      Z.quot (s32 (nanosec + Z.quot base 2)) base in
  (s32 (divider - 1), s32 (base * divider)).

Definition s626_timer_load (k : s626_enc_info) (tick : Z) (d : s626_dev)
  : s626_dev :=
  let setup := u16
    (Z.lor (SET STD_LOADSRC (S626_LOADSRC_INDX h))
    (Z.lor (SET STD_INDXSRC (S626_INDXSRC_SOFT h))
    (Z.lor (SET STD_ENCMODE (S626_ENCMODE_TIMER h))
    (Z.lor (SET STD_CLKPOL (S626_CNTDIR_DOWN h))
    (Z.lor (SET STD_CLKMULT (S626_CLKMULT_1X h))
           (SET STD_CLKENAB (S626_CLKENAB_INDEX h))))))) in
  let value_latchsrc := u16 (S626_LATCHSRC_A_INDXA h) in
  let d := set_mode k (regs k) setup 0 d in
  (* Set the preload register *)
  let d := s626_preload (regs k) tick d in
  (* Software index pulse forces the preload register to load *)
  let d := set_load_trig k (regs k) 0 d in
  let d := pulse_index k (regs k) d in
  (* set reload on counter overflow *)
  let d := set_load_trig k (regs k) 1 d in
  (* set interrupt on overflow *)
  let d := set_int_src k (regs k) (S626_INTSRC_OVER h) d in
  s626_set_latch_source (regs k) value_latchsrc d.

(** The four [switch] statements of [s626_ai_cmd], in source order. *)

(** [switch (cmd->scan_begin_src)] *)
Definition ai_cmd_scan_begin (d : s626_dev) : s626_dev :=
  if scan_begin_src (cmd d) =? TRIG_FOLLOW c then d
  else if scan_begin_src (cmd d) =? TRIG_TIMER c then
    (* set a counter to generate adc trigger at scan_begin_arg interval *)
    let k := enc_chan 5 in
    let '(tick, ns) :=
      s626_ns_to_timer (s32 (scan_begin_arg (cmd d)))
                       (s32 (Z.land (flags (cmd d)) (TRIG_ROUND_MASK c))) in
    let d := with_cmd (set_scan_begin_arg (u32 ns) (cmd d)) d in
    (* load timer value and enable interrupt *)
    let d := s626_timer_load k tick d in
    set_enable k (regs k) (S626_CLKENAB_ALWAYS h) d
  else if scan_begin_src (cmd d) =? TRIG_EXT c then
    (* set the digital line and interrupt for scan trigger *)
    if negb (start_src (cmd d) =? TRIG_EXT c)
    then s626_dio_set_irq (scan_begin_arg (cmd d)) d
    else d
  else d.

(** [switch (cmd->convert_src)] *)
Definition ai_cmd_convert (d : s626_dev) : s626_dev :=
  if convert_src (cmd d) =? TRIG_NOW c then d
  else if convert_src (cmd d) =? TRIG_TIMER c then
    (* set a counter to generate adc trigger at convert_arg interval *)
    let k := enc_chan 4 in
    let '(tick, ns) :=
      s626_ns_to_timer (s32 (convert_arg (cmd d)))
                       (s32 (Z.land (flags (cmd d)) (TRIG_ROUND_MASK c))) in
    let d := with_cmd (set_convert_arg (u32 ns) (cmd d)) d in
    (* load timer value and enable interrupt *)
    let d := s626_timer_load k tick d in
    set_enable k (regs k) (S626_CLKENAB_INDEX h) d
  else if convert_src (cmd d) =? TRIG_EXT c then
    (* set the digital line and interrupt for convert trigger *)
    if negb (scan_begin_src (cmd d) =? TRIG_EXT c)
       && (start_src (cmd d) =? TRIG_EXT c)
    then s626_dio_set_irq (convert_arg (cmd d)) d
    else d
  else d.

(** [switch (cmd->stop_src)] *)
Definition ai_cmd_stop (d : s626_dev) : s626_dev :=
  if stop_src (cmd d) =? TRIG_COUNT c then
    (* data arrives as one packet *)
    let d := with_ai_sample_count (s32 (stop_arg (cmd d))) d in
    with_ai_continuous 0 d
  else if stop_src (cmd d) =? TRIG_NONE c then
    (* continuous acquisition *)
    let d := with_ai_continuous 1 d in
    with_ai_sample_count 1 d
  else d.

(** [switch (cmd->start_src)] *)
Definition ai_cmd_start (d : s626_dev) : s626_dev :=
  if start_src (cmd d) =? TRIG_NOW c then
    (* Start executing the RPS program *)
    let d := s626_mc_enable (S626_MC1_ERPS1 h) (S626_P_MC1 h) d in
    with_inttrig false d
  else if start_src (cmd d) =? TRIG_EXT c then
    (* configure DIO channel for acquisition trigger *)
    let d := s626_dio_set_irq (start_arg (cmd d)) d in
    with_inttrig false d
  else if start_src (cmd d) =? TRIG_INT c then
    with_inttrig true d
  else d.

(** [s626_ai_cmd]; [garbage] is the indeterminate initial content of the
    local array [ppl[16]].  [s->async->cmd] is never a null pointer, so
    the [-EINVAL] exit is unreachable. *)
Definition s626_ai_cmd (garbage : nat -> Z) (d : s626_dev) : Z * s626_dev :=
  if nz (ai_cmd_running d) then (- EBUSY c, d) else
  (* disable interrupt *)
  let d := writel 0 (S626_P_IER h) d in
  (* clear interrupt request *)
  let d := writel (Z.lor (S626_IRQ_RPS1 h) (S626_IRQ_GPIO3 h))
                  (S626_P_ISR h) d in
  (* clear any pending interrupt *)
  let d := s626_dio_clear_irq d in
  (* reset ai_cmd_running flag *)
  let d := with_ai_cmd_running 0 d in
  let ppl := snd (s626_ai_load_polllist (stack_array 16 garbage) (cmd d)) in
  let d := with_ai_cmd_running 1 d in
  let d := with_ai_convert_count 0 d in
  let d := ai_cmd_scan_begin d in
  let d := ai_cmd_convert d in
  let d := ai_cmd_stop d in
  let d := s626_reset_adc ppl d in
  let d := ai_cmd_start d in
  (* enable interrupt *)
  (0, writel (Z.lor (S626_IRQ_GPIO3 h) (S626_IRQ_RPS1 h)) (S626_P_IER h) d).

Definition S626_MAX_SPEED : Z := 200000.       (* in nanoseconds *)
Definition S626_MIN_SPEED : Z := 2000000000.   (* in nanoseconds *)

(** Application of a [cfc_check_*] helper to one field of the command:
    the field is replaced by what the helper leaves in it and the
    helper's result is or-ed into [err]. *)
Definition checked (get : comedi_cmd -> Z) (set : Z -> comedi_cmd -> comedi_cmd)
  (check : Z -> Z * Z) (st : comedi_cmd * Z) : comedi_cmd * Z :=
  let '(cm, err) := st in
  let '(v, e) := check (get cm) in
  (set v cm, Z.lor err e).

(** Step 1: check if triggers are trivially valid. *)
Definition cmdtest_step1 (cm : comedi_cmd) : comedi_cmd * Z :=
  let st := (cm, 0) in
  let st := checked start_src set_start_src
    (fun v => cfc_check_trigger_src c v
       (Z.lor (TRIG_NOW c) (Z.lor (TRIG_INT c) (TRIG_EXT c)))) st in
  let st := checked scan_begin_src set_scan_begin_src
    (fun v => cfc_check_trigger_src c v
       (Z.lor (TRIG_TIMER c) (Z.lor (TRIG_EXT c) (TRIG_FOLLOW c)))) st in
  let st := checked convert_src set_convert_src
    (fun v => cfc_check_trigger_src c v
       (Z.lor (TRIG_TIMER c) (Z.lor (TRIG_EXT c) (TRIG_NOW c)))) st in
  let st := checked scan_end_src set_scan_end_src
    (fun v => cfc_check_trigger_src c v (TRIG_COUNT c)) st in
  checked stop_src set_stop_src
    (fun v => cfc_check_trigger_src c v
       (Z.lor (TRIG_COUNT c) (TRIG_NONE c))) st.

(** Step 2: make sure trigger sources are unique. *)
Definition cmdtest_step2 (cm : comedi_cmd) : Z :=
  let err := 0 in
  let err := Z.lor err (cfc_check_trigger_is_unique c (start_src cm)) in
  let err := Z.lor err (cfc_check_trigger_is_unique c (scan_begin_src cm)) in
  let err := Z.lor err (cfc_check_trigger_is_unique c (convert_src cm)) in
  Z.lor err (cfc_check_trigger_is_unique c (stop_src cm)).

(** Step 3: make sure arguments are trivially compatible. *)
Definition cmdtest_step3 (cm : comedi_cmd) : comedi_cmd * Z :=
  let st := (cm, 0) in
  let st :=
    if negb (start_src cm =? TRIG_EXT c)
    then checked start_arg set_start_arg
           (fun v => cfc_check_trigger_arg_is c v 0) st
    else st in
  let st :=
    if start_src cm =? TRIG_EXT c
    then checked start_arg set_start_arg
           (fun v => cfc_check_trigger_arg_max c v 39) st
    else st in
  let st :=
    if scan_begin_src cm =? TRIG_EXT c
    then checked scan_begin_arg set_scan_begin_arg
           (fun v => cfc_check_trigger_arg_max c v 39) st
    else st in
  let st :=
    if convert_src cm =? TRIG_EXT c
    then checked convert_arg set_convert_arg
           (fun v => cfc_check_trigger_arg_max c v 39) st
    else st in
  let st :=
    if scan_begin_src cm =? TRIG_TIMER c then
      let st := checked scan_begin_arg set_scan_begin_arg
        (fun v => cfc_check_trigger_arg_min c v S626_MAX_SPEED) st in
      checked scan_begin_arg set_scan_begin_arg
        (fun v => cfc_check_trigger_arg_max c v S626_MIN_SPEED) st
    else st in
  let st :=
    if convert_src cm =? TRIG_TIMER c then
      let st := checked convert_arg set_convert_arg
        (fun v => cfc_check_trigger_arg_min c v S626_MAX_SPEED) st in
      checked convert_arg set_convert_arg
        (fun v => cfc_check_trigger_arg_max c v S626_MIN_SPEED) st
    else st in
  let st := checked scan_end_arg set_scan_end_arg
    (fun v => cfc_check_trigger_arg_is c v (u32 (chanlist_len cm))) st in
  if stop_src cm =? TRIG_COUNT c
  then checked stop_arg set_stop_arg
         (fun v => cfc_check_trigger_arg_max c v 16777215) st
  else checked stop_arg set_stop_arg
         (fun v => cfc_check_trigger_arg_is c v 0) st.

(** Step 4: fix up any arguments. *)
Definition cmdtest_step4 (cm : comedi_cmd) : comedi_cmd * Z :=
  let err := 0 in
  let '(cm, err) :=
    if scan_begin_src cm =? TRIG_TIMER c then
      let tmp := s32 (scan_begin_arg cm) in
      let '(_, ns) :=
        s626_ns_to_timer (s32 (scan_begin_arg cm))
                         (s32 (Z.land (flags cm) (TRIG_ROUND_MASK c))) in
      let cm := set_scan_begin_arg (u32 ns) cm in
      (cm, if negb (u32 tmp =? scan_begin_arg cm) then s32 (err + 1) else err)
    else (cm, err) in
  if convert_src cm =? TRIG_TIMER c then
    let tmp := s32 (convert_arg cm) in
    let '(_, ns) :=
      s626_ns_to_timer (s32 (convert_arg cm))
                       (s32 (Z.land (flags cm) (TRIG_ROUND_MASK c))) in
    let cm := set_convert_arg (u32 ns) cm in
    let err := if negb (u32 tmp =? convert_arg cm) then s32 (err + 1)
               else err in
    if (scan_begin_src cm =? TRIG_TIMER c)
       && (scan_begin_arg cm <? u32 (convert_arg cm * scan_end_arg cm))
    then (set_scan_begin_arg (u32 (convert_arg cm * scan_end_arg cm)) cm,
          s32 (err + 1))
    else (cm, err)
  else (cm, err).

(** [s626_ai_cmdtest] returns the failing step (0 when the command is
    accepted) and the command as the checks leave it. *)
Definition s626_ai_cmdtest (cm : comedi_cmd) : Z * comedi_cmd :=
  let '(cm, err) := cmdtest_step1 cm in
  if nz err then (1, cm) else
  let err := cmdtest_step2 cm in
  if nz err then (2, cm) else
  let '(cm, err) := cmdtest_step3 cm in
  if nz err then (3, cm) else
  let '(cm, err) := cmdtest_step4 cm in
  if nz err then (4, cm) else
  (0, cm).

Definition s626_ai_cancel (d : s626_dev) : Z * s626_dev :=
  (* Stop RPS program in case it is currently running *)
  let d := s626_mc_disable (S626_MC1_ERPS1 h) (S626_P_MC1 h) d in
  (* disable master interrupt *)
  let d := writel 0 (S626_P_IER h) d in
  (0, with_ai_cmd_running 0 d).

End Driver.

(** ** Requirements on the header constants

    The driver is written for a header in which the fields of each
    register image lie inside 16 bits and do not overlap, a standardized
    field is no wider than the register field it is copied to, the
    system clock selector is bit 1 of the counter source (bit 0 being
    the count direction), the encoder selector leaves both bits clear,
    and the named values of a field are distinct and fit the field. *)

Definition fits (v : Z) (f : field) : bool :=
  (0 <=? v) && (v <? 2 ^ f_width f).

Definition counter_layout_okb (h : s626_h) : bool :=
  layout_okb (cra_fields h) && layout_okb (crb_fields h)
  && layout_okb (std_fields h).

Definition counter_widths_okb (h : s626_h) : bool :=
  (f_width (STD_LOADSRC h) <=? f_width (CRA_LOADSRC_A h))
  && (f_width (STD_LOADSRC h) <=? f_width (CRB_LOADSRC_B h))
  && (f_width (STD_INTSRC h) <=? f_width (CRA_INTSRC_A h))
  && (f_width (STD_INTSRC h) <=? f_width (CRB_INTSRC_B h))
  && (f_width (STD_INDXSRC h) <=? f_width (CRA_INDXSRC_A h))
  && (f_width (STD_INDXSRC h) <=? f_width (CRA_INDXSRC_B h))
  && (f_width (STD_INDXPOL h) <=? f_width (CRA_INDXPOL_A h))
  && (f_width (STD_INDXPOL h) <=? f_width (CRB_INDXPOL_B h))
  && (f_width (STD_CLKENAB h) <=? f_width (CRB_CLKENAB_A h))
  && (f_width (STD_CLKENAB h) <=? f_width (CRB_CLKENAB_B h))
  && (f_width (STD_CLKMULT h) <=? f_width (CRA_CLKMULT_A h))
  && (f_width (STD_CLKMULT h) <=? f_width (CRB_CLKMULT_B h))
  && (f_width (STD_CLKPOL h) =? 1)
  && (2 <=? f_width (CRA_CNTSRC_A h))
  && (2 <=? f_width (CRA_CNTSRC_B h)).

Definition counter_values_okb (h : s626_h) : bool :=
  (S626_CNTSRC_SYSCLK h =? 2)
  && (S626_CNTSRC_ENCODER h =? 0)
  && fits (S626_ENCMODE_COUNTER h) (STD_ENCMODE h)
  && fits (S626_ENCMODE_TIMER h) (STD_ENCMODE h)
  && fits (S626_ENCMODE_EXTENDER h) (STD_ENCMODE h)
  && negb (S626_ENCMODE_COUNTER h =? S626_ENCMODE_TIMER h)
  && negb (S626_ENCMODE_COUNTER h =? S626_ENCMODE_EXTENDER h)
  && negb (S626_ENCMODE_TIMER h =? S626_ENCMODE_EXTENDER h)
  && fits (S626_CLKMULT_1X h) (STD_CLKMULT h)
  && fits (S626_CLKMULT_SPECIAL h) (STD_CLKMULT h)
  && negb (S626_CLKMULT_1X h =? S626_CLKMULT_SPECIAL h).

(** The two control registers of a counter pair are different registers. *)
Definition counter_addrs_okb (h : s626_h) : bool :=
  negb (u16 (S626_LP_CR0A h) =? u16 (S626_LP_CR0B h))
  && negb (u16 (S626_LP_CR1A h) =? u16 (S626_LP_CR1B h))
  && negb (u16 (S626_LP_CR2A h) =? u16 (S626_LP_CR2B h)).

(** The six control registers are six different registers. *)
Definition counter_regs_okb (h : s626_h) : bool :=
  let rs := map u16 [ S626_LP_CR0A h; S626_LP_CR1A h; S626_LP_CR2A h;
                      S626_LP_CR0B h; S626_LP_CR1B h; S626_LP_CR2B h ] in
  forallb (fun i =>
    forallb (fun j => (i =? j)%nat || negb (nth i rs 0 =? nth j rs 0))
            (seq 0 6))
    (seq 0 6).

Definition counter_h_okb (h : s626_h) : bool :=
  counter_layout_okb h && counter_widths_okb h && counter_values_okb h
  && counter_addrs_okb h.

(** The mode fields of control register B: all its fields except the
    three write-only interrupt reset command bits. *)
Definition crb_mode_fields (h : s626_h) : list field :=
  [ CRB_CLKENAB_A h; CRB_INTSRC_B h; CRB_LATCHSRC h; CRB_LOADSRC_B h;
    CRB_CLKMULT_B h; CRB_CLKENAB_B h; CRB_INDXPOL_B h; CRB_CLKPOL_B h ].

(** ** The standardized mode as a record of fields *)

Record std_mode : Set := {
  m_loadsrc : Z; m_latchsrc : Z; m_intsrc : Z; m_indxsrc : Z; m_indxpol : Z;
  m_encmode : Z; m_clkpol : Z; m_clkmult : Z; m_clkenab : Z
}.

Definition std_decode (h : s626_h) (setup : Z) : std_mode :=
  {| m_loadsrc := fget (STD_LOADSRC h) setup;
     m_latchsrc := fget (STD_LATCHSRC h) setup;
     m_intsrc := fget (STD_INTSRC h) setup;
     m_indxsrc := fget (STD_INDXSRC h) setup;
     m_indxpol := fget (STD_INDXPOL h) setup;
     m_encmode := fget (STD_ENCMODE h) setup;
     m_clkpol := fget (STD_CLKPOL h) setup;
     m_clkmult := fget (STD_CLKMULT h) setup;
     m_clkenab := fget (STD_CLKENAB h) setup |}.

(** What a counter reports after it has been programmed with mode [m]:
    [variant_b] selects the B counters, [disable_int_src] is the flag
    given to [set_mode] and [latchsrc] the latch source the counter pair
    had before (the latch source is not programmed by [set_mode]). *)
Definition mode_read_back (h : s626_h) (variant_b : bool)
  (disable_int_src : Z) (latchsrc : Z) (m : std_mode) : std_mode :=
  let timer := m_encmode m =? S626_ENCMODE_TIMER h in
  let extender := m_encmode m =? S626_ENCMODE_EXTENDER h in
  {| m_loadsrc := m_loadsrc m;
     m_latchsrc := latchsrc;
     m_intsrc := if nz disable_int_src then 0 else m_intsrc m;
     m_indxsrc := m_indxsrc m;
     m_indxpol := if m_indxsrc m =? S626_INDXSRC_SOFT h then 0
                  else m_indxpol m;
     m_encmode :=
       if timer then S626_ENCMODE_TIMER h
       else if extender then
         (if variant_b then S626_ENCMODE_EXTENDER h else S626_ENCMODE_TIMER h)
       else S626_ENCMODE_COUNTER h;
     m_clkpol := m_clkpol m;
     m_clkmult :=
       if timer || extender then S626_CLKMULT_1X h
       else if m_clkmult m =? S626_CLKMULT_SPECIAL h then S626_CLKMULT_1X h
       else m_clkmult m;
     m_clkenab := m_clkenab m |}.

(** ** The state apart from the gate array

    [no_lp d] blanks the gate array registers, their write trace and the
    counter interrupt mask: two states with the same [no_lp] differ at
    most in what the counter and digital I/O functions touch. *)
Definition no_lp (d : s626_dev) : s626_dev :=
  {| attached := attached d; ai_cmd_running := ai_cmd_running d;
     ai_continuous := ai_continuous d;
     ai_sample_count := ai_sample_count d;
     ai_convert_count := ai_convert_count d;
     counter_int_enabs := 0; adc_items := adc_items d;
     rps_phys := rps_phys d; ana_phys := ana_phys d; rps_buf := rps_buf d;
     ana_buf := ana_buf d; lp := fun _ => 0; lp_trace := [];
     mmio := mmio d; mmio_trace := mmio_trace d; cmd := cmd d;
     events := events d; inttrig := inttrig d; scan_buf := scan_buf d;
     published := published d |}.

(** [no_hw d] blanks, beyond what [no_lp] blanks, the SAA7146 registers
    with their write trace and the conversion counter: two states with
    the same [no_hw] agree on the command, on the acquisition
    bookkeeping and on everything handed to the comedi core. *)
Definition no_hw (d : s626_dev) : s626_dev :=
  {| attached := attached d; ai_cmd_running := ai_cmd_running d;
     ai_continuous := ai_continuous d;
     ai_sample_count := ai_sample_count d;
     ai_convert_count := 0;
     counter_int_enabs := 0; adc_items := adc_items d;
     rps_phys := rps_phys d; ana_phys := ana_phys d; rps_buf := rps_buf d;
     ana_buf := ana_buf d; lp := fun _ => 0; lp_trace := [];
     mmio := fun _ => 0; mmio_trace := []; cmd := cmd d;
     events := events d; inttrig := inttrig d; scan_buf := scan_buf d;
     published := published d |}.

(** The part of the state that identifies the running session: the
    sources and the channel list of the command, the stop count and the
    data handed to the comedi core. *)
Definition session (d : s626_dev) :=
  (attached d, chanlist (cmd d),
   (start_src (cmd d), scan_begin_src (cmd d), convert_src (cmd d),
    stop_src (cmd d), stop_arg (cmd d)),
   (events d, scan_buf d, published d)).

(** The acquisition bookkeeping of [struct s626_private]. *)
Definition acq (d : s626_dev) : Z * Z * Z :=
  (ai_cmd_running d, ai_continuous d, ai_sample_count d).

(** The samples of one scan of [n] channels as the end-of-scan handler
    converts them from the captured words. *)
Definition scan_samples (d : s626_dev) (n : nat) : list Z :=
  map (fun i => u16 (s626_ai_reg_to_uint (ana_buf d (S i)))) (seq 0 n).

(** The hardware deposits the words [w] of a new scan in the ADC buffer. *)
Definition hw_capture (w : nat -> Z) (d : s626_dev) : s626_dev :=
  with_ana_buf w d.

(** The interrupt cause and the event bits are 32-bit values, and the
    end-of-acquisition bit is not part of the end-of-scan event. *)
Definition irq_consts_okb (h : s626_h) (c : comedi_h) : bool :=
  (u32 (S626_IRQ_RPS1 h) =? S626_IRQ_RPS1 h)
  && (Z.land (COMEDI_CB_EOS c) (COMEDI_CB_EOA c) =? 0)
  && negb (COMEDI_CB_EOA c =? 0).

(** ** Poll lists

    The entry [s626_ai_load_polllist] stores for a channel, before the
    end marker is added. *)
Definition polllist_entry (h : s626_h) (c : comedi_h) (ch : Z) : Z :=
  u8 (if CR_RANGE c ch =? 0
      then Z.lor (CR_CHAN c ch) (S626_RANGE_5V h)
      else Z.lor (CR_CHAN c ch) (S626_RANGE_10V h)).

(** Entry [i] of the poll list carries the end-of-list flag. *)
Definition has_eopl (h : s626_h) (ppl : buffer) (i : nat) : bool :=
  nz (Z.land (u8 (peek i ppl)) (S626_EOPL h)).

(** The number of slots digitized from a poll list read from index
    [pi] on: the list ends with the first entry that carries the
    end-of-list flag, and after [fuel] entries at the latest. *)
Fixpoint slot_count (h : s626_h) (ppl : buffer) (fuel pi : nat) : nat :=
  match fuel with
  | O => O
  | S fuel' =>
      if has_eopl h ppl pi then 1%nat
      else S (slot_count h ppl fuel' (S pi))
  end.

(** The number of words the RPS program spends on one slot. *)
Definition slot_len (h : s626_h) (c : comedi_h) (d : s626_dev) : nat :=
  (14 + 2 * Z.to_nat (10 * S626_RPSCLK_PER_US h / 2)
   + (if negb (convert_src (cmd d) =? TRIG_NOW c)%Z then 2 else 0)
   + 8)%nat.

(** The range codes and the end-of-list flag fit a byte and the flag
    shares no bit with a range code or with a channel number below 16. *)
Definition polllist_consts_okb (h : s626_h) : bool :=
  (Z.land (S626_RANGE_5V h) (S626_EOPL h) =? 0)
  && (Z.land (S626_RANGE_10V h) (S626_EOPL h) =? 0)
  && (Z.land 15 (S626_EOPL h) =? 0)
  && (u8 (S626_EOPL h) =? S626_EOPL h)
  && negb (S626_EOPL h =? 0).

(** A command that the validation accepts whatever the length of its
    channel list: free-running conversion, no stop count. *)
Definition free_run_cmd (c : comedi_h) (n : nat) : comedi_cmd :=
  {| start_src := TRIG_NOW c; start_arg := 0;
     scan_begin_src := TRIG_FOLLOW c; scan_begin_arg := 0;
     convert_src := TRIG_NOW c; convert_arg := 0;
     scan_end_src := TRIG_COUNT c; scan_end_arg := u32 (Z.of_nat n);
     stop_src := TRIG_NONE c; stop_arg := 0;
     chanlist := repeat 0 n; flags := 0 |}.

(** A command like [free_run_cmd] that stops after [k] scans. *)
Definition counted_cmd (c : comedi_h) (n : nat) (k : Z) : comedi_cmd :=
  {| start_src := TRIG_NOW c; start_arg := 0;
     scan_begin_src := TRIG_FOLLOW c; scan_begin_arg := 0;
     convert_src := TRIG_NOW c; convert_arg := 0;
     scan_end_src := TRIG_COUNT c; scan_end_arg := u32 (Z.of_nat n);
     stop_src := TRIG_COUNT c; stop_arg := k;
     chanlist := repeat 0 n; flags := 0 |}.

(** A command of [n] channels paced by the two timers: a scan every
    [sba] nanoseconds, a conversion every [cva] nanoseconds. *)
Definition timed_cmd (c : comedi_h) (n : nat) (sba cva : Z) : comedi_cmd :=
  {| start_src := TRIG_NOW c; start_arg := 0;
     scan_begin_src := TRIG_TIMER c; scan_begin_arg := sba;
     convert_src := TRIG_TIMER c; convert_arg := cva;
     scan_end_src := TRIG_COUNT c; scan_end_arg := u32 (Z.of_nat n);
     stop_src := TRIG_NONE c; stop_arg := 0;
     chanlist := repeat 0 n; flags := 0 |}.

(** The end-of-scan interrupt: the state after the handler has served the
    cause [S626_IRQ_RPS1]. *)
Definition eos_irq (h : s626_h) (c : comedi_h) (d : s626_dev) : s626_dev :=
  snd (s626_irq_handler h c (S626_IRQ_RPS1 h) d).

(** A run of scans: the hardware deposits the words of each element of
    [ws] in turn and raises the end-of-scan interrupt after each. *)
Definition eos_irqs (h : s626_h) (c : comedi_h) (ws : list (nat -> Z))
  (d : s626_dev) : s626_dev :=
  fold_left (fun d w => eos_irq h c (hw_capture w d)) ws d.

(** A command like [free_run_cmd] that waits for the internal trigger. *)
Definition inttrig_cmd (c : comedi_h) (n : nat) : comedi_cmd :=
  set_start_src (TRIG_INT c) (free_run_cmd c n).

(** ** Counter interrupts

    The hardware presents the pending counter events in the register
    behind [S626_LP_RDMISC2]; [hw_misc2 h v d] is the state in which that
    register reads [v]. *)
Definition hw_misc2 (h : s626_h) (v : Z) (d : s626_dev) : s626_dev :=
  {| attached := attached d; ai_cmd_running := ai_cmd_running d;
     ai_continuous := ai_continuous d;
     ai_sample_count := ai_sample_count d;
     ai_convert_count := ai_convert_count d;
     counter_int_enabs := counter_int_enabs d; adc_items := adc_items d;
     rps_phys := rps_phys d; ana_phys := ana_phys d; rps_buf := rps_buf d;
     ana_buf := ana_buf d;
     lp := (fun x => if x =? u16 (S626_LP_RDMISC2 h) then v else lp d x);
     lp_trace := lp_trace d; mmio := mmio d;
     mmio_trace := mmio_trace d; cmd := cmd d; events := events d;
     inttrig := inttrig d; scan_buf := scan_buf d;
     published := published d |}.

(** The event bits of the six counters, in the order of the counter
    table. *)
Definition coint_masks (h : s626_h) : list Z :=
  [ S626_IRQ_COINT1A h; S626_IRQ_COINT2A h; S626_IRQ_COINT3A h;
    S626_IRQ_COINT1B h; S626_IRQ_COINT2B h; S626_IRQ_COINT3B h ].

(** [v] reports an event of counter [n] and of no other counter. *)
Definition coint_onlyb (h : s626_h) (v : Z) (n : nat) : bool :=
  forallb (fun j => Bool.eqb (nz (Z.land (u16 v) (nth j (coint_masks h) 0)))
                             (j =? n)%nat)
          (seq 0 6).

(** The counter part of the GPIO3 interrupt with the events [v] pending,
    and [m] such interrupts in a row. *)
Definition counter_irq (h : s626_h) (c : comedi_h) (v : Z) (d : s626_dev)
  : s626_dev :=
  s626_check_counter_interrupts h c (hw_misc2 h v d).

Definition counter_irqs (h : s626_h) (c : comedi_h) (v : Z) (m : nat)
  (d : s626_dev) : s626_dev :=
  Nat.iter m (counter_irq h c v) d.

(** A command like [timed_cmd] as it stands in [s->async->cmd]. *)
Definition timed_dev (c : comedi_h) (n : nat) : s626_dev :=
  {| attached := true; ai_cmd_running := 1; ai_continuous := 1;
     ai_sample_count := 1; ai_convert_count := 0; counter_int_enabs := 0;
     adc_items := 0; rps_phys := 0x10000; ana_phys := 0x20000;
     rps_buf := {| cells := repeat 0 1024; writes := [] |};
     ana_buf := fun _ => 0; lp := fun _ => 0; lp_trace := [];
     mmio := fun _ => 0; mmio_trace := [];
     cmd := timed_cmd c n 1000000 200000; events := 0;
     inttrig := false; scan_buf := []; published := [] |}.

(** ** Rounding policies

    [divides_as policy ns d]: [d] is the number of 500 ns ticks that the
    policy assigns to an interval of [ns] nanoseconds. *)

Inductive rounding : Set := RoundNearest | RoundDown | RoundUp.

Definition divides_as (p : rounding) (ns d : Z) : Prop :=
  match p with
  | RoundNearest => 500 * d - 250 <= ns < 500 * d + 250
  | RoundDown => 500 * d <= ns < 500 * d + 500
  | RoundUp => 500 * d - 500 < ns <= 500 * d
  end.

Definition round_mode (c : comedi_h) (p : rounding) : Z :=
  match p with
  | RoundNearest => TRIG_ROUND_NEAREST c
  | RoundDown => TRIG_ROUND_DOWN c
  | RoundUp => TRIG_ROUND_UP c
  end.

(** The three rounding selectors are different values. *)
Definition round_modes_okb (c : comedi_h) : bool :=
  negb (TRIG_ROUND_NEAREST c =? TRIG_ROUND_DOWN c)
  && negb (TRIG_ROUND_NEAREST c =? TRIG_ROUND_UP c)
  && negb (TRIG_ROUND_DOWN c =? TRIG_ROUND_UP c).

(** ** Reference values

    The bit assignment of the Sensoray 626 counter registers and the
    SAA7146 constants as the Linux driver uses them, and the constants
    of the comedi interface.  They instantiate the parameters when the
    model is evaluated on concrete inputs. *)

Definition s626_h_ref : s626_h :=
  {| CRA_INDXSRC_B := mkfield 14 2; CRA_CNTSRC_B := mkfield 12 2;
     CRA_INDXPOL_A := mkfield 11 1; CRA_LOADSRC_A := mkfield 9 2;
     CRA_CLKMULT_A := mkfield 7 2;  CRA_INTSRC_A := mkfield 5 2;
     CRA_CLKPOL_A := mkfield 4 1;   CRA_INDXSRC_A := mkfield 2 2;
     CRA_CNTSRC_A := mkfield 0 2;
     CRB_INTRESETCMD := mkfield 15 1; CRB_INTRESET_B := mkfield 14 1;
     CRB_INTRESET_A := mkfield 13 1;  CRB_CLKENAB_A := mkfield 12 1;
     CRB_INTSRC_B := mkfield 10 2;    CRB_LATCHSRC := mkfield 8 2;
     CRB_LOADSRC_B := mkfield 5 2;    CRB_CLKMULT_B := mkfield 3 2;
     CRB_CLKENAB_B := mkfield 2 1;    CRB_INDXPOL_B := mkfield 1 1;
     CRB_CLKPOL_B := mkfield 0 1;
     STD_INTSRC := mkfield 13 2;  STD_LATCHSRC := mkfield 11 2;
     STD_LOADSRC := mkfield 9 2;  STD_INDXSRC := mkfield 7 2;
     STD_INDXPOL := mkfield 6 1;  STD_ENCMODE := mkfield 4 2;
     STD_CLKPOL := mkfield 3 1;   STD_CLKMULT := mkfield 1 2;
     STD_CLKENAB := mkfield 0 1;
     S626_CLKMULT_1X := 2;      S626_CLKMULT_SPECIAL := 3;
     S626_CNTSRC_ENCODER := 0;  S626_CNTSRC_SYSCLK := 2;
     S626_ENCMODE_COUNTER := 0; S626_ENCMODE_TIMER := 2;
     S626_ENCMODE_EXTENDER := 3;
     S626_INDXSRC_SOFT := 2;    S626_LOADSRC_INDX := 0;
     S626_CNTDIR_DOWN := 1;
     S626_CLKENAB_ALWAYS := 0;  S626_CLKENAB_INDEX := 1;
     S626_LATCHSRC_A_INDXA := 1; S626_INTSRC_OVER := 1;
     S626_LP_CR0A := 0x0000; S626_LP_CR0B := 0x0002; S626_LP_CR1A := 0x0004;
     S626_LP_CR1B := 0x0006; S626_LP_CR2A := 0x0008; S626_LP_CR2B := 0x000A;
     S626_LP_CNTR0ALSW := 0x000C; S626_LP_CNTR1ALSW := 0x0014;
     S626_LP_CNTR2ALSW := 0x001C; S626_LP_CNTR0BLSW := 0x0010;
     S626_LP_CNTR1BLSW := 0x0018; S626_LP_CNTR2BLSW := 0x0020;
     S626_LP_MISC1 := 0x0088; S626_LP_RDMISC2 := 0x0082;
     S626_LP_GSEL := 0x0084;  S626_LP_ISEL := 0x0086;
     S626_LP_RDEDGSEL := fun x => 0x004A + x * 0x10;
     S626_LP_WREDGSEL := fun x => 0x0044 + x * 0x10;
     S626_LP_RDINTSEL := fun x => 0x004E + x * 0x10;
     S626_LP_WRINTSEL := fun x => 0x0042 + x * 0x10;
     S626_LP_RDCAPSEL := fun x => 0x004C + x * 0x10;
     S626_LP_WRCAPSEL := fun x => 0x0046 + x * 0x10;
     S626_LP_RDCAPFLG := fun x => 0x0048 + x * 0x10;
     S626_MISC1_EDCAP := 0x1000; S626_MISC1_NOEDCAP := 0x0000;
     S626_DIO_BANKS := 3;
     S626_P_IER := 0x00DC; S626_P_ISR := 0x010C; S626_P_MC1 := 0x00FC;
     S626_P_MC2 := 0x0100; S626_P_RPSADDR1 := 0x0108;
     S626_P_DEBICMD := 0x0080; S626_P_DEBIAD := 0x0088;
     S626_P_GPIO := 0x00E0; S626_P_FB_BUFFER1 := 0x0144;
     S626_MC1_ERPS1 := 0x2000; S626_MC2_ADC_RPS := 0x0800;
     S626_IRQ_RPS1 := 0x10000000; S626_IRQ_GPIO3 := 0x00000040;
     S626_IRQ_COINT1A := 0x0400; S626_IRQ_COINT2A := 0x1000;
     S626_IRQ_COINT3A := 0x4000; S626_IRQ_COINT1B := 0x0800;
     S626_IRQ_COINT2B := 0x2000; S626_IRQ_COINT3B := 0x8000;
     S626_RPS_CLRSIGNAL := 0x00000000; S626_RPS_NOP := 0x00000000;
     S626_RPS_PAUSE := 0x20000000; S626_RPS_UPLOAD := 0x40000000;
     S626_RPS_JUMP := 0x80000000;  S626_RPS_LDREG := 0x90000100;
     S626_RPS_STREG := 0xA0000100; S626_RPS_IRQ := 0x60000000;
     S626_RPS_DEBI := 0x00000002;  S626_RPS_SIGADC := 0x00200000;
     S626_RPS_GPIO2 := 0x00080000; S626_RPSCLK_PER_US := 4;
     S626_DEBI_CMD_WRWORD := 0x00040000;
     S626_GPIO_BASE := 0x10004000; S626_GPIO1_LO := 0x00000000;
     S626_GPIO1_HI := 0x00001000;
     S626_GSEL_BIPOLAR5V := 0x00F0; S626_GSEL_BIPOLAR10V := 0x00A0;
     S626_RANGE_5V := 0x10; S626_RANGE_10V := 0x00; S626_EOPL := 0x80 |}.

(** Modelled from the spec: the helpers of [comedi_fc.h] are not among
    the sources.  The specification describes the validation framework
    as one that "canonicalizes trigger-source combinations" and enforces
    "exactly one selected source per trigger class" and "argument
    bounds": a helper reduces the value to an admissible one and reports
    an error when that changed it (or, for a source mask, left nothing
    selected). *)
Definition check_trigger_src_ref (src flags : Z) : Z * Z :=
  let v := Z.land src flags in
  (v, if (v =? 0) || negb (v =? src) then -22 else 0).

Definition check_trigger_is_unique_ref (src : Z) : Z :=
  if Z.land src (src - 1) =? 0 then 0 else -22.

Definition check_trigger_arg_is_ref (arg val : Z) : Z * Z :=
  if arg =? val then (arg, 0) else (val, -22).

Definition check_trigger_arg_min_ref (arg val : Z) : Z * Z :=
  if arg <? val then (val, -22) else (arg, 0).

Definition check_trigger_arg_max_ref (arg val : Z) : Z * Z :=
  if arg >? val then (val, -22) else (arg, 0).

Definition comedi_h_ref : comedi_h :=
  {| TRIG_NONE := 0x01; TRIG_NOW := 0x02; TRIG_FOLLOW := 0x04;
     TRIG_TIMER := 0x10; TRIG_COUNT := 0x20; TRIG_EXT := 0x40;
     TRIG_INT := 0x80;
     TRIG_ROUND_MASK := 0x00030000; TRIG_ROUND_NEAREST := 0x00000000;
     TRIG_ROUND_DOWN := 0x00010000; TRIG_ROUND_UP := 0x00020000;
     COMEDI_CB_EOS := 1; COMEDI_CB_EOA := 2;
     EBUSY := 16; EINVAL := 22;
     CR_CHAN := fun a => Z.land a 0xffff;
     CR_RANGE := fun a => Z.land (Z.shiftr a 16) 0xff;
     cfc_check_trigger_src := check_trigger_src_ref;
     cfc_check_trigger_is_unique := check_trigger_is_unique_ref;
     cfc_check_trigger_arg_is := check_trigger_arg_is_ref;
     cfc_check_trigger_arg_min := check_trigger_arg_min_ref;
     cfc_check_trigger_arg_max := check_trigger_arg_max_ref |}.

(** An idle, attached device with cleared registers and an empty RPS
    buffer of [n] words, holding command [cm]. *)
Definition idle_dev (n : nat) (cm : comedi_cmd) : s626_dev :=
  {| attached := true; ai_cmd_running := 0; ai_continuous := 0;
     ai_sample_count := 0; ai_convert_count := 0; counter_int_enabs := 0;
     adc_items := 0; rps_phys := 0x10000; ana_phys := 0x20000;
     rps_buf := {| cells := repeat 0 n; writes := [] |};
     ana_buf := fun _ => 0; lp := fun _ => 0; lp_trace := [];
     mmio := fun _ => 0; mmio_trace := []; cmd := cm; events := 0;
     inttrig := false; scan_buf := []; published := [] |}.

Definition null_cmd : comedi_cmd :=
  {| start_src := 0; start_arg := 0; scan_begin_src := 0;
     scan_begin_arg := 0; convert_src := 0; convert_arg := 0;
     scan_end_src := 0; scan_end_arg := 0; stop_src := 0; stop_arg := 0;
     chanlist := []; flags := 0 |}.

(** ** The rules of command validation

    The rules that the specification gives for the steps of validation,
    written on the fields of a command without reference to
    [s626_ai_cmdtest]: the code is compared with them. *)

(** Trigger-source membership: a source is selected, and every selected
    source is among the allowed ones. *)
Definition src_among (src allowed : Z) : bool :=
  negb (src =? 0) && (Z.land src allowed =? src).

(** Exactly one source is selected: the mask has no second bit. *)
Definition one_source (src : Z) : bool := Z.land src (src - 1) =? 0.

(** Step 1: the sources of every trigger class are among those the
    board supports for the class. *)
Definition step1_rules (c : comedi_h) (cm : comedi_cmd) : bool :=
  src_among (start_src cm)
    (Z.lor (TRIG_NOW c) (Z.lor (TRIG_INT c) (TRIG_EXT c)))
  && src_among (scan_begin_src cm)
       (Z.lor (TRIG_TIMER c) (Z.lor (TRIG_EXT c) (TRIG_FOLLOW c)))
  && src_among (convert_src cm)
       (Z.lor (TRIG_TIMER c) (Z.lor (TRIG_EXT c) (TRIG_NOW c)))
  && src_among (scan_end_src cm) (TRIG_COUNT c)
  && src_among (stop_src cm) (Z.lor (TRIG_COUNT c) (TRIG_NONE c)).

(** Step 2: one source per trigger class. *)
Definition step2_rules (cm : comedi_cmd) : bool :=
  one_source (start_src cm)
  && one_source (scan_begin_src cm)
  && one_source (convert_src cm)
  && one_source (stop_src cm).

(** Step 3, the argument bounds: the line number of an external trigger
    is at most 39 and the start argument is 0 otherwise, a timer interval
    lies between 200000 ns and 2000000000 ns, the scan-end count equals
    the length of the channel list (as a 32-bit count), and the stop
    count is at most 16777215 when the acquisition is counted and 0 when
    it is not. *)
Definition step3_rules (c : comedi_h) (cm : comedi_cmd) : bool :=
  (if start_src cm =? TRIG_EXT c
   then start_arg cm <=? 39 else start_arg cm =? 0)
  && (if scan_begin_src cm =? TRIG_EXT c
      then scan_begin_arg cm <=? 39 else true)
  && (if convert_src cm =? TRIG_EXT c
      then convert_arg cm <=? 39 else true)
  && (if scan_begin_src cm =? TRIG_TIMER c
      then (200000 <=? scan_begin_arg cm)
           && (scan_begin_arg cm <=? 2000000000)
      else true)
  && (if convert_src cm =? TRIG_TIMER c
      then (200000 <=? convert_arg cm) && (convert_arg cm <=? 2000000000)
      else true)
  && (scan_end_arg cm =? u32 (chanlist_len cm))
  && (if stop_src cm =? TRIG_COUNT c
      then stop_arg cm <=? 16777215 else stop_arg cm =? 0).

(** A validation helper [check] enforces [rule]: it reports an error
    exactly for the values that violate the rule, and hands back a value
    that passes as it was. *)
Definition enforces (check : Z -> Z * Z) (rule : Z -> bool) : Prop :=
  forall v, (snd (check v) = 0 <-> rule v = true)
            /\ (snd (check v) = 0 -> fst (check v) = v).

(** What [s626_ai_cmdtest] relies on from the helpers of [comedi_fc.h],
    which are not among the sources. *)
Definition cmdtest_helpers_ok (c : comedi_h) : Prop :=
  (forall allowed, enforces (fun v => cfc_check_trigger_src c v allowed)
                            (fun v => src_among v allowed))
  /\ (forall v, cfc_check_trigger_is_unique c v = 0 <-> one_source v = true)
  /\ (forall x, enforces (fun v => cfc_check_trigger_arg_is c v x)
                         (fun v => v =? x))
  /\ (forall x, enforces (fun v => cfc_check_trigger_arg_min c v x)
                         (fun v => x <=? v))
  /\ (forall x, enforces (fun v => cfc_check_trigger_arg_max c v x)
                         (fun v => v <=? x)).

(** ** Writes to the registers of the SAA7146 *)

(** The writes of a trace that go to one of the registers [regs], in
    the order of the trace. *)
Definition writes_to (regs : list Z) (t : list (Z * Z)) : list (Z * Z) :=
  filter (fun w => existsb (Z.eqb (fst w)) regs) t.

(** The registers that a DEBI transfer writes: the command and data
    registers of the port, and [P_MC2], which takes the upload strobe. *)
Definition debi_regs (h : s626_h) : list Z :=
  [S626_P_DEBICMD h; S626_P_DEBIAD h; S626_P_MC2 h].

(** The registers through which the driver masks and acknowledges the
    interrupts and stops, loads and starts the sequencer. *)
Definition seq_regs (h : s626_h) : list Z :=
  [S626_P_IER h; S626_P_ISR h; S626_P_MC1 h; S626_P_RPSADDR1 h].

Fixpoint distinctb (l : list Z) : bool :=
  match l with
  | [] => true
  | x :: l' => negb (existsb (Z.eqb x) l') && distinctb l'
  end.

(** The seven registers have distinct addresses: no DEBI transfer
    writes a register of [seq_regs]. *)
Definition mmio_regs_okb (h : s626_h) : bool :=
  distinctb (seq_regs h ++ debi_regs h).

(** ** The counter subdevice

    The constants of [s626.h] that only the counter set-up uses. *)
Record s626_enc_h : Set := {
  S626_ENCODER_CHANNELS : Z;
  S626_CLKPOL_POS : Z;
  S626_LATCHSRC_AB_READ : Z
}.

Section Encoder.

Variable h : s626_h.
Variable c : comedi_h.
Variable e : s626_enc_h.

Local Abbreviation SET f x := (fset (f h) x).

(** [insn->chanspec], [insn->n] and [data[0]] are passed as arguments;
    the result is the return value and the board afterwards. *)
Definition s626_enc_insn_config (chanspec insn_n data0 : Z) (d : s626_dev)
  : Z * s626_dev :=
  let setup := u16
    (Z.lor (SET STD_LOADSRC (S626_LOADSRC_INDX h))
    (Z.lor (SET STD_INDXSRC (S626_INDXSRC_SOFT h))
    (Z.lor (SET STD_ENCMODE (S626_ENCMODE_COUNTER h))
    (Z.lor (SET STD_CLKPOL (S626_CLKPOL_POS e))
    (Z.lor (SET STD_CLKMULT (S626_CLKMULT_1X h))
           (SET STD_CLKENAB (S626_CLKENAB_INDEX h))))))) in
  let value_latchsrc := u16 (S626_LATCHSRC_AB_READ e) in
  let enab := u16 (S626_CLKENAB_ALWAYS h) in
  let k := enc_chan h (Z.to_nat (CR_CHAN c chanspec)) in
  let d := set_mode k (regs k) setup 1 d in
  let d := s626_preload (regs k) data0 d in
  let d := pulse_index k (regs k) d in
  let d := s626_set_latch_source h (regs k) value_latchsrc d in
  let d := set_enable k (regs k) (if enab =? 0 then 0 else 1) d in
  (s32 (u32 insn_n), d).

Definition s626_enc_insn_write (chanspec data0 : Z) (d : s626_dev)
  : Z * s626_dev :=
  let k := enc_chan h (Z.to_nat (CR_CHAN c chanspec)) in
  (* Set the preload register *)
  let d := s626_preload (regs k) data0 d in
  (* Software index pulse forces the preload register to load *)
  let d := set_load_trig k (regs k) 0 d in
  let d := pulse_index k (regs k) d in
  let d := set_load_trig k (regs k) 2 d in
  (1, d).

(** The body of the loop of [s626_counters_init] for counter [chan]. *)
Definition counters_init_chan (setup : Z) (d : s626_dev) (chan : nat)
  : s626_dev :=
  let k := enc_chan h chan in
  let d := set_mode k (regs k) setup 1 d in
  let d := set_int_src k (regs k) 0 d in
  let d := reset_cap_flags k (regs k) d in
  set_enable k (regs k) (S626_CLKENAB_ALWAYS h) d.

Definition s626_counters_init (d : s626_dev) : s626_dev :=
  let setup := u16
    (Z.lor (SET STD_LOADSRC (S626_LOADSRC_INDX h))
    (Z.lor (SET STD_INDXSRC (S626_INDXSRC_SOFT h))
    (Z.lor (SET STD_ENCMODE (S626_ENCMODE_COUNTER h))
    (Z.lor (SET STD_CLKPOL (S626_CLKPOL_POS e))
    (Z.lor (SET STD_CLKMULT (S626_CLKMULT_1X h))
           (SET STD_CLKENAB (S626_CLKENAB_INDEX h))))))) in
  fold_left (counters_init_chan setup)
            (seq 0 (Z.to_nat (S626_ENCODER_CHANNELS e))) d.

End Encoder.

(** The values of [s626.h]: six counters, clock polarity and latch
    source selectors 0. *)
Definition s626_enc_h_ref : s626_enc_h :=
  {| S626_ENCODER_CHANNELS := 6; S626_CLKPOL_POS := 0;
     S626_LATCHSRC_AB_READ := 0 |}.

(** ** What a counter operation may change

    [touches_only h k ga gb la d d']: between [d] and [d'] the fields of
    control register A of the counter pair [k] keep their values unless
    they overlap a field of [ga], the mode fields of control register B
    unless they overlap a field of [gb], and every other register of the
    gate array reads the same unless its address is in [la]. *)
Definition touches_only (h : s626_h) (k : enc_regs)
  (ga gb : list field) (la : list Z) (d d' : s626_dev) : Prop :=
  (forall f, In f (cra_fields h) -> forallb (disjointb f) ga = true ->
     fget f (s626_debi_read (my_cra k) d') =
     fget f (s626_debi_read (my_cra k) d))
  /\ (forall f, In f (crb_mode_fields h) -> forallb (disjointb f) gb = true ->
     fget f (s626_debi_read (my_crb k) d') =
     fget f (s626_debi_read (my_crb k) d))
  /\ (forall a, u16 a <> u16 (my_cra k) -> u16 a <> u16 (my_crb k) ->
      ~ In (u16 a) la ->
      s626_debi_read a d' = s626_debi_read a d).

(** The fields of the A counter in control register A, and of the B
    counter in control registers A and B. *)
Definition cra_fields_a (h : s626_h) : list field :=
  [ CRA_INDXPOL_A h; CRA_LOADSRC_A h; CRA_CLKMULT_A h; CRA_INTSRC_A h;
    CRA_CLKPOL_A h; CRA_INDXSRC_A h; CRA_CNTSRC_A h ].

Definition cra_fields_b (h : s626_h) : list field :=
  [ CRA_INDXSRC_B h; CRA_CNTSRC_B h ].

Definition crb_fields_b (h : s626_h) : list field :=
  [ CRB_INTSRC_B h; CRB_LOADSRC_B h; CRB_CLKMULT_B h; CRB_CLKENAB_B h;
    CRB_INDXPOL_B h; CRB_CLKPOL_B h ].

(** The preload registers of the six counters lie apart from the
    control registers. *)
Definition counter_latch_okb (h : s626_h) : bool :=
  let crs := map u16 [ S626_LP_CR0A h; S626_LP_CR1A h; S626_LP_CR2A h;
                       S626_LP_CR0B h; S626_LP_CR1B h; S626_LP_CR2B h ] in
  let lsws := [ S626_LP_CNTR0ALSW h; S626_LP_CNTR1ALSW h;
                S626_LP_CNTR2ALSW h; S626_LP_CNTR0BLSW h;
                S626_LP_CNTR1BLSW h; S626_LP_CNTR2BLSW h ] in
  forallb (fun l =>
             forallb (fun r => negb (u16 (u16 l) =? r)
                               && negb (u16 (u16 l + 2) =? r)) crs)
          lsws.

(** The fields that the operations of counter [n] may write: its own
    fields of the two control registers and the latch source, which the
    two counters of a pair share; and its preload registers. *)
Definition counter_cra_fields (h : s626_h) (n : nat) : list field :=
  if (n <? 3)%nat then cra_fields_a h else cra_fields_b h.

Definition counter_crb_fields (h : s626_h) (n : nat) : list field :=
  CRB_LATCHSRC h ::
  (if (n <? 3)%nat then [CRB_CLKENAB_A h] else crb_fields_b h).

Definition counter_latches (h : s626_h) (n : nat) : list Z :=
  let lsw := my_latch_lsw (regs (enc_chan h n)) in
  [u16 lsw; u16 (lsw + 2)].

(** The register fields behind [get_enable], [get_int_src] and
    [get_load_trig] of counter [n]. *)
Definition enable_field (h : s626_h) (n : nat) : field :=
  if (n <? 3)%nat then CRB_CLKENAB_A h else CRB_CLKENAB_B h.

Definition int_src_field (h : s626_h) (n : nat) : field :=
  if (n <? 3)%nat then CRA_INTSRC_A h else CRB_INTSRC_B h.

Definition load_trig_field (h : s626_h) (n : nat) : field :=
  if (n <? 3)%nat then CRA_LOADSRC_A h else CRB_LOADSRC_B h.

(** A value cut to the width of a field. *)
Definition cut (f : field) (v : Z) : Z := Z.land v (Z.ones (f_width f)).

(** What the getters of counter [n] report: clock enable, interrupt
    source and load trigger; and the content of its two preload
    registers. *)
Definition counter_setting (h : s626_h) (n : nat) (d : s626_dev)
  : Z * Z * Z :=
  let k := enc_chan h n in
  (get_enable k (regs k) d, get_int_src k (regs k) d,
   get_load_trig k (regs k) d).

Definition counter_preload (h : s626_h) (n : nat) (d : s626_dev) : Z * Z :=
  let k := regs (enc_chan h n) in
  (s626_debi_read (my_latch_lsw k) d, s626_debi_read (my_latch_lsw k + 2) d).

(* ================================================================== *)
(** * Part II: properties *)
(* ================================================================== *)

(** ** Bit fields *)

Lemma field_okb_spec f :
  field_okb f = true -> 0 <= f_bit f /\ 0 < f_width f /\ f_bit f + f_width f <= 16.
Proof.
  unfold field_okb. rewrite !andb_true_iff.
  intros [[H1 H2] H3].
  apply Z.leb_le in H1. apply Z.ltb_lt in H2. apply Z.leb_le in H3. lia.
Qed.

Lemma disjointb_spec f g :
  disjointb f g = true ->
  f_bit f + f_width f <= f_bit g \/ f_bit g + f_width g <= f_bit f.
Proof.
  unfold disjointb. rewrite orb_true_iff, !Z.leb_le. tauto.
Qed.

Lemma disjointb_sym f g : disjointb f g = disjointb g f.
Proof. unfold disjointb. apply orb_comm. Qed.

Lemma testbit_fset f x n :
  0 <= f_bit f -> 0 <= f_width f ->
  Z.testbit (fset f x) n =
  (f_bit f <=? n) && (n <? f_bit f + f_width f) && Z.testbit x (n - f_bit f).
Proof.
  intros Hb Hw. unfold fset.
  destruct (Z.leb_spec (f_bit f) n) as [Hn | Hn]; simpl.
  - rewrite Z.shiftl_spec by lia. rewrite Z.land_spec.
    destruct (Z.ltb_spec n (f_bit f + f_width f)).
    + rewrite Z.ones_spec_low by lia. now rewrite andb_true_r.
    + rewrite Z.ones_spec_high by lia. now rewrite andb_false_r.
  - destruct (Z.ltb_spec n 0).
    + now rewrite Z.testbit_neg_r.
    + rewrite Z.shiftl_spec_low by lia. reflexivity.
Qed.

Lemma testbit_fget f r n :
  0 <= f_bit f -> 0 <= f_width f ->
  Z.testbit (fget f r) n =
  (0 <=? n) && (n <? f_width f) && Z.testbit r (n + f_bit f).
Proof.
  intros Hb Hw. unfold fget.
  destruct (Z.leb_spec 0 n) as [Hn | Hn]; simpl.
  - rewrite Z.land_spec, Z.shiftr_spec by lia.
    destruct (Z.ltb_spec n (f_width f)).
    + rewrite Z.ones_spec_low by lia. now rewrite andb_true_r.
    + rewrite Z.ones_spec_high by lia. now rewrite andb_false_r.
  - now rewrite Z.testbit_neg_r.
Qed.

Lemma fget_lor f a b : fget f (Z.lor a b) = Z.lor (fget f a) (fget f b).
Proof. unfold fget. rewrite Z.shiftr_lor. apply Z.land_lor_distr_l. Qed.

Lemma fget_land f a b : fget f (Z.land a b) = Z.land (fget f a) (fget f b).
Proof.
  unfold fget. rewrite Z.shiftr_land.
  apply Z.bits_inj'. intros n _. rewrite !Z.land_spec.
  destruct (Z.testbit (Z.shiftr a (f_bit f)) n),
           (Z.testbit (Z.shiftr b (f_bit f)) n),
           (Z.testbit (Z.ones (f_width f)) n); reflexivity.
Qed.

Lemma fget_lxor f a b : fget f (Z.lxor a b) = Z.lxor (fget f a) (fget f b).
Proof.
  unfold fget. rewrite Z.shiftr_lxor.
  apply Z.bits_inj'. intros n _. rewrite !Z.lxor_spec, !Z.land_spec, Z.lxor_spec.
  destruct (Z.testbit (Z.shiftr a (f_bit f)) n),
           (Z.testbit (Z.shiftr b (f_bit f)) n),
           (Z.testbit (Z.ones (f_width f)) n); reflexivity.
Qed.

Lemma fget_0 f : fget f 0 = 0.
Proof. unfold fget. now rewrite Z.shiftr_0_l. Qed.

Lemma fget_range f r : 0 <= f_width f -> 0 <= fget f r < 2 ^ f_width f.
Proof.
  intros Hw. unfold fget. rewrite Z.land_ones by lia.
  apply Z.mod_pos_bound. apply Z.pow_pos_nonneg; lia.
Qed.

Lemma land_ones_small x w : 0 <= x < 2 ^ w -> Z.land x (Z.ones w) = x.
Proof.
  intros H. destruct (Z.le_gt_cases 0 w) as [Hw | Hw].
  - rewrite Z.land_ones by lia. now apply Z.mod_small.
  - rewrite Z.pow_neg_r in H by lia. lia.
Qed.

Lemma fget_fset f x :
  0 <= f_bit f -> fget f (fset f x) = Z.land x (Z.ones (f_width f)).
Proof.
  intros Hb. unfold fget, fset. rewrite Z.shiftr_shiftl_l by lia.
  rewrite Z.sub_diag, Z.shiftl_0_r, <- Z.land_assoc. now rewrite Z.land_diag.
Qed.

Lemma fget_fset_small f x :
  0 <= f_bit f -> 0 <= x < 2 ^ f_width f -> fget f (fset f x) = x.
Proof. intros. rewrite fget_fset by lia. now apply land_ones_small. Qed.

Lemma fget_fset_disj f g x :
  field_okb f = true -> field_okb g = true -> disjointb f g = true ->
  fget f (fset g x) = 0.
Proof.
  intros Hf Hg Hd.
  apply field_okb_spec in Hf. apply field_okb_spec in Hg.
  apply disjointb_spec in Hd.
  apply Z.bits_inj'. intros n Hn.
  rewrite testbit_fget, testbit_fset, Z.bits_0 by lia.
  destruct (Z.ltb_spec n (f_width f)); [|now rewrite andb_false_r].
  destruct (Z.leb_spec (f_bit g) (n + f_bit f));
    [|now rewrite andb_false_r].
  destruct (Z.ltb_spec (n + f_bit f) (f_bit g + f_width g));
    [lia | now rewrite !andb_false_r].
Qed.

Lemma fget_ones f n :
  field_okb f = true -> f_bit f + f_width f <= n ->
  fget f (Z.ones n) = Z.ones (f_width f).
Proof.
  intros Hf Hn. apply field_okb_spec in Hf.
  apply Z.bits_inj'. intros i Hi.
  rewrite testbit_fget by lia.
  destruct (Z.ltb_spec i (f_width f)).
  - rewrite !Z.ones_spec_low by lia.
    destruct (Z.leb_spec 0 i); [reflexivity | lia].
  - rewrite (Z.ones_spec_high (f_width f)) by lia.
    now rewrite andb_false_r.
Qed.

Lemma fget_u16 f r : field_okb f = true -> fget f (u16 r) = fget f r.
Proof.
  intros Hf. unfold u16. change 65535 with (Z.ones 16).
  rewrite fget_land, fget_ones by (auto; apply field_okb_spec in Hf; lia).
  unfold fget. rewrite <- Z.land_assoc. now rewrite Z.land_diag.
Qed.

Lemma fget_u32 f r : field_okb f = true -> fget f (u32 r) = fget f r.
Proof.
  intros Hf. unfold u32. change 4294967295 with (Z.ones 32).
  rewrite fget_land, fget_ones by (auto; apply field_okb_spec in Hf; lia).
  unfold fget. rewrite <- Z.land_assoc. now rewrite Z.land_diag.
Qed.

Lemma fget_lnot f m :
  0 <= f_bit f -> 0 <= f_width f ->
  fget f (Z.lnot m) = Z.lxor (fget f m) (Z.ones (f_width f)).
Proof.
  intros Hb Hw. apply Z.bits_inj'. intros n Hn.
  rewrite Z.lxor_spec, !testbit_fget, Z.lnot_spec by lia.
  destruct (Z.leb_spec 0 n); [|lia]. simpl.
  destruct (Z.ltb_spec n (f_width f)).
  - rewrite Z.ones_spec_low by lia. simpl.
    now destruct (Z.testbit m (n + f_bit f)).
  - rewrite Z.ones_spec_high by lia. reflexivity.
Qed.

Lemma fget_fmsk f :
  0 <= f_bit f -> 0 <= f_width f -> fget f (fmsk f) = Z.ones (f_width f).
Proof.
  intros Hb Hw. unfold fmsk. rewrite fget_fset by lia.
  apply Z.bits_inj'. intros n Hn. rewrite Z.land_spec.
  change (-1) with (Z.lnot 0) at 1.
  rewrite Z.lnot_spec, Z.bits_0 by lia. reflexivity.
Qed.

Lemma fget_idem f r :
  Z.land (fget f r) (Z.ones (f_width f)) = fget f r.
Proof. unfold fget. rewrite <- Z.land_assoc. now rewrite Z.land_diag. Qed.

(** A one-bit value or-ed into an even selector shows up in bit 0. *)
Lemma land_1_lor_2 x : 0 <= x < 2 -> Z.land (Z.lor 2 x) 1 = x.
Proof. intros H. assert (x = 0 \/ x = 1) as [-> | ->] by lia; reflexivity. Qed.

Lemma land_2_lor_2 x : 0 <= x < 2 -> Z.land (Z.lor 2 x) 2 = 2.
Proof. intros H. assert (x = 0 \/ x = 1) as [-> | ->] by lia; reflexivity. Qed.

Lemma u16_idem x : u16 (u16 x) = u16 x.
Proof. unfold u16. rewrite <- Z.land_assoc. reflexivity. Qed.

Lemma u16_u32 x : Z.land (u32 x) 65535 = u16 x.
Proof. unfold u16, u32. rewrite <- Z.land_assoc. reflexivity. Qed.

Lemma u16_range x : 0 <= u16 x < 65536.
Proof.
  unfold u16. change 65535 with (Z.ones 16). rewrite Z.land_ones by lia.
  apply Z.mod_pos_bound. lia.
Qed.

(** ** Register access *)

Section RegisterAccess.

Variable h : s626_h.

Lemma debi_read_write a b v d :
  s626_debi_read a (s626_debi_write b v d) =
  if u16 a =? u16 b then u16 v else s626_debi_read a d.
Proof.
  unfold s626_debi_read, s626_debi_write, with_lp; simpl.
  destruct (u16 a =? u16 b); [apply u16_idem | reflexivity].
Qed.

Lemma debi_read_replace a b m w d :
  s626_debi_read a (s626_debi_replace b m w d) =
  if u16 a =? u16 b
  then u16 (Z.lor (Z.land (u32 (lp d (u16 b))) (u32 m)) (u32 w))
  else s626_debi_read a d.
Proof.
  unfold s626_debi_read, s626_debi_replace, with_lp; simpl.
  rewrite u16_u32.
  destruct (u16 a =? u16 b); [apply u16_idem | reflexivity].
Qed.

Lemma lp_replace_other a b m w d :
  a <> u16 b -> lp (s626_debi_replace b m w d) a = lp d a.
Proof.
  intros Hne. unfold s626_debi_replace, with_lp; simpl. rewrite u16_u32.
  destruct (Z.eqb_spec a (u16 b)); [contradiction | reflexivity].
Qed.

Lemma debi_read_u16 a d : u16 (s626_debi_read a d) = s626_debi_read a d.
Proof. apply u16_idem. Qed.

(** Reading a field of a register that has just been replaced. *)
Lemma fget_replaced f b m w d :
  field_okb f = true ->
  fget f (s626_debi_read b (s626_debi_replace b m w d)) =
  Z.lor (Z.land (fget f (s626_debi_read b d)) (fget f m)) (fget f w).
Proof.
  intros Hf. rewrite debi_read_replace, Z.eqb_refl.
  unfold s626_debi_read.
  now rewrite !fget_u16, fget_lor, fget_land, !fget_u32 by assumption.
Qed.

End RegisterAccess.

(** ** Facts of a well-formed layout *)

Ltac andb_hyps :=
  repeat match goal with
  | H : (_ && _)%bool = true |- _ => apply andb_prop in H; destruct H
  | H : true = true |- _ => clear H
  end.

(** Brings the field and disjointness facts of the three layouts into
    the context. *)
Ltac layout_facts H :=
  let L := fresh "L" in
  pose proof H as L;
  unfold counter_layout_okb in L;
  cbn [layout_okb cra_fields crb_fields std_fields forallb] in L;
  andb_hyps.

Ltac field_side :=
  first [ assumption
        | rewrite disjointb_sym; assumption
        | match goal with
          | H : field_okb ?f = true |- 0 <= f_bit ?f =>
              apply field_okb_spec in H; lia
          | H : field_okb ?f = true |- 0 <= f_width ?f =>
              apply field_okb_spec in H; lia
          end ].

(** Reading a field out of an or of field images. *)
Ltac fget_norm :=
  unfold fmsk;
  repeat first
    [ rewrite fget_lor
    | rewrite fget_land
    | rewrite fget_lxor
    | rewrite fget_u16 by field_side
    | rewrite fget_u32 by field_side
    | rewrite fget_lnot by field_side
    | rewrite fget_fset by field_side
    | rewrite fget_fset_disj by field_side
    | rewrite fget_0
    | rewrite Z.lor_0_l | rewrite Z.lor_0_r
    | rewrite Z.land_0_l | rewrite Z.land_0_r
    | rewrite Z.lxor_0_l | rewrite Z.lxor_0_r
    | rewrite Z.land_m1_l
    | rewrite fget_idem ].

(** ** Index pulse *)

Section IndexPulse.

Variable h : s626_h.
Hypothesis Hlay : counter_layout_okb h = true.

Lemma fget_intctrl f :
  In f (crb_mode_fields h) -> fget f (S626_CRBMSK_INTCTRL h) = 0.
Proof.
  layout_facts Hlay. unfold S626_CRBMSK_INTCTRL.
  intros Hin. simpl in Hin.
  repeat (destruct Hin as [<- | Hin]; [now fget_norm|]).
  contradiction.
Qed.

Lemma crb_mode_field_ok f : In f (crb_mode_fields h) -> field_okb f = true.
Proof.
  layout_facts Hlay. intros Hin. simpl in Hin.
  repeat (destruct Hin as [<- | Hin]; [assumption|]). contradiction.
Qed.

Lemma cra_field_ok f : In f (cra_fields h) -> field_okb f = true.
Proof.
  layout_facts Hlay. intros Hin. simpl in Hin.
  repeat (destruct Hin as [<- | Hin]; [assumption|]). contradiction.
Qed.

(** Masking out the interrupt reset bits leaves the mode fields alone. *)
Lemma fget_clear_intctrl f r :
  In f (crb_mode_fields h) ->
  fget f (u16 (Z.land r (Z.lnot (S626_CRBMSK_INTCTRL h)))) = fget f r.
Proof.
  intros Hin. pose proof (crb_mode_field_ok f Hin) as Hf.
  rewrite fget_u16, fget_land, fget_lnot by field_side.
  rewrite (fget_intctrl f Hin), Z.lxor_0_l. apply fget_idem.
Qed.

Lemma pulse_index_a_spec (k : enc_regs) (d : s626_dev) :
  u16 (my_cra k) = my_cra k ->
  let before := s626_debi_read (my_cra k) d in
  let d' := s626_pulse_index_a h k d in
  let v1 := u16 (Z.lxor before (fmsk (CRA_INDXPOL_A h))) in
  lp_trace d' = lp_trace d ++ [(my_cra k, v1); (my_cra k, before)]
  /\ fget (CRA_INDXPOL_A h) v1 =
     Z.lxor (fget (CRA_INDXPOL_A h) before)
            (Z.ones (f_width (CRA_INDXPOL_A h)))
  /\ (forall f, In f (cra_fields h) -> disjointb f (CRA_INDXPOL_A h) = true ->
      fget f v1 = fget f before)
  /\ (forall a, s626_debi_read a d' = s626_debi_read a d).
Proof.
  intros Ha before d' v1. layout_facts Hlay.
  repeat split.
  - unfold d', s626_pulse_index_a, s626_debi_write, with_lp; simpl.
    fold before. rewrite Ha, <- app_assoc. simpl. unfold v1.
    unfold before at 2. now rewrite debi_read_u16.
  - unfold v1. now fget_norm.
  - intros f Hin Hd. pose proof (cra_field_ok f Hin) as Hf.
    unfold v1. rewrite fget_u16, fget_lxor by assumption.
    unfold fmsk. rewrite fget_fset_disj by assumption. apply Z.lxor_0_r.
  - intros a. unfold d', s626_pulse_index_a.
    rewrite !debi_read_write.
    destruct (Z.eqb_spec (u16 a) (u16 (my_cra k))) as [E | E];
      [|reflexivity].
    rewrite debi_read_u16. unfold s626_debi_read. now rewrite E.
Qed.

Lemma pulse_index_b_spec (k : enc_regs) (d : s626_dev) :
  u16 (my_crb k) = my_crb k ->
  let before := s626_debi_read (my_crb k) d in
  let d' := s626_pulse_index_b h k d in
  let v0 := u16 (Z.land before (Z.lnot (S626_CRBMSK_INTCTRL h))) in
  let v1 := u16 (Z.lxor v0 (fmsk (CRB_INDXPOL_B h))) in
  lp_trace d' = lp_trace d ++ [(my_crb k, v1); (my_crb k, v0)]
  /\ fget (CRB_INDXPOL_B h) v1 =
     Z.lxor (fget (CRB_INDXPOL_B h) before)
            (Z.ones (f_width (CRB_INDXPOL_B h)))
  /\ (forall f, In f (crb_mode_fields h) ->
      disjointb f (CRB_INDXPOL_B h) = true -> fget f v1 = fget f before)
  /\ (forall f, In f (crb_mode_fields h) ->
      fget f (s626_debi_read (my_crb k) d') = fget f before)
  /\ (forall a, u16 a <> my_crb k ->
      s626_debi_read a d' = s626_debi_read a d).
Proof.
  intros Ha before d' v0 v1. layout_facts Hlay.
  assert (Hpol : In (CRB_INDXPOL_B h) (crb_mode_fields h))
    by (simpl; tauto).
  repeat split.
  - unfold d', s626_pulse_index_b, s626_debi_write, with_lp; simpl.
    fold before. fold v0. rewrite Ha, <- app_assoc. simpl.
    fold v1. replace (u16 v0) with v0 by (unfold v0; now rewrite u16_idem).
    reflexivity.
  - unfold v1. rewrite fget_u16, fget_lxor by assumption.
    unfold v0. rewrite (fget_clear_intctrl _ _ Hpol).
    now rewrite fget_fmsk by field_side.
  - intros f Hin Hd. pose proof (crb_mode_field_ok f Hin) as Hf.
    unfold v1. rewrite fget_u16, fget_lxor by assumption.
    unfold fmsk. rewrite fget_fset_disj by assumption.
    rewrite Z.lxor_0_r. unfold v0. now apply fget_clear_intctrl.
  - intros f Hin. unfold d', s626_pulse_index_b.
    rewrite !debi_read_write, Z.eqb_refl. fold before.
    rewrite u16_idem. now apply fget_clear_intctrl.
  - intros a Hne. unfold d', s626_pulse_index_b.
    rewrite !debi_read_write.
    destruct (Z.eqb_spec (u16 a) (u16 (my_crb k))) as [E | E];
      [rewrite Ha in E; contradiction | reflexivity].
Qed.

Hypothesis Haddr : counter_addrs_okb h = true.

Lemma enc_chan_cases (P : nat -> Prop) :
  P 0%nat -> P 1%nat -> P 2%nat -> P 3%nat -> P 4%nat -> P 5%nat ->
  forall n, (n < 6)%nat -> P n.
Proof.
  intros P0 P1 P2 P3 P4 P5 n Hn.
  do 6 (destruct n as [|n]; [assumption|]). lia.
Qed.

Lemma addrs_distinct :
  u16 (S626_LP_CR0A h) <> u16 (S626_LP_CR0B h)
  /\ u16 (S626_LP_CR1A h) <> u16 (S626_LP_CR1B h)
  /\ u16 (S626_LP_CR2A h) <> u16 (S626_LP_CR2B h).
Proof.
  pose proof Haddr as A. unfold counter_addrs_okb in A. andb_hyps.
  repeat match goal with
  | H : negb (_ =? _) = true |- _ =>
      apply negb_true_iff, Z.eqb_neq in H
  end. auto.
Qed.

Lemma get_mode_b_pulse (k : enc_regs) (d : s626_dev) :
  u16 (my_crb k) = my_crb k -> u16 (my_cra k) <> my_crb k ->
  s626_get_mode_b h k (s626_pulse_index_b h k d) = s626_get_mode_b h k d.
Proof.
  intros Hb Hne.
  destruct (pulse_index_b_spec k d Hb) as (_ & _ & _ & Hf & Ho).
  unfold s626_get_mode_b. cbv zeta.
  rewrite (Ho (my_cra k) Hne).
  rewrite !Hf by (simpl; tauto). reflexivity.
Qed.

Lemma pulse_index_a_full (k : enc_regs) (d : s626_dev) :
  u16 (my_cra k) = my_cra k ->
  let before := s626_debi_read (my_cra k) d in
  let d' := s626_pulse_index_a h k d in
  exists v1 v0,
    lp_trace d' = lp_trace d ++ [(my_cra k, v1); (my_cra k, v0)]
    /\ fget (CRA_INDXPOL_A h) v1 =
       Z.lxor (fget (CRA_INDXPOL_A h) before)
              (Z.ones (f_width (CRA_INDXPOL_A h)))
    /\ (forall f, In f (cra_fields h) ->
        disjointb f (CRA_INDXPOL_A h) = true -> fget f v1 = fget f before)
    /\ (forall f, In f (cra_fields h) -> fget f v0 = fget f before)
    /\ (forall f, In f (cra_fields h) ->
        fget f (s626_debi_read (my_cra k) d') = fget f before)
    /\ (forall a, u16 a <> my_cra k ->
        s626_debi_read a d' = s626_debi_read a d)
    /\ s626_get_mode_a h k d' = s626_get_mode_a h k d.
Proof.
  intros Ha before d'.
  destruct (pulse_index_a_spec k d Ha) as (T & P & F & O).
  eexists. eexists. split; [exact T|].
  split; [exact P|]. split; [exact F|].
  split; [reflexivity|].
  split; [intros f _; unfold d'; now rewrite O|].
  split; [intros a _; apply O|].
  unfold s626_get_mode_a. cbv zeta. unfold d'. now rewrite !O.
Qed.

Lemma pulse_index_b_full (k : enc_regs) (d : s626_dev) :
  u16 (my_crb k) = my_crb k -> u16 (my_cra k) <> my_crb k ->
  let before := s626_debi_read (my_crb k) d in
  let d' := s626_pulse_index_b h k d in
  exists v1 v0,
    lp_trace d' = lp_trace d ++ [(my_crb k, v1); (my_crb k, v0)]
    /\ fget (CRB_INDXPOL_B h) v1 =
       Z.lxor (fget (CRB_INDXPOL_B h) before)
              (Z.ones (f_width (CRB_INDXPOL_B h)))
    /\ (forall f, In f (crb_mode_fields h) ->
        disjointb f (CRB_INDXPOL_B h) = true -> fget f v1 = fget f before)
    /\ (forall f, In f (crb_mode_fields h) -> fget f v0 = fget f before)
    /\ (forall f, In f (crb_mode_fields h) ->
        fget f (s626_debi_read (my_crb k) d') = fget f before)
    /\ (forall a, u16 a <> my_crb k ->
        s626_debi_read a d' = s626_debi_read a d)
    /\ s626_get_mode_b h k d' = s626_get_mode_b h k d.
Proof.
  intros Hb Hne before d'.
  destruct (pulse_index_b_spec k d Hb) as (T & P & F & R & O).
  eexists. eexists. split; [exact T|].
  split; [exact P|]. split; [exact F|].
  split; [intros f Hf; now apply fget_clear_intctrl|].
  split; [exact R|]. split; [exact O|].
  now apply get_mode_b_pulse.
Qed.

(** C9.  For each of the six counters the index pulse is two writes to
    the control register that holds the counter's index polarity: the
    first with the polarity field inverted and every other mode field as
    it was read, the second with the polarity restored.  Afterwards
    every mode field of that register, every other gate array register
    and the standardized mode of the counter are as before the pulse.
    (For the B counters the mode fields of control register B are all
    fields apart from the write-only interrupt reset command bits, which
    the pulse writes as zero.) *)
Theorem pulse_index_preserves_mode (n : nat) (d : s626_dev) :
  (n < 6)%nat ->
  let k := enc_chan h n in
  let b := (3 <=? n)%nat in
  let reg := if b then my_crb (regs k) else my_cra (regs k) in
  let pol := if b then CRB_INDXPOL_B h else CRA_INDXPOL_A h in
  let fields := if b then crb_mode_fields h else cra_fields h in
  let before := s626_debi_read reg d in
  let d' := pulse_index k (regs k) d in
  exists v1 v0,
    lp_trace d' = lp_trace d ++ [(reg, v1); (reg, v0)]
    /\ fget pol v1 = Z.lxor (fget pol before) (Z.ones (f_width pol))
    /\ (forall f, In f fields -> disjointb f pol = true ->
        fget f v1 = fget f before)
    /\ (forall f, In f fields -> fget f v0 = fget f before)
    /\ (forall f, In f fields ->
        fget f (s626_debi_read reg d') = fget f before)
    /\ (forall a, u16 a <> reg -> s626_debi_read a d' = s626_debi_read a d)
    /\ get_mode k (regs k) d' = get_mode k (regs k) d.
Proof.
  intros Hn. destruct addrs_distinct as (A0 & A1 & A2).
  revert n Hn.
  apply enc_chan_cases; cbv zeta;
    cbn [enc_chan nth s626_enc_chan_info Nat.leb regs enc_info_a enc_info_b
         pulse_index get_mode];
    first
      [ apply (pulse_index_a_full _ d); cbn [my_cra]; apply u16_idem
      | apply (pulse_index_b_full _ d); cbn [my_cra my_crb];
        [apply u16_idem | rewrite u16_idem; assumption] ].
Qed.

End IndexPulse.

(** ** Programming a mode and reading it back *)

Lemma fget_fits f g r :
  0 <= f_width f -> (f_width f <=? f_width g) = true ->
  Z.land (fget f r) (Z.ones (f_width g)) = fget f r.
Proof.
  intros Hw Hle. apply Z.leb_le in Hle. apply land_ones_small.
  pose proof (fget_range f r Hw).
  assert (2 ^ f_width f <= 2 ^ f_width g) by (apply Z.pow_le_mono_r; lia).
  lia.
Qed.

Lemma fits_land v f : fits v f = true -> Z.land v (Z.ones (f_width f)) = v.
Proof.
  unfold fits. rewrite andb_true_iff, Z.leb_le, Z.ltb_lt.
  intros H. now apply land_ones_small.
Qed.

Lemma fits_wider v f g :
  fits v f = true -> (f_width f <=? f_width g) = true -> 0 <= f_width f ->
  Z.land v (Z.ones (f_width g)) = v.
Proof.
  unfold fits. rewrite andb_true_iff, !Z.leb_le, Z.ltb_lt.
  intros H Hle Hw. apply land_ones_small.
  assert (2 ^ f_width f <= 2 ^ f_width g) by (apply Z.pow_le_mono_r; lia).
  lia.
Qed.

Lemma fget_if f (b : bool) x y :
  fget f (if b then x else y) = if b then fget f x else fget f y.
Proof. now destruct b. Qed.

Lemma if_same (A : Type) (b : bool) (x : A) : (if b then x else x) = x.
Proof. now destruct b. Qed.

Section RoundTrip.

Variable h : s626_h.
Hypothesis Hok : counter_h_okb h = true.

Lemma Hok_layout : counter_layout_okb h = true.
Proof. unfold counter_h_okb in Hok. andb_hyps. assumption. Qed.

Lemma Hok_addrs : counter_addrs_okb h = true.
Proof. unfold counter_h_okb in Hok. andb_hyps. assumption. Qed.

Lemma std_clkpol_bit r : 0 <= fget (STD_CLKPOL h) r < 2.
Proof.
  pose proof Hok as H. unfold counter_h_okb, counter_widths_okb in H.
  andb_hyps.
  match goal with
  | W : (f_width (STD_CLKPOL h) =? 1) = true |- _ =>
      apply Z.eqb_eq in W;
      pose proof (fget_range (STD_CLKPOL h) r) as R; rewrite W in R;
      apply R; lia
  end.
Qed.

(** All facts of [Hok] at once: layouts, widths, values. *)
Ltac ok_facts :=
  let L := fresh "L" in
  pose proof Hok as L;
  unfold counter_h_okb, counter_layout_okb, counter_widths_okb,
         counter_values_okb, counter_addrs_okb in L;
  cbn [layout_okb cra_fields crb_fields std_fields forallb] in L;
  andb_hyps;
  repeat match goal with
  | H : (_ =? _) = true |- _ => apply Z.eqb_eq in H
  | H : negb (_ =? _) = true |- _ => apply negb_true_iff in H
  end.

Ltac rt_norm :=
  unfold S626_CRBMSK_INTCTRL, fmsk;
  repeat first
    [ rewrite fget_lor
    | rewrite fget_land
    | rewrite fget_lxor
    | rewrite fget_if
    | rewrite fget_u16 by field_side
    | rewrite fget_u32 by field_side
    | rewrite fget_lnot by field_side
    | rewrite fget_fset by field_side
    | rewrite fget_fset_disj by field_side
    | rewrite fget_0
    | rewrite Z.lor_0_l | rewrite Z.lor_0_r
    | rewrite Z.land_0_l | rewrite Z.land_0_r
    | rewrite Z.lxor_0_l | rewrite Z.lxor_0_r
    | rewrite Z.land_m1_l
    | rewrite Z.lxor_nilpotent
    | rewrite if_same
    | rewrite fget_idem
    | rewrite fget_fits by field_side
    | rewrite (fits_land (S626_CLKMULT_1X h)) by assumption
    | rewrite (fits_land (S626_CLKMULT_SPECIAL h)) by assumption
    | rewrite (fits_land (S626_ENCMODE_COUNTER h)) by assumption
    | rewrite (fits_land (S626_ENCMODE_TIMER h)) by assumption
    | rewrite (fits_land (S626_ENCMODE_EXTENDER h)) by assumption
    | rewrite (fits_wider _ (STD_CLKMULT h)) by field_side
    | rewrite (fits_wider _ (STD_ENCMODE h)) by field_side ].

(** Small values in a field of at least that many bits. *)
Lemma land_ones_ge x n w :
  0 <= x < 2 ^ n -> 0 <= n <= w -> Z.land x (Z.ones w) = x.
Proof.
  intros Hx Hn. apply land_ones_small.
  assert (2 ^ n <= 2 ^ w) by (apply Z.pow_le_mono_r; lia). lia.
Qed.

Lemma lor_2_small x : 0 <= x < 2 -> 0 <= Z.lor 2 x < 2 ^ 2.
Proof. intros H. assert (x = 0 \/ x = 1) as [-> | ->] by lia; simpl; lia. Qed.

(** *** What [get_mode] reports, field by field *)

Section GetModeA.

Variables (k : enc_regs) (d : s626_dev).

Let cra := s626_debi_read (my_cra k) d.
Let crb := s626_debi_read (my_crb k) d.
Let sysclk := nz (Z.land (fget (CRA_CNTSRC_A h) cra) (S626_CNTSRC_SYSCLK h)).

Ltac open_get :=
  ok_facts; unfold s626_get_mode_a; cbv zeta; fold cra crb; fold sysclk;
  destruct sysclk; cbn beta iota; rt_norm.

Lemma get_mode_a_loadsrc :
  fget (STD_LOADSRC h) (s626_get_mode_a h k d) =
  Z.land (fget (CRA_LOADSRC_A h) cra) (Z.ones (f_width (STD_LOADSRC h))).
Proof. open_get; reflexivity. Qed.

Lemma get_mode_a_latchsrc :
  fget (STD_LATCHSRC h) (s626_get_mode_a h k d) =
  Z.land (fget (CRB_LATCHSRC h) crb) (Z.ones (f_width (STD_LATCHSRC h))).
Proof. open_get; reflexivity. Qed.

Lemma get_mode_a_intsrc :
  fget (STD_INTSRC h) (s626_get_mode_a h k d) =
  Z.land (fget (CRA_INTSRC_A h) cra) (Z.ones (f_width (STD_INTSRC h))).
Proof. open_get; reflexivity. Qed.

Lemma get_mode_a_indxsrc :
  fget (STD_INDXSRC h) (s626_get_mode_a h k d) =
  Z.land (fget (CRA_INDXSRC_A h) cra) (Z.ones (f_width (STD_INDXSRC h))).
Proof. open_get; reflexivity. Qed.

Lemma get_mode_a_indxpol :
  fget (STD_INDXPOL h) (s626_get_mode_a h k d) =
  Z.land (fget (CRA_INDXPOL_A h) cra) (Z.ones (f_width (STD_INDXPOL h))).
Proof. open_get; reflexivity. Qed.

Lemma get_mode_a_clkenab :
  fget (STD_CLKENAB h) (s626_get_mode_a h k d) =
  Z.land (fget (CRB_CLKENAB_A h) crb) (Z.ones (f_width (STD_CLKENAB h))).
Proof. open_get; reflexivity. Qed.

Lemma get_mode_a_encmode :
  fget (STD_ENCMODE h) (s626_get_mode_a h k d) =
  if sysclk then S626_ENCMODE_TIMER h else S626_ENCMODE_COUNTER h.
Proof. open_get; reflexivity. Qed.

Lemma get_mode_a_clkpol :
  fget (STD_CLKPOL h) (s626_get_mode_a h k d) =
  Z.land (if sysclk then Z.land (fget (CRA_CNTSRC_A h) cra) 1
          else fget (CRA_CLKPOL_A h) cra)
         (Z.ones (f_width (STD_CLKPOL h))).
Proof. open_get; reflexivity. Qed.

Lemma get_mode_a_clkmult :
  fget (STD_CLKMULT h) (s626_get_mode_a h k d) =
  if sysclk then S626_CLKMULT_1X h
  else if fget (CRA_CLKMULT_A h) cra =? S626_CLKMULT_SPECIAL h
       then S626_CLKMULT_1X h
       else Z.land (fget (CRA_CLKMULT_A h) cra)
                   (Z.ones (f_width (STD_CLKMULT h))).
Proof.
  open_get; try reflexivity.
  destruct (fget (CRA_CLKMULT_A h) cra =? S626_CLKMULT_SPECIAL h);
    rt_norm; reflexivity.
Qed.

End GetModeA.

Section VariantA.

Variable k : enc_regs.
Hypothesis Hcra : u16 (my_cra k) = my_cra k.
Hypothesis Hcrb : u16 (my_crb k) = my_crb k.
Hypothesis Hne : my_cra k <> my_crb k.

Variables (setup dis : Z) (d : s626_dev).

Let d' := s626_set_mode_a h k setup dis d.
Let cra' := s626_debi_read (my_cra k) d'.
Let crb' := s626_debi_read (my_crb k) d'.
Let timer := (fget (STD_ENCMODE h) setup =? S626_ENCMODE_EXTENDER h)
             || (fget (STD_ENCMODE h) setup =? S626_ENCMODE_TIMER h).

(** Reduces a field of [cra'] or [crb'] to the images written. *)
Ltac open_a :=
  ok_facts; unfold cra', crb', d', s626_set_mode_a; cbv zeta;
  fold timer; destruct timer; destruct (nz dis); cbn [negb];
  rewrite !debi_read_replace, ?Hcra, ?Hcrb, ?Z.eqb_refl;
  try (destruct (Z.eqb_spec (my_cra k) (my_crb k)); [contradiction|]);
  rewrite ?lp_replace_other by (rewrite Hcra; auto);
  cbn [lp with_counter_int_enabs]; rt_norm.

Lemma set_mode_a_loadsrc :
  fget (CRA_LOADSRC_A h) cra' = fget (STD_LOADSRC h) setup.
Proof. open_a; reflexivity. Qed.

Lemma set_mode_a_indxsrc :
  fget (CRA_INDXSRC_A h) cra' = fget (STD_INDXSRC h) setup.
Proof. open_a; reflexivity. Qed.

Lemma set_mode_a_intsrc :
  fget (CRA_INTSRC_A h) cra' =
  if nz dis then 0 else fget (STD_INTSRC h) setup.
Proof. open_a; reflexivity. Qed.

Lemma set_mode_a_indxpol :
  fget (CRA_INDXPOL_A h) cra' =
  if fget (STD_INDXSRC h) setup =? S626_INDXSRC_SOFT h then 0
  else fget (STD_INDXPOL h) setup.
Proof.
  open_a;
  destruct (fget (STD_INDXSRC h) setup =? S626_INDXSRC_SOFT h);
  cbn [negb]; reflexivity.
Qed.

Lemma set_mode_a_cntsrc :
  fget (CRA_CNTSRC_A h) cra' =
  if timer then Z.lor 2 (fget (STD_CLKPOL h) setup) else 0.
Proof.
  open_a;
  repeat match goal with
  | H : S626_CNTSRC_SYSCLK h = _ |- _ => rewrite H
  | H : S626_CNTSRC_ENCODER h = _ |- _ => rewrite H
  end; rewrite ?Z.land_0_l; try reflexivity;
  apply (land_ones_ge _ 2);
    try (apply lor_2_small, std_clkpol_bit);
    match goal with
    | H : (2 <=? f_width (CRA_CNTSRC_A h)) = true |- _ =>
        apply Z.leb_le in H; lia
    end.
Qed.

Lemma set_mode_a_clkpol :
  fget (CRA_CLKPOL_A h) cra' =
  if timer then 1 else fget (STD_CLKPOL h) setup.
Proof.
  open_a; try reflexivity;
  apply (land_ones_ge _ 1); try (change (2 ^ 1) with 2);
    try apply std_clkpol_bit; try lia;
    match goal with
    | H : field_okb (CRA_CLKPOL_A h) = true |- _ =>
        apply field_okb_spec in H; lia
    end.
Qed.

Lemma set_mode_a_clkmult :
  fget (CRA_CLKMULT_A h) cra' =
  if timer then S626_CLKMULT_1X h
  else if fget (STD_CLKMULT h) setup =? S626_CLKMULT_SPECIAL h
       then S626_CLKMULT_1X h
       else fget (STD_CLKMULT h) setup.
Proof.
  open_a; try reflexivity;
  destruct (fget (STD_CLKMULT h) setup =? S626_CLKMULT_SPECIAL h);
  rt_norm; reflexivity.
Qed.

Lemma set_mode_a_clkenab :
  fget (CRB_CLKENAB_A h) crb' = fget (STD_CLKENAB h) setup.
Proof. open_a; reflexivity. Qed.

Lemma set_mode_a_latchsrc :
  fget (CRB_LATCHSRC h) crb' =
  fget (CRB_LATCHSRC h) (s626_debi_read (my_crb k) d).
Proof. open_a; unfold s626_debi_read; rewrite Hcrb; rt_norm; reflexivity. Qed.

Lemma mode_round_trip_a :
  std_decode h (s626_get_mode_a h k d') =
  mode_read_back h false dis
    (fget (STD_LATCHSRC h) (s626_get_mode_a h k d)) (std_decode h setup).
Proof.
  unfold std_decode, mode_read_back.
  cbn [m_loadsrc m_latchsrc m_intsrc m_indxsrc m_indxpol m_encmode
       m_clkpol m_clkmult m_clkenab].
  rewrite get_mode_a_loadsrc, !get_mode_a_latchsrc, get_mode_a_intsrc,
    get_mode_a_indxsrc, get_mode_a_indxpol, get_mode_a_encmode,
    get_mode_a_clkpol, get_mode_a_clkmult, get_mode_a_clkenab.
  fold d'. fold cra' crb'.
  rewrite set_mode_a_loadsrc, set_mode_a_latchsrc, set_mode_a_intsrc,
    set_mode_a_indxsrc, set_mode_a_indxpol, set_mode_a_cntsrc,
    set_mode_a_clkpol, set_mode_a_clkmult, set_mode_a_clkenab.
  ok_facts. unfold timer.
  repeat match goal with
  | H : S626_CNTSRC_SYSCLK h = 2 |- _ => rewrite H
  end.
  destruct (fget (STD_ENCMODE h) setup =? S626_ENCMODE_EXTENDER h) eqn:EE,
           (fget (STD_ENCMODE h) setup =? S626_ENCMODE_TIMER h) eqn:ET;
    cbn [orb];
    rewrite ?land_2_lor_2, ?land_1_lor_2 by apply std_clkpol_bit;
    change (nz 2) with true; change (Z.land 0 2) with 0;
    change (nz 0) with false; cbv beta iota;
    destruct (nz dis);
    destruct (fget (STD_INDXSRC h) setup =? S626_INDXSRC_SOFT h);
    destruct (fget (STD_CLKMULT h) setup =? S626_CLKMULT_SPECIAL h) eqn:ES;
    repeat match goal with
    | H : (S626_CLKMULT_1X h =? S626_CLKMULT_SPECIAL h) = false |- _ =>
        rewrite H
    end;
    rewrite ?ES; rt_norm; reflexivity.
Qed.

End VariantA.

Section GetModeB.

Variables (k : enc_regs) (d : s626_dev).

Let cra := s626_debi_read (my_cra k) d.
Let crb := s626_debi_read (my_crb k) d.
Let special := fget (CRB_CLKMULT_B h) crb =? S626_CLKMULT_SPECIAL h.
Let sysclk := nz (Z.land (fget (CRA_CNTSRC_B h) cra) (S626_CNTSRC_SYSCLK h)).

Ltac open_get :=
  ok_facts; unfold s626_get_mode_b; cbv zeta; fold cra crb;
  fold special; fold sysclk;
  destruct special; [|destruct sysclk]; cbn beta iota; rt_norm.

Lemma get_mode_b_loadsrc :
  fget (STD_LOADSRC h) (s626_get_mode_b h k d) =
  Z.land (fget (CRB_LOADSRC_B h) crb) (Z.ones (f_width (STD_LOADSRC h))).
Proof. open_get; reflexivity. Qed.

Lemma get_mode_b_latchsrc :
  fget (STD_LATCHSRC h) (s626_get_mode_b h k d) =
  Z.land (fget (CRB_LATCHSRC h) crb) (Z.ones (f_width (STD_LATCHSRC h))).
Proof. open_get; reflexivity. Qed.

Lemma get_mode_b_intsrc :
  fget (STD_INTSRC h) (s626_get_mode_b h k d) =
  Z.land (fget (CRB_INTSRC_B h) crb) (Z.ones (f_width (STD_INTSRC h))).
Proof. open_get; reflexivity. Qed.

Lemma get_mode_b_indxsrc :
  fget (STD_INDXSRC h) (s626_get_mode_b h k d) =
  Z.land (fget (CRA_INDXSRC_B h) cra) (Z.ones (f_width (STD_INDXSRC h))).
Proof. open_get; reflexivity. Qed.

Lemma get_mode_b_indxpol :
  fget (STD_INDXPOL h) (s626_get_mode_b h k d) =
  Z.land (fget (CRB_INDXPOL_B h) crb) (Z.ones (f_width (STD_INDXPOL h))).
Proof. open_get; reflexivity. Qed.

Lemma get_mode_b_clkenab :
  fget (STD_CLKENAB h) (s626_get_mode_b h k d) =
  Z.land (fget (CRB_CLKENAB_B h) crb) (Z.ones (f_width (STD_CLKENAB h))).
Proof. open_get; reflexivity. Qed.

Lemma get_mode_b_encmode :
  fget (STD_ENCMODE h) (s626_get_mode_b h k d) =
  if special then S626_ENCMODE_EXTENDER h
  else if sysclk then S626_ENCMODE_TIMER h else S626_ENCMODE_COUNTER h.
Proof. open_get; reflexivity. Qed.

Lemma get_mode_b_clkpol :
  fget (STD_CLKPOL h) (s626_get_mode_b h k d) =
  Z.land (if special || sysclk then Z.land (fget (CRA_CNTSRC_B h) cra) 1
          else fget (CRB_CLKPOL_B h) crb)
         (Z.ones (f_width (STD_CLKPOL h))).
Proof. open_get; reflexivity. Qed.

Lemma get_mode_b_clkmult :
  fget (STD_CLKMULT h) (s626_get_mode_b h k d) =
  if special || sysclk then S626_CLKMULT_1X h
  else Z.land (fget (CRB_CLKMULT_B h) crb)
              (Z.ones (f_width (STD_CLKMULT h))).
Proof. open_get; reflexivity. Qed.

End GetModeB.

Section VariantB.

Variable k : enc_regs.
Hypothesis Hcra : u16 (my_cra k) = my_cra k.
Hypothesis Hcrb : u16 (my_crb k) = my_crb k.
Hypothesis Hne : my_cra k <> my_crb k.

Variables (setup dis : Z) (d : s626_dev).

Let d' := s626_set_mode_b h k setup dis d.
Let cra' := s626_debi_read (my_cra k) d'.
Let crb' := s626_debi_read (my_crb k) d'.
Let timer := fget (STD_ENCMODE h) setup =? S626_ENCMODE_TIMER h.
Let extender := fget (STD_ENCMODE h) setup =? S626_ENCMODE_EXTENDER h.

Ltac open_b :=
  ok_facts; unfold cra', crb', d', s626_set_mode_b; cbv zeta;
  fold timer; fold extender; destruct timer; [|destruct extender];
  destruct (nz dis); cbn [negb orb];
  rewrite !debi_read_replace, ?Hcra, ?Hcrb, ?Z.eqb_refl;
  try (destruct (Z.eqb_spec (my_cra k) (my_crb k)); [contradiction|]);
  rewrite ?lp_replace_other by (rewrite Hcra; auto);
  cbn [lp with_counter_int_enabs]; rt_norm.

Lemma set_mode_b_indxsrc :
  fget (CRA_INDXSRC_B h) cra' = fget (STD_INDXSRC h) setup.
Proof. open_b; reflexivity. Qed.

Lemma set_mode_b_cntsrc :
  fget (CRA_CNTSRC_B h) cra' =
  if timer || extender then Z.lor 2 (fget (STD_CLKPOL h) setup) else 0.
Proof.
  open_b;
  repeat match goal with
  | H : S626_CNTSRC_SYSCLK h = _ |- _ => rewrite H
  | H : S626_CNTSRC_ENCODER h = _ |- _ => rewrite H
  end; rewrite ?Z.land_0_l; try reflexivity;
  apply (land_ones_ge _ 2);
    try (apply lor_2_small, std_clkpol_bit);
    match goal with
    | H : (2 <=? f_width (CRA_CNTSRC_B h)) = true |- _ =>
        apply Z.leb_le in H; lia
    end.
Qed.

Lemma set_mode_b_loadsrc :
  fget (CRB_LOADSRC_B h) crb' = fget (STD_LOADSRC h) setup.
Proof. open_b; reflexivity. Qed.

Lemma set_mode_b_clkenab :
  fget (CRB_CLKENAB_B h) crb' = fget (STD_CLKENAB h) setup.
Proof. open_b; reflexivity. Qed.

Lemma set_mode_b_intsrc :
  fget (CRB_INTSRC_B h) crb' =
  if nz dis then 0 else fget (STD_INTSRC h) setup.
Proof. open_b; reflexivity. Qed.

Lemma set_mode_b_indxpol :
  fget (CRB_INDXPOL_B h) crb' =
  if fget (STD_INDXSRC h) setup =? S626_INDXSRC_SOFT h then 0
  else fget (STD_INDXPOL h) setup.
Proof.
  open_b;
  destruct (fget (STD_INDXSRC h) setup =? S626_INDXSRC_SOFT h);
  cbn [negb]; reflexivity.
Qed.

Lemma set_mode_b_clkpol :
  fget (CRB_CLKPOL_B h) crb' =
  if timer || extender then 1 else fget (STD_CLKPOL h) setup.
Proof.
  open_b; try reflexivity;
  apply (land_ones_ge _ 1); try (change (2 ^ 1) with 2);
    try apply std_clkpol_bit; try lia;
    match goal with
    | H : field_okb (CRB_CLKPOL_B h) = true |- _ =>
        apply field_okb_spec in H; lia
    end.
Qed.

Lemma set_mode_b_clkmult :
  fget (CRB_CLKMULT_B h) crb' =
  if timer then S626_CLKMULT_1X h
  else if extender then S626_CLKMULT_SPECIAL h
  else if fget (STD_CLKMULT h) setup =? S626_CLKMULT_SPECIAL h
       then S626_CLKMULT_1X h
       else fget (STD_CLKMULT h) setup.
Proof.
  open_b; try reflexivity;
  destruct (fget (STD_CLKMULT h) setup =? S626_CLKMULT_SPECIAL h);
  rt_norm; reflexivity.
Qed.

Lemma set_mode_b_latchsrc :
  fget (CRB_LATCHSRC h) crb' =
  fget (CRB_LATCHSRC h) (s626_debi_read (my_crb k) d).
Proof. open_b; unfold s626_debi_read; rewrite Hcrb; rt_norm; reflexivity. Qed.

Lemma mode_round_trip_b :
  std_decode h (s626_get_mode_b h k d') =
  mode_read_back h true dis
    (fget (STD_LATCHSRC h) (s626_get_mode_b h k d)) (std_decode h setup).
Proof.
  unfold std_decode, mode_read_back.
  cbn [m_loadsrc m_latchsrc m_intsrc m_indxsrc m_indxpol m_encmode
       m_clkpol m_clkmult m_clkenab].
  rewrite get_mode_b_loadsrc, !get_mode_b_latchsrc, get_mode_b_intsrc,
    get_mode_b_indxsrc, get_mode_b_indxpol, get_mode_b_encmode,
    get_mode_b_clkpol, get_mode_b_clkmult, get_mode_b_clkenab.
  fold d'. fold cra' crb'.
  rewrite set_mode_b_loadsrc, set_mode_b_latchsrc, set_mode_b_intsrc,
    set_mode_b_indxsrc, set_mode_b_indxpol, set_mode_b_cntsrc,
    set_mode_b_clkpol, set_mode_b_clkmult, set_mode_b_clkenab.
  ok_facts. unfold timer, extender.
  repeat match goal with
  | H : S626_CNTSRC_SYSCLK h = 2 |- _ => rewrite H
  end.
  destruct (fget (STD_ENCMODE h) setup =? S626_ENCMODE_TIMER h) eqn:ET,
           (fget (STD_ENCMODE h) setup =? S626_ENCMODE_EXTENDER h) eqn:EE;
    cbn [orb];
    rewrite ?land_2_lor_2, ?land_1_lor_2 by apply std_clkpol_bit;
    change (nz 2) with true; change (Z.land 0 2) with 0;
    change (nz 0) with false;
    destruct (nz dis);
    destruct (fget (STD_INDXSRC h) setup =? S626_INDXSRC_SOFT h);
    destruct (fget (STD_CLKMULT h) setup =? S626_CLKMULT_SPECIAL h) eqn:ES;
    repeat match goal with
    | H : (S626_CLKMULT_1X h =? S626_CLKMULT_SPECIAL h) = false |- _ =>
        rewrite H
    end;
    rewrite ?ES, ?Z.eqb_refl; cbn [orb]; cbv beta iota;
    rt_norm; reflexivity.
Qed.

End VariantB.

(** C1 (as amended).  For each of the six counters and every mode word,
    programming the mode and reading it back at once gives the fields
    of [mode_read_back]: load source, index source, clock enable and
    clock polarity are reproduced; the interrupt source is reproduced
    unless [set_mode] was asked to disable it; the index polarity is
    reproduced unless the index source is software (then it reads 0);
    the latch source is not programmed and reads what the counter pair
    held before; the encoding mode reads Timer, Extender (B counters
    only, Timer on A counters) or Counter; the clock multiplier reads 1x
    in Timer and Extender mode and otherwise the programmed value with
    the special value replaced by 1x. *)
Theorem mode_round_trip (n : nat) (setup dis : Z) (d : s626_dev) :
  (n < 6)%nat ->
  let k := enc_chan h n in
  std_decode h (get_mode k (regs k) (set_mode k (regs k) setup dis d)) =
  mode_read_back h (3 <=? n)%nat dis
    (fget (STD_LATCHSRC h) (get_mode k (regs k) d)) (std_decode h setup).
Proof.
  intros Hn. destruct (addrs_distinct h Hok_addrs) as (A0 & A1 & A2).
  revert n Hn.
  apply enc_chan_cases; cbv zeta;
    cbn [enc_chan nth s626_enc_chan_info Nat.leb regs enc_info_a enc_info_b
         set_mode get_mode];
    first [ apply mode_round_trip_a | apply mode_round_trip_b ];
    cbn [my_cra my_crb]; first [ apply u16_idem | assumption ].
Qed.

End RoundTrip.

(** The round trip at the reference values: counter 1B, Extender mode
    with the 4x multiplier and the software index source. *)
Lemma mode_round_trip_witness :
  counter_h_okb s626_h_ref = true /\ (4 < 6)%nat /\
  let k := enc_chan s626_h_ref 4 in
  std_decode s626_h_ref
    (get_mode k (regs k)
       (set_mode k (regs k) 0x6530 0 (idle_dev 0 null_cmd))) =
  mode_read_back s626_h_ref true 0
    (fget (STD_LATCHSRC s626_h_ref)
       (get_mode k (regs k) (idle_dev 0 null_cmd)))
    (std_decode s626_h_ref 0x6530).
Proof.
  split; [reflexivity|]. split; [lia|].
  apply (mode_round_trip s626_h_ref); [reflexivity | lia].
Defined.

(** C1 as stated fails: on counter 0A a mode word that asks for latch
    source 1 (and is otherwise zero: Counter mode, a legal multiplier)
    reads back with latch source 0, because [set_mode] leaves the latch
    source of the counter pair as it was. *)
Lemma mode_round_trip_counterexample :
  let h := s626_h_ref in
  let k := enc_chan h 0 in
  let setup := 0x0800 in
  let back := get_mode k (regs k)
                (set_mode k (regs k) setup 0 (idle_dev 0 null_cmd)) in
  m_encmode (std_decode h setup) = S626_ENCMODE_COUNTER h
  /\ m_clkmult (std_decode h setup) <> S626_CLKMULT_SPECIAL h
  /\ m_latchsrc (std_decode h setup) = 1
  /\ m_latchsrc (std_decode h back) = 0
  /\ std_decode h back <> std_decode h setup.
Proof.
  vm_compute. repeat split; discriminate.
Qed.

Lemma pulse_index_preserves_mode_witness :
  counter_layout_okb s626_h_ref = true
  /\ counter_addrs_okb s626_h_ref = true /\ (5 < 6)%nat /\
  let h := s626_h_ref in
  let d := idle_dev 0 null_cmd in
  let k := enc_chan h 5 in
  let reg := my_crb (regs k) in
  let d' := pulse_index k (regs k) d in
  exists v1 v0,
    lp_trace d' = lp_trace d ++ [(reg, v1); (reg, v0)]
    /\ fget (CRB_INDXPOL_B h) v1 =
       Z.lxor (fget (CRB_INDXPOL_B h) (s626_debi_read reg d))
              (Z.ones (f_width (CRB_INDXPOL_B h)))
    /\ (forall f, In f (crb_mode_fields h) ->
        disjointb f (CRB_INDXPOL_B h) = true ->
        fget f v1 = fget f (s626_debi_read reg d))
    /\ (forall f, In f (crb_mode_fields h) ->
        fget f v0 = fget f (s626_debi_read reg d))
    /\ (forall f, In f (crb_mode_fields h) ->
        fget f (s626_debi_read reg d') = fget f (s626_debi_read reg d))
    /\ (forall a, u16 a <> reg -> s626_debi_read a d' = s626_debi_read a d)
    /\ get_mode k (regs k) d' = get_mode k (regs k) d.
Proof.
  split; [reflexivity|]. split; [reflexivity|]. split; [lia|].
  apply (pulse_index_preserves_mode s626_h_ref); [reflexivity | reflexivity | lia].
Defined.

(** ** Tick computation *)

Lemma s32_small x : -2147483648 <= x < 2147483648 -> s32 x = x.
Proof. intros H. unfold s32. rewrite Z.mod_small by lia. lia. Qed.

Lemma u32_mod x : u32 x = x mod 4294967296.
Proof. unfold u32. change 4294967295 with (Z.ones 32). now rewrite Z.land_ones. Qed.

Lemma u32_small x : 0 <= x < 4294967296 -> u32 x = x.
Proof. intros H. rewrite u32_mod. now apply Z.mod_small. Qed.

Section Timer.

Variable c : comedi_h.
Hypothesis Hround : round_modes_okb c = true.

Lemma round_modes_distinct :
  TRIG_ROUND_NEAREST c <> TRIG_ROUND_DOWN c
  /\ TRIG_ROUND_NEAREST c <> TRIG_ROUND_UP c
  /\ TRIG_ROUND_DOWN c <> TRIG_ROUND_UP c.
Proof.
  pose proof Hround as H. unfold round_modes_okb in H. andb_hyps.
  repeat match goal with
  | H : negb (_ =? _) = true |- _ => apply negb_true_iff, Z.eqb_neq in H
  end. auto.
Qed.

(** The value [s626_ns_to_timer] computes for each policy, as long as
    the additions do not leave the range of [int]. *)
Lemma ns_to_timer_value (p : rounding) (ns : Z) :
  0 <= ns <= 2147483147 ->
  s626_ns_to_timer c ns (round_mode c p) =
  let divider := match p with
                 | RoundNearest => (ns + 250) / 500
                 | RoundDown => ns / 500
                 | RoundUp => (ns + 499) / 500
                 end in
  (divider - 1, 500 * divider).
Proof.
  intros Hns. destruct round_modes_distinct as (ND & NU & DU).
  unfold s626_ns_to_timer. cbv zeta.
  change (Z.quot 500 2) with 250.
  destruct p; cbn [round_mode].
  - rewrite Z.eqb_refl.
    rewrite (s32_small (ns + 250)) by lia.
    rewrite Z.quot_div_nonneg by lia.
    assert (0 <= (ns + 250) / 500 < 4294968) by
      (split; [apply Z.div_pos; lia | apply Z.div_lt_upper_bound; lia]).
    now rewrite !s32_small by lia.
  - destruct (Z.eqb_spec (TRIG_ROUND_DOWN c) (TRIG_ROUND_NEAREST c));
      [congruence|].
    rewrite Z.eqb_refl.
    rewrite Z.quot_div_nonneg by lia.
    assert (0 <= ns / 500 < 4294968) by
      (split; [apply Z.div_pos; lia | apply Z.div_lt_upper_bound; lia]).
    now rewrite !s32_small by lia.
  - destruct (Z.eqb_spec (TRIG_ROUND_UP c) (TRIG_ROUND_NEAREST c));
      [congruence|].
    destruct (Z.eqb_spec (TRIG_ROUND_UP c) (TRIG_ROUND_DOWN c));
      [congruence|].
    rewrite Z.eqb_refl.
    rewrite (s32_small (ns + 500)) by lia.
    rewrite (s32_small (ns + 500 - 1)) by lia.
    replace (ns + 500 - 1) with (ns + 499) by lia.
    rewrite Z.quot_div_nonneg by lia.
    assert (0 <= (ns + 499) / 500 < 4294968) by
      (split; [apply Z.div_pos; lia | apply Z.div_lt_upper_bound; lia]).
    now rewrite !s32_small by lia.
Qed.

(** C4.  With the 500 ns base, for every interval that the additions of
    the computation keep inside the range of [int], [s626_ns_to_timer]
    finds the divider that the selected policy (nearest, down, up)
    assigns to the interval, leaves the realized interval [500 * divider]
    in the caller's argument and returns [divider - 1].  For 999 ns:
    nearest gives divider 2 (1000 ns), down divider 1 (500 ns), up
    divider 2 (1000 ns). *)
Theorem ns_to_timer_rounds (p : rounding) (ns : Z) :
  0 <= ns <= 2147483147 ->
  (exists divider,
     divides_as p ns divider
     /\ s626_ns_to_timer c ns (round_mode c p) = (divider - 1, 500 * divider))
  /\ s626_ns_to_timer c 999 (TRIG_ROUND_NEAREST c) = (2 - 1, 1000)
  /\ s626_ns_to_timer c 999 (TRIG_ROUND_DOWN c) = (1 - 1, 500)
  /\ s626_ns_to_timer c 999 (TRIG_ROUND_UP c) = (2 - 1, 1000).
Proof.
  intros Hns. split; [|repeat split].
  - rewrite ns_to_timer_value by assumption. cbv zeta.
    eexists. split; [|reflexivity].
    destruct p; unfold divides_as.
    + pose proof (Z.div_mod (ns + 250) 500). pose proof (Z.mod_pos_bound (ns + 250) 500). lia.
    + pose proof (Z.div_mod ns 500). pose proof (Z.mod_pos_bound ns 500). lia.
    + pose proof (Z.div_mod (ns + 499) 500). pose proof (Z.mod_pos_bound (ns + 499) 500). lia.
  - apply (ns_to_timer_value RoundNearest 999). lia.
  - apply (ns_to_timer_value RoundDown 999). lia.
  - apply (ns_to_timer_value RoundUp 999). lia.
Qed.

End Timer.

Lemma ns_to_timer_rounds_witness :
  round_modes_okb comedi_h_ref = true /\ 0 <= 200300 <= 2147483147 /\
  (exists divider,
     divides_as RoundUp 200300 divider
     /\ s626_ns_to_timer comedi_h_ref 200300
          (round_mode comedi_h_ref RoundUp) = (divider - 1, 500 * divider))
  /\ s626_ns_to_timer comedi_h_ref 999 (TRIG_ROUND_NEAREST comedi_h_ref)
     = (2 - 1, 1000)
  /\ s626_ns_to_timer comedi_h_ref 999 (TRIG_ROUND_DOWN comedi_h_ref)
     = (1 - 1, 500)
  /\ s626_ns_to_timer comedi_h_ref 999 (TRIG_ROUND_UP comedi_h_ref)
     = (2 - 1, 1000).
Proof.
  split; [reflexivity|]. split; [lia|].
  apply (ns_to_timer_rounds comedi_h_ref); [reflexivity | lia].
Defined.

(** ** Arrays *)

Lemma length_upd i v l : length (upd i v l) = length l.
Proof.
  revert i. induction l as [|x l IH]; intros [|i]; simpl; auto.
Qed.

Lemma nth_error_upd i v l j :
  nth_error (upd i v l) j =
  if ((j =? i) && (j <? length l))%nat then Some v else nth_error l j.
Proof.
  revert i j. induction l as [|x l IH]; intros [|i] [|j]; simpl;
    rewrite ?andb_false_r; try reflexivity.
  apply IH.
Qed.

Lemma length_cells_store i v b : length (cells (store i v b)) = length (cells b).
Proof. apply length_upd. Qed.

Lemma length_cells_blit ws i b :
  length (cells (blit ws i b)) = length (cells b).
Proof.
  revert i b. induction ws as [|w ws IH]; intros i b; simpl; [reflexivity|].
  now rewrite IH, length_cells_store.
Qed.

(** The cells after a run of consecutive stores. *)
Lemma nth_error_cells_blit ws i b j :
  nth_error (cells (blit ws i b)) j =
  if ((i <=? j) && (j <? i + length ws) && (j <? length (cells b)))%nat
  then nth_error ws (j - i) else nth_error (cells b) j.
Proof.
  revert i b. induction ws as [|w ws IH]; intros i b; simpl.
  - replace (j <? i + 0)%nat with (j <? i)%nat by (f_equal; lia).
    destruct (Nat.leb_spec i j), (Nat.ltb_spec j i); try lia; reflexivity.
  - rewrite IH, length_cells_store. simpl cells. rewrite nth_error_upd.
    destruct (Nat.leb_spec (S i) j), (Nat.leb_spec i j),
             (Nat.ltb_spec j (S i + length ws)),
             (Nat.ltb_spec j (i + S (length ws))),
             (Nat.ltb_spec j (length (cells b))),
             (Nat.eqb_spec j i); try lia; simpl; try reflexivity.
    + replace (j - i)%nat with (S (j - S i)) by lia. reflexivity.
    + subst j. now rewrite Nat.sub_diag.
Qed.

(** Writing the same words to the same place twice leaves the cells as
    after the first time. *)
Lemma cells_blit_idem ws i b :
  cells (blit ws i (blit ws i b)) = cells (blit ws i b).
Proof.
  apply nth_error_ext. intros j.
  rewrite nth_error_cells_blit, length_cells_blit.
  destruct ((i <=? j) && (j <? i + length ws) && (j <? length (cells b)))%nat
    eqn:E; [|reflexivity].
  now rewrite nth_error_cells_blit, E.
Qed.

Lemma writes_blit ws i b :
  map fst (writes (blit ws i b)) = map fst (writes b) ++ seq i (length ws).
Proof.
  revert i b. induction ws as [|w ws IH]; intros i b; simpl.
  - now rewrite app_nil_r.
  - rewrite IH. simpl. rewrite map_app, <- app_assoc. reflexivity.
Qed.

Lemma peek_in_range i b v :
  nth_error (cells b) i = Some v -> peek i b = v.
Proof. unfold peek. now intros ->. Qed.

Lemma length_stack_array n g : length (cells (stack_array n g)) = n.
Proof. unfold stack_array; simpl. now rewrite length_map, length_seq. Qed.

(** ** Poll list construction *)

Section PollList.

Variable h : s626_h.
Variable c : comedi_h.

Lemma load_polllist_loop_spec chans n b :
  let r := load_polllist_loop h c chans n b in
  fst r = (n + length chans)%nat
  /\ length (cells (snd r)) = length (cells b)
  /\ map fst (writes (snd r)) = map fst (writes b) ++ seq n (length chans)
  /\ forall j,
       nth_error (cells (snd r)) j =
       if ((n <=? j) && (j <? n + length chans)
           && (j <? length (cells b)))%nat
       then option_map (polllist_entry h c) (nth_error chans (j - n))
       else nth_error (cells b) j.
Proof.
  revert n b. induction chans as [|ch chans IH]; intros n b; cbv zeta.
  - simpl. repeat split; try lia.
    + now rewrite app_nil_r.
    + intros j. replace (j <? n + 0)%nat with (j <? n)%nat by (f_equal; lia).
      destruct (Nat.leb_spec n j), (Nat.ltb_spec j n); try lia; reflexivity.
  - cbn [load_polllist_loop].
    specialize (IH (S n) (store n
      (u8 (if CR_RANGE c ch =? 0
           then Z.lor (CR_CHAN c ch) (S626_RANGE_5V h)
           else Z.lor (CR_CHAN c ch) (S626_RANGE_10V h))) b)).
    cbv zeta in IH. destruct IH as (F & L & W & C).
    rewrite length_cells_store in L, C.
    repeat split.
    + rewrite F. simpl. lia.
    + exact L.
    + rewrite W. simpl. rewrite map_app, <- app_assoc. reflexivity.
    + intros j. rewrite C. simpl cells. rewrite nth_error_upd.
      destruct (Nat.leb_spec (S n) j), (Nat.leb_spec n j),
               (Nat.ltb_spec j (S n + length chans)),
               (Nat.ltb_spec j (n + length (ch :: chans))),
               (Nat.ltb_spec j (length (cells b))),
               (Nat.eqb_spec j n); simpl in *; try lia; try reflexivity.
      * replace (j - n)%nat with (S (j - S n)) by lia. reflexivity.
      * subst j. now rewrite Nat.sub_diag.
Qed.

Lemma load_polllist_writes (ppl : buffer) (cm : comedi_cmd) :
  let len := length (chanlist cm) in
  let r := s626_ai_load_polllist h c ppl cm in
  fst r = chanlist_len cm
  /\ length (cells (snd r)) = length (cells ppl)
  /\ map fst (writes (snd r)) =
     map fst (writes ppl) ++ seq 0 len
     ++ (if (len =? 0)%nat then [] else [(len - 1)%nat]).
Proof.
  cbv zeta. unfold s626_ai_load_polllist.
  pose proof (load_polllist_loop_spec (chanlist cm) 0 ppl) as S.
  cbv zeta in S. destruct (load_polllist_loop h c (chanlist cm) 0 ppl)
    as [n b]. simpl in S. destruct S as (F & L & W & _). subst n.
  destruct (length (chanlist cm) =? 0)%nat eqn:E; cbn [negb fst snd].
  - repeat split; try assumption. now rewrite W, app_nil_r.
  - repeat split.
    + now rewrite length_cells_store.
    + simpl writes. rewrite map_app, W, <- app_assoc. reflexivity.
Qed.

Lemma Forall_lt_seq (len bound : nat) :
  Forall (fun i => (i < bound)%nat) (seq 0 len) <-> (len <= bound)%nat.
Proof.
  rewrite Forall_forall. split.
  - intros H. destruct (Nat.le_gt_cases len bound) as [|G]; [assumption|].
    specialize (H bound). rewrite in_seq in H. lia.
  - intros H i Hi. rewrite in_seq in Hi. lia.
Qed.

End PollList.

Lemma free_run_cmd_accepted (n : nat) :
  fst (s626_ai_cmdtest comedi_h_ref (free_run_cmd comedi_h_ref n)) = 0.
Proof.
  set (cm := free_run_cmd comedi_h_ref n).
  assert (S1 : cmdtest_step1 comedi_h_ref cm = (cm, 0)) by reflexivity.
  assert (S2 : cmdtest_step2 comedi_h_ref cm = 0) by reflexivity.
  assert (S3 : cmdtest_step3 comedi_h_ref cm = (cm, 0)).
  { unfold cmdtest_step3, checked. cbn.
    replace (chanlist_len cm) with (Z.of_nat n)
      by (unfold chanlist_len, cm; simpl; now rewrite repeat_length).
    unfold check_trigger_arg_is_ref at 1. rewrite Z.eqb_refl. reflexivity. }
  assert (S4 : cmdtest_step4 comedi_h_ref cm = (cm, 0)) by reflexivity.
  unfold s626_ai_cmdtest. rewrite S1. cbn [nz Z.eqb negb].
  rewrite S2. cbn [nz Z.eqb negb]. rewrite S3. cbn [nz Z.eqb negb].
  rewrite S4. reflexivity.
Qed.

(** C10.  The poll list loader stores one entry per channel of the
    command at the indices [0 .. chanlist_len - 1] of the caller's
    array and then rewrites the last of them with the end-of-list flag;
    it never compares an index with the size of the array.  On the
    16-entry array of the arm path all these stores stay inside the
    array if and only if the channel list has at most 16 entries; the
    command validation accepts channel lists of every length. *)
Theorem load_polllist_in_bounds (h : s626_h) (c : comedi_h)
  (garbage : nat -> Z) (cm : comedi_cmd) :
  let len := length (chanlist cm) in
  let ppl := stack_array 16 garbage in
  let r := s626_ai_load_polllist h c ppl cm in
  length (cells ppl) = 16%nat
  /\ fst r = chanlist_len cm
  /\ map fst (writes (snd r)) =
     seq 0 len ++ (if (len =? 0)%nat then [] else [(len - 1)%nat])
  /\ (Forall (fun w => (fst w < length (cells ppl))%nat) (writes (snd r))
      <-> (len <= 16)%nat)
  /\ (forall n : nat,
        length (chanlist (free_run_cmd comedi_h_ref n)) = n
        /\ fst (s626_ai_cmdtest comedi_h_ref (free_run_cmd comedi_h_ref n))
           = 0).
Proof.
  cbv zeta.
  destruct (load_polllist_writes h c (stack_array 16 garbage) cm)
    as (F & _ & W). simpl in W.
  rewrite length_stack_array.
  split; [reflexivity|]. split; [exact F|]. split; [exact W|]. split.
  - rewrite <- (Forall_map fst (fun i => (i < 16)%nat)), W, Forall_app.
    rewrite Forall_lt_seq.
    destruct (length (chanlist cm) =? 0)%nat eqn:E.
    + apply Nat.eqb_eq in E. rewrite E. split; [lia|]. intros _.
      split; [lia | constructor].
    + apply Nat.eqb_neq in E. split; [tauto|]. intros H.
      split; [assumption|]. constructor; [lia | constructor].
  - intros n. split; [apply repeat_length | apply free_run_cmd_accepted].
Qed.

(** ** End-of-list flags of a loaded poll list *)

Lemma u8_idem x : u8 (u8 x) = u8 x.
Proof. unfold u8. rewrite <- Z.land_assoc. reflexivity. Qed.

Section PollListFlags.

Variable h : s626_h.
Variable c : comedi_h.
Hypothesis Hconsts : polllist_consts_okb h = true.

Lemma eopl_facts :
  Z.land (S626_RANGE_5V h) (S626_EOPL h) = 0
  /\ Z.land (S626_RANGE_10V h) (S626_EOPL h) = 0
  /\ Z.land 15 (S626_EOPL h) = 0
  /\ Z.land 255 (S626_EOPL h) = S626_EOPL h
  /\ S626_EOPL h <> 0.
Proof.
  pose proof Hconsts as H. unfold polllist_consts_okb in H. andb_hyps.
  repeat match goal with
  | H : (_ =? _) = true |- _ => apply Z.eqb_eq in H
  | H : negb (_ =? _) = true |- _ => apply negb_true_iff, Z.eqb_neq in H
  end.
  repeat split; try assumption.
  rewrite Z.land_comm. assumption.
Qed.

Lemma land_u8_eopl x : Z.land (u8 x) (S626_EOPL h) = Z.land x (S626_EOPL h).
Proof.
  destruct eopl_facts as (_ & _ & _ & E & _).
  unfold u8. now rewrite <- Z.land_assoc, E.
Qed.

Lemma chan_no_eopl x : 0 <= x < 16 -> Z.land x (S626_EOPL h) = 0.
Proof.
  intros Hx. destruct eopl_facts as (_ & _ & E & _ & _).
  rewrite <- (land_ones_small x 4) by (simpl; lia).
  change (Z.ones 4) with 15.
  now rewrite <- Z.land_assoc, E, Z.land_0_r.
Qed.

(** An entry for a channel below 16 carries no end-of-list flag. *)
Lemma entry_no_eopl ch :
  0 <= CR_CHAN c ch < 16 ->
  Z.land (u8 (polllist_entry h c ch)) (S626_EOPL h) = 0.
Proof.
  intros Hch. destruct eopl_facts as (R5 & R10 & _ & _ & _).
  unfold polllist_entry. rewrite u8_idem, land_u8_eopl.
  destruct (CR_RANGE c ch =? 0);
    rewrite Z.land_lor_distr_l, (chan_no_eopl _ Hch), ?R5, ?R10;
    reflexivity.
Qed.

Lemma marked_has_eopl x :
  Z.land (u8 (u8 (Z.lor x (S626_EOPL h)))) (S626_EOPL h) = S626_EOPL h.
Proof.
  rewrite u8_idem, land_u8_eopl, Z.land_lor_distr_l, Z.land_diag.
  apply Z.bits_inj'. intros n _. rewrite Z.lor_spec, Z.land_spec.
  destruct (Z.testbit x n), (Z.testbit (S626_EOPL h) n); reflexivity.
Qed.

(** The cells of the 16-entry array after the loader has run. *)
Lemma loaded_cells (g : nat -> Z) (cm : comedi_cmd) (j : nat) :
  let len := length (chanlist cm) in
  let ppl := snd (s626_ai_load_polllist h c (stack_array 16 g) cm) in
  (j < 16)%nat -> (j < len)%nat -> (len <= 16)%nat ->
  exists ch, nth_error (chanlist cm) j = Some ch /\
    peek j ppl =
    if (j =? len - 1)%nat
    then u8 (Z.lor (polllist_entry h c ch) (S626_EOPL h))
    else polllist_entry h c ch.
Proof.
  cbv zeta. intros Hj Hlen _.
  destruct (nth_error (chanlist cm) j) as [ch|] eqn:Ech;
    [|apply nth_error_None in Ech; lia].
  exists ch. split; [reflexivity|].
  unfold s626_ai_load_polllist.
  pose proof (load_polllist_loop_spec h c (chanlist cm) 0
                (stack_array 16 g)) as S.
  cbv zeta in S.
  destruct (load_polllist_loop h c (chanlist cm) 0 (stack_array 16 g))
    as [n b]. cbn [fst snd] in S. destruct S as (F & L & _ & C).
  subst n. rewrite Nat.add_0_l in *.
  rewrite length_stack_array in L, C.
  assert (Cj : nth_error (cells b) j = Some (polllist_entry h c ch)).
  { rewrite C, Nat.sub_0_r, Ech.
    destruct (Nat.ltb_spec j (length (chanlist cm))), (Nat.ltb_spec j 16);
      try lia; reflexivity. }
  destruct (length (chanlist cm) =? 0)%nat eqn:E0;
    [apply Nat.eqb_eq in E0; lia|].
  cbn [negb snd].
  destruct (Nat.eqb_spec j (length (chanlist cm) - 1)) as [E | E].
  - apply peek_in_range. simpl cells. rewrite nth_error_upd, L, <- E.
    rewrite Nat.eqb_refl. destruct (Nat.ltb_spec j 16); [|lia]. simpl.
    rewrite (peek_in_range _ _ _ Cj). reflexivity.
  - apply peek_in_range. simpl cells. rewrite nth_error_upd.
    destruct (Nat.eqb_spec j (length (chanlist cm) - 1)); [contradiction|].
    exact Cj.
Qed.

Lemma loaded_flags (g : nat -> Z) (cm : comedi_cmd) (j : nat) :
  (forall ch, In ch (chanlist cm) -> 0 <= CR_CHAN c ch < 16) ->
  let len := length (chanlist cm) in
  let ppl := snd (s626_ai_load_polllist h c (stack_array 16 g) cm) in
  (j < 16)%nat -> (j < len)%nat -> (len <= 16)%nat ->
  has_eopl h ppl j = (j =? len - 1)%nat.
Proof.
  cbv zeta. intros Hvalid Hj Hlen Hfit.
  destruct (loaded_cells g cm j Hj Hlen Hfit) as (ch & Ech & P).
  unfold has_eopl. rewrite P.
  destruct (j =? length (chanlist cm) - 1)%nat.
  - rewrite marked_has_eopl. destruct eopl_facts as (_ & _ & _ & _ & NZ).
    unfold nz. now apply negb_true_iff, Z.eqb_neq.
  - rewrite entry_no_eopl; [reflexivity|].
    apply Hvalid. eapply nth_error_In; eassumption.
Qed.

End PollListFlags.

(** ** Slots of the RPS program *)

Section SlotCount.

Variable h : s626_h.
Variable ppl : buffer.

Lemma slot_count_stop (fuel pi k : nat) :
  (k < fuel)%nat ->
  (forall j, (j < k)%nat -> has_eopl h ppl (pi + j) = false) ->
  has_eopl h ppl (pi + k) = true ->
  slot_count h ppl fuel pi = S k.
Proof.
  revert pi k. induction fuel as [|fuel IH]; intros pi k Hk Hno Hyes; [lia|].
  simpl. destruct k as [|k].
  - rewrite Nat.add_0_r in Hyes. now rewrite Hyes.
  - pose proof (Hno 0%nat ltac:(lia)) as H0. rewrite Nat.add_0_r in H0.
    rewrite H0. f_equal. apply IH; [lia | |].
    + intros j Hj. replace (S pi + j)%nat with (pi + S j)%nat by lia.
      apply Hno. lia.
    + now replace (S pi + k)%nat with (pi + S k)%nat by lia.
Qed.

Lemma slot_count_full (fuel pi : nat) :
  (forall j, (j < fuel)%nat -> has_eopl h ppl (pi + j) = false) ->
  slot_count h ppl fuel pi = fuel.
Proof.
  revert pi. induction fuel as [|fuel IH]; intros pi Hno; [reflexivity|].
  simpl. pose proof (Hno 0%nat ltac:(lia)) as H0. rewrite Nat.add_0_r in H0.
  rewrite H0. f_equal. apply IH. intros j Hj.
  replace (S pi + j)%nat with (pi + S j)%nat by lia. apply Hno. lia.
Qed.

Lemma slot_count_le (fuel pi : nat) : (slot_count h ppl fuel pi <= fuel)%nat.
Proof.
  revert pi. induction fuel as [|fuel IH]; intros pi; simpl; [lia|].
  destruct (has_eopl h ppl pi); [lia|]. specialize (IH (S pi)). lia.
Qed.

End SlotCount.

Section RpsProgram.

Variable h : s626_h.
Variable c : comedi_h.

Lemma length_rps_jump_pad count adrs :
  length (rps_jump_pad h count adrs) = (2 * count)%nat.
Proof.
  revert adrs. induction count as [|n IH]; intros adrs; simpl; [reflexivity|].
  rewrite IH. lia.
Qed.

Lemma length_rps_slot d here items p :
  length (rps_slot h c d here items p) = slot_len h c d.
Proof.
  unfold rps_slot, slot_len. cbv zeta.
  rewrite !length_app, length_rps_jump_pad.
  destruct (negb (convert_src (cmd d) =? TRIG_NOW c)); simpl; lia.
Qed.

Lemma u8_small x : 0 <= x < 256 -> u8 x = x.
Proof.
  intros H. unfold u8. change 255 with (Z.ones 8). now apply land_ones_small.
Qed.

(** The poll list loop digitizes [slot_count] slots and appends
    [slot_len] words for each. *)
Lemma rps_slots_spec d ppl fuel items pi prog :
  0 <= items -> items + Z.of_nat fuel < 256 ->
  let r := rps_slots h c d ppl fuel items pi prog in
  let n := slot_count h ppl fuel pi in
  fst r = items + Z.of_nat n
  /\ length (snd r) = (length prog + n * slot_len h c d)%nat.
Proof.
  revert items pi prog.
  induction fuel as [|fuel IH]; intros items pi prog H0 H1; cbv zeta.
  - simpl. split; lia.
  - cbn [rps_slots slot_count]. unfold has_eopl.
    destruct (nz (Z.land (u8 (peek pi ppl)) (S626_EOPL h))).
    + cbn [fst snd]. rewrite length_app, length_rps_slot.
      rewrite u8_small by lia. split; lia.
    + rewrite u8_small by lia.
      specialize (IH (items + 1) (S pi)
        (prog ++ rps_slot h c d (length prog) items (u8 (peek pi ppl)))
        ltac:(lia) ltac:(lia)).
      cbv zeta in IH. destruct IH as (F & L).
      rewrite F, L, length_app, length_rps_slot. split; lia.
Qed.

(** The program depends on the device only through the command, the two
    DMA addresses and the running flag. *)
Lemma rps_slots_ext d1 d2 ppl fuel items pi prog :
  cmd d1 = cmd d2 -> rps_phys d1 = rps_phys d2 -> ana_phys d1 = ana_phys d2 ->
  rps_slots h c d1 ppl fuel items pi prog =
  rps_slots h c d2 ppl fuel items pi prog.
Proof.
  intros Hc Hr Ha. revert items pi prog.
  induction fuel as [|fuel IH]; intros items pi prog; [reflexivity|].
  cbn [rps_slots]. unfold rps_slot. rewrite Hc, Hr, Ha.
  destruct (nz (Z.land (u8 (peek pi ppl)) (S626_EOPL h)));
    [reflexivity | apply IH].
Qed.

Lemma rps_program_ext d1 d2 ppl :
  cmd d1 = cmd d2 -> rps_phys d1 = rps_phys d2 -> ana_phys d1 = ana_phys d2 ->
  ai_cmd_running d1 = ai_cmd_running d2 ->
  rps_program h c d1 ppl = rps_program h c d2 ppl.
Proof.
  intros Hc Hr Ha Hk. unfold rps_program.
  rewrite (rps_slots_ext d1 d2) by assumption.
  now rewrite Hc, Hr, Ha, Hk.
Qed.

Lemma rps_program_spec d ppl :
  let r := rps_program h c d ppl in
  let n := slot_count h ppl 16 0 in
  fst r = Z.of_nat n
  /\ length (snd r) =
     ((if negb (scan_begin_src (cmd d) =? TRIG_FOLLOW c)%Z then 2 else 0) + 7
      + n * slot_len h c d
      + Z.to_nat (2 * S626_RPSCLK_PER_US h) + 8
      + (if (ai_cmd_running d =? 1)%Z then 1 else 0) + 2)%nat.
Proof.
  cbv zeta. unfold rps_program.
  set (pre := (if negb (scan_begin_src (cmd d) =? TRIG_FOLLOW c)
               then rps_wait_trigger h else [])
              ++ rps_debi_write h (S626_LP_GSEL h) (S626_GSEL_BIPOLAR5V h)).
  pose proof (rps_slots_spec d ppl 16 0 0 pre ltac:(lia) ltac:(simpl; lia))
    as S. cbv zeta in S.
  destruct (rps_slots h c d ppl 16 0 0 pre) as [items prog].
  cbn [fst snd] in S. destruct S as (F & L).
  assert (Lpre : length pre =
    ((if negb (scan_begin_src (cmd d) =? TRIG_FOLLOW c)%Z then 2 else 0)
     + 7)%nat).
  { unfold pre. rewrite length_app.
    destruct (negb (scan_begin_src (cmd d) =? TRIG_FOLLOW c)); reflexivity. }
  cbn [fst snd]. split; [lia|].
  destruct (ai_cmd_running d =? 1);
    rewrite !length_app, ?repeat_length, L, Lpre; simpl; lia.
Qed.

(** What [s626_reset_adc] leaves untouched. *)
Lemma reset_adc_frame ppl d :
  let d' := s626_reset_adc h c ppl d in
  cmd d' = cmd d /\ rps_phys d' = rps_phys d /\ ana_phys d' = ana_phys d
  /\ ai_cmd_running d' = ai_cmd_running d.
Proof.
  cbv zeta. unfold s626_reset_adc.
  destruct (rps_program h c _ ppl) as [items prog]. simpl. auto.
Qed.

Lemma reset_adc_result ppl d :
  let d' := s626_reset_adc h c ppl d in
  let r := rps_program h c d ppl in
  adc_items d' = fst r
  /\ cells (rps_buf d') = cells (blit (map u32 (snd r)) 0 (rps_buf d))
  /\ lp d' = lp d.
Proof.
  cbv zeta. unfold s626_reset_adc.
  rewrite (rps_program_ext _ d) by reflexivity.
  destruct (rps_program h c d ppl) as [items prog]. simpl. auto.
Qed.

(** C6.  Building the RPS program a second time from the same poll list
    and the same command reproduces the first result: the builder
    computes the same word sequence and the same slot count, and the
    program buffer holds after the second run what it held after the
    first. *)
Theorem reset_adc_idempotent (ppl : buffer) (d : s626_dev) :
  let d1 := s626_reset_adc h c ppl d in
  let d2 := s626_reset_adc h c ppl d1 in
  rps_program h c d1 ppl = rps_program h c d ppl
  /\ adc_items d2 = adc_items d1
  /\ length (snd (rps_program h c d1 ppl)) = length (snd (rps_program h c d ppl))
  /\ cells (rps_buf d2) = cells (rps_buf d1)
  /\ forall i w, nth_error (map u32 (snd (rps_program h c d ppl))) i = Some w ->
       (i < length (cells (rps_buf d)))%nat ->
       nth_error (cells (rps_buf d1)) i = Some w
       /\ nth_error (cells (rps_buf d2)) i = Some w.
Proof.
  cbv zeta.
  destruct (reset_adc_frame ppl d) as (Fc & Fr & Fa & Fk).
  assert (P : rps_program h c (s626_reset_adc h c ppl d) ppl =
              rps_program h c d ppl) by now apply rps_program_ext.
  destruct (reset_adc_result ppl d) as (I1 & B1 & _).
  destruct (reset_adc_result ppl (s626_reset_adc h c ppl d)) as (I2 & B2 & _).
  rewrite P in I2, B2.
  assert (B : cells (rps_buf (s626_reset_adc h c ppl
                       (s626_reset_adc h c ppl d))) =
              cells (rps_buf (s626_reset_adc h c ppl d))).
  { rewrite B2. apply nth_error_ext. intros j.
    rewrite nth_error_cells_blit, B1, length_cells_blit.
    rewrite !nth_error_cells_blit.
    destruct ((0 <=? j) && (j <? 0 + length (map u32 (snd (rps_program h c d ppl))))
              && (j <? length (cells (rps_buf d))))%nat; reflexivity. }
  split; [exact P|]. split; [congruence|]. split; [now rewrite P|].
  split; [exact B|].
  intros i w Hw Hi.
  assert (E : nth_error (cells (rps_buf (s626_reset_adc h c ppl d))) i
              = Some w).
  { rewrite B1, nth_error_cells_blit, Nat.sub_0_r, Hw.
    assert (i < length (map u32 (snd (rps_program h c d ppl))))%nat
      by (apply nth_error_Some; congruence).
    destruct (Nat.ltb_spec i (0 + length (map u32 (snd (rps_program h c d ppl))))),
             (Nat.ltb_spec i (length (cells (rps_buf d)))); try lia.
    reflexivity. }
  split; [exact E | now rewrite B].
Qed.

End RpsProgram.

Section PollListEntries.

Variable h : s626_h.
Variable c : comedi_h.
Hypothesis Hconsts : polllist_consts_okb h = true.


End PollListEntries.

(** A channel list of three channels: three entries, the flag on the
    last, three slots. *)
Lemma reset_adc_idempotent_witness :
  let h := s626_h_ref in
  let c := comedi_h_ref in
  let d := idle_dev 1024 (free_run_cmd c 3) in
  let ppl :=
    snd (s626_ai_load_polllist h c (stack_array 16 (fun _ => 0)) (cmd d)) in
  let d1 := s626_reset_adc h c ppl d in
  let d2 := s626_reset_adc h c ppl d1 in
  let w := u32 (hd 0 (snd (rps_program h c d ppl))) in
  nth_error (map u32 (snd (rps_program h c d ppl))) 0 = Some w
  /\ (0 < length (cells (rps_buf d)))%nat
  /\ adc_items d2 = adc_items d1
  /\ cells (rps_buf d2) = cells (rps_buf d1)
  /\ nth_error (cells (rps_buf d1)) 0 = Some w
  /\ nth_error (cells (rps_buf d2)) 0 = Some w.
Proof.
  cbv zeta.
  set (d := idle_dev 1024 (free_run_cmd comedi_h_ref 3)).
  set (ppl := snd (s626_ai_load_polllist s626_h_ref comedi_h_ref
                     (stack_array 16 (fun _ => 0)) (cmd d))).
  assert (Hw : nth_error
                 (map u32 (snd (rps_program s626_h_ref comedi_h_ref d ppl))) 0
               = Some (u32 (hd 0 (snd (rps_program s626_h_ref comedi_h_ref
                                         d ppl)))))
    by (vm_compute; reflexivity).
  assert (Hl : (0 < length (cells (rps_buf d)))%nat)
    by (vm_compute; lia).
  destruct (reset_adc_idempotent s626_h_ref comedi_h_ref ppl d)
    as (_ & I & _ & B & N).
  destruct (N 0%nat _ Hw Hl) as (N1 & N2).
  split; [exact Hw|]. split; [exact Hl|]. split; [exact I|].
  split; [exact B|]. split; [exact N1 | exact N2].
Defined.


(** ** What the register functions leave alone *)

Section Frames.

Variable h : s626_h.
Variable c : comedi_h.

Lemma no_lp_debi_write a v d : no_lp (s626_debi_write a v d) = no_lp d.
Proof. reflexivity. Qed.

Lemma no_lp_debi_replace a m w d : no_lp (s626_debi_replace a m w d) = no_lp d.
Proof. reflexivity. Qed.

Lemma no_lp_enabs v d : no_lp (with_counter_int_enabs v d) = no_lp d.
Proof. reflexivity. Qed.

Lemma no_lp_if (b : bool) d1 d2 :
  no_lp (if b then d1 else d2) = if b then no_lp d1 else no_lp d2.
Proof. now destruct b. Qed.

Ltac frame :=
  intros;
  repeat match goal with
  | |- context [match (if ?b then _ else _) with _ => _ end] => destruct b
  end;
  cbv beta iota zeta;
  rewrite ?no_lp_debi_replace, ?no_lp_debi_write, ?no_lp_enabs, ?no_lp_if,
    ?if_same;
  try reflexivity.

Lemma no_lp_set_latch_source k v d :
  no_lp (s626_set_latch_source h k v d) = no_lp d.
Proof. reflexivity. Qed.

Lemma no_lp_preload k v d : no_lp (s626_preload k v d) = no_lp d.
Proof. reflexivity. Qed.

Lemma no_lp_reset_cap_flags_a k d :
  no_lp (s626_reset_cap_flags_a h k d) = no_lp d.
Proof. reflexivity. Qed.

Lemma no_lp_reset_cap_flags_b k d :
  no_lp (s626_reset_cap_flags_b h k d) = no_lp d.
Proof. reflexivity. Qed.

Lemma no_lp_set_mode_a k s dis d :
  no_lp (s626_set_mode_a h k s dis d) = no_lp d.
Proof. unfold s626_set_mode_a. frame. Qed.

Lemma no_lp_set_mode_b k s dis d :
  no_lp (s626_set_mode_b h k s dis d) = no_lp d.
Proof. unfold s626_set_mode_b. frame. Qed.

Lemma no_lp_set_enable_a k v d : no_lp (s626_set_enable_a h k v d) = no_lp d.
Proof. reflexivity. Qed.

Lemma no_lp_set_enable_b k v d : no_lp (s626_set_enable_b h k v d) = no_lp d.
Proof. reflexivity. Qed.

Lemma no_lp_set_load_trig_a k v d :
  no_lp (s626_set_load_trig_a h k v d) = no_lp d.
Proof. reflexivity. Qed.

Lemma no_lp_set_load_trig_b k v d :
  no_lp (s626_set_load_trig_b h k v d) = no_lp d.
Proof. reflexivity. Qed.

Lemma no_lp_set_int_src_a k v d :
  no_lp (s626_set_int_src_a h k v d) = no_lp d.
Proof. reflexivity. Qed.

Lemma no_lp_set_int_src_b k v d :
  no_lp (s626_set_int_src_b h k v d) = no_lp d.
Proof. reflexivity. Qed.

Lemma no_lp_pulse_index_a k d : no_lp (s626_pulse_index_a h k d) = no_lp d.
Proof. reflexivity. Qed.

Lemma no_lp_pulse_index_b k d : no_lp (s626_pulse_index_b h k d) = no_lp d.
Proof. reflexivity. Qed.

(** Every operation of every counter of the table. *)
Lemma no_lp_enc_chan n :
  (n < 6)%nat ->
  let k := enc_chan h n in
  (forall r s dis d, no_lp (set_mode k r s dis d) = no_lp d)
  /\ (forall r v d, no_lp (set_enable k r v d) = no_lp d)
  /\ (forall r v d, no_lp (set_load_trig k r v d) = no_lp d)
  /\ (forall r v d, no_lp (set_int_src k r v d) = no_lp d)
  /\ (forall r d, no_lp (pulse_index k r d) = no_lp d)
  /\ (forall r d, no_lp (reset_cap_flags k r d) = no_lp d).
Proof.
  revert n. apply enc_chan_cases; cbv zeta;
    cbn [enc_chan nth s626_enc_chan_info enc_info_a enc_info_b
         set_mode set_enable set_load_trig set_int_src pulse_index
         reset_cap_flags];
    repeat split; intros;
    first [ apply no_lp_set_mode_a | apply no_lp_set_mode_b | reflexivity ].
Qed.

Lemma no_lp_timer_load n tick d :
  (n < 6)%nat -> no_lp (s626_timer_load h (enc_chan h n) tick d) = no_lp d.
Proof.
  intros Hn. destruct (no_lp_enc_chan n Hn) as (M & E & L & I & P & R).
  unfold s626_timer_load. cbv zeta.
  now rewrite no_lp_set_latch_source, I, L, P, L, no_lp_preload, M.
Qed.

Lemma no_lp_dio_set_irq chan d : no_lp (s626_dio_set_irq h chan d) = no_lp d.
Proof. reflexivity. Qed.

Lemma no_lp_dio_clear_irq d : no_lp (s626_dio_clear_irq h d) = no_lp d.
Proof.
  unfold s626_dio_clear_irq. cbv zeta.
  set (d0 := s626_debi_write (S626_LP_MISC1 h) (S626_MISC1_NOEDCAP h) d).
  change (no_lp d) with (no_lp d0).
  generalize d0. generalize (dio_groups h).
  induction l as [|g l IH]; intros d1; simpl; [reflexivity|].
  now rewrite IH.
Qed.

End Frames.

(** ** Arming and cancelling *)

Section Arm.

Variable h : s626_h.
Variable c : comedi_h.

Lemma no_lp_same d1 d2 :
  no_lp d1 = no_lp d2 ->
  session d1 = session d2 /\ acq d1 = acq d2 /\ ana_buf d1 = ana_buf d2
  /\ mmio d1 = mmio d2 /\ mmio_trace d1 = mmio_trace d2.
Proof.
  intros H.
  change (session (no_lp d1) = session (no_lp d2)
          /\ acq (no_lp d1) = acq (no_lp d2)
          /\ ana_buf (no_lp d1) = ana_buf (no_lp d2)
          /\ mmio (no_lp d1) = mmio (no_lp d2)
          /\ mmio_trace (no_lp d1) = mmio_trace (no_lp d2)).
  now rewrite H.
Qed.

Lemma writel_same v a d :
  session (writel v a d) = session d /\ acq (writel v a d) = acq d
  /\ ana_buf (writel v a d) = ana_buf d.
Proof. repeat split. Qed.

Lemma ai_cmd_scan_begin_same d :
  let d' := ai_cmd_scan_begin h c d in
  session d' = session d /\ acq d' = acq d /\ ana_buf d' = ana_buf d
  /\ mmio d' = mmio d /\ mmio_trace d' = mmio_trace d.
Proof.
  cbv zeta. unfold ai_cmd_scan_begin.
  destruct (scan_begin_src (cmd d) =? TRIG_FOLLOW c); [now auto|].
  destruct (scan_begin_src (cmd d) =? TRIG_TIMER c).
  - destruct (s626_ns_to_timer c _ _) as [tick ns].
    destruct (no_lp_enc_chan h 5 ltac:(lia)) as (_ & E & _).
    set (d0 := with_cmd (set_scan_begin_arg (u32 ns) (cmd d)) d).
    change (session d) with (session d0). change (acq d) with (acq d0).
    change (ana_buf d) with (ana_buf d0).
    change (mmio d) with (mmio d0).
    change (mmio_trace d) with (mmio_trace d0).
    apply no_lp_same. now rewrite E, no_lp_timer_load by lia.
  - destruct (scan_begin_src (cmd d) =? TRIG_EXT c); [|now auto].
    destruct (negb (start_src (cmd d) =? TRIG_EXT c)); now auto.
Qed.

Lemma ai_cmd_convert_same d :
  let d' := ai_cmd_convert h c d in
  session d' = session d /\ acq d' = acq d /\ ana_buf d' = ana_buf d
  /\ mmio d' = mmio d /\ mmio_trace d' = mmio_trace d.
Proof.
  cbv zeta. unfold ai_cmd_convert.
  destruct (convert_src (cmd d) =? TRIG_NOW c); [now auto|].
  destruct (convert_src (cmd d) =? TRIG_TIMER c).
  - destruct (s626_ns_to_timer c _ _) as [tick ns].
    destruct (no_lp_enc_chan h 4 ltac:(lia)) as (_ & E & _).
    set (d0 := with_cmd (set_convert_arg (u32 ns) (cmd d)) d).
    change (session d) with (session d0). change (acq d) with (acq d0).
    change (ana_buf d) with (ana_buf d0).
    change (mmio d) with (mmio d0).
    change (mmio_trace d) with (mmio_trace d0).
    apply no_lp_same. now rewrite E, no_lp_timer_load by lia.
  - destruct (convert_src (cmd d) =? TRIG_EXT c); [|now auto].
    destruct (negb (scan_begin_src (cmd d) =? TRIG_EXT c)
              && (start_src (cmd d) =? TRIG_EXT c)); now auto.
Qed.

Lemma reset_adc_same ppl d :
  let d' := s626_reset_adc h c ppl d in
  session d' = session d /\ acq d' = acq d /\ ana_buf d' = ana_buf d.
Proof.
  cbv zeta. unfold s626_reset_adc.
  destruct (rps_program h c _ ppl) as [items prog]. now auto.
Qed.

Lemma ai_cmd_start_same d :
  let d' := ai_cmd_start h c d in
  session d' = session d /\ acq d' = acq d /\ ana_buf d' = ana_buf d.
Proof.
  cbv zeta. unfold ai_cmd_start.
  repeat match goal with
  | |- context [if ?b then _ else _] => destruct b
  end; now auto.
Qed.

(** [s626_ai_cmd] is refused exactly while a command is running. *)
Lemma ai_cmd_result g d :
  fst (s626_ai_cmd h c g d) = if nz (ai_cmd_running d) then - EBUSY c else 0.
Proof.
  unfold s626_ai_cmd. destruct (nz (ai_cmd_running d)); reflexivity.
Qed.

(** The state a successful [s626_ai_cmd] with a stop count leaves. *)
Lemma ai_cmd_armed g d :
  nz (ai_cmd_running d) = false ->
  stop_src (cmd d) = TRIG_COUNT c ->
  let d' := snd (s626_ai_cmd h c g d) in
  session d' = session d
  /\ acq d' = (1, 0, s32 (stop_arg (cmd d)))
  /\ ana_buf d' = ana_buf d
  /\ readl (S626_P_IER h) d' =
     u32 (Z.lor (S626_IRQ_GPIO3 h) (S626_IRQ_RPS1 h)).
Proof.
  intros Hidle Hstop. cbv zeta. unfold s626_ai_cmd. rewrite Hidle.
  cbv zeta. cbn [snd].
  set (d0 := with_ai_convert_count 0 _).
  assert (S0 : session d0 = session d /\ acq d0 = (1, ai_continuous d,
                 ai_sample_count d) /\ ana_buf d0 = ana_buf d).
  { unfold d0.
    destruct (no_lp_same _ _ (no_lp_dio_clear_irq h
      (writel (Z.lor (S626_IRQ_RPS1 h) (S626_IRQ_GPIO3 h)) (S626_P_ISR h)
         (writel 0 (S626_P_IER h) d)))) as (S & A & B & _).
    repeat split.
    - unfold session in *. cbn in *. exact S.
    - unfold acq in *. cbn in *. congruence.
    - cbn in *. exact B. }
  destruct S0 as (S0 & A0 & B0).
  destruct (ai_cmd_scan_begin_same d0) as (S1 & A1 & B1 & _).
  set (d1 := ai_cmd_scan_begin h c d0) in *.
  destruct (ai_cmd_convert_same d1) as (S2 & A2 & B2 & _).
  set (d2 := ai_cmd_convert h c d1) in *.
  assert (Hs2 : stop_src (cmd d2) = TRIG_COUNT c /\
                stop_arg (cmd d2) = stop_arg (cmd d)).
  { assert (E : session d2 = session d) by congruence.
    unfold session in E. injection E as _ _ _ _ _ E1 E2 _ _ _.
    split; congruence. }
  destruct Hs2 as (Hs2 & Ha2).
  set (d3 := ai_cmd_stop c d2).
  assert (S3 : session d3 = session d2 /\
               acq d3 = (ai_cmd_running d2, 0, s32 (stop_arg (cmd d))) /\
               ana_buf d3 = ana_buf d2).
  { unfold d3, ai_cmd_stop. rewrite Hs2, Z.eqb_refl, Ha2. now auto. }
  destruct S3 as (S3 & A3 & B3).
  match goal with
  | |- context [s626_reset_adc h c ?p d3] =>
      destruct (reset_adc_same p d3) as (S4 & A4 & B4);
      set (d4 := s626_reset_adc h c p d3) in *
  end.
  destruct (ai_cmd_start_same d4) as (S5 & A5 & B5).
  set (d5 := ai_cmd_start h c d4) in *.
  assert (R2 : ai_cmd_running d2 = 1).
  { assert (E : acq d2 = (1, ai_continuous d, ai_sample_count d))
      by congruence.
    unfold acq in E. congruence. }
  repeat split.
  - change (session (writel _ _ d5)) with (session d5). congruence.
  - change (acq (writel _ _ d5)) with (acq d5). rewrite A5, A4, A3, R2.
    reflexivity.
  - change (ana_buf (writel _ _ d5)) with (ana_buf d5). congruence.
  - unfold readl, writel, with_mmio, u32. cbn [mmio]. rewrite Z.eqb_refl.
    rewrite <- Z.land_assoc. reflexivity.
Qed.

(** A successful [s626_ai_cmd] sets the running flag, whatever the
    command. *)
Lemma ai_cmd_sets_running g d :
  nz (ai_cmd_running d) = false ->
  ai_cmd_running (snd (s626_ai_cmd h c g d)) = 1.
Proof.
  intros Hidle. unfold s626_ai_cmd. rewrite Hidle. cbv zeta. cbn [snd].
  set (d0 := with_ai_convert_count 0 _).
  destruct (ai_cmd_scan_begin_same d0) as (_ & A1 & _).
  set (d1 := ai_cmd_scan_begin h c d0) in *.
  destruct (ai_cmd_convert_same d1) as (_ & A2 & _).
  set (d2 := ai_cmd_convert h c d1) in *.
  assert (A3 : ai_cmd_running (ai_cmd_stop c d2) = ai_cmd_running d2).
  { unfold ai_cmd_stop.
    repeat match goal with
    | |- context [if ?b then _ else _] => destruct b
    end; reflexivity. }
  set (d3 := ai_cmd_stop c d2) in *.
  match goal with
  | |- context [s626_reset_adc h c ?p d3] =>
      destruct (reset_adc_same p d3) as (_ & A4 & _);
      set (d4 := s626_reset_adc h c p d3) in *
  end.
  destruct (ai_cmd_start_same d4) as (_ & A5 & _).
  set (d5 := ai_cmd_start h c d4) in *.
  assert (A0 : ai_cmd_running d0 = 1) by reflexivity.
  match goal with
  | |- ai_cmd_running (writel ?v ?a d5) = 1 =>
      destruct (writel_same v a d5) as (_ & A6 & _)
  end.
  unfold acq in *. congruence.
Qed.

Lemma ai_cancel_spec d :
  let d1 := snd (s626_ai_cancel h d) in
  fst (s626_ai_cancel h d) = 0
  /\ readl (S626_P_IER h) d1 = 0
  /\ ai_cmd_running d1 = 0
  /\ mmio_trace d1 =
     mmio_trace d ++ [(S626_P_MC1 h, u32 (Z.shiftl (S626_MC1_ERPS1 h) 16));
                      (S626_P_IER h, 0)].
Proof.
  cbv zeta. unfold s626_ai_cancel, s626_mc_disable, readl, writel.
  cbv zeta.
  cbn [fst snd mmio mmio_trace ai_cmd_running with_ai_cmd_running
       with_mmio].
  rewrite Z.eqb_refl, <- app_assoc. repeat split; reflexivity.
Qed.

(** C3.  After [s626_ai_cancel], whatever the state it is called in, the
    interrupt enable register reads zero and the running flag is clear:
    the cancel wrote the sequencer-disable command and then zero to the
    interrupt enable register.  A following [s626_ai_cmd] is therefore
    not refused as busy; it returns 0 and sets the running flag again.
    ([s626_ai_cmd] is refused exactly while the running flag is set.) *)
Theorem cancel_allows_arm (g : nat -> Z) (d : s626_dev) :
  let d1 := snd (s626_ai_cancel h d) in
  fst (s626_ai_cancel h d) = 0
  /\ readl (S626_P_IER h) d1 = 0
  /\ ai_cmd_running d1 = 0
  /\ mmio_trace d1 =
     mmio_trace d ++ [(S626_P_MC1 h, u32 (Z.shiftl (S626_MC1_ERPS1 h) 16));
                      (S626_P_IER h, 0)]
  /\ fst (s626_ai_cmd h c g d1) = 0
  /\ ai_cmd_running (snd (s626_ai_cmd h c g d1)) = 1
  /\ (forall d0, fst (s626_ai_cmd h c g d0) =
                 if nz (ai_cmd_running d0) then - EBUSY c else 0).
Proof.
  cbv zeta.
  destruct (ai_cancel_spec d) as (F & R & A & T).
  set (d1 := snd (s626_ai_cancel h d)) in *.
  assert (Hidle : nz (ai_cmd_running d1) = false) by now rewrite A.
  split; [exact F|]. split; [exact R|]. split; [exact A|].
  split; [exact T|]. split; [|split].
  - rewrite (ai_cmd_result g d1), Hidle. reflexivity.
  - now apply ai_cmd_sets_running.
  - intros d0. apply ai_cmd_result.
Qed.

End Arm.

(** ** The end-of-scan interrupt *)

Section EndOfScan.

Variable h : s626_h.
Variable c : comedi_h.

Lemma u32_idem x : u32 (u32 x) = u32 x.
Proof. unfold u32. now rewrite <- Z.land_assoc. Qed.

Lemma with_scan_buf_same d : with_scan_buf (scan_buf d) d = d.
Proof. now destruct d. Qed.

Lemma eos_copy_spec n : forall i d,
  eos_copy n i d =
  with_scan_buf
    (scan_buf d
     ++ map (fun j => u16 (s626_ai_reg_to_uint (ana_buf d j))) (seq i n)) d.
Proof.
  induction n as [|n IH]; intros i d.
  - cbn. now rewrite app_nil_r, with_scan_buf_same.
  - cbn [eos_copy seq map]. rewrite IH. unfold cfc_write_to_buffer.
    cbn [scan_buf with_scan_buf ana_buf]. rewrite u16_idem, <- app_assoc.
    reflexivity.
Qed.

Lemma scan_samples_seq d n :
  map (fun j => u16 (s626_ai_reg_to_uint (ana_buf d j))) (seq 1 n) =
  scan_samples d n.
Proof.
  unfold scan_samples. rewrite <- seq_shift, map_map. reflexivity.
Qed.

Lemma eos_rearm_same x :
  session (eos_rearm h c x) = session x /\ acq (eos_rearm h c x) = acq x
  /\ mmio (eos_rearm h c x) = mmio x
  /\ mmio_trace (eos_rearm h c x) = mmio_trace x.
Proof.
  assert (E : no_lp (eos_rearm h c x) = no_lp x).
  { unfold eos_rearm.
    destruct (nz (ai_cmd_running x) && _);
      [apply no_lp_dio_set_irq | reflexivity]. }
  destruct (no_lp_same _ _ E) as (S & A & _ & M & T). auto.
Qed.

(** What the handler of the end-of-scan cause does to the acquisition,
    for a counted command. *)
Lemma handle_eos_spec d :
  ai_continuous d = 0 ->
  let r := s626_handle_eos_interrupt h c d in
  let d' := snd r in
  let cnt := s32 (ai_sample_count d - 1) in
  let fin := cnt <=? 0 in
  let ev := Z.lor (events d) (COMEDI_CB_EOS c) in
  fst r = fin
  /\ published d' =
     published d
     ++ [(scan_buf d ++ scan_samples d (length (chanlist (cmd d))),
          if fin then Z.lor ev (COMEDI_CB_EOA c) else ev)]
  /\ events d' = 0 /\ scan_buf d' = []
  /\ acq d' = (if fin then 0 else ai_cmd_running d, 0, cnt)
  /\ attached d' = attached d
  /\ chanlist (cmd d') = chanlist (cmd d)
  /\ mmio_trace d' =
     mmio_trace d
     ++ (if fin
         then [(S626_P_MC1 h, u32 (Z.shiftl (S626_MC1_ERPS1 h) 16))]
         else []).
Proof.
  intros Hcont. cbv zeta. unfold s626_handle_eos_interrupt.
  rewrite eos_copy_spec, scan_samples_seq.
  cbn [ai_continuous ai_sample_count events with_events with_scan_buf].
  rewrite Hcont. cbn [nz Z.eqb negb].
  cbn [ai_sample_count with_ai_sample_count]. cbv zeta. cbn [fst snd].
  set (x := with_ai_sample_count _ _).
  destruct (s32 (ai_sample_count d - 1) <=? 0).
  - change (eos_rearm h c (eos_retire h c x)) with (eos_retire h c x).
    unfold comedi_event, acq, eos_retire, s626_mc_disable, writel, x.
    cbn [attached cmd events scan_buf published ai_cmd_running
         ai_continuous ai_sample_count mmio_trace with_published
         with_ai_cmd_running with_ai_sample_count with_events
         with_scan_buf with_mmio].
    rewrite Hcont. repeat split; reflexivity.
  - destruct (eos_rearm_same x) as (S & A & _ & T).
    set (x1 := eos_rearm h c x) in *.
    unfold session in S. injection S as S1 S2 _ _ _ _ _ S3 S4 S5.
    unfold acq in A. injection A as A1 A2 A3.
    unfold comedi_event, acq.
    cbn [attached cmd events scan_buf published ai_cmd_running
         ai_continuous ai_sample_count mmio_trace with_published
         with_events with_scan_buf].
    rewrite S1, S2, S3, S4, S5, A1, A2, A3, T. unfold x.
    cbn [attached cmd events scan_buf published ai_cmd_running
         ai_continuous ai_sample_count mmio_trace
         with_ai_sample_count with_events with_scan_buf].
    rewrite Hcont, app_nil_r. repeat split; reflexivity.
Qed.

(** One end-of-scan interrupt of a counted acquisition. *)
Lemma irq_eos d :
  attached d = true ->
  ai_continuous d = 0 ->
  u32 (S626_IRQ_RPS1 h) = S626_IRQ_RPS1 h ->
  let r := s626_irq_handler h c (S626_IRQ_RPS1 h) d in
  let d' := snd r in
  let cnt := s32 (ai_sample_count d - 1) in
  let fin := cnt <=? 0 in
  let ev := Z.lor (events d) (COMEDI_CB_EOS c) in
  fst r = IRQ_HANDLED
  /\ published d' =
     published d
     ++ [(scan_buf d ++ scan_samples d (length (chanlist (cmd d))),
          if fin then Z.lor ev (COMEDI_CB_EOA c) else ev)]
  /\ events d' = 0 /\ scan_buf d' = []
  /\ acq d' = (if fin then 0 else ai_cmd_running d, 0, cnt)
  /\ attached d' = true
  /\ chanlist (cmd d') = chanlist (cmd d)
  /\ mmio_trace d' =
     mmio_trace d
     ++ [(S626_P_IER h, 0); (S626_P_ISR h, S626_IRQ_RPS1 h)]
     ++ (if fin
         then [(S626_P_MC1 h, u32 (Z.shiftl (S626_MC1_ERPS1 h) 16))]
         else [])
     ++ [(S626_P_IER h, if fin then 0 else readl (S626_P_IER h) d)]
  /\ readl (S626_P_IER h) d' = if fin then 0 else readl (S626_P_IER h) d.
Proof.
  intros Hatt Hcont Hrps. cbv zeta.
  unfold s626_irq_handler. rewrite Hatt. cbn [negb]. cbv zeta.
  rewrite Hrps, Z.eqb_refl.
  set (D := writel (S626_IRQ_RPS1 h) (S626_P_ISR h)
              (writel 0 (S626_P_IER h) d)).
  destruct (handle_eos_spec D Hcont) as (F & P & E & B & A & At & Ch & T).
  destruct (s626_handle_eos_interrupt h c D) as [f D'].
  cbn [fst snd] in *. subst f.
  change (ai_sample_count D) with (ai_sample_count d) in *.
  unfold D, writel in P, A, At, Ch, T.
  cbn [attached cmd events scan_buf published ai_cmd_running
       ai_continuous ai_sample_count mmio_trace with_mmio ana_buf
       scan_samples] in P, A, At, Ch, T.
  unfold scan_samples in P. cbn [ana_buf with_mmio] in P.
  fold (scan_samples d (length (chanlist (cmd d)))) in P.
  unfold writel, readl, acq in *.
  cbn [attached cmd events scan_buf published ai_cmd_running
       ai_continuous ai_sample_count mmio mmio_trace with_mmio].
  rewrite Z.eqb_refl, P, E, B, At, Ch, T, Hrps, <- !app_assoc.
  change (u32 0) with 0.
  destruct (s32 (ai_sample_count d - 1) <=? 0);
    rewrite ?u32_idem; cbn [app];
    repeat split; first [reflexivity | assumption].
Qed.

End EndOfScan.

(** ** A counted acquisition *)

Section CountedAcquisition.

Variable h : s626_h.
Variable c : comedi_h.
Hypothesis Hconsts : irq_consts_okb h c = true.

Lemma irq_consts_facts :
  u32 (S626_IRQ_RPS1 h) = S626_IRQ_RPS1 h
  /\ Z.land (COMEDI_CB_EOS c) (COMEDI_CB_EOA c) = 0
  /\ COMEDI_CB_EOA c <> 0.
Proof.
  unfold irq_consts_okb in Hconsts.
  apply andb_prop in Hconsts as [H12 H3].
  apply andb_prop in H12 as [H1 H2].
  apply Z.eqb_eq in H1, H2. apply negb_true_iff, Z.eqb_neq in H3. auto.
Qed.

Lemma scan_samples_capture w (d1 d2 : s626_dev) n :
  scan_samples (hw_capture w d1) n = scan_samples (hw_capture w d2) n.
Proof. reflexivity. Qed.

(** One scan of a counted acquisition with [k] scans left: the hardware
    deposits the words [w], then raises the end-of-scan interrupt. *)
Lemma eos_irq_step w k d :
  attached d = true ->
  acq d = (1, 0, k) ->
  1 <= k <= 2147483647 ->
  events d = 0 -> scan_buf d = [] ->
  let d' := eos_irq h c (hw_capture w d) in
  let fin := k - 1 <=? 0 in
  attached d' = true
  /\ acq d' = (if fin then 0 else 1, 0, k - 1)
  /\ events d' = 0 /\ scan_buf d' = []
  /\ chanlist (cmd d') = chanlist (cmd d)
  /\ published d' =
     published d
     ++ [(scan_samples (hw_capture w d) (length (chanlist (cmd d))),
          if fin then Z.lor (COMEDI_CB_EOS c) (COMEDI_CB_EOA c)
          else COMEDI_CB_EOS c)]
  /\ mmio_trace d' =
     mmio_trace d
     ++ [(S626_P_IER h, 0); (S626_P_ISR h, S626_IRQ_RPS1 h)]
     ++ (if fin
         then [(S626_P_MC1 h, u32 (Z.shiftl (S626_MC1_ERPS1 h) 16))]
         else [])
     ++ [(S626_P_IER h, if fin then 0 else readl (S626_P_IER h) d)]
  /\ readl (S626_P_IER h) d' = if fin then 0 else readl (S626_P_IER h) d.
Proof.
  intros Hatt Hacq Hk Hev Hbuf. cbv zeta.
  unfold acq in Hacq. injection Hacq as Hrun Hcont Hcnt.
  destruct irq_consts_facts as (Hrps & _ & _).
  destruct (irq_eos h c (hw_capture w d) Hatt Hcont Hrps)
    as (_ & P & E & B & A & At & Ch & T & R).
  fold (eos_irq h c (hw_capture w d)) in *.
  change (ai_sample_count (hw_capture w d)) with (ai_sample_count d) in *.
  change (ai_cmd_running (hw_capture w d)) with (ai_cmd_running d) in *.
  change (events (hw_capture w d)) with (events d) in *.
  change (scan_buf (hw_capture w d)) with (scan_buf d) in *.
  change (published (hw_capture w d)) with (published d) in *.
  change (mmio_trace (hw_capture w d)) with (mmio_trace d) in *.
  change (cmd (hw_capture w d)) with (cmd d) in *.
  change (readl (S626_P_IER h) (hw_capture w d))
    with (readl (S626_P_IER h) d) in *.
  rewrite Hcnt, Hrun, Hev, Hbuf in *.
  rewrite s32_small in * by lia.
  cbn [app] in P. rewrite Z.lor_0_l in P.
  repeat split; assumption.
Qed.

(** C2, as far as the code goes.  Arm a command that stops after three
    scans on an idle, attached board with nothing pending, and let the
    hardware deliver three scans [w1], [w2], [w3], each followed by the
    end-of-scan interrupt.  The command is accepted; every interrupt hands
    exactly one scan with its converted samples to the comedi core; the
    first two leave the acquisition running and carry no
    end-of-acquisition bit; the third carries the end-of-acquisition bit,
    clears the running flag, writes the sequencer-disable command to the
    master control register and leaves the interrupt enable register at
    zero, so that the board raises no further interrupt. *)
Theorem three_scans_then_retire (g w1 w2 w3 : nat -> Z) (d : s626_dev) :
  attached d = true ->
  ai_cmd_running d = 0 ->
  stop_src (cmd d) = TRIG_COUNT c ->
  stop_arg (cmd d) = 3 ->
  events d = 0 -> scan_buf d = [] ->
  let n := length (chanlist (cmd d)) in
  let d0 := snd (s626_ai_cmd h c g d) in
  let d1 := eos_irq h c (hw_capture w1 d0) in
  let d2 := eos_irq h c (hw_capture w2 d1) in
  let d3 := eos_irq h c (hw_capture w3 d2) in
  let s1 := scan_samples (hw_capture w1 d) n in
  let s2 := scan_samples (hw_capture w2 d) n in
  let s3 := scan_samples (hw_capture w3 d) n in
  let eos := COMEDI_CB_EOS c in
  let eoa := COMEDI_CB_EOA c in
  fst (s626_ai_cmd h c g d) = 0
  /\ acq d0 = (1, 0, 3)
  /\ published d0 = published d
  /\ published d1 = published d ++ [(s1, eos)]
  /\ acq d1 = (1, 0, 2)
  /\ published d2 = published d ++ [(s1, eos); (s2, eos)]
  /\ acq d2 = (1, 0, 1)
  /\ published d3 =
     published d ++ [(s1, eos); (s2, eos); (s3, Z.lor eos eoa)]
  /\ acq d3 = (0, 0, 0)
  /\ Z.land eos eoa = 0 /\ Z.land (Z.lor eos eoa) eoa = eoa /\ eoa <> 0
  /\ mmio_trace d3 =
     mmio_trace d2
     ++ [(S626_P_IER h, 0); (S626_P_ISR h, S626_IRQ_RPS1 h);
         (S626_P_MC1 h, u32 (Z.shiftl (S626_MC1_ERPS1 h) 16));
         (S626_P_IER h, 0)]
  /\ readl (S626_P_IER h) d3 = 0.
Proof.
  intros Hatt Hidle Hsrc Harg Hev Hbuf. cbv zeta.
  assert (Hnz : nz (ai_cmd_running d) = false) by now rewrite Hidle.
  destruct (ai_cmd_armed h c g d Hnz Hsrc) as (S0 & A0 & _ & _).
  rewrite Harg in A0. change (s32 3) with 3 in A0.
  set (d0 := snd (s626_ai_cmd h c g d)) in *.
  unfold session in S0.
  injection S0 as At0 Ch0 _ _ _ _ _ Ev0 Bf0 Pb0.
  rewrite Hatt in At0. rewrite Hev in Ev0. rewrite Hbuf in Bf0.
  destruct (eos_irq_step w1 3 d0 At0 A0 ltac:(lia) Ev0 Bf0)
    as (At1 & A1 & Ev1 & Bf1 & Ch1 & Pb1 & _ & _).
  set (d1 := eos_irq h c (hw_capture w1 d0)) in *.
  change (3 - 1) with 2 in *. change (2 <=? 0) with false in *.
  destruct (eos_irq_step w2 2 d1 At1 A1 ltac:(lia) Ev1 Bf1)
    as (At2 & A2 & Ev2 & Bf2 & Ch2 & Pb2 & _ & _).
  set (d2 := eos_irq h c (hw_capture w2 d1)) in *.
  change (2 - 1) with 1 in *. change (1 <=? 0) with false in *.
  destruct (eos_irq_step w3 1 d2 At2 A2 ltac:(lia) Ev2 Bf2)
    as (At3 & A3 & Ev3 & Bf3 & Ch3 & Pb3 & T3 & R3).
  set (d3 := eos_irq h c (hw_capture w3 d2)) in *.
  change (1 - 1) with 0 in *. change (0 <=? 0) with true in *.
  destruct irq_consts_facts as (_ & Hdisj & Heoa).
  rewrite Ch2, Ch1, Ch0 in Pb3. rewrite Ch1, Ch0 in Pb2. rewrite Ch0 in Pb1.
  rewrite Pb0 in Pb1.
  rewrite Pb1, <- app_assoc in Pb2. cbn [app] in Pb2.
  rewrite Pb2, <- app_assoc in Pb3. cbn [app] in Pb3, T3.
  rewrite (scan_samples_capture w1 d0 d) in Pb1, Pb2, Pb3.
  rewrite (scan_samples_capture w2 d1 d) in Pb2, Pb3.
  rewrite (scan_samples_capture w3 d2 d) in Pb3.
  split; [rewrite (ai_cmd_result h c g d), Hnz; reflexivity|].
  split; [exact A0|]. split; [exact Pb0|]. split; [exact Pb1|].
  split; [exact A1|]. split; [exact Pb2|]. split; [exact A2|].
  split; [exact Pb3|]. split; [exact A3|]. split; [exact Hdisj|].
  split.
  { rewrite Z.land_lor_distr_l, Hdisj, Z.land_diag. apply Z.lor_0_l. }
  split; [exact Heoa|]. split; [exact T3 | exact R3].
Qed.

End CountedAcquisition.

Lemma three_scans_then_retire_witness :
  let h := s626_h_ref in
  let c := comedi_h_ref in
  let d := idle_dev 1024 (counted_cmd c 2 3) in
  let w1 := fun i : nat => Z.shiftl (Z.of_nat i) 18 in
  let w2 := fun i : nat => Z.shiftl (Z.of_nat i + 16) 18 in
  let w3 := fun _ : nat => 0 in
  let g := fun _ : nat => 0 in
  let d0 := snd (s626_ai_cmd h c g d) in
  let d1 := eos_irq h c (hw_capture w1 d0) in
  let d2 := eos_irq h c (hw_capture w2 d1) in
  let d3 := eos_irq h c (hw_capture w3 d2) in
  irq_consts_okb h c = true
  /\ attached d = true /\ ai_cmd_running d = 0
  /\ stop_src (cmd d) = TRIG_COUNT c /\ stop_arg (cmd d) = 3
  /\ events d = 0 /\ scan_buf d = []
  /\ published d3 =
     [([8193; 8194], 1); ([8209; 8210], 1); ([8192; 8192], 3)]
  /\ acq d3 = (0, 0, 0)
  /\ readl (S626_P_IER h) d3 = 0.
Proof.
  cbv zeta.
  pose proof (three_scans_then_retire s626_h_ref comedi_h_ref eq_refl
                (fun _ => 0)
                (fun i => Z.shiftl (Z.of_nat i) 18)
                (fun i => Z.shiftl (Z.of_nat i + 16) 18)
                (fun _ => 0)
                (idle_dev 1024 (counted_cmd comedi_h_ref 2 3))
                eq_refl eq_refl eq_refl eq_refl eq_refl eq_refl) as H.
  cbv zeta in H.
  destruct H as (_ & _ & _ & _ & _ & _ & _ & P3 & A3 & _ & _ & _ & _ & R3).
  repeat split; try reflexivity; assumption.
Defined.

(** The handler itself does not look at the running flag: served once
    more after the third scan has retired the command, the end-of-scan
    cause hands a fourth scan to the comedi core, marks it as the end of
    the acquisition again, and repeats the sequencer-disable write. *)
Lemma eos_after_retirement_counterexample :
  let h := s626_h_ref in
  let c := comedi_h_ref in
  let d := idle_dev 1024 (counted_cmd c 2 3) in
  let w := fun _ : nat => 0 in
  let d0 := snd (s626_ai_cmd h c w d) in
  let d1 := eos_irq h c (hw_capture w d0) in
  let d2 := eos_irq h c (hw_capture w d1) in
  let d3 := eos_irq h c (hw_capture w d2) in
  let d4 := eos_irq h c d3 in
  ai_cmd_running d3 = 0
  /\ readl (S626_P_IER h) d3 = 0
  /\ length (published d3) = 3%nat
  /\ published d4 = published d3 ++ [([8192; 8192], 3)]
  /\ published d4 <> published d3
  /\ ai_sample_count d4 = -1
  /\ length (mmio_trace d4) = (length (mmio_trace d3) + 4)%nat.
Proof.
  vm_compute. repeat split. intros E. discriminate E.
Qed.

(** * Command validation *)

Section CmdTest.

Variable c : comedi_h.

Lemma nz_true x : x <> 0 -> nz x = true.
Proof. intros H. unfold nz. now apply negb_true_iff, Z.eqb_neq. Qed.

Lemma nz_false x : x = 0 -> nz x = false.
Proof. intros ->. reflexivity. Qed.

(** *** The checks of a step against its rules

    [tracks cm0 ok st]: the run of checks that led to [st] started from
    the command [cm0]; it has reported no error exactly when the rules
    met so far, [ok], hold of [cm0], and then the command is still
    [cm0]. *)
Local Abbreviation tracks cm0 ok st :=
  ((snd st = 0 <-> ok = true) /\ (snd st = 0 -> fst st = cm0)).

Lemma tracks_start (cm0 : comedi_cmd) : tracks cm0 true (cm0, 0).
Proof. cbn [fst snd]. split; [split; reflexivity | reflexivity]. Qed.

Lemma tracks_checked (get : comedi_cmd -> Z)
  (set : Z -> comedi_cmd -> comedi_cmd) (check : Z -> Z * Z)
  (rule : Z -> bool) (cm0 : comedi_cmd) (ok : bool)
  (st : comedi_cmd * Z) :
  enforces check rule ->
  (forall cm, set (get cm) cm = cm) ->
  tracks cm0 ok st ->
  tracks cm0 (ok && rule (get cm0)) (checked get set check st).
Proof.
  intros He Heta [Hok Hcm]. destruct st as [cm err]. cbn [fst snd] in *.
  unfold checked. destruct (He (get cm)) as [Hr Hv].
  destruct (check (get cm)) as [v e]. cbn [fst snd] in *.
  rewrite Z.lor_eq_0_iff, andb_true_iff. split.
  - split.
    + intros [E0 E1]. rewrite <- (Hcm E0). split; [apply Hok | apply Hr];
        assumption.
    + intros [O R]. apply Hok in O. split; [exact O|].
      apply Hr. rewrite (Hcm O). exact R.
  - intros [E0 E1]. rewrite (Hv E1), Heta. exact (Hcm E0).
Qed.

Lemma tracks_if (b : bool) (get : comedi_cmd -> Z)
  (set : Z -> comedi_cmd -> comedi_cmd) (check : Z -> Z * Z)
  (rule : Z -> bool) (cm0 : comedi_cmd) (ok : bool)
  (st : comedi_cmd * Z) :
  enforces check rule ->
  (forall cm, set (get cm) cm = cm) ->
  tracks cm0 ok st ->
  tracks cm0 (ok && (if b then rule (get cm0) else true))
    (if b then checked get set check st else st).
Proof.
  intros He Heta T. destruct b.
  - exact (tracks_checked get set check rule cm0 ok st He Heta T).
  - rewrite andb_true_r. exact T.
Qed.

Lemma tracks_if2 (b : bool) (get : comedi_cmd -> Z)
  (set : Z -> comedi_cmd -> comedi_cmd) (check1 check2 : Z -> Z * Z)
  (rule1 rule2 : Z -> bool) (cm0 : comedi_cmd) (ok : bool)
  (st : comedi_cmd * Z) :
  enforces check1 rule1 ->
  enforces check2 rule2 ->
  (forall cm, set (get cm) cm = cm) ->
  tracks cm0 ok st ->
  tracks cm0 (ok && (if b then rule1 (get cm0) && rule2 (get cm0) else true))
    (if b then checked get set check2 (checked get set check1 st) else st).
Proof.
  intros H1 H2 Heta T. destruct b.
  - rewrite andb_assoc.
    apply (tracks_checked get set check2 rule2 cm0 _ _ H2 Heta).
    exact (tracks_checked get set check1 rule1 cm0 ok st H1 Heta T).
  - rewrite andb_true_r. exact T.
Qed.

Lemma tracks_ite (b : bool) (get : comedi_cmd -> Z)
  (set : Z -> comedi_cmd -> comedi_cmd) (check1 check2 : Z -> Z * Z)
  (rule1 rule2 : Z -> bool) (cm0 : comedi_cmd) (ok : bool)
  (st : comedi_cmd * Z) :
  enforces check1 rule1 ->
  enforces check2 rule2 ->
  (forall cm, set (get cm) cm = cm) ->
  tracks cm0 ok st ->
  tracks cm0 (ok && (if b then rule1 (get cm0) else rule2 (get cm0)))
    (if b then checked get set check1 st else checked get set check2 st).
Proof.
  intros H1 H2 Heta T. destruct b.
  - exact (tracks_checked get set check1 rule1 cm0 ok st H1 Heta T).
  - exact (tracks_checked get set check2 rule2 cm0 ok st H2 Heta T).
Qed.

Lemma start_src_set_back cm : set_start_src (start_src cm) cm = cm.
Proof. destruct cm; reflexivity. Qed.

Lemma scan_begin_src_set_back cm :
  set_scan_begin_src (scan_begin_src cm) cm = cm.
Proof. destruct cm; reflexivity. Qed.

Lemma convert_src_set_back cm : set_convert_src (convert_src cm) cm = cm.
Proof. destruct cm; reflexivity. Qed.

Lemma scan_end_src_set_back cm : set_scan_end_src (scan_end_src cm) cm = cm.
Proof. destruct cm; reflexivity. Qed.

Lemma stop_src_set_back cm : set_stop_src (stop_src cm) cm = cm.
Proof. destruct cm; reflexivity. Qed.

Lemma start_arg_set_back cm : set_start_arg (start_arg cm) cm = cm.
Proof. destruct cm; reflexivity. Qed.

Lemma scan_begin_arg_set_back cm :
  set_scan_begin_arg (scan_begin_arg cm) cm = cm.
Proof. destruct cm; reflexivity. Qed.

Lemma convert_arg_set_back cm : set_convert_arg (convert_arg cm) cm = cm.
Proof. destruct cm; reflexivity. Qed.

Lemma scan_end_arg_set_back cm : set_scan_end_arg (scan_end_arg cm) cm = cm.
Proof. destruct cm; reflexivity. Qed.

Lemma stop_arg_set_back cm : set_stop_arg (stop_arg cm) cm = cm.
Proof. destruct cm; reflexivity. Qed.

(** The five checks of step 1 report an error exactly when a source is
    outside the set allowed for its class. *)
Lemma step1_tracks (cm : comedi_cmd) :
  cmdtest_helpers_ok c ->
  tracks cm (step1_rules c cm) (cmdtest_step1 c cm).
Proof.
  intros (Hsrc & _).
  pose proof (tracks_start cm) as T0.
  pose proof (tracks_checked start_src set_start_src _ _ cm _ _
                (Hsrc (Z.lor (TRIG_NOW c) (Z.lor (TRIG_INT c) (TRIG_EXT c))))
                start_src_set_back T0) as T1.
  pose proof (tracks_checked scan_begin_src set_scan_begin_src _ _ cm _ _
                (Hsrc (Z.lor (TRIG_TIMER c)
                         (Z.lor (TRIG_EXT c) (TRIG_FOLLOW c))))
                scan_begin_src_set_back T1) as T2.
  pose proof (tracks_checked convert_src set_convert_src _ _ cm _ _
                (Hsrc (Z.lor (TRIG_TIMER c)
                         (Z.lor (TRIG_EXT c) (TRIG_NOW c))))
                convert_src_set_back T2) as T3.
  pose proof (tracks_checked scan_end_src set_scan_end_src _ _ cm _ _
                (Hsrc (TRIG_COUNT c)) scan_end_src_set_back T3) as T4.
  pose proof (tracks_checked stop_src set_stop_src _ _ cm _ _
                (Hsrc (Z.lor (TRIG_COUNT c) (TRIG_NONE c)))
                stop_src_set_back T4) as T5.
  exact T5.
Qed.

(** The checks of step 2 report an error exactly when a class has more
    than one source. *)
Lemma step2_rules_spec (cm : comedi_cmd) :
  cmdtest_helpers_ok c ->
  cmdtest_step2 c cm = 0 <-> step2_rules cm = true.
Proof.
  intros (_ & Hu & _). unfold cmdtest_step2, step2_rules. cbv zeta.
  rewrite !Z.lor_eq_0_iff, !andb_true_iff, <- !Hu. tauto.
Qed.

(** The checks of step 3 report an error exactly when an argument is out
    of its bounds. *)
Lemma step3_tracks (cm : comedi_cmd) :
  cmdtest_helpers_ok c ->
  tracks cm (step3_rules c cm) (cmdtest_step3 c cm).
Proof.
  intros (_ & _ & His & Hmin & Hmax).
  pose proof (tracks_start cm) as T0.
  pose proof (tracks_if (negb (start_src cm =? TRIG_EXT c))
                start_arg set_start_arg _ _ cm _ _
                (His 0) start_arg_set_back T0) as T1.
  pose proof (tracks_if (start_src cm =? TRIG_EXT c)
                start_arg set_start_arg _ _ cm _ _
                (Hmax 39) start_arg_set_back T1) as T2.
  pose proof (tracks_if (scan_begin_src cm =? TRIG_EXT c)
                scan_begin_arg set_scan_begin_arg _ _ cm _ _
                (Hmax 39) scan_begin_arg_set_back T2) as T3.
  pose proof (tracks_if (convert_src cm =? TRIG_EXT c)
                convert_arg set_convert_arg _ _ cm _ _
                (Hmax 39) convert_arg_set_back T3) as T4.
  pose proof (tracks_if2 (scan_begin_src cm =? TRIG_TIMER c)
                scan_begin_arg set_scan_begin_arg _ _ _ _ cm _ _
                (Hmin S626_MAX_SPEED) (Hmax S626_MIN_SPEED)
                scan_begin_arg_set_back T4) as T5.
  pose proof (tracks_if2 (convert_src cm =? TRIG_TIMER c)
                convert_arg set_convert_arg _ _ _ _ cm _ _
                (Hmin S626_MAX_SPEED) (Hmax S626_MIN_SPEED)
                convert_arg_set_back T5) as T6.
  pose proof (tracks_checked scan_end_arg set_scan_end_arg _ _ cm _ _
                (His (u32 (chanlist_len cm))) scan_end_arg_set_back T6)
    as T7.
  pose proof (tracks_ite (stop_src cm =? TRIG_COUNT c)
                stop_arg set_stop_arg _ _ _ _ cm _ _
                (Hmax 16777215) (His 0) stop_arg_set_back T7) as T8.
  cbv beta in T8.
  replace (step3_rules c cm) with
    (true
     && (if negb (start_src cm =? TRIG_EXT c)
         then start_arg cm =? 0 else true)
     && (if start_src cm =? TRIG_EXT c then start_arg cm <=? 39 else true)
     && (if scan_begin_src cm =? TRIG_EXT c
         then scan_begin_arg cm <=? 39 else true)
     && (if convert_src cm =? TRIG_EXT c
         then convert_arg cm <=? 39 else true)
     && (if scan_begin_src cm =? TRIG_TIMER c
         then (S626_MAX_SPEED <=? scan_begin_arg cm)
              && (scan_begin_arg cm <=? S626_MIN_SPEED)
         else true)
     && (if convert_src cm =? TRIG_TIMER c
         then (S626_MAX_SPEED <=? convert_arg cm)
              && (convert_arg cm <=? S626_MIN_SPEED)
         else true)
     && (scan_end_arg cm =? u32 (chanlist_len cm))
     && (if stop_src cm =? TRIG_COUNT c
         then stop_arg cm <=? 16777215 else stop_arg cm =? 0)).
  - exact T8.
  - unfold step3_rules.
    destruct (start_src cm =? TRIG_EXT c); cbn [negb andb];
      rewrite ?andb_true_r; reflexivity.
Qed.

(** The result of validation in terms of the rules: the number of the
    first step whose rule is violated. *)
Lemma cmdtest_by_rules (cm : comedi_cmd) :
  cmdtest_helpers_ok c ->
  s626_ai_cmdtest c cm =
  if negb (step1_rules c cm) then (1, fst (cmdtest_step1 c cm))
  else if negb (step2_rules cm) then (2, cm)
  else if negb (step3_rules c cm) then (3, fst (cmdtest_step3 c cm))
  else (if nz (snd (cmdtest_step4 c cm)) then 4 else 0,
        fst (cmdtest_step4 c cm)).
Proof.
  intros Hh.
  destruct (step1_tracks cm Hh) as [S1 C1].
  pose proof (step2_rules_spec cm Hh) as S2.
  destruct (step3_tracks cm Hh) as [S3 C3].
  unfold s626_ai_cmdtest.
  destruct (cmdtest_step1 c cm) as [cm1 e1]. cbn [fst snd] in *.
  destruct (step1_rules c cm).
  - assert (E1 : e1 = 0) by (apply S1; reflexivity).
    rewrite (nz_false _ E1). rewrite (C1 E1). cbn [negb].
    destruct (step2_rules cm).
    + assert (E2 : cmdtest_step2 c cm = 0) by (apply S2; reflexivity).
      rewrite (nz_false _ E2). cbn [negb].
      destruct (cmdtest_step3 c cm) as [cm3 e3]. cbn [fst snd] in *.
      destruct (step3_rules c cm).
      * assert (E3 : e3 = 0) by (apply S3; reflexivity).
        rewrite (nz_false _ E3). rewrite (C3 E3). cbn [negb].
        destruct (cmdtest_step4 c cm) as [cm4 e4]. cbn [fst snd].
        destruct (nz e4); reflexivity.
      * assert (E3 : e3 <> 0)
          by (intros E; apply S3 in E; discriminate).
        rewrite (nz_true _ E3). reflexivity.
    + assert (E2 : cmdtest_step2 c cm <> 0)
        by (intros E; apply S2 in E; discriminate).
      rewrite (nz_true _ E2). reflexivity.
  - assert (E1 : e1 <> 0) by (intros E; apply S1 in E; discriminate).
    rewrite (nz_true _ E1). reflexivity.
Qed.

(** X3.  Under the contract of the validation helpers,
    [s626_ai_cmdtest] returns the number of the first step whose rule the
    command violates: 1 for a source outside the set of its class, 2 for
    a class with more than one source, 3 for an argument out of bounds;
    a command that keeps the three rules reaches step 4 as the caller
    gave it, and is answered with 4 or 0 by that step. *)
Theorem cmdtest_first_failing_step (cm : comedi_cmd) :
  cmdtest_helpers_ok c ->
  fst (s626_ai_cmdtest c cm) =
    (if negb (step1_rules c cm) then 1
     else if negb (step2_rules cm) then 2
     else if negb (step3_rules c cm) then 3
     else if nz (snd (cmdtest_step4 c cm)) then 4 else 0)
  /\ (step1_rules c cm = true -> step2_rules cm = false ->
      s626_ai_cmdtest c cm = (2, cm))
  /\ (step1_rules c cm = true -> step2_rules cm = true ->
      step3_rules c cm = true ->
      s626_ai_cmdtest c cm =
      (if nz (snd (cmdtest_step4 c cm)) then 4 else 0,
       fst (cmdtest_step4 c cm))).
Proof.
  intros Hh. rewrite (cmdtest_by_rules cm Hh). split.
  - destruct (step1_rules c cm); [|reflexivity].
    destruct (step2_rules cm); [|reflexivity].
    destruct (step3_rules c cm); reflexivity.
  - split.
    + intros -> ->. reflexivity.
    + intros -> -> ->. reflexivity.
Qed.

(** C7.  Under the contract of the validation helpers, validation
    answers 1 exactly for the commands that violate a rule of step 1
    (a trigger source outside the set allowed for its class); once the
    rules of steps 1 and 2 hold it answers 3 exactly for the commands
    that violate a rule of step 3 (an argument out of bounds).  So a
    command that violates a rule of step 1 and a rule of step 3 is
    reported as failing step 1, never step 3. *)
Theorem cmdtest_reports_step1_first (cm : comedi_cmd) :
  cmdtest_helpers_ok c ->
  (fst (s626_ai_cmdtest c cm) = 1 <-> step1_rules c cm = false)
  /\ (step1_rules c cm = true -> step2_rules cm = true ->
      (fst (s626_ai_cmdtest c cm) = 3 <-> step3_rules c cm = false))
  /\ (step1_rules c cm = false -> step3_rules c cm = false ->
      fst (s626_ai_cmdtest c cm) = 1 /\ fst (s626_ai_cmdtest c cm) <> 3).
Proof.
  intros Hh. rewrite (cmdtest_by_rules cm Hh). split; [|split].
  - destruct (step1_rules c cm); cbn [negb].
    + split; [|discriminate].
      destruct (step2_rules cm); cbn [negb fst]; [|discriminate].
      destruct (step3_rules c cm); cbn [negb fst]; [|discriminate].
      destruct (nz (snd (cmdtest_step4 c cm))); discriminate.
    + cbn [fst]. split; reflexivity.
  - intros -> ->. cbn [negb].
    destruct (step3_rules c cm); cbn [negb fst].
    + split; [|discriminate].
      destruct (nz (snd (cmdtest_step4 c cm))); discriminate.
    + split; reflexivity.
  - intros -> _. cbn [negb fst]. split; [reflexivity | discriminate].
Qed.

(** C8, as the code has it.  For a command that passes steps 1 to 3 and
    paces both the scans and the conversions by a timer, step 4 first
    rounds the two intervals to the 500 ns grid of the timer; when the
    rounded scan interval is smaller than the rounded conversion interval
    times the number of channels per scan (a product that fits 32 bits),
    the scan interval is set to exactly that product, the correction is
    counted as an error and validation returns 4. *)
Theorem cmdtest_step4_widens (cm : comedi_cmd) :
  let cm1 := fst (cmdtest_step1 c cm) in
  let cm3 := fst (cmdtest_step3 c cm1) in
  let rnd := fun x =>
    u32 (snd (s626_ns_to_timer c (s32 x)
                (s32 (Z.land (flags cm3) (TRIG_ROUND_MASK c))))) in
  let sba := rnd (scan_begin_arg cm3) in
  let cva := rnd (convert_arg cm3) in
  snd (cmdtest_step1 c cm) = 0 ->
  cmdtest_step2 c cm1 = 0 ->
  snd (cmdtest_step3 c cm1) = 0 ->
  scan_begin_src cm3 = TRIG_TIMER c ->
  convert_src cm3 = TRIG_TIMER c ->
  sba < cva * scan_end_arg cm3 < 4294967296 ->
  s626_ai_cmdtest c cm =
  (4, set_scan_begin_arg (cva * scan_end_arg cm3) (set_convert_arg cva cm3)).
Proof.
  cbv zeta. unfold s626_ai_cmdtest.
  destruct (cmdtest_step1 c cm) as [cm1 e1]. cbn [fst snd].
  intros -> ->. cbn [nz Z.eqb negb].
  destruct (cmdtest_step3 c cm1) as [cm3 e3]. cbn [fst snd].
  intros -> Hsb Hcv Hlt. cbn [nz Z.eqb negb].
  unfold cmdtest_step4. rewrite Hsb, Z.eqb_refl.
  destruct (s626_ns_to_timer c (s32 (scan_begin_arg cm3)) _) as [t1 ns1].
  cbn [snd] in Hlt.
  cbn [convert_src convert_arg flags scan_begin_src scan_begin_arg
       scan_end_arg set_scan_begin_arg].
  rewrite Hcv, Z.eqb_refl.
  destruct (s626_ns_to_timer c (s32 (convert_arg cm3)) _) as [t2 ns2].
  cbn [snd] in Hlt.
  cbn [convert_src convert_arg flags scan_begin_src scan_begin_arg
       scan_end_arg set_scan_begin_arg set_convert_arg].
  rewrite Hsb, Z.eqb_refl. cbn [andb].
  assert (Hu : u32 (u32 ns2 * scan_end_arg cm3) = u32 ns2 * scan_end_arg cm3).
  { apply u32_small. split; [|lia].
    assert (0 <= u32 ns1) by (rewrite u32_mod; apply Z.mod_pos_bound; lia).
    lia. }
  rewrite Hu.
  replace (u32 ns1 <? u32 ns2 * scan_end_arg cm3) with true
    by (symmetry; apply Z.ltb_lt; lia).
  set (e1 := if negb (u32 (s32 (scan_begin_arg cm3)) =? u32 ns1)
             then s32 (0 + 1) else 0).
  set (e2 := if negb (u32 (s32 (convert_arg cm3)) =? u32 ns2)
             then s32 (e1 + 1) else e1).
  assert (He : nz (s32 (e2 + 1)) = true).
  { unfold e2, e1.
    destruct (negb (_ =? u32 ns1)); destruct (negb (_ =? u32 ns2));
      reflexivity. }
  rewrite He. reflexivity.
Qed.

End CmdTest.

(** The helpers of the reference instance keep the contract. *)
Lemma cmdtest_helpers_ref_ok : cmdtest_helpers_ok comedi_h_ref.
Proof.
  unfold cmdtest_helpers_ok, enforces. cbn [comedi_h_ref
    cfc_check_trigger_src cfc_check_trigger_is_unique
    cfc_check_trigger_arg_is cfc_check_trigger_arg_min
    cfc_check_trigger_arg_max].
  split; [|split; [|split; [|split]]].
  - intros allowed v.
    unfold check_trigger_src_ref, src_among. cbv zeta. cbn [fst snd].
    set (v' := Z.land v allowed).
    destruct (Z.eqb_spec v' 0) as [E0 | E0];
      destruct (Z.eqb_spec v' v) as [E1 | E1];
      destruct (Z.eqb_spec v 0) as [E2 | E2];
      cbn [orb negb andb]; split;
      try (split; intros; (reflexivity || discriminate || congruence));
      intros; (reflexivity || discriminate || congruence).
  - intros v. unfold check_trigger_is_unique_ref, one_source.
    destruct (Z.land v (v - 1) =? 0); split; intros;
      (reflexivity || discriminate).
  - intros x v. unfold check_trigger_arg_is_ref.
    destruct (v =? x); cbn [fst snd]; split;
      try (split; intros; (reflexivity || discriminate));
      intros; (reflexivity || discriminate).
  - intros x v. unfold check_trigger_arg_min_ref.
    destruct (Z.ltb_spec v x); destruct (Z.leb_spec x v); cbn [fst snd];
      try lia; split;
      try (split; intros; (reflexivity || discriminate));
      intros; (reflexivity || discriminate).
  - intros x v. unfold check_trigger_arg_max_ref. rewrite Z.gtb_ltb.
    destruct (Z.ltb_spec x v); destruct (Z.leb_spec v x); cbn [fst snd];
      try lia; split;
      try (split; intros; (reflexivity || discriminate));
      intros; (reflexivity || discriminate).
Qed.

(** A command with two start sources passes step 1 and fails step 2. *)
Lemma cmdtest_first_failing_step_witness :
  let c := comedi_h_ref in
  let cm := set_start_src (Z.lor (TRIG_NOW c) (TRIG_INT c))
              (free_run_cmd c 2) in
  cmdtest_helpers_ok c
  /\ step1_rules c cm = true
  /\ step2_rules cm = false
  /\ fst (s626_ai_cmdtest c cm) = 2
  /\ s626_ai_cmdtest c cm = (2, cm).
Proof.
  cbv zeta.
  destruct (cmdtest_first_failing_step comedi_h_ref
              (set_start_src (Z.lor (TRIG_NOW comedi_h_ref)
                                (TRIG_INT comedi_h_ref))
                 (free_run_cmd comedi_h_ref 2))
              cmdtest_helpers_ref_ok) as (F & S2 & _).
  split; [exact cmdtest_helpers_ref_ok|].
  split; [reflexivity|]. split; [reflexivity|].
  split; [exact F | exact (S2 eq_refl eq_refl)].
Defined.

(** No start source and a start argument of 5: a rule of step 1 and a
    rule of step 3 are violated, and validation answers 1. *)
Lemma cmdtest_reports_step1_first_witness :
  let c := comedi_h_ref in
  let cm := set_start_arg 5 (set_start_src 0 (free_run_cmd c 2)) in
  cmdtest_helpers_ok c
  /\ step1_rules c cm = false
  /\ step3_rules c cm = false
  /\ fst (s626_ai_cmdtest c cm) = 1
  /\ fst (s626_ai_cmdtest c cm) <> 3.
Proof.
  cbv zeta.
  destruct (cmdtest_reports_step1_first comedi_h_ref
              (set_start_arg 5 (set_start_src 0
                 (free_run_cmd comedi_h_ref 2)))
              cmdtest_helpers_ref_ok) as (_ & _ & B).
  split; [exact cmdtest_helpers_ref_ok|].
  split; [reflexivity|]. split; [reflexivity|].
  exact (B eq_refl eq_refl).
Defined.

Lemma cmdtest_step4_widens_witness :
  let c := comedi_h_ref in
  let cm := timed_cmd c 5 1000000 300000 in
  snd (cmdtest_step1 c cm) = 0
  /\ cmdtest_step2 c cm = 0
  /\ snd (cmdtest_step3 c cm) = 0
  /\ s626_ai_cmdtest c cm = (4, set_scan_begin_arg 1500000 cm).
Proof.
  cbv zeta. split; [reflexivity|]. split; [reflexivity|].
  split; [reflexivity|].
  exact (cmdtest_step4_widens comedi_h_ref
           (timed_cmd comedi_h_ref 5 1000000 300000)
           eq_refl eq_refl eq_refl eq_refl eq_refl
           (conj eq_refl eq_refl)).
Defined.

(** The comparison of step 4 is made after the rounding: a scan interval
    of 1000300 ns is below five conversions of 200200 ns, yet validation
    leaves it at its rounded value 1000500 ns, which is neither five times
    the requested nor five times the rounded conversion interval. *)
Lemma cmdtest_step4_counterexample :
  let c := comedi_h_ref in
  let cm := timed_cmd c 5 1000300 200200 in
  let r := s626_ai_cmdtest c cm in
  scan_begin_src cm = TRIG_TIMER c
  /\ convert_src cm = TRIG_TIMER c
  /\ scan_begin_arg cm < convert_arg cm * scan_end_arg cm
  /\ scan_begin_arg (snd r) = 1000500
  /\ convert_arg (snd r) = 200000
  /\ scan_begin_arg (snd r) <> convert_arg cm * scan_end_arg cm
  /\ scan_begin_arg (snd r) <> convert_arg (snd r) * scan_end_arg (snd r).
Proof.
  vm_compute. repeat split; discriminate.
Qed.

(** The product of step 4 is a 32-bit one: three conversions of two
    seconds wrap to 1705032704 ns, below a scan interval of 1.8 s, and the
    command is accepted unchanged. *)
Example cmdtest_product_wraps :
  let c := comedi_h_ref in
  let cm := timed_cmd c 3 1800000000 2000000000 in
  s626_ai_cmdtest c cm = (0, cm).
Proof. vm_compute. reflexivity. Qed.

(** * Further properties of the driver

    ** Sample conversion *)

Lemma land_below_bit r n : 0 <= n -> 0 <= r < 2 ^ n -> Z.land r (2 ^ n) = 0.
Proof.
  intros Hn Hr. apply Z.bits_inj'. intros i Hi.
  rewrite Z.land_spec, Z.bits_0, Z.pow2_bits_eqb by lia.
  destruct (Z.eqb_spec n i) as [<- | _]; [|apply andb_false_r].
  replace r with (r mod 2 ^ n) by (apply Z.mod_small; lia).
  rewrite Z.mod_pow2_bits_high by lia. reflexivity.
Qed.

Lemma lxor_below a b n :
  0 <= n -> 0 <= a < 2 ^ n -> 0 <= b < 2 ^ n -> 0 <= Z.lxor a b < 2 ^ n.
Proof.
  intros Hn Ha Hb.
  assert (E : Z.lxor a b = Z.lxor a b mod 2 ^ n).
  { apply Z.bits_inj'. intros i Hi.
    destruct (Z_lt_le_dec i n) as [Hlt | Hge].
    - now rewrite Z.mod_pow2_bits_low by lia.
    - rewrite Z.mod_pow2_bits_high, Z.lxor_spec by lia.
      replace a with (a mod 2 ^ n) by (apply Z.mod_small; lia).
      replace b with (b mod 2 ^ n) by (apply Z.mod_small; lia).
      now rewrite !Z.mod_pow2_bits_high by lia. }
  rewrite E. apply Z.mod_pos_bound. lia.
Qed.

(** X1.  [s626_ai_reg_to_uint] delivers a 14-bit sample, and it turns the
    two's complement reading that the ADC leaves in the upper 14 bits of
    the buffer word into offset binary: a reading [s] between -8192 and
    8191 comes out as [s + 8192], whatever the lower 18 bits hold. *)
Theorem ai_reg_to_uint_offset_binary (data s low : Z) :
  -8192 <= s < 8192 ->
  0 <= low < 262144 ->
  0 <= s626_ai_reg_to_uint data < 16384
  /\ s626_ai_reg_to_uint ((s mod 16384) * 262144 + low) = s + 8192.
Proof.
  intros Hs Hlow. unfold s626_ai_reg_to_uint. split.
  - change 16383 with (Z.ones 14). rewrite Z.land_ones by lia.
    pose proof (Z.mod_pos_bound (Z.shiftr (u32 data) 18) (2 ^ 14)
                  ltac:(lia)) as Hm.
    apply (lxor_below _ _ 14); [lia | exact Hm | lia].
  - pose proof (Z.mod_pos_bound s 16384 ltac:(lia)) as Hm.
    set (t := s mod 16384) in *.
    rewrite u32_small by lia.
    rewrite Z.shiftr_div_pow2 by lia. change (2 ^ 18) with 262144.
    rewrite Z.div_add_l, (Z.div_small low) by lia. rewrite Z.add_0_r.
    change 16383 with (Z.ones 14). rewrite Z.land_ones by lia.
    rewrite (Z.mod_small t) by lia.
    destruct (Z_lt_le_dec s 0) as [Hneg | Hpos].
    + assert (Et : t = s + 8192 + 8192).
      { unfold t. symmetry. apply (Z.mod_unique _ _ (-1)); lia. }
      assert (El : Z.land (s + 8192) 8192 = 0)
        by (apply (land_below_bit _ 13); lia).
      rewrite Et, (Z.add_nocarry_lxor (s + 8192) 8192 El).
      rewrite Z.lxor_assoc, Z.lxor_nilpotent. apply Z.lxor_0_r.
    + assert (Et : t = s) by (unfold t; apply Z.mod_small; lia).
      assert (El : Z.land s 8192 = 0) by (apply (land_below_bit _ 13); lia).
      rewrite Et, <- (Z.add_nocarry_lxor s 8192 El). reflexivity.
Qed.

Lemma ai_reg_to_uint_offset_binary_witness :
  -8192 <= -1 < 8192 /\ 0 <= 5 < 262144
  /\ s626_ai_reg_to_uint 4294705157 = 8191.
Proof.
  split; [lia|]. split; [lia|].
  exact (proj2 (ai_reg_to_uint_offset_binary 0 (-1) 5
                  ltac:(lia) ltac:(lia))).
Defined.

(** ** Rounding is a projection *)

Section TimerFixedPoint.

Variable c : comedi_h.

(** The interval of a whole number of ticks is left as it is, with every
    rounding selector. *)
Lemma ns_to_timer_ticks (k m : Z) :
  0 <= 500 * k <= 2147483147 ->
  s626_ns_to_timer c (500 * k) m = (k - 1, 500 * k).
Proof.
  intros Hk. unfold s626_ns_to_timer. cbv zeta.
  change (Z.quot 500 2) with 250.
  assert (Q1 : Z.quot (s32 (500 * k + 250)) 500 = k).
  { rewrite s32_small, Z.quot_div_nonneg by lia.
    symmetry. apply (Z.div_unique _ _ _ 250); lia. }
  assert (Q2 : Z.quot (500 * k) 500 = k).
  { rewrite Z.quot_div_nonneg by lia.
    symmetry. apply (Z.div_unique _ _ _ 0); lia. }
  assert (Q3 : Z.quot (s32 (s32 (500 * k + 500) - 1)) 500 = k).
  { rewrite (s32_small (500 * k + 500)) by lia.
    rewrite s32_small, Z.quot_div_nonneg by lia.
    symmetry. apply (Z.div_unique _ _ _ 499); lia. }
  rewrite Q1, Q2, Q3.
  destruct (m =? TRIG_ROUND_NEAREST c), (m =? TRIG_ROUND_DOWN c),
           (m =? TRIG_ROUND_UP c); now rewrite !s32_small by lia.
Qed.

(** What [s626_ns_to_timer] leaves is a whole number of ticks. *)
Lemma ns_to_timer_grid (ns m : Z) :
  0 <= ns <= 2147482648 ->
  exists k, s626_ns_to_timer c ns m = (k - 1, 500 * k)
            /\ 0 <= 500 * k <= 2147483147
            /\ ns - 500 < 500 * k < ns + 500.
Proof.
  intros Hns. unfold s626_ns_to_timer. cbv zeta.
  change (Z.quot 500 2) with 250.
  rewrite (s32_small (ns + 250)), (s32_small (ns + 500)) by lia.
  rewrite (s32_small (ns + 500 - 1)) by lia.
  rewrite !Z.quot_div_nonneg by lia.
  pose proof (Z.div_mod (ns + 250) 500 ltac:(lia)) as D1.
  pose proof (Z.mod_pos_bound (ns + 250) 500 ltac:(lia)) as M1.
  pose proof (Z.div_mod ns 500 ltac:(lia)) as D2.
  pose proof (Z.mod_pos_bound ns 500 ltac:(lia)) as M2.
  pose proof (Z.div_mod (ns + 500 - 1) 500 ltac:(lia)) as D3.
  pose proof (Z.mod_pos_bound (ns + 500 - 1) 500 ltac:(lia)) as M3.
  destruct (m =? TRIG_ROUND_NEAREST c), (m =? TRIG_ROUND_DOWN c),
           (m =? TRIG_ROUND_UP c);
    eexists; (split; [rewrite !s32_small by lia; reflexivity | lia]).
Qed.

(** X2.  Rounding an interval to the timer grid is a projection: what
    [s626_ns_to_timer] leaves in the caller's argument is a whole number
    of 500 ns ticks less than one tick away from the request, the
    function result is that number of ticks minus one, and rounding the
    result again with the same selector changes nothing.  This holds for
    every value of the selector, including the ones that fall to the
    default case. *)
Theorem ns_to_timer_fixed_point (ns m : Z) :
  0 <= ns <= 2147482648 ->
  let r := s626_ns_to_timer c ns m in
  snd r = 500 * (fst r + 1)
  /\ ns - 500 < snd r < ns + 500
  /\ s626_ns_to_timer c (snd r) m = r.
Proof.
  intros Hns. cbv zeta.
  destruct (ns_to_timer_grid ns m Hns) as (k & E & Hk & Hd).
  rewrite E. cbn [fst snd]. split; [lia|]. split; [exact Hd|].
  now apply ns_to_timer_ticks.
Qed.

(** X13.  The intervals that validation accepts fit the timer.  For an
    interval between the limits that step 3 of the validation enforces
    ([S626_MAX_SPEED] = 200 us and [S626_MIN_SPEED] = 2 s),
    [s626_ns_to_timer] returns a tick count between 399 and 3999999,
    which fits the 24-bit preload register of the counter, and the
    interval it leaves in the caller's argument is still between the two
    limits, with every rounding selector. *)
Theorem timer_interval_limits (ns m : Z) :
  S626_MAX_SPEED <= ns <= S626_MIN_SPEED ->
  let r := s626_ns_to_timer c ns m in
  399 <= fst r <= 3999999
  /\ fst r < 2 ^ 24
  /\ S626_MAX_SPEED <= snd r <= S626_MIN_SPEED.
Proof.
  unfold S626_MAX_SPEED, S626_MIN_SPEED. intros Hns. cbv zeta.
  destruct (ns_to_timer_grid ns m ltac:(lia)) as (k & E & Hk & Hd).
  rewrite E. cbn [fst snd]. change (2 ^ 24) with 16777216. lia.
Qed.

End TimerFixedPoint.

Lemma ns_to_timer_fixed_point_witness :
  0 <= 200300 <= 2147482648
  /\ s626_ns_to_timer comedi_h_ref 200300 (TRIG_ROUND_UP comedi_h_ref)
     = (400, 200500)
  /\ s626_ns_to_timer comedi_h_ref 200500 (TRIG_ROUND_UP comedi_h_ref)
     = (400, 200500).
Proof.
  split; [lia|]. split; [reflexivity|].
  exact (proj2 (proj2 (ns_to_timer_fixed_point comedi_h_ref 200300
                         (TRIG_ROUND_UP comedi_h_ref) ltac:(lia)))).
Defined.

Lemma timer_interval_limits_witness :
  S626_MAX_SPEED <= 2000000000 <= S626_MIN_SPEED
  /\ s626_ns_to_timer comedi_h_ref 2000000000 (TRIG_ROUND_UP comedi_h_ref)
     = (3999999, 2000000000)
  /\ 3999999 < 2 ^ 24.
Proof.
  unfold S626_MAX_SPEED, S626_MIN_SPEED.
  pose proof (timer_interval_limits comedi_h_ref 2000000000
                (TRIG_ROUND_UP comedi_h_ref) ltac:(cbv; split; discriminate))
    as H.
  cbv zeta in H. destruct H as (_ & H & _).
  split; [lia|]. split; [reflexivity | exact H].
Defined.

(** ** The fix-up of step 4 settles in one pass *)

Section Step4FixedPoint.

Variable c : comedi_h.

Lemma set_scan_begin_arg_same cm :
  set_scan_begin_arg (scan_begin_arg cm) cm = cm.
Proof. now destruct cm. Qed.

Lemma set_convert_arg_same cm : set_convert_arg (convert_arg cm) cm = cm.
Proof. now destruct cm. Qed.

(** Step 4 on a command whose timer intervals are whole ticks already and
    whose scan interval covers the conversions. *)
Lemma cmdtest_step4_settled cm (ks kc : Z) :
  (scan_begin_src cm = TRIG_TIMER c ->
     scan_begin_arg cm = 500 * ks /\ 0 <= 500 * ks <= 2147483147) ->
  (convert_src cm = TRIG_TIMER c ->
     convert_arg cm = 500 * kc /\ 0 <= 500 * kc <= 2147483147) ->
  (scan_begin_src cm = TRIG_TIMER c -> convert_src cm = TRIG_TIMER c ->
     u32 (convert_arg cm * scan_end_arg cm) <= scan_begin_arg cm) ->
  cmdtest_step4 c cm = (cm, 0).
Proof.
  intros Hs Hc Hp. unfold cmdtest_step4.
  assert (Ts : scan_begin_src cm = TRIG_TIMER c ->
               s32 (scan_begin_arg cm) = scan_begin_arg cm
               /\ u32 (scan_begin_arg cm) = scan_begin_arg cm
               /\ s626_ns_to_timer c (scan_begin_arg cm)
                    (s32 (Z.land (flags cm) (TRIG_ROUND_MASK c))) =
                  (ks - 1, scan_begin_arg cm)).
  { intros Es. destruct (Hs Es) as (Vs & Rs).
    rewrite s32_small, u32_small by lia.
    split; [reflexivity|]. split; [reflexivity|].
    rewrite Vs. apply ns_to_timer_ticks. lia. }
  assert (Tc : convert_src cm = TRIG_TIMER c ->
               s32 (convert_arg cm) = convert_arg cm
               /\ u32 (convert_arg cm) = convert_arg cm
               /\ s626_ns_to_timer c (convert_arg cm)
                    (s32 (Z.land (flags cm) (TRIG_ROUND_MASK c))) =
                  (kc - 1, convert_arg cm)).
  { intros Ec. destruct (Hc Ec) as (Vc & Rc).
    rewrite s32_small, u32_small by lia.
    split; [reflexivity|]. split; [reflexivity|].
    rewrite Vc. apply ns_to_timer_ticks. lia. }
  destruct (Z.eqb_spec (scan_begin_src cm) (TRIG_TIMER c)) as [Es | Es].
  - destruct (Ts Es) as (S1 & S2 & S3).
    rewrite S1, S3, S2, set_scan_begin_arg_same, Z.eqb_refl. cbn [negb].
    destruct (Z.eqb_spec (convert_src cm) (TRIG_TIMER c)) as [Ec | Ec];
      [|reflexivity].
    destruct (Tc Ec) as (C1 & C2 & C3). specialize (Hp Es Ec).
    rewrite C1, C3, C2, set_convert_arg_same, Z.eqb_refl. cbn [negb].
    destruct (Z.eqb_spec (scan_begin_src cm) (TRIG_TIMER c)); [|contradiction].
    cbn [andb].
    destruct (Z.ltb_spec (scan_begin_arg cm)
                (u32 (convert_arg cm * scan_end_arg cm))); [lia|].
    reflexivity.
  - destruct (Z.eqb_spec (convert_src cm) (TRIG_TIMER c)) as [Ec | Ec];
      [|reflexivity].
    destruct (Tc Ec) as (C1 & C2 & C3).
    rewrite C1, C3, C2, set_convert_arg_same, Z.eqb_refl. cbn [negb].
    destruct (Z.eqb_spec (scan_begin_src cm) (TRIG_TIMER c)); [contradiction|].
    reflexivity.
Qed.

(** X4.  The fix-up of step 4 settles in one pass.  Take a command whose
    timer intervals lie within the limits that step 3 enforces (at most
    2 s) and for which the widened scan interval stays in the range of
    [int]: the command that step 4 returns, with the intervals rounded
    and the scan interval widened where needed, passes step 4 unchanged
    and without an error. *)
Theorem cmdtest_step4_fixed_point (cm : comedi_cmd) :
  (scan_begin_src cm = TRIG_TIMER c ->
     0 <= scan_begin_arg cm <= S626_MIN_SPEED) ->
  (convert_src cm = TRIG_TIMER c ->
     0 <= convert_arg cm <= S626_MIN_SPEED) ->
  (scan_begin_src cm = TRIG_TIMER c -> convert_src cm = TRIG_TIMER c ->
     0 <= scan_end_arg cm
     /\ (convert_arg cm + 500) * scan_end_arg cm <= 2147483147) ->
  let cm' := fst (cmdtest_step4 c cm) in
  cmdtest_step4 c cm' = (cm', 0).
Proof.
  unfold S626_MIN_SPEED. intros Hs Hc Hp. cbv zeta.
  destruct (cmdtest_step4 c cm) as [cm' e] eqn:E. cbn [fst].
  unfold cmdtest_step4 in E.
  set (m := s32 (Z.land (flags cm) (TRIG_ROUND_MASK c))) in *.
  destruct (Z.eqb_spec (scan_begin_src cm) (TRIG_TIMER c)) as [Es | Es].
  - specialize (Hs Es).
    rewrite (s32_small (scan_begin_arg cm)) in E by lia.
    destruct (ns_to_timer_grid c (scan_begin_arg cm) m ltac:(lia))
      as (ks & E1 & R1 & D1).
    rewrite E1 in E. rewrite (u32_small (500 * ks)) in E by lia.
    cbn [convert_src convert_arg flags scan_begin_src scan_begin_arg
         scan_end_arg set_scan_begin_arg] in E. fold m in E.
    destruct (Z.eqb_spec (convert_src cm) (TRIG_TIMER c)) as [Ec | Ec].
    + specialize (Hc Ec). destruct (Hp Es Ec) as (He & Hprod).
      rewrite (s32_small (convert_arg cm)) in E by lia.
      destruct (ns_to_timer_grid c (convert_arg cm) m ltac:(lia))
        as (kc & E2 & R2 & D2).
      rewrite E2 in E. rewrite (u32_small (500 * kc)) in E by lia.
      cbn [convert_src convert_arg flags scan_begin_src scan_begin_arg
           scan_end_arg set_scan_begin_arg set_convert_arg] in E.
      destruct (Z.eqb_spec (scan_begin_src cm) (TRIG_TIMER c));
        [|contradiction].
      cbn [andb] in E.
      assert (Hpr : 0 <= 500 * kc * scan_end_arg cm <= 2147483147) by nia.
      rewrite (u32_small (500 * kc * scan_end_arg cm)) in E by lia.
      destruct (Z.ltb_spec (500 * ks) (500 * kc * scan_end_arg cm));
        set (vs := 500 * ks) in *; set (vc := 500 * kc) in *;
        injection E as <- _.
      * apply (cmdtest_step4_settled _ (kc * scan_end_arg cm) kc);
          cbn [convert_src convert_arg scan_begin_src scan_begin_arg
               scan_end_arg set_scan_begin_arg set_convert_arg];
          intros; subst vs vc; try rewrite u32_small; lia.
      * apply (cmdtest_step4_settled _ ks kc);
          cbn [convert_src convert_arg scan_begin_src scan_begin_arg
               scan_end_arg set_scan_begin_arg set_convert_arg];
          intros; subst vs vc; try rewrite u32_small; lia.
    + set (vs := 500 * ks) in *. set (vc := 0). injection E as <- _.
      apply (cmdtest_step4_settled _ ks 0);
        cbn [convert_src convert_arg scan_begin_src scan_begin_arg
             scan_end_arg set_scan_begin_arg set_convert_arg];
        intros; subst vs vc; try contradiction; lia.
  - cbv beta iota zeta in E. fold m in E.
    destruct (Z.eqb_spec (convert_src cm) (TRIG_TIMER c)) as [Ec | Ec].
    + specialize (Hc Ec).
      rewrite (s32_small (convert_arg cm)) in E by lia.
      destruct (ns_to_timer_grid c (convert_arg cm) m ltac:(lia))
        as (kc & E2 & R2 & D2).
      rewrite E2 in E. rewrite (u32_small (500 * kc)) in E by lia.
      cbn [convert_src convert_arg flags scan_begin_src scan_begin_arg
           scan_end_arg set_scan_begin_arg set_convert_arg] in E.
      destruct (Z.eqb_spec (scan_begin_src cm) (TRIG_TIMER c));
        [contradiction|].
      cbn [andb] in E. set (vc := 500 * kc) in *. set (vs := 0).
      injection E as <- _.
      apply (cmdtest_step4_settled _ 0 kc);
        cbn [convert_src convert_arg scan_begin_src scan_begin_arg
             scan_end_arg set_scan_begin_arg set_convert_arg];
        intros; subst vs vc; try contradiction; lia.
    + injection E as <- _.
      apply (cmdtest_step4_settled _ 0 0); intros; contradiction.
Qed.

End Step4FixedPoint.

Lemma cmdtest_step4_fixed_point_witness :
  let c := comedi_h_ref in
  let cm := timed_cmd c 5 1000300 300200 in
  fst (cmdtest_step4 c cm) =
    set_scan_begin_arg 1500000 (set_convert_arg 300000 cm)
  /\ cmdtest_step4 c (fst (cmdtest_step4 c cm)) =
     (fst (cmdtest_step4 c cm), 0).
Proof.
  cbv zeta. split; [reflexivity|].
  apply (cmdtest_step4_fixed_point comedi_h_ref
           (timed_cmd comedi_h_ref 5 1000300 300200));
    intros; vm_compute; split; discriminate.
Defined.

(** ** Acquisitions of any length *)

Section Acquisitions.

Variable h : s626_h.
Variable c : comedi_h.
Hypothesis Hconsts : irq_consts_okb h c = true.

Local Abbreviation scan_of d w :=
  (scan_samples (hw_capture w d) (length (chanlist (cmd d)))).

(** While scans are left to go, every interrupt publishes one scan and
    the acquisition stays armed. *)
Lemma eos_irqs_counted ws : forall d k,
  attached d = true ->
  acq d = (1, 0, k) ->
  Z.of_nat (length ws) < k <= 2147483647 ->
  events d = 0 -> scan_buf d = [] ->
  let d' := eos_irqs h c ws d in
  attached d' = true
  /\ acq d' = (1, 0, k - Z.of_nat (length ws))
  /\ events d' = 0 /\ scan_buf d' = []
  /\ chanlist (cmd d') = chanlist (cmd d)
  /\ published d' =
     published d ++ map (fun w => (scan_of d w, COMEDI_CB_EOS c)) ws
  /\ readl (S626_P_IER h) d' = readl (S626_P_IER h) d.
Proof.
  induction ws as [|w ws IH]; intros d k Hatt Hacq Hk Hev Hbuf; cbv zeta.
  - cbn [eos_irqs fold_left length map Z.of_nat].
    rewrite Z.sub_0_r, app_nil_r.
    repeat split; first [assumption | reflexivity].
  - cbn [length] in Hk. rewrite Nat2Z.inj_succ in Hk.
    destruct (eos_irq_step h c Hconsts w k d Hatt Hacq ltac:(lia) Hev Hbuf)
      as (At1 & A1 & Ev1 & Bf1 & Ch1 & Pb1 & _ & R1).
    destruct (Z.leb_spec (k - 1) 0) as [Hle | Hgt]; [lia|].
    set (d1 := eos_irq h c (hw_capture w d)) in *.
    destruct (IH d1 (k - 1) At1 A1 ltac:(lia) Ev1 Bf1)
      as (At2 & A2 & Ev2 & Bf2 & Ch2 & Pb2 & R2).
    change (eos_irqs h c (w :: ws) d) with (eos_irqs h c ws d1).
    cbn [length map]. rewrite Nat2Z.inj_succ.
    split; [exact At2|]. split.
    { rewrite A2. f_equal. lia. }
    split; [exact Ev2|]. split; [exact Bf2|].
    split; [congruence|]. split; [|congruence].
    rewrite Pb2, Pb1, <- app_assoc, Ch1. reflexivity.
Qed.

(** X5.  A counted acquisition of any length.  Arm a command that stops
    after [N] scans on an idle, attached board with nothing pending and
    let the hardware deliver scans, each followed by the end-of-scan
    interrupt.  After each of the first [N - 1] scans the running flag is
    still set; together they publish exactly [N - 1] scans, none marked
    as the end of the acquisition, and the interrupt enable register
    still holds what the arming wrote.  The [N]-th interrupt publishes
    the last scan with the end-of-acquisition bit, clears the running
    flag and leaves the interrupt enable register at zero. *)
Theorem counted_acquisition (g : nat -> Z) (ws : list (nat -> Z))
  (w : nat -> Z) (d : s626_dev) :
  attached d = true ->
  ai_cmd_running d = 0 ->
  stop_src (cmd d) = TRIG_COUNT c ->
  1 <= stop_arg (cmd d) <= 2147483647 ->
  Z.of_nat (length ws) = stop_arg (cmd d) - 1 ->
  events d = 0 -> scan_buf d = [] ->
  let d0 := snd (s626_ai_cmd h c g d) in
  let dk := eos_irqs h c ws d0 in
  let dN := eos_irq h c (hw_capture w dk) in
  (forall i, ai_cmd_running (eos_irqs h c (firstn i ws) d0) = 1)
  /\ published dk =
     published d ++ map (fun w => (scan_of d w, COMEDI_CB_EOS c)) ws
  /\ readl (S626_P_IER h) dk =
     u32 (Z.lor (S626_IRQ_GPIO3 h) (S626_IRQ_RPS1 h))
  /\ published dN =
     published dk
     ++ [(scan_of d w, Z.lor (COMEDI_CB_EOS c) (COMEDI_CB_EOA c))]
  /\ acq dN = (0, 0, 0)
  /\ readl (S626_P_IER h) dN = 0.
Proof.
  intros Hatt Hidle Hsrc Harg Hlen Hev Hbuf. cbv zeta.
  assert (Hnz : nz (ai_cmd_running d) = false) by now rewrite Hidle.
  destruct (ai_cmd_armed h c g d Hnz Hsrc) as (S0 & A0 & _ & R0).
  rewrite s32_small in A0 by lia.
  set (d0 := snd (s626_ai_cmd h c g d)) in *.
  unfold session in S0.
  injection S0 as At0 Ch0 _ _ _ _ _ Ev0 Bf0 Pb0.
  rewrite Hatt in At0. rewrite Hev in Ev0. rewrite Hbuf in Bf0.
  destruct (eos_irqs_counted ws d0 _ At0 A0 ltac:(lia) Ev0 Bf0)
    as (At1 & A1 & Ev1 & Bf1 & Ch1 & Pb1 & R1).
  set (dk := eos_irqs h c ws d0) in *.
  replace (stop_arg (cmd d) - Z.of_nat (length ws)) with 1 in A1 by lia.
  destruct (eos_irq_step h c Hconsts w 1 dk At1 A1 ltac:(lia) Ev1 Bf1)
    as (_ & A2 & _ & _ & _ & Pb2 & _ & R2).
  change (1 - 1 <=? 0) with true in *. change (1 - 1) with 0 in A2.
  assert (Hmap : map (fun w0 => (scan_of d0 w0, COMEDI_CB_EOS c)) ws =
                 map (fun w0 => (scan_of d w0, COMEDI_CB_EOS c)) ws).
  { apply map_ext. intros w'.
    now rewrite Ch0, (scan_samples_capture w' d0 d). }
  split.
  { intros i.
    assert (Hi : (length (firstn i ws) <= length ws)%nat)
      by (rewrite length_firstn; lia).
    destruct (eos_irqs_counted (firstn i ws) d0 _ At0 A0 ltac:(lia) Ev0 Bf0)
      as (_ & Ai & _).
    unfold acq in Ai. congruence. }
  split; [now rewrite Pb1, Pb0, Hmap|].
  split; [now rewrite R1, R0|].
  split; [|split; [exact A2 | exact R2]].
  rewrite Pb2, Ch1, Ch0. reflexivity.
Qed.

(** ** Free-running acquisitions *)

(** The end-of-scan interrupt of a free-running acquisition. *)
Lemma irq_eos_continuous w d :
  attached d = true ->
  nz (ai_continuous d) = true ->
  0 < ai_sample_count d ->
  events d = 0 -> scan_buf d = [] ->
  let d' := eos_irq h c (hw_capture w d) in
  attached d' = true
  /\ acq d' = acq d
  /\ events d' = 0 /\ scan_buf d' = []
  /\ chanlist (cmd d') = chanlist (cmd d)
  /\ published d' = published d ++ [(scan_of d w, COMEDI_CB_EOS c)]
  /\ readl (S626_P_IER h) d' = readl (S626_P_IER h) d.
Proof.
  intros Hatt Hcont Hcnt Hev Hbuf. cbv zeta.
  destruct (irq_consts_facts h c Hconsts) as (Hrps & _ & _).
  unfold eos_irq, s626_irq_handler.
  change (attached (hw_capture w d)) with (attached d). rewrite Hatt.
  cbn [negb]. cbv zeta. rewrite Hrps, Z.eqb_refl.
  set (D := writel (S626_IRQ_RPS1 h) (S626_P_ISR h)
              (writel 0 (S626_P_IER h) (hw_capture w d))).
  unfold s626_handle_eos_interrupt.
  rewrite eos_copy_spec, scan_samples_seq.
  change (ai_continuous (with_events _ (with_scan_buf _ D)))
    with (ai_continuous d).
  rewrite Hcont. cbn [negb]. cbv zeta.
  change (ai_sample_count (with_events _ (with_scan_buf _ D)))
    with (ai_sample_count d).
  destruct (Z.leb_spec (ai_sample_count d) 0) as [Hle | _]; [lia|].
  cbn [fst snd].
  set (x := with_events _ (with_scan_buf _ D)).
  destruct (eos_rearm_same h c x) as (S & A & _ & T).
  set (x1 := eos_rearm h c x) in *.
  unfold session in S. injection S as S1 S2 _ _ _ _ _ S3 S4 S5.
  unfold acq in A. injection A as A1 A2 A3.
  unfold comedi_event, writel, readl, acq.
  cbn [attached cmd events scan_buf published ai_cmd_running
       ai_continuous ai_sample_count mmio mmio_trace with_published
       with_events with_scan_buf with_mmio].
  rewrite Z.eqb_refl, S1, S2, S3, S4, S5, A1, A2, A3.
  unfold x, D, writel, hw_capture.
  cbn [attached cmd events scan_buf published ai_cmd_running
       ai_continuous ai_sample_count mmio mmio_trace with_published
       with_events with_scan_buf with_mmio with_ana_buf ana_buf
       scan_samples].
  rewrite Hev, Hbuf, Z.lor_0_l, !u32_idem. cbn [app].
  repeat split; first [reflexivity | assumption].
Qed.

Lemma eos_irqs_continuous ws : forall d,
  attached d = true ->
  nz (ai_continuous d) = true ->
  0 < ai_sample_count d ->
  events d = 0 -> scan_buf d = [] ->
  let d' := eos_irqs h c ws d in
  attached d' = true
  /\ acq d' = acq d
  /\ events d' = 0 /\ scan_buf d' = []
  /\ chanlist (cmd d') = chanlist (cmd d)
  /\ published d' =
     published d ++ map (fun w => (scan_of d w, COMEDI_CB_EOS c)) ws
  /\ readl (S626_P_IER h) d' = readl (S626_P_IER h) d.
Proof.
  induction ws as [|w ws IH]; intros d Hatt Hcont Hcnt Hev Hbuf; cbv zeta.
  - cbn [eos_irqs fold_left map]. rewrite app_nil_r.
    repeat split; first [assumption | reflexivity].
  - destruct (irq_eos_continuous w d Hatt Hcont Hcnt Hev Hbuf)
      as (At1 & A1 & Ev1 & Bf1 & Ch1 & Pb1 & R1).
    set (d1 := eos_irq h c (hw_capture w d)) in *.
    unfold acq in A1. injection A1 as A11 A12 A13.
    destruct (IH d1 At1 ltac:(now rewrite A12) ltac:(now rewrite A13)
                Ev1 Bf1)
      as (At2 & A2 & Ev2 & Bf2 & Ch2 & Pb2 & R2).
    change (eos_irqs h c (w :: ws) d) with (eos_irqs h c ws d1).
    cbn [map].
    split; [exact At2|]. split.
    { rewrite A2. unfold acq. congruence. }
    split; [exact Ev2|]. split; [exact Bf2|].
    split; [congruence|]. split; [|congruence].
    rewrite Pb2, Pb1, <- app_assoc, Ch1. reflexivity.
Qed.

(** Arming a command without a stop count. *)
Lemma ai_cmd_armed_continuous g d :
  nz (ai_cmd_running d) = false ->
  stop_src (cmd d) = TRIG_NONE c ->
  TRIG_NONE c <> TRIG_COUNT c ->
  let d' := snd (s626_ai_cmd h c g d) in
  session d' = session d
  /\ acq d' = (1, 1, 1)
  /\ readl (S626_P_IER h) d' =
     u32 (Z.lor (S626_IRQ_GPIO3 h) (S626_IRQ_RPS1 h)).
Proof.
  intros Hidle Hstop Hne. cbv zeta. unfold s626_ai_cmd. rewrite Hidle.
  cbv zeta. cbn [snd].
  set (d0 := with_ai_convert_count 0 _).
  assert (S0 : session d0 = session d /\ ai_cmd_running d0 = 1).
  { unfold d0.
    destruct (no_lp_same _ _ (no_lp_dio_clear_irq h
      (writel (Z.lor (S626_IRQ_RPS1 h) (S626_IRQ_GPIO3 h)) (S626_P_ISR h)
         (writel 0 (S626_P_IER h) d)))) as (S & _).
    split; [|reflexivity]. unfold session in *. cbn in *. exact S. }
  destruct S0 as (S0 & A0).
  destruct (ai_cmd_scan_begin_same h c d0) as (S1 & A1 & _).
  set (d1 := ai_cmd_scan_begin h c d0) in *.
  destruct (ai_cmd_convert_same h c d1) as (S2 & A2 & _).
  set (d2 := ai_cmd_convert h c d1) in *.
  assert (Hs2 : stop_src (cmd d2) = TRIG_NONE c).
  { assert (E : session d2 = session d) by congruence.
    unfold session in E. injection E as _ _ _ _ _ E1 _ _ _ _. congruence. }
  set (d3 := ai_cmd_stop c d2).
  assert (S3 : session d3 = session d2 /\
               acq d3 = (ai_cmd_running d2, 1, 1)).
  { unfold d3, ai_cmd_stop. rewrite Hs2.
    destruct (Z.eqb_spec (TRIG_NONE c) (TRIG_COUNT c)); [contradiction|].
    rewrite Z.eqb_refl. now auto. }
  destruct S3 as (S3 & A3).
  match goal with
  | |- context [s626_reset_adc h c ?p d3] =>
      destruct (reset_adc_same h c p d3) as (S4 & A4 & _);
      set (d4 := s626_reset_adc h c p d3) in *
  end.
  destruct (ai_cmd_start_same h c d4) as (S5 & A5 & _).
  set (d5 := ai_cmd_start h c d4) in *.
  assert (R2 : ai_cmd_running d2 = 1).
  { unfold acq in A1, A2. congruence. }
  match goal with
  | |- context [writel ?v ?a d5] =>
      destruct (writel_same v a d5) as (S6 & A6 & _)
  end.
  split; [congruence|]. split.
  - rewrite A6, A5, A4, A3, R2. reflexivity.
  - unfold readl, writel, with_mmio, u32. cbn [mmio]. rewrite Z.eqb_refl.
    rewrite <- Z.land_assoc. reflexivity.
Qed.

(** X6.  A free-running acquisition does not retire by itself.  Arm a
    command with stop source [TRIG_NONE] on an idle, attached board with
    nothing pending: however many scans the hardware delivers, each
    end-of-scan interrupt publishes one scan without the
    end-of-acquisition bit, the running flag stays set, the scan counter
    stays at 1 and the interrupt enable register keeps the value the
    arming wrote. *)
Theorem continuous_acquisition (g : nat -> Z) (ws : list (nat -> Z))
  (d : s626_dev) :
  attached d = true ->
  ai_cmd_running d = 0 ->
  stop_src (cmd d) = TRIG_NONE c ->
  TRIG_NONE c <> TRIG_COUNT c ->
  events d = 0 -> scan_buf d = [] ->
  let d0 := snd (s626_ai_cmd h c g d) in
  let d' := eos_irqs h c ws d0 in
  acq d' = (1, 1, 1)
  /\ published d' =
     published d ++ map (fun w => (scan_of d w, COMEDI_CB_EOS c)) ws
  /\ Z.land (COMEDI_CB_EOS c) (COMEDI_CB_EOA c) = 0
  /\ readl (S626_P_IER h) d' =
     u32 (Z.lor (S626_IRQ_GPIO3 h) (S626_IRQ_RPS1 h)).
Proof.
  intros Hatt Hidle Hsrc Hne Hev Hbuf. cbv zeta.
  assert (Hnz : nz (ai_cmd_running d) = false) by now rewrite Hidle.
  destruct (ai_cmd_armed_continuous g d Hnz Hsrc Hne) as (S0 & A0 & R0).
  set (d0 := snd (s626_ai_cmd h c g d)) in *.
  unfold session in S0.
  injection S0 as At0 Ch0 _ _ _ _ _ Ev0 Bf0 Pb0.
  rewrite Hatt in At0. rewrite Hev in Ev0. rewrite Hbuf in Bf0.
  unfold acq in A0. injection A0 as A01 A02 A03.
  destruct (eos_irqs_continuous ws d0 At0
              ltac:(now rewrite A02) ltac:(now rewrite A03) Ev0 Bf0)
    as (_ & A1 & _ & _ & _ & Pb1 & R1).
  destruct (irq_consts_facts h c Hconsts) as (_ & Hdisj & _).
  split; [rewrite A1; unfold acq; congruence|].
  split; [|split; [exact Hdisj | now rewrite R1, R0]].
  rewrite Pb1, Pb0. f_equal. apply map_ext. intros w'.
  now rewrite Ch0, (scan_samples_capture w' d0 d).
Qed.

End Acquisitions.

Lemma counted_acquisition_witness :
  let h := s626_h_ref in
  let c := comedi_h_ref in
  let d := idle_dev 1024 (counted_cmd c 2 4) in
  let w0 := fun _ : nat => 0 in
  let w1 := fun i : nat => Z.shiftl (Z.of_nat i) 18 in
  let ws := [w0; w1; w0] in
  let dk := eos_irqs h c ws (snd (s626_ai_cmd h c w0 d)) in
  let dN := eos_irq h c (hw_capture w1 dk) in
  irq_consts_okb h c = true
  /\ attached d = true /\ ai_cmd_running d = 0
  /\ stop_src (cmd d) = TRIG_COUNT c
  /\ 1 <= stop_arg (cmd d) <= 2147483647
  /\ Z.of_nat (length ws) = stop_arg (cmd d) - 1
  /\ events d = 0 /\ scan_buf d = []
  /\ published dN =
     [([8192; 8192], 1); ([8193; 8194], 1); ([8192; 8192], 1);
      ([8193; 8194], 3)]
  /\ acq dN = (0, 0, 0)
  /\ readl (S626_P_IER h) dN = 0.
Proof.
  cbv zeta.
  pose proof (counted_acquisition s626_h_ref comedi_h_ref eq_refl
                (fun _ => 0)
                [fun _ => 0; fun i => Z.shiftl (Z.of_nat i) 18; fun _ => 0]
                (fun i => Z.shiftl (Z.of_nat i) 18)
                (idle_dev 1024 (counted_cmd comedi_h_ref 2 4))
                eq_refl eq_refl eq_refl ltac:(cbn; lia) eq_refl
                eq_refl eq_refl) as H.
  cbv zeta in H. destruct H as (_ & Pk & _ & PN & AN & RN).
  rewrite Pk in PN.
  split; [reflexivity|]. split; [reflexivity|]. split; [reflexivity|].
  split; [reflexivity|]. split; [cbn; lia|]. split; [reflexivity|].
  split; [reflexivity|]. split; [reflexivity|].
  split; [exact PN|]. split; [exact AN | exact RN].
Defined.

Lemma continuous_acquisition_witness :
  let h := s626_h_ref in
  let c := comedi_h_ref in
  let d := idle_dev 1024 (free_run_cmd c 2) in
  let w0 := fun _ : nat => 0 in
  let ws := [w0; w0; w0; w0; w0] in
  let d' := eos_irqs h c ws (snd (s626_ai_cmd h c w0 d)) in
  irq_consts_okb h c = true
  /\ attached d = true /\ ai_cmd_running d = 0
  /\ stop_src (cmd d) = TRIG_NONE c
  /\ TRIG_NONE c <> TRIG_COUNT c
  /\ events d = 0 /\ scan_buf d = []
  /\ acq d' = (1, 1, 1)
  /\ published d' = repeat ([8192; 8192], 1) 5.
Proof.
  cbv zeta.
  assert (Hne : TRIG_NONE comedi_h_ref <> TRIG_COUNT comedi_h_ref)
    by (cbn; discriminate).
  pose proof (continuous_acquisition s626_h_ref comedi_h_ref eq_refl
                (fun _ => 0) (repeat (fun _ => 0) 5)
                (idle_dev 1024 (free_run_cmd comedi_h_ref 2))
                eq_refl eq_refl eq_refl Hne eq_refl eq_refl) as H.
  cbv zeta in H. destruct H as (A & P & _).
  split; [reflexivity|]. split; [reflexivity|]. split; [reflexivity|].
  split; [reflexivity|]. split; [exact Hne|]. split; [reflexivity|].
  split; [reflexivity|]. split; [exact A | exact P].
Defined.

(** ** What the other interrupt causes leave alone *)

Section OtherCauses.

Variable h : s626_h.
Variable c : comedi_h.

Lemma no_lp_no_hw d1 d2 : no_lp d1 = no_lp d2 -> no_hw d1 = no_hw d2.
Proof.
  intros H. change (no_hw (no_lp d1) = no_hw (no_lp d2)). now rewrite H.
Qed.

Lemma no_hw_writel v a d : no_hw (writel v a d) = no_hw d.
Proof. reflexivity. Qed.

Lemma no_hw_mc_enable v a d : no_hw (s626_mc_enable v a d) = no_hw d.
Proof. reflexivity. Qed.

Lemma no_hw_convert_count v d : no_hw (with_ai_convert_count v d) = no_hw d.
Proof. reflexivity. Qed.

Lemma no_hw_dio_set_irq chan d : no_hw (s626_dio_set_irq h chan d) = no_hw d.
Proof. apply no_lp_no_hw, no_lp_dio_set_irq. Qed.

Lemma no_hw_dio_reset_irq g m d : no_hw (s626_dio_reset_irq h g m d) = no_hw d.
Proof. reflexivity. Qed.

Lemma no_hw_set_enable n v d :
  (n < 6)%nat ->
  no_hw (set_enable (enc_chan h n) (regs (enc_chan h n)) v d) = no_hw d.
Proof.
  intros Hn. destruct (no_lp_enc_chan h n Hn) as (_ & E & _).
  apply no_lp_no_hw, E.
Qed.

Lemma no_hw_reset_cap_flags n d :
  (n < 6)%nat ->
  no_hw (reset_cap_flags (enc_chan h n) (regs (enc_chan h n)) d) = no_hw d.
Proof.
  intros Hn. destruct (no_lp_enc_chan h n Hn) as (_ & _ & _ & _ & _ & R).
  apply no_lp_no_hw, R.
Qed.

(** Peels the outermost [let] of the state expression: the frame
    property is shown for the body at an arbitrary state, then for the
    bound expression. *)
Ltac hw_let :=
  lazymatch goal with
  | |- no_hw (let x := ?a in @?f x) = ?r =>
      lazymatch type of a with
      | s626_dev =>
          let y := fresh "y" in
          transitivity (no_hw a);
          [ generalize a; intros y;
            let t := eval cbv beta in (f y) in
            change (no_hw t = no_hw y)
          | ]
      | _ =>
          let t := eval cbv beta in (f a) in
          change (no_hw t = r)
      end
  end.

Ltac hw_step :=
  first
    [ reflexivity
    | hw_let
    | rewrite no_hw_mc_enable
    | rewrite no_hw_writel
    | rewrite no_hw_convert_count
    | rewrite no_hw_dio_set_irq
    | rewrite no_hw_dio_reset_irq
    | rewrite no_hw_set_enable by lia
    | rewrite no_hw_reset_cap_flags by lia
    | match goal with
      | |- no_hw (if ?b then _ else _) = _ => destruct b
      end ].

Lemma no_hw_handle_dio_interrupt irqbit group d :
  no_hw (s626_handle_dio_interrupt h c irqbit group d) = no_hw d.
Proof. unfold s626_handle_dio_interrupt. repeat hw_step. Qed.

Lemma no_hw_check_dio_interrupts d :
  no_hw (s626_check_dio_interrupts h c d) = no_hw d.
Proof.
  unfold s626_check_dio_interrupts. generalize (dio_groups h).
  induction l as [|g l IH]; [reflexivity|].
  cbn [check_dio_banks]. cbv zeta.
  destruct (nz (s626_debi_read _ d));
    [apply no_hw_handle_dio_interrupt | exact IH].
Qed.

Lemma no_hw_check_counter_interrupts d :
  no_hw (s626_check_counter_interrupts h c d) = no_hw d.
Proof. unfold s626_check_counter_interrupts. repeat hw_step. Qed.

Lemma readl_writel v a d : readl a (writel v a d) = u32 v.
Proof.
  unfold readl, writel, with_mmio. cbn [mmio]. rewrite Z.eqb_refl.
  apply u32_idem.
Qed.

(** X7.  Only the end-of-scan cause touches the acquisition.  On an
    attached board, the handler of any other cause (the counter and
    digital I/O interrupts of GPIO3 among them) reports the interrupt as
    handled, leaves the command, the running flag, the scan counter and
    everything handed to the comedi core as they were, and ends by
    writing back the interrupt enable mask that it found.  On a board
    that is not attached the handler reports [IRQ_NONE] and does
    nothing. *)
Theorem irq_other_causes (cause : Z) (d : s626_dev) :
  attached d = true ->
  u32 cause <> S626_IRQ_RPS1 h ->
  let r := s626_irq_handler h c cause d in
  fst r = IRQ_HANDLED
  /\ cmd (snd r) = cmd d
  /\ acq (snd r) = acq d
  /\ (events (snd r), scan_buf (snd r), published (snd r)) =
     (events d, scan_buf d, published d)
  /\ readl (S626_P_IER h) (snd r) = readl (S626_P_IER h) d
  /\ (forall d0, attached d0 = false ->
        s626_irq_handler h c cause d0 = (IRQ_NONE, d0)).
Proof.
  intros Hatt Hcause. cbv zeta.
  unfold s626_irq_handler. rewrite Hatt. cbn [negb]. cbv zeta.
  destruct (Z.eqb_spec (u32 cause) (S626_IRQ_RPS1 h)) as [E | _];
    [contradiction|].
  set (D := writel (u32 cause) (S626_P_ISR h) (writel 0 (S626_P_IER h) d)).
  assert (HD : no_hw D = no_hw d) by reflexivity.
  set (D' := if u32 cause =? S626_IRQ_GPIO3 h
             then s626_check_counter_interrupts h c
                    (s626_check_dio_interrupts h c D)
             else D).
  assert (HD' : no_hw D' = no_hw d).
  { unfold D'. destruct (u32 cause =? S626_IRQ_GPIO3 h); [|exact HD].
    now rewrite no_hw_check_counter_interrupts,
                no_hw_check_dio_interrupts. }
  assert (Hr : (if u32 cause =? S626_IRQ_GPIO3 h
                then (readl (S626_P_IER h) d,
                      s626_check_counter_interrupts h c
                        (s626_check_dio_interrupts h c D))
                else (readl (S626_P_IER h) d, D)) =
               (readl (S626_P_IER h) d, D')).
  { unfold D'. now destruct (u32 cause =? S626_IRQ_GPIO3 h). }
  rewrite Hr. cbn [fst snd].
  assert (HF : no_hw (writel (readl (S626_P_IER h) d) (S626_P_IER h) D') =
               no_hw d) by (rewrite no_hw_writel; exact HD').
  split; [reflexivity|].
  split; [exact (f_equal cmd HF)|].
  split; [exact (f_equal acq HF)|].
  split.
  { exact (f_equal (fun x => (events x, scan_buf x, published x)) HF). }
  split; [|intros d0 H0; rewrite H0; reflexivity].
  rewrite readl_writel. unfold readl. apply u32_idem.
Qed.

End OtherCauses.

Lemma irq_other_causes_witness :
  let h := s626_h_ref in
  let c := comedi_h_ref in
  let d := snd (s626_ai_cmd h c (fun _ => 0)
                  (idle_dev 1024 (counted_cmd c 2 3))) in
  let r := s626_irq_handler h c (S626_IRQ_GPIO3 h) d in
  attached d = true
  /\ u32 (S626_IRQ_GPIO3 h) <> S626_IRQ_RPS1 h
  /\ fst r = IRQ_HANDLED
  /\ acq (snd r) = (1, 0, 3)
  /\ published (snd r) = [].
Proof.
  cbv zeta.
  set (d := snd (s626_ai_cmd s626_h_ref comedi_h_ref (fun _ => 0)
                   (idle_dev 1024 (counted_cmd comedi_h_ref 2 3)))).
  assert (Hatt : attached d = true) by (vm_compute; reflexivity).
  assert (Hne : u32 (S626_IRQ_GPIO3 s626_h_ref) <> S626_IRQ_RPS1 s626_h_ref)
    by (vm_compute; discriminate).
  destruct (irq_other_causes s626_h_ref comedi_h_ref
              (S626_IRQ_GPIO3 s626_h_ref) d Hatt Hne)
    as (F & _ & A & P & _).
  assert (Ad : acq d = (1, 0, 3)) by (vm_compute; reflexivity).
  assert (Pd : published d = []) by (vm_compute; reflexivity).
  pose proof (f_equal snd P) as P3. cbn [snd] in P3.
  split; [exact Hatt|]. split; [exact Hne|]. split; [exact F|].
  split; [now rewrite A | now rewrite P3].
Defined.

(** ** The register protocol of arming *)

Section ArmProtocol.

Variable h : s626_h.
Variable c : comedi_h.

Local Abbreviation hwk x :=
  (mmio_trace x, rps_phys x, inttrig x, start_src (cmd x)).

Lemma no_lp_hwk d1 d2 : no_lp d1 = no_lp d2 -> hwk d1 = hwk d2.
Proof.
  intros H. change (hwk (no_lp d1) = hwk (no_lp d2)). now rewrite H.
Qed.

Lemma hwk_parts d1 d2 :
  hwk d1 = hwk d2 ->
  mmio_trace d1 = mmio_trace d2 /\ rps_phys d1 = rps_phys d2
  /\ inttrig d1 = inttrig d2 /\ start_src (cmd d1) = start_src (cmd d2).
Proof. intros H. injection H as H1 H2 H3 H4. auto. Qed.

Lemma hwk_with_inttrig b x :
  hwk (with_inttrig b x) = (mmio_trace x, rps_phys x, b, start_src (cmd x)).
Proof. reflexivity. Qed.

Lemma ai_cmd_scan_begin_hwk d : hwk (ai_cmd_scan_begin h c d) = hwk d.
Proof.
  unfold ai_cmd_scan_begin.
  destruct (scan_begin_src (cmd d) =? TRIG_FOLLOW c); [reflexivity|].
  destruct (scan_begin_src (cmd d) =? TRIG_TIMER c).
  - destruct (s626_ns_to_timer c _ _) as [tick ns].
    destruct (no_lp_enc_chan h 5 ltac:(lia)) as (_ & E & _).
    set (d0 := with_cmd (set_scan_begin_arg (u32 ns) (cmd d)) d).
    change (hwk d) with (hwk d0).
    apply no_lp_hwk. now rewrite E, no_lp_timer_load by lia.
  - destruct (scan_begin_src (cmd d) =? TRIG_EXT c); [|reflexivity].
    destruct (negb (start_src (cmd d) =? TRIG_EXT c)); reflexivity.
Qed.

Lemma ai_cmd_convert_hwk d : hwk (ai_cmd_convert h c d) = hwk d.
Proof.
  unfold ai_cmd_convert.
  destruct (convert_src (cmd d) =? TRIG_NOW c); [reflexivity|].
  destruct (convert_src (cmd d) =? TRIG_TIMER c).
  - destruct (s626_ns_to_timer c _ _) as [tick ns].
    destruct (no_lp_enc_chan h 4 ltac:(lia)) as (_ & E & _).
    set (d0 := with_cmd (set_convert_arg (u32 ns) (cmd d)) d).
    change (hwk d) with (hwk d0).
    apply no_lp_hwk. now rewrite E, no_lp_timer_load by lia.
  - destruct (convert_src (cmd d) =? TRIG_EXT c); [|reflexivity].
    destruct (negb (scan_begin_src (cmd d) =? TRIG_EXT c)
              && (start_src (cmd d) =? TRIG_EXT c)); reflexivity.
Qed.

Lemma ai_cmd_stop_hwk d : hwk (ai_cmd_stop c d) = hwk d.
Proof.
  unfold ai_cmd_stop.
  destruct (stop_src (cmd d) =? TRIG_COUNT c); [reflexivity|].
  destruct (stop_src (cmd d) =? TRIG_NONE c); reflexivity.
Qed.

Lemma reset_adc_hwk ppl d :
  hwk (s626_reset_adc h c ppl d) =
  (mmio_trace d ++ [(S626_P_MC1 h, u32 (Z.shiftl (S626_MC1_ERPS1 h) 16));
                    (S626_P_RPSADDR1 h, u32 (rps_phys d))],
   rps_phys d, inttrig d, start_src (cmd d)).
Proof.
  unfold s626_reset_adc. cbv zeta.
  destruct (rps_program h c _ ppl) as [items prog].
  unfold s626_mc_disable, writel.
  cbn [mmio_trace rps_phys inttrig cmd with_adc_items with_rps_buf
       with_mmio].
  rewrite <- app_assoc, u32_idem. reflexivity.
Qed.

Lemma ai_cmd_start_hwk d :
  hwk (ai_cmd_start h c d) =
  (mmio_trace d
   ++ (if start_src (cmd d) =? TRIG_NOW c
       then [(S626_P_MC1 h,
              u32 (Z.lor (Z.shiftl (S626_MC1_ERPS1 h) 16)
                         (S626_MC1_ERPS1 h)))]
       else []),
   rps_phys d,
   (if start_src (cmd d) =? TRIG_NOW c then false
    else if start_src (cmd d) =? TRIG_EXT c then false
    else if start_src (cmd d) =? TRIG_INT c then true
    else inttrig d),
   start_src (cmd d)).
Proof.
  unfold ai_cmd_start.
  destruct (start_src (cmd d) =? TRIG_NOW c).
  - unfold s626_mc_enable, writel.
    cbn [mmio_trace rps_phys inttrig cmd with_inttrig with_mmio].
    now rewrite u32_idem.
  - rewrite app_nil_r.
    destruct (start_src (cmd d) =? TRIG_EXT c).
    + cbv zeta. rewrite hwk_with_inttrig.
      destruct (hwk_parts _ _ (no_lp_hwk _ _
                  (no_lp_dio_set_irq h (start_arg (cmd d)) d)))
        as (E1 & E2 & _ & E4).
      now rewrite E1, E2, E4.
    + destruct (start_src (cmd d) =? TRIG_INT c); reflexivity.
Qed.

(** What a successful [s626_ai_cmd] appends to [mmio_trace]: its writes
    to the SAA7146 outside of the DEBI transfers that it makes. *)
Lemma ai_cmd_trace g d :
  nz (ai_cmd_running d) = false ->
  hwk (snd (s626_ai_cmd h c g d)) =
  (mmio_trace d
   ++ [(S626_P_IER h, 0);
       (S626_P_ISR h, u32 (Z.lor (S626_IRQ_RPS1 h) (S626_IRQ_GPIO3 h)));
       (S626_P_MC1 h, u32 (Z.shiftl (S626_MC1_ERPS1 h) 16));
       (S626_P_RPSADDR1 h, u32 (rps_phys d))]
   ++ (if start_src (cmd d) =? TRIG_NOW c
       then [(S626_P_MC1 h,
              u32 (Z.lor (Z.shiftl (S626_MC1_ERPS1 h) 16)
                         (S626_MC1_ERPS1 h)))]
       else [])
   ++ [(S626_P_IER h, u32 (Z.lor (S626_IRQ_GPIO3 h) (S626_IRQ_RPS1 h)))],
   rps_phys d,
   (if start_src (cmd d) =? TRIG_NOW c then false
    else if start_src (cmd d) =? TRIG_EXT c then false
    else if start_src (cmd d) =? TRIG_INT c then true
    else inttrig d),
   start_src (cmd d)).
Proof.
  intros Hidle. unfold s626_ai_cmd. rewrite Hidle. cbv zeta. cbn [snd].
  set (d0 := with_ai_convert_count 0 _).
  assert (H0 : hwk d0 =
               (mmio_trace d
                ++ [(S626_P_IER h, 0);
                    (S626_P_ISR h,
                     u32 (Z.lor (S626_IRQ_RPS1 h) (S626_IRQ_GPIO3 h)))],
                rps_phys d, inttrig d, start_src (cmd d))).
  { unfold d0.
    pose proof (no_lp_hwk _ _ (no_lp_dio_clear_irq h
      (writel (Z.lor (S626_IRQ_RPS1 h) (S626_IRQ_GPIO3 h)) (S626_P_ISR h)
         (writel 0 (S626_P_IER h) d)))) as E.
    cbn [mmio_trace rps_phys inttrig cmd with_ai_convert_count
         with_ai_cmd_running].
    rewrite E. unfold writel.
    cbn [mmio_trace rps_phys inttrig cmd with_mmio].
    rewrite <- app_assoc. reflexivity. }
  pose proof (ai_cmd_scan_begin_hwk d0) as H1.
  set (d1 := ai_cmd_scan_begin h c d0) in *.
  pose proof (ai_cmd_convert_hwk d1) as H2.
  set (d2 := ai_cmd_convert h c d1) in *.
  pose proof (ai_cmd_stop_hwk d2) as H3.
  set (d3 := ai_cmd_stop c d2) in *.
  match goal with
  | |- context [s626_reset_adc h c ?p d3] =>
      pose proof (reset_adc_hwk p d3) as H4;
      set (d4 := s626_reset_adc h c p d3) in *
  end.
  pose proof (ai_cmd_start_hwk d4) as H5.
  set (d5 := ai_cmd_start h c d4) in *.
  rewrite H2, H1, H0 in H3.
  injection H3 as T3 P3 I3 S3.
  rewrite T3, P3, I3, S3 in H4.
  injection H4 as T4 P4 I4 S4.
  rewrite T4, P4, I4, S4 in H5.
  injection H5 as T5 P5 I5 S5.
  unfold writel. cbn [mmio_trace rps_phys inttrig cmd with_mmio].
  rewrite T5, P5, I5, S5, <- !app_assoc. reflexivity.
Qed.

(** *** Writes to a set of registers *)

Lemma writes_to_app regs t1 t2 :
  writes_to regs (t1 ++ t2) = writes_to regs t1 ++ writes_to regs t2.
Proof. apply filter_app. Qed.

Lemma writes_to_hit regs a v t :
  existsb (Z.eqb a) regs = true ->
  writes_to regs ((a, v) :: t) = (a, v) :: writes_to regs t.
Proof. intros E. unfold writes_to. cbn [filter fst]. now rewrite E. Qed.

Lemma writes_to_miss regs a v t :
  existsb (Z.eqb a) regs = false ->
  writes_to regs ((a, v) :: t) = writes_to regs t.
Proof. intros E. unfold writes_to. cbn [filter fst]. now rewrite E. Qed.

Lemma seq_regs_hit :
  existsb (Z.eqb (S626_P_IER h)) (seq_regs h) = true
  /\ existsb (Z.eqb (S626_P_ISR h)) (seq_regs h) = true
  /\ existsb (Z.eqb (S626_P_MC1 h)) (seq_regs h) = true
  /\ existsb (Z.eqb (S626_P_RPSADDR1 h)) (seq_regs h) = true.
Proof.
  unfold seq_regs. cbn [existsb].
  rewrite !Z.eqb_refl, ?orb_true_r. cbn [orb]. repeat split.
Qed.

(** With distinct addresses, [P_MC1] is none of the other registers
    that arming writes. *)
Lemma mc1_apart :
  mmio_regs_okb h = true ->
  existsb (Z.eqb (S626_P_IER h)) [S626_P_MC1 h] = false
  /\ existsb (Z.eqb (S626_P_ISR h)) [S626_P_MC1 h] = false
  /\ existsb (Z.eqb (S626_P_RPSADDR1 h)) [S626_P_MC1 h] = false
  /\ existsb (Z.eqb (S626_P_MC1 h)) [S626_P_MC1 h] = true.
Proof.
  unfold mmio_regs_okb, seq_regs, debi_regs.
  cbn [app distinctb existsb]. intros H.
  repeat (apply andb_prop in H; destruct H as [? H]).
  repeat match goal with
         | K : negb _ = true |- _ => apply negb_true_iff in K
         | K : _ || _ = false |- _ =>
             apply orb_false_elim in K; destruct K
         end.
  rewrite Z.eqb_refl, (Z.eqb_sym (S626_P_RPSADDR1 h) (S626_P_MC1 h)).
  cbn [orb]. repeat split; rewrite ?orb_false_r; assumption.
Qed.

(** X8.  The register protocol of arming.  The SAA7146 registers have
    distinct addresses, so no transfer over the DEBI port writes one of
    the interrupt and sequencer registers [seq_regs].  To these registers
    a successful [s626_ai_cmd] makes the following writes, in this order:
    it masks the interrupts, acknowledges pending end-of-scan and GPIO3
    requests, stops the sequencer and points it at the program buffer
    before the program is rebuilt, starts the sequencer only when the
    command asks for an immediate start, and unmasks the two interrupts
    last.  The internal trigger hook is installed exactly for the start
    source [TRIG_INT].  While a command is running the call is refused
    with [-EBUSY] and touches nothing. *)
Theorem ai_cmd_protocol (g : nat -> Z) (d : s626_dev) :
  mmio_regs_okb h = true ->
  nz (ai_cmd_running d) = false ->
  let d' := snd (s626_ai_cmd h c g d) in
  let now := start_src (cmd d) =? TRIG_NOW c in
  writes_to (seq_regs h) (mmio_trace d') =
    writes_to (seq_regs h) (mmio_trace d)
    ++ [(S626_P_IER h, 0);
        (S626_P_ISR h, u32 (Z.lor (S626_IRQ_RPS1 h) (S626_IRQ_GPIO3 h)));
        (S626_P_MC1 h, u32 (Z.shiftl (S626_MC1_ERPS1 h) 16));
        (S626_P_RPSADDR1 h, u32 (rps_phys d))]
    ++ (if now
        then [(S626_P_MC1 h,
               u32 (Z.lor (Z.shiftl (S626_MC1_ERPS1 h) 16)
                          (S626_MC1_ERPS1 h)))]
        else [])
    ++ [(S626_P_IER h, u32 (Z.lor (S626_IRQ_GPIO3 h) (S626_IRQ_RPS1 h)))]
  /\ inttrig d' =
     (if now then false
      else if start_src (cmd d) =? TRIG_EXT c then false
      else if start_src (cmd d) =? TRIG_INT c then true
      else inttrig d)
  /\ (forall d0, nz (ai_cmd_running d0) = true ->
        s626_ai_cmd h c g d0 = (- EBUSY c, d0)).
Proof.
  intros _ Hidle. cbv zeta.
  pose proof (ai_cmd_trace g d Hidle) as H.
  injection H as T _ I _.
  assert (T' : mmio_trace (snd (s626_ai_cmd h c g d)) =
    mmio_trace d
    ++ [(S626_P_IER h, 0);
        (S626_P_ISR h, u32 (Z.lor (S626_IRQ_RPS1 h) (S626_IRQ_GPIO3 h)));
        (S626_P_MC1 h, u32 (Z.shiftl (S626_MC1_ERPS1 h) 16));
        (S626_P_RPSADDR1 h, u32 (rps_phys d))]
    ++ (if start_src (cmd d) =? TRIG_NOW c
        then [(S626_P_MC1 h,
               u32 (Z.lor (Z.shiftl (S626_MC1_ERPS1 h) 16)
                          (S626_MC1_ERPS1 h)))]
        else [])
    ++ [(S626_P_IER h, u32 (Z.lor (S626_IRQ_GPIO3 h) (S626_IRQ_RPS1 h)))])
    by exact T.
  clear T.
  destruct seq_regs_hit as (Hier & Hisr & Hmc1 & Hrps).
  split; [|split; [exact I|]].
  - rewrite T'. destruct (start_src (cmd d) =? TRIG_NOW c); cbn [app];
      rewrite writes_to_app; f_equal;
      repeat first [ rewrite (writes_to_hit _ _ _ _ Hier)
                   | rewrite (writes_to_hit _ _ _ _ Hisr)
                   | rewrite (writes_to_hit _ _ _ _ Hmc1)
                   | rewrite (writes_to_hit _ _ _ _ Hrps) ];
      reflexivity.
  - intros d0 H0. unfold s626_ai_cmd. now rewrite H0.
Qed.

(** X9.  The internal start trigger.  A command with start source
    [TRIG_INT] is armed with the trigger hook installed and the sequencer
    left stopped: the one write that arming makes to [P_MC1] is the stop
    of the sequencer ([P_MC1] being apart from the registers of the DEBI
    port).  [s626_ai_inttrig] with trigger number 0 then starts the
    sequencer with one write to [P_MC1], removes the hook and returns 1;
    with any other trigger number it returns [-EINVAL] and changes
    nothing. *)
Theorem inttrig_starts_sequencer (g : nat -> Z) (d : s626_dev) :
  mmio_regs_okb h = true ->
  nz (ai_cmd_running d) = false ->
  start_src (cmd d) = TRIG_INT c ->
  TRIG_INT c <> TRIG_NOW c ->
  TRIG_INT c <> TRIG_EXT c ->
  let d' := snd (s626_ai_cmd h c g d) in
  let stop := (S626_P_MC1 h, u32 (Z.shiftl (S626_MC1_ERPS1 h) 16)) in
  let start := (S626_P_MC1 h,
                u32 (Z.lor (Z.shiftl (S626_MC1_ERPS1 h) 16)
                           (S626_MC1_ERPS1 h))) in
  inttrig d' = true
  /\ writes_to [S626_P_MC1 h] (mmio_trace d') =
     writes_to [S626_P_MC1 h] (mmio_trace d) ++ [stop]
  /\ fst (s626_ai_inttrig h c 0 d') = 1
  /\ inttrig (snd (s626_ai_inttrig h c 0 d')) = false
  /\ mmio_trace (snd (s626_ai_inttrig h c 0 d')) = mmio_trace d' ++ [start]
  /\ (forall n, n <> 0 -> s626_ai_inttrig h c n d' = (- EINVAL c, d')).
Proof.
  intros Hregs Hidle Hsrc Hnow Hext. cbv zeta.
  pose proof (ai_cmd_trace g d Hidle) as H.
  set (d' := snd (s626_ai_cmd h c g d)) in *.
  rewrite Hsrc in H.
  destruct (Z.eqb_spec (TRIG_INT c) (TRIG_NOW c)); [contradiction|].
  destruct (Z.eqb_spec (TRIG_INT c) (TRIG_EXT c)); [contradiction|].
  rewrite Z.eqb_refl in H. injection H as T _ I _.
  assert (T' : mmio_trace d' =
     mmio_trace d
     ++ [(S626_P_IER h, 0);
         (S626_P_ISR h, u32 (Z.lor (S626_IRQ_RPS1 h) (S626_IRQ_GPIO3 h)));
         (S626_P_MC1 h, u32 (Z.shiftl (S626_MC1_ERPS1 h) 16));
         (S626_P_RPSADDR1 h, u32 (rps_phys d));
         (S626_P_IER h, u32 (Z.lor (S626_IRQ_GPIO3 h) (S626_IRQ_RPS1 h)))])
    by exact T.
  clear T.
  destruct (mc1_apart Hregs) as (Nier & Nisr & Nrps & Ymc1).
  split; [exact I|]. split.
  { rewrite T', writes_to_app. f_equal.
    rewrite (writes_to_miss _ _ _ _ Nier), (writes_to_miss _ _ _ _ Nisr),
      (writes_to_hit _ _ _ _ Ymc1), (writes_to_miss _ _ _ _ Nrps),
      (writes_to_miss _ _ _ _ Nier).
    reflexivity. }
  unfold s626_ai_inttrig. cbn [Z.eqb negb fst snd].
  unfold s626_mc_enable, writel.
  cbn [inttrig mmio_trace with_inttrig with_mmio].
  rewrite u32_idem.
  split; [reflexivity|]. split; [reflexivity|]. split; [reflexivity|].
  intros k Hk. destruct (Z.eqb_spec k 0); [contradiction | reflexivity].
Qed.

End ArmProtocol.

Lemma ai_cmd_protocol_witness :
  let h := s626_h_ref in
  let c := comedi_h_ref in
  let d := idle_dev 1024 (free_run_cmd c 2) in
  let d' := snd (s626_ai_cmd h c (fun _ => 0) d) in
  mmio_regs_okb h = true
  /\ nz (ai_cmd_running d) = false
  /\ writes_to (seq_regs h) (mmio_trace d') =
     [(S626_P_IER h, 0); (S626_P_ISR h, 0x10000040);
      (S626_P_MC1 h, 0x20000000); (S626_P_RPSADDR1 h, 0x10000);
      (S626_P_MC1 h, 0x20002000); (S626_P_IER h, 0x10000040)]
  /\ inttrig d' = false.
Proof.
  cbv zeta. split; [reflexivity|]. split; [reflexivity|].
  destruct (ai_cmd_protocol s626_h_ref comedi_h_ref (fun _ => 0)
              (idle_dev 1024 (free_run_cmd comedi_h_ref 2))
              eq_refl eq_refl)
    as (T & I & _).
  split; [exact T | exact I].
Defined.

Lemma inttrig_starts_sequencer_witness :
  let h := s626_h_ref in
  let c := comedi_h_ref in
  let d := idle_dev 1024 (inttrig_cmd c 2) in
  let d' := snd (s626_ai_cmd h c (fun _ => 0) d) in
  mmio_regs_okb h = true
  /\ nz (ai_cmd_running d) = false
  /\ start_src (cmd d) = TRIG_INT c
  /\ TRIG_INT c <> TRIG_NOW c /\ TRIG_INT c <> TRIG_EXT c
  /\ inttrig d' = true
  /\ writes_to [S626_P_MC1 h] (mmio_trace d') = [(S626_P_MC1 h, 0x20000000)]
  /\ fst (s626_ai_inttrig h c 0 d') = 1
  /\ s626_ai_inttrig h c 1 d' = (- EINVAL c, d').
Proof.
  cbv zeta.
  assert (N1 : TRIG_INT comedi_h_ref <> TRIG_NOW comedi_h_ref)
    by (cbn; discriminate).
  assert (N2 : TRIG_INT comedi_h_ref <> TRIG_EXT comedi_h_ref)
    by (cbn; discriminate).
  destruct (inttrig_starts_sequencer s626_h_ref comedi_h_ref (fun _ => 0)
              (idle_dev 1024 (inttrig_cmd comedi_h_ref 2))
              eq_refl eq_refl eq_refl N1 N2)
    as (I & W & F & _ & _ & E).
  split; [reflexivity|]. split; [reflexivity|]. split; [reflexivity|].
  split; [exact N1|]. split; [exact N2|]. split; [exact I|].
  split; [exact W|]. split; [exact F|].
  apply E. discriminate.
Defined.

(** ** Counter accessors and the registers they share *)

Lemma u16_fget f r : field_okb f = true -> u16 (fget f r) = fget f r.
Proof.
  intros Hf. apply field_okb_spec in Hf.
  pose proof (fget_range f r ltac:(lia)) as Hr.
  unfold u16. change 65535 with (Z.ones 16). apply land_ones_small.
  assert (2 ^ f_width f <= 2 ^ 16) by (apply Z.pow_le_mono_r; lia). lia.
Qed.

Lemma u16_land_ones f v :
  field_okb f = true ->
  u16 (Z.land v (Z.ones (f_width f))) = Z.land v (Z.ones (f_width f)).
Proof.
  intros Hf. apply field_okb_spec in Hf.
  unfold u16. change 65535 with (Z.ones 16). apply land_ones_small.
  rewrite Z.land_ones by lia.
  pose proof (Z.mod_pos_bound v (2 ^ f_width f) ltac:(lia)).
  assert (2 ^ f_width f <= 2 ^ 16) by (apply Z.pow_le_mono_r; lia). lia.
Qed.

Section CounterFrames.

Variable h : s626_h.
Hypothesis Hlay : counter_layout_okb h = true.

(** Replacing one mode field of control register B. *)
Lemma crb_replace_field (crb : Z) (g : field) (v : Z) (d : s626_dev) :
  In g (crb_mode_fields h) ->
  let d' := s626_debi_replace crb
              (Z.lnot (Z.lor (S626_CRBMSK_INTCTRL h) (fmsk g)))
              (fset g v) d in
  fget g (s626_debi_read crb d') = Z.land v (Z.ones (f_width g))
  /\ (forall f, In f (crb_mode_fields h) -> disjointb f g = true ->
        fget f (s626_debi_read crb d') = fget f (s626_debi_read crb d))
  /\ (forall a, u16 a <> u16 crb ->
        s626_debi_read a d' = s626_debi_read a d).
Proof.
  intros Hg. cbv zeta.
  pose proof (crb_mode_field_ok h Hlay g Hg) as Gok.
  pose proof (field_okb_spec g Gok) as Gs.
  split; [|split].
  - rewrite fget_replaced by assumption.
    rewrite fget_lnot, fget_lor by lia.
    rewrite (fget_intctrl h Hlay g Hg), Z.lor_0_l.
    rewrite fget_fmsk, Z.lxor_nilpotent, Z.land_0_r, Z.lor_0_l by lia.
    apply fget_fset. lia.
  - intros f Hf Hd.
    pose proof (crb_mode_field_ok h Hlay f Hf) as Fok.
    pose proof (field_okb_spec f Fok) as Fs.
    rewrite fget_replaced by assumption.
    rewrite fget_lnot, fget_lor by lia.
    rewrite (fget_intctrl h Hlay f Hf), Z.lor_0_l.
    unfold fmsk. rewrite !fget_fset_disj by assumption.
    rewrite Z.lxor_0_l, Z.lor_0_r. apply fget_idem.
  - intros a Ha. rewrite debi_read_replace.
    destruct (Z.eqb_spec (u16 a) (u16 crb)); [contradiction | reflexivity].
Qed.

(** Replacing one field of control register A. *)
Lemma cra_replace_field (cra : Z) (g : field) (v : Z) (d : s626_dev) :
  In g (cra_fields h) ->
  let d' := s626_debi_replace cra (Z.lnot (fmsk g)) (fset g v) d in
  fget g (s626_debi_read cra d') = Z.land v (Z.ones (f_width g))
  /\ (forall f, In f (cra_fields h) -> disjointb f g = true ->
        fget f (s626_debi_read cra d') = fget f (s626_debi_read cra d))
  /\ (forall a, u16 a <> u16 cra ->
        s626_debi_read a d' = s626_debi_read a d).
Proof.
  intros Hg. cbv zeta.
  pose proof (cra_field_ok h Hlay g Hg) as Gok.
  pose proof (field_okb_spec g Gok) as Gs.
  split; [|split].
  - rewrite fget_replaced by assumption.
    rewrite fget_lnot by lia.
    rewrite fget_fmsk, Z.lxor_nilpotent, Z.land_0_r, Z.lor_0_l by lia.
    apply fget_fset. lia.
  - intros f Hf Hd.
    pose proof (cra_field_ok h Hlay f Hf) as Fok.
    pose proof (field_okb_spec f Fok) as Fs.
    rewrite fget_replaced by assumption.
    rewrite fget_lnot by lia.
    unfold fmsk. rewrite !fget_fset_disj by assumption.
    rewrite Z.lxor_0_l, Z.lor_0_r. apply fget_idem.
  - intros a Ha. rewrite debi_read_replace.
    destruct (Z.eqb_spec (u16 a) (u16 cra)); [contradiction | reflexivity].
Qed.

(** Writing the interrupt reset command leaves the mode fields alone. *)
Lemma crb_reset_fields (crb w : Z) (d : s626_dev) :
  (forall f, In f (crb_mode_fields h) -> fget f w = 0) ->
  let d' := s626_debi_replace crb (Z.lnot (S626_CRBMSK_INTCTRL h)) w d in
  (forall f, In f (crb_mode_fields h) ->
     fget f (s626_debi_read crb d') = fget f (s626_debi_read crb d))
  /\ (forall a, u16 a <> u16 crb ->
        s626_debi_read a d' = s626_debi_read a d).
Proof.
  intros Hw. cbv zeta. split.
  - intros f Hf.
    pose proof (crb_mode_field_ok h Hlay f Hf) as Fok.
    pose proof (field_okb_spec f Fok) as Fs.
    rewrite fget_replaced by assumption.
    rewrite fget_lnot by lia.
    rewrite (fget_intctrl h Hlay f Hf), (Hw f Hf), Z.lxor_0_l, Z.lor_0_r.
    apply fget_idem.
  - intros a Ha. rewrite debi_read_replace.
    destruct (Z.eqb_spec (u16 a) (u16 crb)); [contradiction | reflexivity].
Qed.

Lemma reset_command_fields_a f :
  In f (crb_mode_fields h) ->
  fget f (Z.lor (fset (CRB_INTRESETCMD h) 1) (fset (CRB_INTRESET_A h) 1)) = 0.
Proof.
  layout_facts Hlay. intros Hin. simpl in Hin.
  repeat (destruct Hin as [<- | Hin]; [now fget_norm|]). contradiction.
Qed.

Lemma reset_command_fields_b f :
  In f (crb_mode_fields h) ->
  fget f (Z.lor (fset (CRB_INTRESETCMD h) 1) (fset (CRB_INTRESET_B h) 1)) = 0.
Proof.
  layout_facts Hlay. intros Hin. simpl in Hin.
  repeat (destruct Hin as [<- | Hin]; [now fget_norm|]). contradiction.
Qed.

End CounterFrames.

Section CounterAccessors.

Variable h : s626_h.
Hypothesis Hlay : counter_layout_okb h = true.
Hypothesis Hregs : counter_regs_okb h = true.

Lemma regs_distinct :
  let rs := map u16 [ S626_LP_CR0A h; S626_LP_CR1A h; S626_LP_CR2A h;
                      S626_LP_CR0B h; S626_LP_CR1B h; S626_LP_CR2B h ] in
  forall i j, (i < 6)%nat -> (j < 6)%nat -> i <> j ->
  (nth i rs 0 =? nth j rs 0) = false.
Proof.
  cbv zeta. intros i j Hi Hj Hne.
  pose proof Hregs as R. unfold counter_regs_okb in R. cbv zeta in R.
  rewrite forallb_forall in R.
  specialize (R i ltac:(apply in_seq; lia)).
  rewrite forallb_forall in R.
  specialize (R j ltac:(apply in_seq; lia)).
  apply orb_prop in R as [R | R].
  - apply Nat.eqb_eq in R. contradiction.
  - now apply negb_true_iff in R.
Qed.

(** Two of the six register addresses differ. *)
Ltac regs_eqb_false :=
  let R := fresh "R" in
  pose proof regs_distinct as R; cbv zeta in R;
  first
    [ exact (R 0 1 ltac:(lia) ltac:(lia) ltac:(lia))%nat
    | exact (R 0 2 ltac:(lia) ltac:(lia) ltac:(lia))%nat
    | exact (R 0 3 ltac:(lia) ltac:(lia) ltac:(lia))%nat
    | exact (R 0 4 ltac:(lia) ltac:(lia) ltac:(lia))%nat
    | exact (R 0 5 ltac:(lia) ltac:(lia) ltac:(lia))%nat
    | exact (R 1 0 ltac:(lia) ltac:(lia) ltac:(lia))%nat
    | exact (R 1 2 ltac:(lia) ltac:(lia) ltac:(lia))%nat
    | exact (R 1 3 ltac:(lia) ltac:(lia) ltac:(lia))%nat
    | exact (R 1 4 ltac:(lia) ltac:(lia) ltac:(lia))%nat
    | exact (R 1 5 ltac:(lia) ltac:(lia) ltac:(lia))%nat
    | exact (R 2 0 ltac:(lia) ltac:(lia) ltac:(lia))%nat
    | exact (R 2 1 ltac:(lia) ltac:(lia) ltac:(lia))%nat
    | exact (R 2 3 ltac:(lia) ltac:(lia) ltac:(lia))%nat
    | exact (R 2 4 ltac:(lia) ltac:(lia) ltac:(lia))%nat
    | exact (R 2 5 ltac:(lia) ltac:(lia) ltac:(lia))%nat
    | exact (R 3 0 ltac:(lia) ltac:(lia) ltac:(lia))%nat
    | exact (R 3 1 ltac:(lia) ltac:(lia) ltac:(lia))%nat
    | exact (R 3 2 ltac:(lia) ltac:(lia) ltac:(lia))%nat
    | exact (R 3 4 ltac:(lia) ltac:(lia) ltac:(lia))%nat
    | exact (R 3 5 ltac:(lia) ltac:(lia) ltac:(lia))%nat
    | exact (R 4 0 ltac:(lia) ltac:(lia) ltac:(lia))%nat
    | exact (R 4 1 ltac:(lia) ltac:(lia) ltac:(lia))%nat
    | exact (R 4 2 ltac:(lia) ltac:(lia) ltac:(lia))%nat
    | exact (R 4 3 ltac:(lia) ltac:(lia) ltac:(lia))%nat
    | exact (R 4 5 ltac:(lia) ltac:(lia) ltac:(lia))%nat
    | exact (R 5 0 ltac:(lia) ltac:(lia) ltac:(lia))%nat
    | exact (R 5 1 ltac:(lia) ltac:(lia) ltac:(lia))%nat
    | exact (R 5 2 ltac:(lia) ltac:(lia) ltac:(lia))%nat
    | exact (R 5 3 ltac:(lia) ltac:(lia) ltac:(lia))%nat
    | exact (R 5 4 ltac:(lia) ltac:(lia) ltac:(lia))%nat ].

Ltac regs_facts :=
  repeat match goal with
  | |- context [u16 ?a =? u16 ?b] =>
      lazymatch a with
      | b => rewrite (Z.eqb_refl (u16 a))
      | _ =>
          let E := fresh "E" in
          assert (E : (u16 a =? u16 b) = false) by regs_eqb_false;
          rewrite E; clear E
      end
  end.

Ltac regs_neq := rewrite ?u16_idem; apply Z.eqb_neq; regs_eqb_false.

(** Reads a getter through a setter: unfolds both, decides the address
    test and normalizes the field algebra. *)
Ltac through_setter :=
  unfold s626_get_enable_a, s626_get_enable_b, s626_get_load_trig_a,
         s626_get_load_trig_b, s626_get_int_src_a, s626_get_int_src_b,
         s626_set_enable_a, s626_set_enable_b, s626_set_load_trig_a,
         s626_set_load_trig_b, s626_set_int_src_a, s626_set_int_src_b;
  cbv zeta; cbn [my_cra my_crb];
  change (s626_debi_read ?a (with_counter_int_enabs ?v ?x))
    with (s626_debi_read a x);
  rewrite ?debi_read_replace, ?debi_read_write, ?u16_idem;
  regs_facts;
  try reflexivity;
  rewrite ?lp_replace_other by regs_neq;
  unfold s626_debi_read; rewrite ?u16_idem;
  unfold S626_CRBMSK_INTCTRL;
  fget_norm;
  rewrite ?Z.lxor_nilpotent, ?Z.land_0_r, ?Z.lor_0_l, ?Z.lor_0_r,
          ?Z.lxor_0_l, ?fget_idem;
  rewrite ?u16_land_ones by assumption;
  try reflexivity.

(** X10.  The clock enable of a counter.  For each of the six counters,
    [set_enable] followed by [get_enable] returns the value written (as
    far as it fits the enable field), and the call changes neither the
    enable of any other counter, although an A counter and the B counter
    of the same number keep their enables in one register, nor the load
    trigger or the interrupt source of any counter, nor the interrupt
    enable image. *)
Theorem set_enable_frame (n m : nat) (v : Z) (d : s626_dev) :
  (n < 6)%nat -> (m < 6)%nat ->
  let k := enc_chan h n in
  let km := enc_chan h m in
  let d' := set_enable k (regs k) v d in
  get_enable k (regs k) d' =
    Z.land v (Z.ones (if (n <? 3)%nat then f_width (CRB_CLKENAB_A h)
                      else f_width (CRB_CLKENAB_B h)))
  /\ (m <> n -> get_enable km (regs km) d' = get_enable km (regs km) d)
  /\ get_load_trig km (regs km) d' = get_load_trig km (regs km) d
  /\ get_int_src km (regs km) d' = get_int_src km (regs km) d
  /\ counter_int_enabs d' = counter_int_enabs d.
Proof.
  intros Hn Hm. layout_facts Hlay.
  revert m Hm. apply enc_chan_cases; revert n Hn; apply enc_chan_cases;
    cbv zeta;
    cbn [enc_chan nth s626_enc_chan_info enc_info_a enc_info_b regs
         get_enable get_load_trig get_int_src set_enable Nat.ltb Nat.leb];
    (split; [|split; [|split; [|split]]]);
    try reflexivity; try (intros Hne; try congruence);
    through_setter.
Qed.

(** X11.  The load trigger of a counter.  For each of the six counters,
    [set_load_trig] followed by [get_load_trig] returns the value
    written (as far as it fits the field), and the call changes neither
    the load trigger of any other counter nor the enable or the
    interrupt source of any counter, nor the interrupt enable image. *)
Theorem set_load_trig_frame (n m : nat) (v : Z) (d : s626_dev) :
  (n < 6)%nat -> (m < 6)%nat ->
  let k := enc_chan h n in
  let km := enc_chan h m in
  let d' := set_load_trig k (regs k) v d in
  get_load_trig k (regs k) d' =
    Z.land v (Z.ones (if (n <? 3)%nat then f_width (CRA_LOADSRC_A h)
                      else f_width (CRB_LOADSRC_B h)))
  /\ (m <> n -> get_load_trig km (regs km) d' = get_load_trig km (regs km) d)
  /\ get_enable km (regs km) d' = get_enable km (regs km) d
  /\ get_int_src km (regs km) d' = get_int_src km (regs km) d
  /\ counter_int_enabs d' = counter_int_enabs d.
Proof.
  intros Hn Hm. layout_facts Hlay.
  revert m Hm. apply enc_chan_cases; revert n Hn; apply enc_chan_cases;
    cbv zeta;
    cbn [enc_chan nth s626_enc_chan_info enc_info_a enc_info_b regs
         get_enable get_load_trig get_int_src set_load_trig
         Nat.ltb Nat.leb];
    (split; [|split; [|split; [|split]]]);
    try reflexivity; try (intros Hne; try congruence);
    through_setter.
Qed.

(** X12.  The interrupt source of a counter.  For each of the six
    counters, [set_int_src] followed by [get_int_src] returns the value
    written (as far as it fits the field); the call changes neither the
    interrupt source of any other counter nor the enable or the load
    trigger of any counter.  In the interrupt enable image it sets the
    overflow bit of its counter to bit 0 and the index bit of its counter
    to bit 1 of the source and leaves the bits of the other counters
    alone. *)
Theorem set_int_src_frame (n m : nat) (v : Z) (d : s626_dev) :
  (n < 6)%nat -> (m < 6)%nat -> 0 <= v <= 3 ->
  let k := enc_chan h n in
  let km := enc_chan h m in
  let d' := set_int_src k (regs k) v d in
  let over := S626_OVERMASK (Z.of_nat n) in
  let indx := S626_INDXMASK (Z.of_nat n) in
  get_int_src k (regs k) d' =
    Z.land v (Z.ones (if (n <? 3)%nat then f_width (CRA_INTSRC_A h)
                      else f_width (CRB_INTSRC_B h)))
  /\ (m <> n -> get_int_src km (regs km) d' = get_int_src km (regs km) d)
  /\ get_enable km (regs km) d' = get_enable km (regs km) d
  /\ get_load_trig km (regs km) d' = get_load_trig km (regs km) d
  /\ counter_int_enabs d' =
     u16 (Z.lor (Z.land (counter_int_enabs d) (Z.lnot (Z.lor over indx)))
                (Z.lor (if Z.testbit v 0 then over else 0)
                       (if Z.testbit v 1 then indx else 0))).
Proof.
  intros Hn Hm Hv. layout_facts Hlay.
  assert (Ev : v = 0 \/ v = 1 \/ v = 2 \/ v = 3) by lia.
  revert m Hm. apply enc_chan_cases; revert n Hn; apply enc_chan_cases;
    cbv zeta;
    cbn [enc_chan nth s626_enc_chan_info enc_info_a enc_info_b regs
         get_enable get_load_trig get_int_src set_int_src
         Nat.ltb Nat.leb];
    (split; [|split; [|split; [|split]]]);
    try (intros Hne; try congruence);
    try (destruct Ev as [-> | [-> | [-> | ->]]]; reflexivity);
    through_setter.
Qed.

End CounterAccessors.

Lemma set_enable_frame_witness :
  let h := s626_h_ref in
  let k := enc_chan h 4 in
  let km := enc_chan h 1 in
  let d := set_enable km (regs km) 1 (idle_dev 0 null_cmd) in
  let d' := set_enable k (regs k) 1 d in
  counter_layout_okb h = true /\ counter_regs_okb h = true
  /\ (4 < 6)%nat /\ (1 < 6)%nat
  /\ get_enable k (regs k) d = 0
  /\ get_enable k (regs k) d' = 1
  /\ get_enable km (regs km) d' = get_enable km (regs km) d
  /\ get_enable km (regs km) d' = 1.
Proof.
  cbv zeta.
  destruct (set_enable_frame s626_h_ref eq_refl eq_refl 4 1 1
              (set_enable (enc_chan s626_h_ref 1)
                 (regs (enc_chan s626_h_ref 1)) 1 (idle_dev 0 null_cmd))
              ltac:(lia) ltac:(lia)) as (A & B & _).
  split; [reflexivity|]. split; [reflexivity|]. split; [lia|].
  split; [lia|]. split; [reflexivity|]. split; [exact A|].
  split; [apply B; lia|]. rewrite B by lia. reflexivity.
Defined.

Lemma set_load_trig_frame_witness :
  let h := s626_h_ref in
  let k := enc_chan h 2 in
  let km := enc_chan h 5 in
  let d := idle_dev 0 null_cmd in
  let d' := set_load_trig k (regs k) 1 d in
  counter_layout_okb h = true /\ counter_regs_okb h = true
  /\ (2 < 6)%nat /\ (5 < 6)%nat
  /\ get_load_trig k (regs k) d' = 1
  /\ get_load_trig km (regs km) d' = get_load_trig km (regs km) d
  /\ get_enable km (regs km) d' = get_enable km (regs km) d.
Proof.
  cbv zeta.
  destruct (set_load_trig_frame s626_h_ref eq_refl eq_refl 2 5 1
              (idle_dev 0 null_cmd) ltac:(lia) ltac:(lia))
    as (A & B & C & _).
  split; [reflexivity|]. split; [reflexivity|]. split; [lia|].
  split; [lia|]. split; [exact A|]. split; [apply B; lia | exact C].
Defined.

Lemma set_int_src_frame_witness :
  let h := s626_h_ref in
  let k := enc_chan h 5 in
  let km := enc_chan h 2 in
  let d := idle_dev 0 null_cmd in
  let d' := set_int_src k (regs k) 1 d in
  counter_layout_okb h = true /\ counter_regs_okb h = true
  /\ (5 < 6)%nat /\ (2 < 6)%nat /\ 0 <= 1 <= 3
  /\ get_int_src k (regs k) d' = 1
  /\ get_int_src km (regs km) d' = get_int_src km (regs km) d
  /\ counter_int_enabs d' = 32768.
Proof.
  cbv zeta.
  destruct (set_int_src_frame s626_h_ref eq_refl eq_refl 5 2 1
              (idle_dev 0 null_cmd) ltac:(lia) ltac:(lia) ltac:(lia))
    as (A & B & _ & _ & E).
  split; [reflexivity|]. split; [reflexivity|]. split; [lia|].
  split; [lia|]. split; [lia|]. split; [exact A|].
  split; [apply B; lia | exact E].
Defined.

(** ** Conversions paced by the timers *)

Section Pacing.

Variable h : s626_h.
Variable c : comedi_h.
Hypothesis Hlay : counter_layout_okb h = true.

Lemma read_hw_misc2 v d :
  s626_debi_read (S626_LP_RDMISC2 h) (hw_misc2 h v d) = u16 v.
Proof.
  unfold s626_debi_read, hw_misc2. cbn [lp]. now rewrite Z.eqb_refl.
Qed.

Lemma coint_only_facts v n :
  coint_onlyb h v n = true ->
  forall j, (j < 6)%nat ->
  nz (Z.land (u16 v) (nth j (coint_masks h) 0)) = (j =? n)%nat.
Proof.
  unfold coint_onlyb. rewrite forallb_forall. intros H j Hj.
  apply Bool.eqb_prop, H, in_seq. lia.
Qed.

Local Abbreviation timer_enable x :=
  (get_enable (enc_chan h 4) (regs (enc_chan h 4)) x).

Lemma enable_1b_written v d :
  timer_enable (set_enable (enc_chan h 4) (regs (enc_chan h 4)) v d) =
  Z.land v (Z.ones (f_width (CRB_CLKENAB_B h))).
Proof.
  cbn [enc_chan nth s626_enc_chan_info enc_info_b regs get_enable
       set_enable].
  layout_facts Hlay.
  unfold s626_get_enable_b, s626_set_enable_b. cbn [my_crb].
  destruct (crb_replace_field h Hlay (u16 (S626_LP_CR1B h))
              (CRB_CLKENAB_B h) v d ltac:(simpl; tauto)) as (E & _).
  cbv zeta in E. rewrite E. now apply u16_land_ones.
Qed.

(** An interrupt of the conversion timer ([S626_IRQ_COINT2B], entry 4 of
    the counter table). *)
Lemma counter_irq_convert v d :
  coint_onlyb h v 4 = true ->
  0 <= ai_convert_count d <= 2147483647 ->
  convert_src (cmd d) = TRIG_TIMER c ->
  let d' := counter_irq h c v d in
  let go := 0 <? ai_convert_count d in
  cmd d' = cmd d
  /\ ai_convert_count d' = (if go then ai_convert_count d - 1 else 0)
  /\ (ai_convert_count d = 1 ->
      timer_enable d' =
      Z.land (S626_CLKENAB_INDEX h) (Z.ones (f_width (CRB_CLKENAB_B h)))).
Proof.
  intros Hv Hcnt Hsrc. cbv zeta.
  pose proof (coint_only_facts v 4 Hv) as F.
  pose proof (F 0%nat ltac:(lia)) as F0. pose proof (F 1%nat ltac:(lia)) as F1.
  pose proof (F 2%nat ltac:(lia)) as F2. pose proof (F 3%nat ltac:(lia)) as F3.
  pose proof (F 4%nat ltac:(lia)) as F4. pose proof (F 5%nat ltac:(lia)) as F5.
  cbn [nth coint_masks Nat.eqb] in F0, F1, F2, F3, F4, F5.
  unfold counter_irq, s626_check_counter_interrupts.
  rewrite read_hw_misc2. cbv zeta.
  rewrite F0, F1, F2, F3, F4, F5.
  set (D := hw_misc2 h v d).
  destruct (no_lp_enc_chan h 4 ltac:(lia)) as (_ & _ & _ & _ & _ & R).
  pose proof (no_lp_same _ _
                (R (regs (enc_chan h 4)) D)) as (S1 & A1 & _ & M1 & _).
  set (D1 := reset_cap_flags (enc_chan h 4) (regs (enc_chan h 4)) D) in *.
  assert (C1 : ai_convert_count D1 = ai_convert_count d).
  { pose proof (f_equal ai_convert_count (R (regs (enc_chan h 4)) D)) as E.
    exact E. }
  assert (K1 : cmd D1 = cmd d).
  { pose proof (f_equal cmd (R (regs (enc_chan h 4)) D)) as E. exact E. }
  rewrite C1.
  destruct (Z.ltb_spec 0 (ai_convert_count d)) as [Hpos | Hzero].
  - replace (ai_convert_count d >? 0) with true
      by (symmetry; apply Z.gtb_lt; lia).
    cbn [ai_convert_count with_ai_convert_count].
    rewrite ?C1, (s32_small (ai_convert_count d - 1)) by lia.
    set (D2 := with_ai_convert_count (ai_convert_count d - 1) D1).
    assert (K2 : cmd D2 = cmd d) by exact K1.
    assert (C2 : ai_convert_count D2 = ai_convert_count d - 1)
      by reflexivity.
    destruct (Z.eqb_spec (ai_convert_count d - 1) 0) as [E0 | E0].
    + destruct (no_lp_enc_chan h 4 ltac:(lia)) as (_ & En & _).
      pose proof (En (regs (enc_chan h 4)) (S626_CLKENAB_INDEX h) D2) as E2.
      set (D3 := set_enable _ _ _ D2) in *.
      assert (K3 : cmd D3 = cmd d)
        by (rewrite <- K2; exact (f_equal cmd E2)).
      assert (C3 : ai_convert_count D3 = ai_convert_count d - 1)
        by (rewrite <- C2; exact (f_equal ai_convert_count E2)).
      rewrite K3, Hsrc, Z.eqb_refl.
      unfold s626_mc_enable, writel.
      cbn [cmd ai_convert_count mmio_trace with_mmio].
      rewrite K3, C3.
      split; [reflexivity|]. split; [reflexivity|].
      intros _.
      change (timer_enable (with_mmio ?a ?w D3)) with (timer_enable D3).
      apply enable_1b_written.
    + rewrite K2, Hsrc, Z.eqb_refl.
      unfold s626_mc_enable, writel.
      cbn [cmd ai_convert_count mmio_trace with_mmio].
      rewrite K2, C2.
      split; [reflexivity|]. split; [reflexivity|].
      intros E1. lia.
  - replace (ai_convert_count d >? 0) with false
      by (symmetry; rewrite Z.gtb_ltb; apply Z.ltb_ge; lia).
    rewrite K1.
    split; [reflexivity|]. split; [lia|].
    intros E1. lia.
Qed.

(** An interrupt of the scan timer ([S626_IRQ_COINT3B], entry 5 of the
    counter table). *)
Lemma counter_irq_scan v d :
  coint_onlyb h v 5 = true ->
  0 <= chanlist_len (cmd d) <= 2147483647 ->
  convert_src (cmd d) = TRIG_TIMER c ->
  let d' := counter_irq h c v d in
  cmd d' = cmd d
  /\ ai_convert_count d' = chanlist_len (cmd d)
  /\ timer_enable d' =
     Z.land (S626_CLKENAB_ALWAYS h) (Z.ones (f_width (CRB_CLKENAB_B h))).
Proof.
  intros Hv Hlen Hsrc. cbv zeta.
  pose proof (coint_only_facts v 5 Hv) as F.
  pose proof (F 0%nat ltac:(lia)) as F0. pose proof (F 1%nat ltac:(lia)) as F1.
  pose proof (F 2%nat ltac:(lia)) as F2. pose proof (F 3%nat ltac:(lia)) as F3.
  pose proof (F 4%nat ltac:(lia)) as F4. pose proof (F 5%nat ltac:(lia)) as F5.
  cbn [nth coint_masks Nat.eqb] in F0, F1, F2, F3, F4, F5.
  unfold counter_irq, s626_check_counter_interrupts.
  rewrite read_hw_misc2. cbv zeta.
  rewrite F0, F1, F2, F3, F4, F5.
  set (D := hw_misc2 h v d).
  destruct (no_lp_enc_chan h 5 ltac:(lia)) as (_ & _ & _ & _ & _ & R).
  pose proof (R (regs (enc_chan h 5)) D) as E1.
  set (D1 := reset_cap_flags (enc_chan h 5) (regs (enc_chan h 5)) D) in *.
  assert (K1 : cmd D1 = cmd d) by exact (f_equal cmd E1).
  rewrite K1.
  set (D2 := if scan_begin_src (cmd d) =? TRIG_TIMER c
             then s626_mc_enable (S626_MC2_ADC_RPS h) (S626_P_MC2 h) D1
             else D1).
  assert (K2 : cmd D2 = cmd d).
  { subst D2. destruct (scan_begin_src (cmd d) =? TRIG_TIMER c);
      [exact K1 | exact K1]. }
  rewrite K2, Hsrc, Z.eqb_refl, (s32_small (chanlist_len (cmd d))) by lia.
  set (D3 := with_ai_convert_count (chanlist_len (cmd d)) D2).
  destruct (no_lp_enc_chan h 4 ltac:(lia)) as (_ & En & _).
  pose proof (En (regs (enc_chan h 4)) (S626_CLKENAB_ALWAYS h) D3) as E4.
  split; [rewrite <- K2; exact (f_equal cmd E4)|].
  split; [exact (f_equal ai_convert_count E4)|].
  apply enable_1b_written.
Qed.

(** The state after a scan-timer interrupt and [m] conversion-timer
    interrupts. *)
Lemma counter_irqs_convert vc m : forall d,
  coint_onlyb h vc 4 = true ->
  0 <= ai_convert_count d <= 2147483647 ->
  convert_src (cmd d) = TRIG_TIMER c ->
  let dm := counter_irqs h c vc m d in
  cmd dm = cmd d
  /\ ai_convert_count dm = Z.max 0 (ai_convert_count d - Z.of_nat m)
  /\ (Z.of_nat m = ai_convert_count d -> (0 < m)%nat ->
      timer_enable dm =
      Z.land (S626_CLKENAB_INDEX h) (Z.ones (f_width (CRB_CLKENAB_B h)))).
Proof.
  intros d Hv Hcnt Hsrc. cbv zeta. unfold counter_irqs.
  induction m as [|m IH].
  - change (Nat.iter 0 (counter_irq h c vc) d) with d.
    split; [reflexivity|]. split; [lia|]. intros _ Hm; lia.
  - rewrite Nat.iter_succ.
    destruct IH as (K & C & _).
    set (dm := Nat.iter m (counter_irq h c vc) d) in *.
    destruct (counter_irq_convert vc dm Hv) as (K' & C' & En').
    + rewrite C. lia.
    + rewrite K. exact Hsrc.
    + split; [rewrite K'; exact K|].
      split.
      * rewrite C', C.
        destruct (Z.ltb_spec 0 (Z.max 0 (ai_convert_count d - Z.of_nat m)));
          lia.
      * intros Hm _. apply En'. rewrite C. lia.
Qed.

(** X14 (s626_check_counter_interrupts): with conversions paced by the
    timer, a scan-timer interrupt loads the conversion count with the
    channel-list length and lets the conversion timer run; each of the
    [m] conversion-timer interrupts that follow counts one conversion
    down, the count stops at zero, and the interrupt that brings it to
    zero gates the conversion timer off until the next scan. *)
Theorem paced_conversions vs vc m d :
  coint_onlyb h vs 5 = true ->
  coint_onlyb h vc 4 = true ->
  convert_src (cmd d) = TRIG_TIMER c ->
  0 <= chanlist_len (cmd d) <= 2147483647 ->
  let len := chanlist_len (cmd d) in
  let d1 := counter_irq h c vs d in
  let dm := counter_irqs h c vc m d1 in
  ai_convert_count d1 = len
  /\ timer_enable d1 =
     Z.land (S626_CLKENAB_ALWAYS h) (Z.ones (f_width (CRB_CLKENAB_B h)))
  /\ ai_convert_count dm = Z.max 0 (len - Z.of_nat m)
  /\ (Z.of_nat m = len -> (0 < m)%nat ->
      timer_enable dm =
      Z.land (S626_CLKENAB_INDEX h) (Z.ones (f_width (CRB_CLKENAB_B h)))).
Proof.
  intros Hvs Hvc Hsrc Hlen. cbv zeta.
  destruct (counter_irq_scan vs d Hvs Hlen Hsrc) as (K1 & C1 & E1).
  set (d1 := counter_irq h c vs d) in *.
  destruct (counter_irqs_convert vc m d1 Hvc) as (_ & C & En).
  - rewrite C1. exact Hlen.
  - rewrite K1. exact Hsrc.
  - rewrite C1 in C, En.
    split; [exact C1|]. split; [exact E1|]. split; [exact C|exact En].
Qed.

End Pacing.

Lemma paced_conversions_witness :
  let h := s626_h_ref in
  let c := comedi_h_ref in
  let d := timed_dev c 3 in
  let d1 := counter_irq h c (S626_IRQ_COINT3B h) d in
  let d3 := counter_irqs h c (S626_IRQ_COINT2B h) 3 d1 in
  let enable x := get_enable (enc_chan h 4) (regs (enc_chan h 4)) x in
  coint_onlyb h (S626_IRQ_COINT3B h) 5 = true
  /\ coint_onlyb h (S626_IRQ_COINT2B h) 4 = true
  /\ convert_src (cmd d) = TRIG_TIMER c
  /\ 0 <= chanlist_len (cmd d) <= 2147483647
  /\ ai_convert_count d1 = 3
  /\ enable d1 = S626_CLKENAB_ALWAYS h
  /\ ai_convert_count d3 = 0
  /\ enable d3 = S626_CLKENAB_INDEX h.
Proof.
  cbv zeta.
  assert (L : 0 <= chanlist_len (cmd (timed_dev comedi_h_ref 3))
              <= 2147483647) by (vm_compute; split; discriminate).
  destruct (paced_conversions s626_h_ref comedi_h_ref eq_refl
              (S626_IRQ_COINT3B s626_h_ref) (S626_IRQ_COINT2B s626_h_ref)
              3 (timed_dev comedi_h_ref 3) eq_refl eq_refl eq_refl L)
    as (C1 & E1 & C & En).
  split; [reflexivity|]. split; [reflexivity|]. split; [reflexivity|].
  split; [exact L|]. split; [exact C1|]. split; [exact E1|].
  split; [exact C|]. exact (En eq_refl ltac:(lia)).
Defined.

(** ** Programming a counter *)

Lemma touches_only_refl h k d : touches_only h k [] [] [] d d.
Proof. repeat split. Qed.

Lemma touches_only_trans h k ga gb la ga' gb' la' d d' d'' :
  touches_only h k ga gb la d d' ->
  touches_only h k ga' gb' la' d' d'' ->
  touches_only h k (ga ++ ga') (gb ++ gb') (la ++ la') d d''.
Proof.
  intros (A1 & B1 & O1) (A2 & B2 & O2). split; [|split].
  - intros f Hf Hd. rewrite forallb_app in Hd.
    apply andb_prop in Hd as (Hd1 & Hd2).
    rewrite (A2 f Hf Hd2). exact (A1 f Hf Hd1).
  - intros f Hf Hd. rewrite forallb_app in Hd.
    apply andb_prop in Hd as (Hd1 & Hd2).
    rewrite (B2 f Hf Hd2). exact (B1 f Hf Hd1).
  - intros a Ha Hb Hl.
    rewrite (O2 a Ha Hb ltac:(intros I; apply Hl, in_or_app; now right)).
    exact (O1 a Ha Hb ltac:(intros I; apply Hl, in_or_app; now left)).
Qed.

Lemma touches_only_incl h k ga gb la ga' gb' la' d d' :
  touches_only h k ga gb la d d' ->
  incl ga ga' -> incl gb gb' -> incl la la' ->
  touches_only h k ga' gb' la' d d'.
Proof.
  intros (A & B & O) Ia Ib Il. split; [|split].
  - intros f Hf Hd. apply (A f Hf). rewrite forallb_forall in *.
    intros g Hg. apply Hd, Ia, Hg.
  - intros f Hf Hd. apply (B f Hf). rewrite forallb_forall in *.
    intros g Hg. apply Hd, Ib, Hg.
  - intros a Ha Hb Hl. apply (O a Ha Hb). intros I. apply Hl, Il, I.
Qed.

Lemma u16_plus2_neq x : u16 (u16 x) <> u16 (u16 x + 2).
Proof.
  rewrite u16_idem. pose proof (u16_range x) as R.
  unfold u16 at 2. change 65535 with (Z.ones 16).
  rewrite Z.land_ones by lia.
  destruct (Z_lt_ge_dec (u16 x + 2) 65536) as [Hs | Hb].
  - rewrite Z.mod_small by lia. lia.
  - replace (u16 x + 2) with (u16 x + 2 - 65536 + 1 * 2 ^ 16) by lia.
    rewrite Z.mod_add by lia. rewrite Z.mod_small by lia. lia.
Qed.

(** A read of the board ignores the image of the interrupt enables. *)
Lemma debi_read_enabs a v d :
  s626_debi_read a (with_counter_int_enabs v d) = s626_debi_read a d.
Proof. reflexivity. Qed.

Section CounterProgram.

Variable h : s626_h.
Hypothesis Hok : counter_h_okb h = true.

Local Abbreviation Hlay := (Hok_layout h Hok).

(** The facts of [Hok]: layouts, widths, values. *)
Ltac ok_facts :=
  let L := fresh "L" in
  pose proof Hok as L;
  unfold counter_h_okb, counter_layout_okb, counter_widths_okb,
         counter_values_okb, counter_addrs_okb in L;
  cbn [layout_okb cra_fields crb_fields std_fields forallb] in L;
  andb_hyps;
  repeat match goal with
  | H : (_ =? _) = true |- _ => apply Z.eqb_eq in H
  | H : negb (_ =? _) = true |- _ => apply negb_true_iff in H
  end.

Ltac rt_norm :=
  unfold S626_CRBMSK_INTCTRL, fmsk;
  repeat first
    [ rewrite fget_lor
    | rewrite fget_land
    | rewrite fget_lxor
    | rewrite fget_if
    | rewrite fget_u16 by field_side
    | rewrite fget_u32 by field_side
    | rewrite fget_lnot by field_side
    | rewrite fget_fset by field_side
    | rewrite fget_fset_disj by field_side
    | rewrite fget_0
    | rewrite Z.lor_0_l | rewrite Z.lor_0_r
    | rewrite Z.land_0_l | rewrite Z.land_0_r
    | rewrite Z.lxor_0_l | rewrite Z.lxor_0_r
    | rewrite Z.land_m1_l
    | rewrite Z.lxor_nilpotent
    | rewrite if_same
    | rewrite fget_idem
    | rewrite fget_fits by field_side ].

Lemma disjointb_irrefl f : field_okb f = true -> disjointb f f = false.
Proof.
  intros Hf. apply field_okb_spec in Hf. unfold disjointb.
  apply orb_false_iff. split; apply Z.leb_gt; lia.
Qed.

Section Registers.

Variable k : enc_regs.
Hypothesis Hcra : u16 (my_cra k) = my_cra k.
Hypothesis Hcrb : u16 (my_crb k) = my_crb k.
Hypothesis Hne : my_cra k <> my_crb k.

Local Abbreviation RA x := (s626_debi_read (my_cra k) x).
Local Abbreviation RB x := (s626_debi_read (my_crb k) x).

Lemma Hne16 : u16 (my_cra k) <> u16 (my_crb k).
Proof. now rewrite Hcra, Hcrb. Qed.

Lemma Hne16' : u16 (my_crb k) <> u16 (my_cra k).
Proof. rewrite Hcra, Hcrb. intros E. now apply Hne. Qed.

(** *** Single-field writes *)

Lemma touches_crb_field g v d :
  In g (crb_mode_fields h) ->
  touches_only h k [] [g] []
    d (s626_debi_replace (my_crb k)
         (Z.lnot (Z.lor (S626_CRBMSK_INTCTRL h) (fmsk g))) (fset g v) d).
Proof.
  intros Hg.
  destruct (crb_replace_field h Hlay (my_crb k) g v d Hg) as (_ & F & O).
  split; [|split].
  - intros f _ _. now rewrite (O (my_cra k) Hne16).
  - intros f Hf Hd. cbn [forallb] in Hd. apply andb_prop in Hd as (Hd & _).
    exact (F f Hf Hd).
  - intros a _ Hb _. exact (O a Hb).
Qed.

Lemma touches_cra_field g v d :
  In g (cra_fields h) ->
  touches_only h k [g] [] []
    d (s626_debi_replace (my_cra k) (Z.lnot (fmsk g)) (fset g v) d).
Proof.
  intros Hg.
  destruct (cra_replace_field h Hlay (my_cra k) g v d Hg) as (_ & F & O).
  split; [|split].
  - intros f Hf Hd. cbn [forallb] in Hd. apply andb_prop in Hd as (Hd & _).
    exact (F f Hf Hd).
  - intros f _ _. now rewrite (O (my_crb k) Hne16').
  - intros a Ha _ _. exact (O a Ha).
Qed.

Lemma touches_crb_reset w d :
  (forall f, In f (crb_mode_fields h) -> fget f w = 0) ->
  touches_only h k [] [] []
    d (s626_debi_replace (my_crb k) (Z.lnot (S626_CRBMSK_INTCTRL h)) w d).
Proof.
  intros Hw.
  destruct (crb_reset_fields h Hlay (my_crb k) w d Hw) as (F & O).
  split; [|split].
  - intros f _ _. now rewrite (O (my_cra k) Hne16).
  - intros f Hf _. exact (F f Hf).
  - intros a _ Hb _. exact (O a Hb).
Qed.

(** *** The operations of the counter table *)

Lemma touches_set_enable_a v d :
  touches_only h k [] [CRB_CLKENAB_A h] [] d (s626_set_enable_a h k v d).
Proof. apply touches_crb_field. simpl. tauto. Qed.

Lemma touches_set_enable_b v d :
  touches_only h k [] [CRB_CLKENAB_B h] [] d (s626_set_enable_b h k v d).
Proof. apply touches_crb_field. simpl. tauto. Qed.

Lemma touches_set_latch_source v d :
  touches_only h k [] [CRB_LATCHSRC h] [] d (s626_set_latch_source h k v d).
Proof. apply touches_crb_field. simpl. tauto. Qed.

Lemma touches_set_load_trig_a v d :
  touches_only h k [CRA_LOADSRC_A h] [] [] d (s626_set_load_trig_a h k v d).
Proof. apply touches_cra_field. simpl. tauto. Qed.

Lemma touches_set_load_trig_b v d :
  touches_only h k [] [CRB_LOADSRC_B h] [] d (s626_set_load_trig_b h k v d).
Proof.
  unfold s626_set_load_trig_b. rewrite Z.lor_comm.
  apply touches_crb_field. simpl. tauto.
Qed.

Lemma touches_reset_cap_flags_a d :
  touches_only h k [] [] [] d (s626_reset_cap_flags_a h k d).
Proof. apply touches_crb_reset, (reset_command_fields_a h Hlay). Qed.

Lemma touches_reset_cap_flags_b d :
  touches_only h k [] [] [] d (s626_reset_cap_flags_b h k d).
Proof. apply touches_crb_reset, (reset_command_fields_b h Hlay). Qed.

Lemma touches_set_int_src_a v d :
  touches_only h k [CRA_INTSRC_A h] [] [] d (s626_set_int_src_a h k v d).
Proof.
  unfold s626_set_int_src_a. cbv zeta.
  set (d1 := s626_debi_replace (my_crb k) _ _ d).
  set (d2 := s626_debi_replace (my_cra k) _ _ d1).
  assert (T1 : touches_only h k [] [] [] d d1)
    by apply touches_crb_reset, (reset_command_fields_a h Hlay).
  assert (T2 : touches_only h k [CRA_INTSRC_A h] [] [] d1 d2)
    by (apply touches_cra_field; simpl; tauto).
  exact (touches_only_trans _ _ _ _ _ _ _ _ _ _ _ T1 T2).
Qed.

Lemma set_int_src_b_read v d :
  RB (s626_set_int_src_b h k v d) =
  u16 (Z.lor (Z.land (u16 (Z.land (RB d) (Z.lnot (S626_CRBMSK_INTCTRL h))))
                     (Z.lnot (fmsk (CRB_INTSRC_B h))))
             (fset (CRB_INTSRC_B h) v)).
Proof.
  unfold s626_set_int_src_b. cbv zeta.
  rewrite debi_read_enabs, !debi_read_write, Z.eqb_refl. reflexivity.
Qed.

Lemma touches_set_int_src_b v d :
  touches_only h k [] [CRB_INTSRC_B h] [] d (s626_set_int_src_b h k v d).
Proof.
  split; [|split].
  - intros f _ _. unfold s626_set_int_src_b. cbv zeta.
    rewrite debi_read_enabs, !debi_read_write.
    destruct (Z.eqb_spec (u16 (my_cra k)) (u16 (my_crb k))) as [E | _];
      [now apply Hne16 in E | reflexivity].
  - intros f Hf Hd. cbn [forallb] in Hd. apply andb_prop in Hd as (Hd & _).
    pose proof (crb_mode_field_ok h Hlay f Hf) as Fok.
    pose proof (field_okb_spec f Fok) as Fs.
    pose proof (crb_mode_field_ok h Hlay (CRB_INTSRC_B h)
                  ltac:(simpl; tauto)) as Gok.
    rewrite set_int_src_b_read.
    rewrite fget_u16, fget_lor, fget_land, fget_lnot by (assumption || lia).
    unfold fmsk. rewrite !fget_fset_disj by assumption.
    rewrite Z.lxor_0_l, Z.lor_0_r, fget_idem.
    exact (fget_clear_intctrl h Hlay f _ Hf).
  - intros a _ Hb _. unfold s626_set_int_src_b. cbv zeta.
    rewrite debi_read_enabs, !debi_read_write.
    destruct (Z.eqb_spec (u16 a) (u16 (my_crb k))); [contradiction|].
    reflexivity.
Qed.

Lemma touches_pulse_index_a d :
  touches_only h k [] [] [] d (s626_pulse_index_a h k d).
Proof.
  destruct (pulse_index_a_spec h Hlay k d Hcra) as (_ & _ & _ & O).
  split; [|split]; intros; now rewrite O.
Qed.

Lemma touches_pulse_index_b d :
  touches_only h k [] [] [] d (s626_pulse_index_b h k d).
Proof.
  destruct (pulse_index_b_spec h Hlay k d Hcrb) as (_ & _ & _ & F & O).
  split; [|split].
  - intros f _ _. rewrite O; [reflexivity|]. rewrite Hcra. exact Hne.
  - intros f Hf _. exact (F f Hf).
  - intros a _ Hb _. apply O. now rewrite <- Hcrb.
Qed.

Lemma touches_preload v d :
  u16 (my_latch_lsw k) <> my_cra k -> u16 (my_latch_lsw k) <> my_crb k ->
  u16 (my_latch_lsw k + 2) <> my_cra k ->
  u16 (my_latch_lsw k + 2) <> my_crb k ->
  touches_only h k [] []
    [u16 (my_latch_lsw k); u16 (my_latch_lsw k + 2)] d (s626_preload k v d).
Proof.
  intros L1 L2 L3 L4. unfold s626_preload. cbv zeta.
  split; [|split].
  - intros f _ _. rewrite !debi_read_write, Hcra.
    destruct (Z.eqb_spec (my_cra k) (u16 (my_latch_lsw k + 2)));
      [now symmetry in e; apply L3 in e|].
    destruct (Z.eqb_spec (my_cra k) (u16 (my_latch_lsw k)));
      [now symmetry in e; apply L1 in e|].
    reflexivity.
  - intros f _ _. rewrite !debi_read_write, Hcrb.
    destruct (Z.eqb_spec (my_crb k) (u16 (my_latch_lsw k + 2)));
      [now symmetry in e; apply L4 in e|].
    destruct (Z.eqb_spec (my_crb k) (u16 (my_latch_lsw k)));
      [now symmetry in e; apply L2 in e|].
    reflexivity.
  - intros a _ _ Hl. rewrite !debi_read_write.
    destruct (Z.eqb_spec (u16 a) (u16 (my_latch_lsw k + 2))) as [E | _];
      [exfalso; apply Hl; simpl; auto|].
    destruct (Z.eqb_spec (u16 a) (u16 (my_latch_lsw k))) as [E | _];
      [exfalso; apply Hl; simpl; auto|].
    reflexivity.
Qed.

(** The preload registers after [s626_preload]. *)
Lemma preload_value v d :
  u16 (my_latch_lsw k) <> u16 (my_latch_lsw k + 2) ->
  s626_debi_read (my_latch_lsw k) (s626_preload k v d) = u16 v
  /\ s626_debi_read (my_latch_lsw k + 2) (s626_preload k v d) =
     u16 (Z.shiftr (u32 v) 16).
Proof.
  intros L. unfold s626_preload. cbv zeta.
  rewrite !debi_read_write, Z.eqb_refl.
  destruct (Z.eqb_spec (u16 (my_latch_lsw k)) (u16 (my_latch_lsw k + 2)));
    [contradiction|].
  rewrite Z.eqb_refl. split; [|reflexivity].
  unfold u16, u32. rewrite <- Z.land_assoc. reflexivity.
Qed.

(** *** Programming the mode *)

Lemma touches_set_mode_a setup dis d :
  touches_only h k (cra_fields_a h) [CRB_CLKENAB_A h] []
    d (s626_set_mode_a h k setup dis d).
Proof.
  split; [|split].
  - intros f Hf Hd. ok_facts. cbn [cra_fields_a forallb] in Hd. andb_hyps.
    unfold s626_set_mode_a; cbv zeta.
    destruct ((fget (STD_ENCMODE h) setup =? S626_ENCMODE_EXTENDER h)
              || (fget (STD_ENCMODE h) setup =? S626_ENCMODE_TIMER h));
      destruct (nz dis); cbn [negb];
      rewrite !debi_read_replace, ?Hcra, ?Hcrb, ?Z.eqb_refl;
      (destruct (Z.eqb_spec (my_cra k) (my_crb k)); [contradiction|]);
      rewrite ?lp_replace_other by (rewrite Hcra; auto);
      cbn [lp with_counter_int_enabs];
      unfold s626_debi_read; rewrite ?Hcra;
      simpl in Hf;
      repeat (destruct Hf as [<- | Hf];
              [ first [ rt_norm; reflexivity
                      | exfalso;
                        match goal with
                        | D : disjointb ?x ?x = true |- _ =>
                            rewrite disjointb_irrefl in D by assumption;
                            discriminate D
                        end ] |]);
      contradiction.
  - intros f Hf Hd. cbn [forallb] in Hd. apply andb_prop in Hd as (Hd & _).
    pose proof (crb_mode_field_ok h Hlay f Hf) as Fok.
    pose proof (fget_intctrl h Hlay f Hf) as Fi.
    pose proof (reset_command_fields_a h Hlay f Hf) as Fr.
    pose proof (crb_mode_field_ok h Hlay (CRB_CLKENAB_A h)
                  ltac:(simpl; tauto)) as Gok.
    unfold s626_set_mode_a; cbv zeta.
    destruct ((fget (STD_ENCMODE h) setup =? S626_ENCMODE_EXTENDER h)
              || (fget (STD_ENCMODE h) setup =? S626_ENCMODE_TIMER h));
      cbv beta iota;
      rewrite fget_replaced by assumption;
      rewrite debi_read_replace;
      (destruct (Z.eqb_spec (u16 (my_crb k)) (u16 (my_cra k))) as [E | _];
       [now apply Hne16' in E|]);
      rewrite fget_lnot, fget_lor, !fget_u16, fget_lor, fget_u16, Fi, Fr
        by (assumption || (apply field_okb_spec in Fok; lia));
      unfold fmsk; rewrite !fget_fset_disj by assumption;
      rewrite !Z.lor_0_l, Z.lxor_0_l, Z.lor_0_r, fget_idem;
      destruct (nz dis); reflexivity.
  - intros a Ha Hb _. unfold s626_set_mode_a; cbv zeta.
    destruct ((fget (STD_ENCMODE h) setup =? S626_ENCMODE_EXTENDER h)
              || (fget (STD_ENCMODE h) setup =? S626_ENCMODE_TIMER h));
      cbv beta iota;
      rewrite !debi_read_replace;
      (destruct (Z.eqb_spec (u16 a) (u16 (my_crb k))); [contradiction|]);
      (destruct (Z.eqb_spec (u16 a) (u16 (my_cra k))); [contradiction|]);
      destruct (nz dis); reflexivity.
Qed.

Lemma touches_set_mode_b setup dis d :
  touches_only h k (cra_fields_b h) (crb_fields_b h) []
    d (s626_set_mode_b h k setup dis d).
Proof.
  split; [|split].
  - intros f Hf Hd. cbn [cra_fields_b forallb] in Hd.
    apply andb_prop in Hd as (Hd1 & Hd2).
    apply andb_prop in Hd2 as (Hd2 & _).
    pose proof (cra_field_ok h Hlay f Hf) as Fok.
    pose proof (cra_field_ok h Hlay (CRA_INDXSRC_B h)
                  ltac:(simpl; tauto)) as G1.
    pose proof (cra_field_ok h Hlay (CRA_CNTSRC_B h)
                  ltac:(simpl; tauto)) as G2.
    unfold s626_set_mode_b; cbv zeta.
    destruct (fget (STD_ENCMODE h) setup =? S626_ENCMODE_TIMER h);
      [|destruct (fget (STD_ENCMODE h) setup =? S626_ENCMODE_EXTENDER h)];
      cbv beta iota;
      rewrite debi_read_replace;
      (destruct (Z.eqb_spec (u16 (my_cra k)) (u16 (my_crb k))) as [E | _];
       [now apply Hne16 in E|]);
      rewrite fget_replaced by assumption;
      rewrite fget_lnot by (apply field_okb_spec in Fok; lia);
      unfold fmsk;
      repeat first [ rewrite fget_u16 by assumption
                   | rewrite fget_lor
                   | rewrite fget_fset_disj by assumption ];
      rewrite !Z.lor_0_l, Z.lxor_0_l, Z.lor_0_r, fget_idem;
      destruct (nz dis); reflexivity.
  - intros f Hf Hd. ok_facts. cbn [crb_fields_b forallb] in Hd. andb_hyps.
    unfold s626_set_mode_b; cbv zeta.
    destruct (fget (STD_ENCMODE h) setup =? S626_ENCMODE_TIMER h);
      [|destruct (fget (STD_ENCMODE h) setup =? S626_ENCMODE_EXTENDER h)];
      destruct (nz dis); cbn [negb];
      rewrite !debi_read_replace, ?Hcra, ?Hcrb, ?Z.eqb_refl;
      rewrite ?lp_replace_other by (rewrite Hcra; auto);
      cbn [lp with_counter_int_enabs];
      unfold s626_debi_read; rewrite ?Hcrb;
      simpl in Hf;
      repeat (destruct Hf as [<- | Hf];
              [ first [ rt_norm; reflexivity
                      | exfalso;
                        match goal with
                        | D : disjointb ?x ?x = true |- _ =>
                            rewrite disjointb_irrefl in D by assumption;
                            discriminate D
                        end ] |]);
      contradiction.
  - intros a Ha Hb _. unfold s626_set_mode_b; cbv zeta.
    destruct (fget (STD_ENCMODE h) setup =? S626_ENCMODE_TIMER h);
      [|destruct (fget (STD_ENCMODE h) setup =? S626_ENCMODE_EXTENDER h)];
      cbv beta iota;
      rewrite !debi_read_replace;
      (destruct (Z.eqb_spec (u16 a) (u16 (my_crb k))); [contradiction|]);
      (destruct (Z.eqb_spec (u16 a) (u16 (my_cra k))); [contradiction|]);
      destruct (nz dis); reflexivity.
Qed.

(** *** The getters through a footprint *)

Lemma getters_a_kept ga gb la d d' :
  touches_only h k ga gb la d d' ->
  (forallb (disjointb (CRB_CLKENAB_A h)) gb = true ->
   s626_get_enable_a h k d' = s626_get_enable_a h k d)
  /\ (forallb (disjointb (CRA_INTSRC_A h)) ga = true ->
      s626_get_int_src_a h k d' = s626_get_int_src_a h k d)
  /\ (forallb (disjointb (CRA_LOADSRC_A h)) ga = true ->
      s626_get_load_trig_a h k d' = s626_get_load_trig_a h k d).
Proof.
  intros (A & B & _).
  unfold s626_get_enable_a, s626_get_int_src_a, s626_get_load_trig_a.
  split; [|split]; intros Hd; f_equal;
    [apply B | apply A | apply A]; try assumption; simpl; tauto.
Qed.

Lemma getters_b_kept ga gb la d d' :
  touches_only h k ga gb la d d' ->
  (forallb (disjointb (CRB_CLKENAB_B h)) gb = true ->
   s626_get_enable_b h k d' = s626_get_enable_b h k d)
  /\ (forallb (disjointb (CRB_INTSRC_B h)) gb = true ->
      s626_get_int_src_b h k d' = s626_get_int_src_b h k d)
  /\ (forallb (disjointb (CRB_LOADSRC_B h)) gb = true ->
      s626_get_load_trig_b h k d' = s626_get_load_trig_b h k d).
Proof.
  intros (_ & B & _).
  unfold s626_get_enable_b, s626_get_int_src_b, s626_get_load_trig_b.
  split; [|split]; intros Hd; f_equal; apply B; try assumption;
    simpl; tauto.
Qed.

(** *** The value a setter leaves *)

Lemma set_enable_a_value v d :
  s626_get_enable_a h k (s626_set_enable_a h k v d) =
  cut (CRB_CLKENAB_A h) v.
Proof.
  unfold s626_get_enable_a, s626_set_enable_a, cut.
  destruct (crb_replace_field h Hlay (my_crb k) (CRB_CLKENAB_A h) v d
              ltac:(simpl; tauto)) as (E & _).
  cbv zeta in E. rewrite E. apply u16_land_ones.
  apply (crb_mode_field_ok h Hlay). simpl. tauto.
Qed.

Lemma set_enable_b_value v d :
  s626_get_enable_b h k (s626_set_enable_b h k v d) =
  cut (CRB_CLKENAB_B h) v.
Proof.
  unfold s626_get_enable_b, s626_set_enable_b, cut.
  destruct (crb_replace_field h Hlay (my_crb k) (CRB_CLKENAB_B h) v d
              ltac:(simpl; tauto)) as (E & _).
  cbv zeta in E. rewrite E. apply u16_land_ones.
  apply (crb_mode_field_ok h Hlay). simpl. tauto.
Qed.

Lemma set_load_trig_a_value v d :
  s626_get_load_trig_a h k (s626_set_load_trig_a h k v d) =
  cut (CRA_LOADSRC_A h) v.
Proof.
  unfold s626_get_load_trig_a, s626_set_load_trig_a, cut.
  destruct (cra_replace_field h Hlay (my_cra k) (CRA_LOADSRC_A h) v d
              ltac:(simpl; tauto)) as (E & _).
  cbv zeta in E. rewrite E. apply u16_land_ones.
  apply (cra_field_ok h Hlay). simpl. tauto.
Qed.

Lemma set_load_trig_b_value v d :
  s626_get_load_trig_b h k (s626_set_load_trig_b h k v d) =
  cut (CRB_LOADSRC_B h) v.
Proof.
  unfold s626_get_load_trig_b, s626_set_load_trig_b, cut.
  rewrite Z.lor_comm.
  destruct (crb_replace_field h Hlay (my_crb k) (CRB_LOADSRC_B h) v d
              ltac:(simpl; tauto)) as (E & _).
  cbv zeta in E. rewrite E. apply u16_land_ones.
  apply (crb_mode_field_ok h Hlay). simpl. tauto.
Qed.

Lemma set_int_src_a_value v d :
  s626_get_int_src_a h k (s626_set_int_src_a h k v d) =
  cut (CRA_INTSRC_A h) v.
Proof.
  unfold s626_get_int_src_a, s626_set_int_src_a, cut. cbv zeta.
  rewrite debi_read_enabs.
  match goal with
  | |- context [s626_debi_replace (my_cra k) _ _ ?x] =>
      destruct (cra_replace_field h Hlay (my_cra k) (CRA_INTSRC_A h) v x
                  ltac:(simpl; tauto)) as (E & _)
  end.
  cbv zeta in E. rewrite E. apply u16_land_ones.
  apply (cra_field_ok h Hlay). simpl. tauto.
Qed.

Lemma set_int_src_b_value v d :
  s626_get_int_src_b h k (s626_set_int_src_b h k v d) =
  cut (CRB_INTSRC_B h) v.
Proof.
  unfold s626_get_int_src_b, cut. rewrite set_int_src_b_read.
  pose proof (crb_mode_field_ok h Hlay (CRB_INTSRC_B h)
                ltac:(simpl; tauto)) as Gok.
  pose proof (field_okb_spec _ Gok) as Gs.
  rewrite fget_u16, fget_lor, fget_land, fget_lnot by (assumption || lia).
  rewrite fget_fmsk, Z.lxor_nilpotent, Z.land_0_r, Z.lor_0_l by lia.
  rewrite fget_fset by lia. now apply u16_land_ones.
Qed.

(** *** The getters after [set_mode] *)

Lemma set_mode_a_getters setup dis d :
  let d' := s626_set_mode_a h k setup dis d in
  s626_get_enable_a h k d' = fget (STD_CLKENAB h) setup
  /\ s626_get_int_src_a h k d' =
     (if nz dis then 0 else fget (STD_INTSRC h) setup)
  /\ s626_get_load_trig_a h k d' = fget (STD_LOADSRC h) setup.
Proof.
  cbv zeta. ok_facts.
  unfold s626_get_enable_a, s626_get_int_src_a, s626_get_load_trig_a.
  rewrite (set_mode_a_clkenab h Hok k Hcra Hcrb Hne),
    (set_mode_a_intsrc h Hok k Hcra Hcrb Hne),
    (set_mode_a_loadsrc h Hok k Hcra Hcrb Hne).
  split; [|split]; try (destruct (nz dis); [reflexivity|]);
    now apply u16_fget.
Qed.

Lemma set_mode_b_getters setup dis d :
  let d' := s626_set_mode_b h k setup dis d in
  s626_get_enable_b h k d' = fget (STD_CLKENAB h) setup
  /\ s626_get_int_src_b h k d' =
     (if nz dis then 0 else fget (STD_INTSRC h) setup)
  /\ s626_get_load_trig_b h k d' = fget (STD_LOADSRC h) setup.
Proof.
  cbv zeta. ok_facts.
  unfold s626_get_enable_b, s626_get_int_src_b, s626_get_load_trig_b.
  rewrite (set_mode_b_clkenab h Hok k Hcra Hcrb Hne),
    (set_mode_b_intsrc h Hok k Hcra Hcrb Hne),
    (set_mode_b_loadsrc h Hok k Hcra Hcrb Hne).
  split; [|split]; try (destruct (nz dis); [reflexivity|]);
    now apply u16_fget.
Qed.

(** *** The getters through the operations of the own counter *)

Ltac disj_side :=
  cbn [forallb]; rewrite ?andb_true_r; first [ reflexivity | field_side ].

Ltac kept_by T :=
  repeat (match goal with |- _ /\ _ => split end);
  first
    [ destruct (getters_a_kept _ _ _ _ _ T) as (KE & KI & KL);
      first [ apply KE; disj_side | apply KI; disj_side
            | apply KL; disj_side ]
    | destruct (getters_b_kept _ _ _ _ _ T) as (KE & KI & KL);
      first [ apply KE; disj_side | apply KI; disj_side
            | apply KL; disj_side ] ].

Lemma ops_a_getters :
  (forall v d,
     s626_get_int_src_a h k (s626_set_enable_a h k v d) =
       s626_get_int_src_a h k d
     /\ s626_get_load_trig_a h k (s626_set_enable_a h k v d) =
       s626_get_load_trig_a h k d)
  /\ (forall v d,
     s626_get_enable_a h k (s626_set_load_trig_a h k v d) =
       s626_get_enable_a h k d
     /\ s626_get_int_src_a h k (s626_set_load_trig_a h k v d) =
       s626_get_int_src_a h k d)
  /\ (forall v d,
     s626_get_enable_a h k (s626_set_int_src_a h k v d) =
       s626_get_enable_a h k d
     /\ s626_get_load_trig_a h k (s626_set_int_src_a h k v d) =
       s626_get_load_trig_a h k d)
  /\ (forall d,
     s626_get_enable_a h k (s626_pulse_index_a h k d) =
       s626_get_enable_a h k d
     /\ s626_get_int_src_a h k (s626_pulse_index_a h k d) =
       s626_get_int_src_a h k d
     /\ s626_get_load_trig_a h k (s626_pulse_index_a h k d) =
       s626_get_load_trig_a h k d)
  /\ (forall d,
     s626_get_enable_a h k (s626_reset_cap_flags_a h k d) =
       s626_get_enable_a h k d
     /\ s626_get_int_src_a h k (s626_reset_cap_flags_a h k d) =
       s626_get_int_src_a h k d
     /\ s626_get_load_trig_a h k (s626_reset_cap_flags_a h k d) =
       s626_get_load_trig_a h k d)
  /\ (forall v d,
     s626_get_enable_a h k (s626_set_latch_source h k v d) =
       s626_get_enable_a h k d
     /\ s626_get_int_src_a h k (s626_set_latch_source h k v d) =
       s626_get_int_src_a h k d
     /\ s626_get_load_trig_a h k (s626_set_latch_source h k v d) =
       s626_get_load_trig_a h k d).
Proof.
  layout_facts (Hok_layout h Hok).
  repeat (match goal with |- _ /\ _ => split end); intros.
  - kept_by (touches_set_enable_a v d).
  - kept_by (touches_set_load_trig_a v d).
  - kept_by (touches_set_int_src_a v d).
  - kept_by (touches_pulse_index_a d).
  - kept_by (touches_reset_cap_flags_a d).
  - kept_by (touches_set_latch_source v d).
Qed.

Lemma ops_b_getters :
  (forall v d,
     s626_get_int_src_b h k (s626_set_enable_b h k v d) =
       s626_get_int_src_b h k d
     /\ s626_get_load_trig_b h k (s626_set_enable_b h k v d) =
       s626_get_load_trig_b h k d)
  /\ (forall v d,
     s626_get_enable_b h k (s626_set_load_trig_b h k v d) =
       s626_get_enable_b h k d
     /\ s626_get_int_src_b h k (s626_set_load_trig_b h k v d) =
       s626_get_int_src_b h k d)
  /\ (forall v d,
     s626_get_enable_b h k (s626_set_int_src_b h k v d) =
       s626_get_enable_b h k d
     /\ s626_get_load_trig_b h k (s626_set_int_src_b h k v d) =
       s626_get_load_trig_b h k d)
  /\ (forall d,
     s626_get_enable_b h k (s626_pulse_index_b h k d) =
       s626_get_enable_b h k d
     /\ s626_get_int_src_b h k (s626_pulse_index_b h k d) =
       s626_get_int_src_b h k d
     /\ s626_get_load_trig_b h k (s626_pulse_index_b h k d) =
       s626_get_load_trig_b h k d)
  /\ (forall d,
     s626_get_enable_b h k (s626_reset_cap_flags_b h k d) =
       s626_get_enable_b h k d
     /\ s626_get_int_src_b h k (s626_reset_cap_flags_b h k d) =
       s626_get_int_src_b h k d
     /\ s626_get_load_trig_b h k (s626_reset_cap_flags_b h k d) =
       s626_get_load_trig_b h k d)
  /\ (forall v d,
     s626_get_enable_b h k (s626_set_latch_source h k v d) =
       s626_get_enable_b h k d
     /\ s626_get_int_src_b h k (s626_set_latch_source h k v d) =
       s626_get_int_src_b h k d
     /\ s626_get_load_trig_b h k (s626_set_latch_source h k v d) =
       s626_get_load_trig_b h k d).
Proof.
  layout_facts (Hok_layout h Hok).
  repeat (match goal with |- _ /\ _ => split end); intros.
  - kept_by (touches_set_enable_b v d).
  - kept_by (touches_set_load_trig_b v d).
  - kept_by (touches_set_int_src_b v d).
  - kept_by (touches_pulse_index_b d).
  - kept_by (touches_reset_cap_flags_b d).
  - kept_by (touches_set_latch_source v d).
Qed.

Lemma preload_getters_a v d :
  u16 (my_latch_lsw k) <> my_cra k -> u16 (my_latch_lsw k) <> my_crb k ->
  u16 (my_latch_lsw k + 2) <> my_cra k ->
  u16 (my_latch_lsw k + 2) <> my_crb k ->
  s626_get_enable_a h k (s626_preload k v d) = s626_get_enable_a h k d
  /\ s626_get_int_src_a h k (s626_preload k v d) = s626_get_int_src_a h k d
  /\ s626_get_load_trig_a h k (s626_preload k v d) =
     s626_get_load_trig_a h k d.
Proof. intros L1 L2 L3 L4. kept_by (touches_preload v d L1 L2 L3 L4). Qed.

Lemma preload_getters_b v d :
  u16 (my_latch_lsw k) <> my_cra k -> u16 (my_latch_lsw k) <> my_crb k ->
  u16 (my_latch_lsw k + 2) <> my_cra k ->
  u16 (my_latch_lsw k + 2) <> my_crb k ->
  s626_get_enable_b h k (s626_preload k v d) = s626_get_enable_b h k d
  /\ s626_get_int_src_b h k (s626_preload k v d) = s626_get_int_src_b h k d
  /\ s626_get_load_trig_b h k (s626_preload k v d) =
     s626_get_load_trig_b h k d.
Proof. intros L1 L2 L3 L4. kept_by (touches_preload v d L1 L2 L3 L4). Qed.

(** A register apart from the control registers keeps its content
    through an operation that touches only those. *)
Lemma touches_other ga gb d d' a :
  touches_only h k ga gb [] d d' ->
  u16 a <> my_cra k -> u16 a <> my_crb k ->
  s626_debi_read a d' = s626_debi_read a d.
Proof.
  intros (_ & _ & O) Ha Hb. apply O; rewrite ?Hcra, ?Hcrb; auto.
Qed.

End Registers.

(** *** The counter table *)

Hypothesis Hregs : counter_regs_okb h = true.
Hypothesis Hlatch : counter_latch_okb h = true.

Ltac cr_pair R i j :=
  let H := fresh "Rne" in
  pose proof (R i j ltac:(lia) ltac:(lia) ltac:(lia)) as H;
  cbn [nth map] in H; apply Z.eqb_neq in H.

(** The control registers differ from each other and from the preload
    registers. *)
Ltac addr_facts :=
  let R := fresh "R" in
  pose proof (regs_distinct h Hregs) as R; cbv zeta in R;
  cr_pair R 0%nat 1%nat; cr_pair R 0%nat 2%nat; cr_pair R 0%nat 3%nat;
  cr_pair R 0%nat 4%nat; cr_pair R 0%nat 5%nat;
  cr_pair R 1%nat 0%nat; cr_pair R 1%nat 2%nat; cr_pair R 1%nat 3%nat;
  cr_pair R 1%nat 4%nat; cr_pair R 1%nat 5%nat;
  cr_pair R 2%nat 0%nat; cr_pair R 2%nat 1%nat; cr_pair R 2%nat 3%nat;
  cr_pair R 2%nat 4%nat; cr_pair R 2%nat 5%nat;
  cr_pair R 3%nat 0%nat; cr_pair R 3%nat 1%nat; cr_pair R 3%nat 2%nat;
  cr_pair R 3%nat 4%nat; cr_pair R 3%nat 5%nat;
  cr_pair R 4%nat 0%nat; cr_pair R 4%nat 1%nat; cr_pair R 4%nat 2%nat;
  cr_pair R 4%nat 3%nat; cr_pair R 4%nat 5%nat;
  cr_pair R 5%nat 0%nat; cr_pair R 5%nat 1%nat; cr_pair R 5%nat 2%nat;
  cr_pair R 5%nat 3%nat; cr_pair R 5%nat 4%nat;
  clear R;
  let L := fresh "L" in
  pose proof Hlatch as L; unfold counter_latch_okb in L; cbv zeta in L;
  cbn [forallb map] in L; andb_hyps;
  repeat match goal with
  | H : negb (_ =? _) = true |- _ => apply negb_true_iff, Z.eqb_neq in H
  end;
  repeat match goal with
  | H : context [u16 (u16 _)] |- _ => rewrite u16_idem in H
  end.

Ltac addr_side :=
  cbn [my_cra my_crb my_latch_lsw]; rewrite ?u16_idem;
  first [ reflexivity | assumption
        | intros E; symmetry in E; revert E; assumption ].

Ltac incl_side :=
  let x := fresh "x" in
  let Hx := fresh "Hx" in
  intros x Hx;
  cbn [In cra_fields_a cra_fields_b crb_fields_b] in Hx |- *;
  repeat (destruct Hx as [Hx | Hx];
          [ rewrite <- Hx; clear;
            repeat first [ left; reflexivity | right ] |]);
  contradiction.

(** Every entry of the counter table is an A or a B counter on registers
    that lie apart. *)
Lemma table_variant n :
  (n < 6)%nat ->
  exists cra crb lsw C,
    ((n <? 3)%nat = true /\ enc_chan h n = enc_info_a h cra crb lsw C
     \/ (n <? 3)%nat = false /\ enc_chan h n = enc_info_b h cra crb lsw C)
    /\ u16 cra <> u16 crb
    /\ u16 lsw <> u16 cra /\ u16 lsw <> u16 crb
    /\ u16 (u16 lsw + 2) <> u16 cra /\ u16 (u16 lsw + 2) <> u16 crb.
Proof.
  intros Hn. addr_facts. revert n Hn.
  apply enc_chan_cases;
    cbn [enc_chan nth s626_enc_chan_info Nat.ltb Nat.leb];
    do 4 eexists;
    (split;
     [ first [ left; split; reflexivity | right; split; reflexivity ]
     | repeat (match goal with |- _ /\ _ => split end); assumption ]).
Qed.

(** Opens the table entry of counter [n]: [K] stands for its registers,
    with the facts that the lemmas on registers ask for. *)
Ltac open_table n Hn K :=
  let cra := fresh "cra" in
  let crb := fresh "crb" in
  let lsw := fresh "lsw" in
  let C := fresh "C" in
  let Hab := fresh "Hab" in
  let Hl1 := fresh "Hl" in
  let Hl2 := fresh "Hl" in
  let Hl3 := fresh "Hl" in
  let Hl4 := fresh "Hl" in
  let V := fresh "V" in
  let Ek := fresh "Ek" in
  let Hlt := fresh "Hlt" in
  destruct (table_variant n Hn)
    as (cra & crb & lsw & C & V & Hab & Hl1 & Hl2 & Hl3 & Hl4);
  destruct V as [(Hlt & Ek) | (Hlt & Ek)];
  rewrite ?Ek;
  unfold counter_cra_fields, counter_crb_fields, counter_latches,
         enable_field, int_src_field, load_trig_field;
  rewrite ?Ek, ?Hlt;
  [ set (K := regs (enc_info_a h cra crb lsw C)) in *
  | set (K := regs (enc_info_b h cra crb lsw C)) in * ];
  cbn [get_enable get_int_src get_load_trig get_mode pulse_index set_enable
       set_int_src set_load_trig set_mode reset_cap_flags
       enc_info_a enc_info_b];
  assert (Hcra : u16 (my_cra K) = my_cra K) by exact (u16_idem cra);
  assert (Hcrb : u16 (my_crb K) = my_crb K) by exact (u16_idem crb);
  assert (Hne : my_cra K <> my_crb K) by exact Hab;
  assert (HL1 : u16 (my_latch_lsw K) <> my_cra K)
    by (change (u16 (u16 lsw) <> u16 cra); now rewrite u16_idem);
  assert (HL2 : u16 (my_latch_lsw K) <> my_crb K)
    by (change (u16 (u16 lsw) <> u16 crb); now rewrite u16_idem);
  assert (HL3 : u16 (my_latch_lsw K + 2) <> my_cra K) by exact Hl3;
  assert (HL4 : u16 (my_latch_lsw K + 2) <> my_crb K) by exact Hl4.

Lemma table_touches n :
  (n < 6)%nat ->
  let k := enc_chan h n in
  let T := touches_only h (regs k) (counter_cra_fields h n)
             (counter_crb_fields h n) (counter_latches h n) in
  (forall s dis d, T d (set_mode k (regs k) s dis d))
  /\ (forall v d, T d (set_enable k (regs k) v d))
  /\ (forall v d, T d (set_load_trig k (regs k) v d))
  /\ (forall v d, T d (set_int_src k (regs k) v d))
  /\ (forall d, T d (pulse_index k (regs k) d))
  /\ (forall d, T d (reset_cap_flags k (regs k) d))
  /\ (forall v d, T d (s626_set_latch_source h (regs k) v d))
  /\ (forall v d, T d (s626_preload (regs k) v d)).
Proof.
  intros Hn. cbv zeta. open_table n Hn K;
    repeat (match goal with |- _ /\ _ => split end); intros;
    (eapply touches_only_incl;
     [ first [ apply touches_set_mode_a
             | apply touches_set_mode_b
             | apply touches_set_enable_a
             | apply touches_set_enable_b
             | apply touches_set_load_trig_a
             | apply touches_set_load_trig_b
             | apply touches_set_int_src_a
             | apply touches_set_int_src_b
             | apply touches_pulse_index_a
             | apply touches_pulse_index_b
             | apply touches_reset_cap_flags_a
             | apply touches_reset_cap_flags_b
             | apply touches_set_latch_source
             | apply touches_preload ];
       assumption
     | incl_side .. ]).
Qed.

(** *** The setting of a counter through the operations of its entry *)

Lemma setting_set_mode n s dis d :
  (n < 6)%nat ->
  let k := enc_chan h n in
  counter_setting h n (set_mode k (regs k) s dis d) =
  (fget (STD_CLKENAB h) s,
   if nz dis then 0 else fget (STD_INTSRC h) s,
   fget (STD_LOADSRC h) s).
Proof.
  intros Hn. unfold counter_setting. cbv zeta. open_table n Hn K.
  - destruct (set_mode_a_getters K Hcra Hcrb Hne s dis d) as (E & I & L).
    cbv zeta in E, I, L. now rewrite E, I, L.
  - destruct (set_mode_b_getters K Hcra Hcrb Hne s dis d) as (E & I & L).
    cbv zeta in E, I, L. now rewrite E, I, L.
Qed.

Lemma setting_set_enable n v d :
  (n < 6)%nat ->
  let k := enc_chan h n in
  counter_setting h n (set_enable k (regs k) v d) =
  (cut (enable_field h n) v,
   snd (fst (counter_setting h n d)), snd (counter_setting h n d)).
Proof.
  intros Hn. unfold counter_setting. cbv zeta. cbn [fst snd].
  open_table n Hn K.
  - destruct (ops_a_getters K Hcra Hcrb Hne) as (O & _).
    destruct (O v d) as (-> & ->).
    now rewrite (set_enable_a_value K v d).
  - destruct (ops_b_getters K Hcra Hcrb Hne) as (O & _).
    destruct (O v d) as (-> & ->).
    now rewrite (set_enable_b_value K v d).
Qed.

Lemma setting_set_load_trig n v d :
  (n < 6)%nat ->
  let k := enc_chan h n in
  counter_setting h n (set_load_trig k (regs k) v d) =
  (fst (fst (counter_setting h n d)), snd (fst (counter_setting h n d)),
   cut (load_trig_field h n) v).
Proof.
  intros Hn. unfold counter_setting. cbv zeta. cbn [fst snd].
  open_table n Hn K.
  - destruct (ops_a_getters K Hcra Hcrb Hne) as (_ & O & _).
    destruct (O v d) as (-> & ->).
    now rewrite (set_load_trig_a_value K v d).
  - destruct (ops_b_getters K Hcra Hcrb Hne) as (_ & O & _).
    destruct (O v d) as (-> & ->).
    now rewrite (set_load_trig_b_value K v d).
Qed.

Lemma setting_set_int_src n v d :
  (n < 6)%nat ->
  let k := enc_chan h n in
  counter_setting h n (set_int_src k (regs k) v d) =
  (fst (fst (counter_setting h n d)), cut (int_src_field h n) v,
   snd (counter_setting h n d)).
Proof.
  intros Hn. unfold counter_setting. cbv zeta. cbn [fst snd].
  open_table n Hn K.
  - destruct (ops_a_getters K Hcra Hcrb Hne) as (_ & _ & O & _).
    destruct (O v d) as (-> & ->).
    now rewrite (set_int_src_a_value K v d).
  - destruct (ops_b_getters K Hcra Hcrb Hne) as (_ & _ & O & _).
    destruct (O v d) as (-> & ->).
    now rewrite (set_int_src_b_value K v d).
Qed.

(** The operations that leave the setting alone. *)
Lemma setting_kept n :
  (n < 6)%nat ->
  let k := enc_chan h n in
  (forall d, counter_setting h n (pulse_index k (regs k) d) =
             counter_setting h n d)
  /\ (forall d, counter_setting h n (reset_cap_flags k (regs k) d) =
                counter_setting h n d)
  /\ (forall v d, counter_setting h n (s626_set_latch_source h (regs k) v d) =
                  counter_setting h n d)
  /\ (forall v d, counter_setting h n (s626_preload (regs k) v d) =
                  counter_setting h n d).
Proof.
  intros Hn. unfold counter_setting. cbv zeta. open_table n Hn K.
  - destruct (ops_a_getters K Hcra Hcrb Hne) as (_ & _ & _ & P & R & S).
    repeat (match goal with |- _ /\ _ => split end); intros.
    + destruct (P d) as (-> & -> & ->). reflexivity.
    + destruct (R d) as (-> & -> & ->). reflexivity.
    + destruct (S v d) as (-> & -> & ->). reflexivity.
    + destruct (preload_getters_a K Hcra Hcrb v d HL1 HL2 HL3 HL4)
        as (-> & -> & ->). reflexivity.
  - destruct (ops_b_getters K Hcra Hcrb Hne) as (_ & _ & _ & P & R & S).
    repeat (match goal with |- _ /\ _ => split end); intros.
    + destruct (P d) as (-> & -> & ->). reflexivity.
    + destruct (R d) as (-> & -> & ->). reflexivity.
    + destruct (S v d) as (-> & -> & ->). reflexivity.
    + destruct (preload_getters_b K Hcra Hcrb v d HL1 HL2 HL3 HL4)
        as (-> & -> & ->). reflexivity.
Qed.

(** *** The preload registers *)

Lemma preload_set n v d :
  (n < 6)%nat ->
  counter_preload h n (s626_preload (regs (enc_chan h n)) v d) =
  (u16 v, u16 (Z.shiftr (u32 v) 16)).
Proof.
  intros Hn. unfold counter_preload. cbv zeta. open_table n Hn K;
    (destruct (preload_value K v d) as (-> & ->);
     [exact (u16_plus2_neq lsw) | reflexivity]).
Qed.

Lemma preload_kept n :
  (n < 6)%nat ->
  let k := enc_chan h n in
  (forall s dis d, counter_preload h n (set_mode k (regs k) s dis d) =
                   counter_preload h n d)
  /\ (forall v d, counter_preload h n (set_enable k (regs k) v d) =
                  counter_preload h n d)
  /\ (forall v d, counter_preload h n (set_load_trig k (regs k) v d) =
                  counter_preload h n d)
  /\ (forall v d, counter_preload h n (set_int_src k (regs k) v d) =
                  counter_preload h n d)
  /\ (forall d, counter_preload h n (pulse_index k (regs k) d) =
                counter_preload h n d)
  /\ (forall d, counter_preload h n (reset_cap_flags k (regs k) d) =
                counter_preload h n d)
  /\ (forall v d, counter_preload h n (s626_set_latch_source h (regs k) v d) =
                  counter_preload h n d).
Proof.
  intros Hn. unfold counter_preload. cbv zeta. open_table n Hn K;
    repeat (match goal with |- _ /\ _ => split end); intros;
    (f_equal;
     (eapply (touches_other K Hcra Hcrb);
      [ first [ apply touches_set_mode_a
              | apply touches_set_mode_b
              | apply touches_set_enable_a
              | apply touches_set_enable_b
              | apply touches_set_load_trig_a
              | apply touches_set_load_trig_b
              | apply touches_set_int_src_a
              | apply touches_set_int_src_b
              | apply touches_pulse_index_a
              | apply touches_pulse_index_b
              | apply touches_reset_cap_flags_a
              | apply touches_reset_cap_flags_b
              | apply touches_set_latch_source ]; assumption
      | assumption | assumption ])).
Qed.

(** *** The image of the interrupt enables *)

Lemma enabs_ops n :
  (n < 6)%nat ->
  let k := enc_chan h n in
  let ev := event_bits (regs k) in
  (forall s dis d,
     counter_int_enabs (set_mode k (regs k) s dis d) =
     if nz dis
     then u16 (Z.land (counter_int_enabs d) (Z.lnot (ev 3)))
     else counter_int_enabs d)
  /\ (forall v d,
     counter_int_enabs (set_int_src k (regs k) v d) =
     u16 (Z.lor (Z.land (counter_int_enabs d) (Z.lnot (ev 3))) (ev v)))
  /\ (forall v d, counter_int_enabs (set_enable k (regs k) v d) =
                  counter_int_enabs d)
  /\ (forall v d, counter_int_enabs (set_load_trig k (regs k) v d) =
                  counter_int_enabs d)
  /\ (forall d, counter_int_enabs (pulse_index k (regs k) d) =
                counter_int_enabs d)
  /\ (forall d, counter_int_enabs (reset_cap_flags k (regs k) d) =
                counter_int_enabs d)
  /\ (forall v d, counter_int_enabs (s626_set_latch_source h (regs k) v d) =
                  counter_int_enabs d)
  /\ (forall v d, counter_int_enabs (s626_preload (regs k) v d) =
                  counter_int_enabs d).
Proof.
  intros Hn. cbv zeta. open_table n Hn K;
    repeat (match goal with |- _ /\ _ => split end); intros;
    try reflexivity;
    unfold s626_set_mode_a, s626_set_mode_b; cbv zeta;
    repeat match goal with
    | |- context [if ?b then (_, _, _) else _] => destruct b
    end; cbv beta iota; destruct (nz dis); reflexivity.
Qed.

(** *** The other counters *)

(** Two counters share both control registers, one being an A and the
    other a B counter, or share none; the preload registers of the one
    are never control registers of the other. *)
Lemma table_pair n m :
  (n < 6)%nat -> (m < 6)%nat -> m <> n ->
  let Kn := regs (enc_chan h n) in
  let Km := regs (enc_chan h m) in
  (~ In (u16 (my_cra Km)) (counter_latches h n)
   /\ ~ In (u16 (my_crb Km)) (counter_latches h n))
  /\ (my_cra Km = my_cra Kn /\ my_crb Km = my_crb Kn
      /\ (n <? 3)%nat = negb (m <? 3)%nat
      \/ u16 (my_cra Km) <> u16 (my_cra Kn)
         /\ u16 (my_cra Km) <> u16 (my_crb Kn)
         /\ u16 (my_crb Km) <> u16 (my_cra Kn)
         /\ u16 (my_crb Km) <> u16 (my_crb Kn)).
Proof.
  intros Hn Hm. addr_facts. pattern m. revert m Hm.
  apply enc_chan_cases; pattern n; revert n Hn; apply enc_chan_cases;
    intros Hne;
    try (exfalso; apply Hne; reflexivity);
    cbv zeta;
    cbn [enc_chan nth s626_enc_chan_info enc_info_a enc_info_b regs
         my_cra my_crb my_latch_lsw counter_latches Nat.ltb Nat.leb negb In];
    rewrite ?u16_idem;
    (split;
     [ split; intros [E | [E | []]]; revert E; assumption
     | first [ left; repeat split; reflexivity
             | right; repeat (match goal with |- _ /\ _ => split end);
               assumption ] ]).
Qed.

Ltac all_disjoint :=
  cbn [forallb cra_fields_a cra_fields_b crb_fields_b];
  repeat (apply andb_true_intro; split);
  first [ reflexivity | field_side ].

(** Whatever stays within the fields of counter [n] leaves the setting
    of every other counter alone. *)
Lemma setting_frame n m d d' :
  (n < 6)%nat -> (m < 6)%nat -> m <> n ->
  touches_only h (regs (enc_chan h n)) (counter_cra_fields h n)
    (counter_crb_fields h n) (counter_latches h n) d d' ->
  counter_setting h m d' = counter_setting h m d.
Proof.
  intros Hn Hm Hne (TA & TB & TO).
  destruct (table_pair n m Hn Hm Hne) as ((La & Lb) & P).
  cbv zeta in La, Lb, P.
  layout_facts (Hok_layout h Hok).
  unfold counter_setting. cbv zeta.
  destruct (table_variant m Hm) as (cra & crb & lsw & C & V & _).
  unfold counter_cra_fields, counter_crb_fields in TA, TB.
  destruct V as [(Hlt & Ek) | (Hlt & Ek)];
    rewrite Ek in *;
    cbn [get_enable get_int_src get_load_trig enc_info_a enc_info_b] in *;
    unfold s626_get_enable_a, s626_get_int_src_a, s626_get_load_trig_a,
           s626_get_enable_b, s626_get_int_src_b, s626_get_load_trig_b;
    (destruct P as [(Ea & Eb & Hv) | (N1 & N2 & N3 & N4)];
     [ rewrite ?Ea, ?Eb; rewrite Hv, Hlt in TA, TB; cbn [negb] in TA, TB;
       rewrite ?TA, ?TB by (first [ simpl; tauto | all_disjoint ]);
       reflexivity
     | rewrite !TO by assumption; reflexivity ]).
Qed.

End CounterProgram.

(** ** The functions that program a counter *)

Section CounterPrograms.

Variable h : s626_h.
Hypothesis Hok : counter_h_okb h = true.
Hypothesis Hregs : counter_regs_okb h = true.
Hypothesis Hlatch : counter_latch_okb h = true.
Variable c : comedi_h.
Variable e : s626_enc_h.

Lemma touches_only_seq k ga gb la d d' d'' :
  touches_only h k ga gb la d d' ->
  touches_only h k ga gb la d' d'' ->
  touches_only h k ga gb la d d''.
Proof.
  intros H1 H2.
  eapply touches_only_incl;
    [ exact (touches_only_trans _ _ _ _ _ _ _ _ _ _ _ H1 H2) | | | ];
    apply incl_app; apply incl_refl.
Qed.

(** The facts about the operations of the entry of counter [n]. *)
Ltac open_ops n Hn :=
  destruct (table_touches h Hok Hregs Hlatch n Hn)
    as (Tm & Te & Tl & Ti & Tp & Tr & Ts & Tv);
  destruct (setting_kept h Hok Hregs Hlatch n Hn) as (Sp & Sr & Ss & Sv);
  destruct (preload_kept h Hok Hregs Hlatch n Hn)
    as (Pm & Pe & Pl & Pi & Pp & Pr & Ps);
  destruct (enabs_ops h Hregs Hlatch n Hn)
    as (Em & Ei & Ee & El & Ep & Er & Es & Ev);
  cbv zeta in Tm, Te, Tl, Ti, Tp, Tr, Ts, Tv, Sp, Sr, Ss, Sv,
              Pm, Pe, Pl, Pi, Pp, Pr, Ps, Em, Ei, Ee, El, Ep, Er, Es, Ev.

(** The setup word of the functions that program a counter: what
    [set_mode] takes from it for the enable, the interrupt source and
    the load trigger. *)
Lemma setup_fields a b m p x en :
  let setup :=
    u16 (Z.lor (fset (STD_LOADSRC h) a)
        (Z.lor (fset (STD_INDXSRC h) b)
        (Z.lor (fset (STD_ENCMODE h) m)
        (Z.lor (fset (STD_CLKPOL h) p)
        (Z.lor (fset (STD_CLKMULT h) x)
               (fset (STD_CLKENAB h) en)))))) in
  fget (STD_CLKENAB h) setup = cut (STD_CLKENAB h) en
  /\ fget (STD_INTSRC h) setup = 0
  /\ fget (STD_LOADSRC h) setup = cut (STD_LOADSRC h) a.
Proof.
  cbv zeta. layout_facts (Hok_layout h Hok). unfold cut.
  repeat split; fget_norm; reflexivity.
Qed.

(** X15 (s626_timer_load).  Loading counter [n] as a timer of [tick]
    ticks puts the tick count into its two preload registers and leaves
    the counter with the clock enable [S626_CLKENAB_INDEX], the interrupt
    source [S626_INTSRC_OVER] and load trigger 1 (reload on overflow);
    in the image of the interrupt enables the two bits of the counter are
    replaced by the bits of that interrupt source; the enable, interrupt
    source and load trigger of the five other counters read as before. *)
Theorem timer_load_programs (n : nat) (tick : Z) (d : s626_dev) :
  (n < 6)%nat ->
  let k := enc_chan h n in
  let d' := s626_timer_load h k tick d in
  counter_preload h n d' = (u16 tick, u16 (Z.shiftr (u32 tick) 16))
  /\ counter_setting h n d' =
     (cut (STD_CLKENAB h) (S626_CLKENAB_INDEX h),
      cut (int_src_field h n) (S626_INTSRC_OVER h),
      cut (load_trig_field h n) 1)
  /\ (forall m, (m < 6)%nat -> m <> n ->
        counter_setting h m d' = counter_setting h m d)
  /\ counter_int_enabs d' =
     u16 (Z.lor (Z.land (counter_int_enabs d)
                        (Z.lnot (event_bits (regs k) 3)))
                (event_bits (regs k) (S626_INTSRC_OVER h))).
Proof.
  intros Hn. cbv zeta.
  open_ops n Hn.
  unfold s626_timer_load. cbv zeta.
  destruct (setup_fields (S626_LOADSRC_INDX h) (S626_INDXSRC_SOFT h)
              (S626_ENCMODE_TIMER h) (S626_CNTDIR_DOWN h)
              (S626_CLKMULT_1X h) (S626_CLKENAB_INDEX h)) as (F1 & F2 & F3).
  cbv zeta in F1, F2, F3.
  set (setup := u16 _) in *.
  split; [|split; [|split]].
  - rewrite Ps, Pi, Pl, Pp, Pl, (preload_set h Hregs Hlatch n tick _ Hn). reflexivity.
  - rewrite Ss, (setting_set_int_src h Hok Hregs Hlatch n _ _ Hn),
      (setting_set_load_trig h Hok Hregs Hlatch n _ _ Hn), Sp,
      (setting_set_load_trig h Hok Hregs Hlatch n _ _ Hn), Sv,
      (setting_set_mode h Hok Hregs Hlatch n setup 0 d Hn).
    cbn [fst snd nz Z.eqb negb]. rewrite F1. reflexivity.
  - intros m Hm Hne.
    apply (setting_frame h Hok Hregs Hlatch n m d _ Hn Hm Hne).
    repeat (eapply touches_only_seq;
            [|first [apply Ts | apply Ti | apply Tl | apply Tp | apply Tv]]).
    apply Tm.
  - rewrite Es, Ei, El, Ep, El, Ev, Em. reflexivity.
Qed.

(** X16 (s626_enc_insn_write).  Writing a counter value puts it into the
    two preload registers of the counter, leaves the load trigger of the
    counter at 2, and changes neither the enable nor the interrupt
    source of the counter, nor the setting of any other counter, nor the
    image of the interrupt enables; the call returns 1. *)
Theorem enc_insn_write_loads (chanspec data0 : Z) (d : s626_dev) :
  let n := Z.to_nat (CR_CHAN c chanspec) in
  (n < 6)%nat ->
  let r := s626_enc_insn_write h c chanspec data0 d in
  let d' := snd r in
  fst r = 1
  /\ counter_preload h n d' = (u16 data0, u16 (Z.shiftr (u32 data0) 16))
  /\ counter_setting h n d' =
     (fst (fst (counter_setting h n d)), snd (fst (counter_setting h n d)),
      cut (load_trig_field h n) 2)
  /\ (forall m, (m < 6)%nat -> m <> n ->
        counter_setting h m d' = counter_setting h m d)
  /\ counter_int_enabs d' = counter_int_enabs d.
Proof.
  cbv zeta. set (n := Z.to_nat (CR_CHAN c chanspec)). intros Hn.
  open_ops n Hn.
  unfold s626_enc_insn_write. cbv zeta. cbn [fst snd]. fold n.
  split; [reflexivity|]. split; [|split; [|split]].
  - rewrite Pl, Pp, Pl, (preload_set h Hregs Hlatch n data0 _ Hn).
    reflexivity.
  - rewrite (setting_set_load_trig h Hok Hregs Hlatch n _ _ Hn), Sp,
      (setting_set_load_trig h Hok Hregs Hlatch n _ _ Hn), Sv.
    reflexivity.
  - intros m Hm Hne.
    apply (setting_frame h Hok Hregs Hlatch n m d _ Hn Hm Hne).
    repeat (eapply touches_only_seq;
            [|first [apply Tl | apply Tp]]).
    apply Tv.
  - rewrite El, Ep, El, Ev. reflexivity.
Qed.

(** X17 (s626_enc_insn_config).  Configuring a counter puts [data[0]]
    into its preload registers and leaves it with the enable that the
    code derives from [S626_CLKENAB_ALWAYS], no interrupt source and the
    preload loaded upon index; the interrupts of the counter are cleared
    in the image of the interrupt enables, the setting of the other
    counters reads as before, and the call returns [insn->n]. *)
Theorem enc_insn_config_programs (chanspec insn_n data0 : Z)
  (d : s626_dev) :
  let n := Z.to_nat (CR_CHAN c chanspec) in
  (n < 6)%nat ->
  let r := s626_enc_insn_config h c e chanspec insn_n data0 d in
  let d' := snd r in
  fst r = s32 (u32 insn_n)
  /\ counter_preload h n d' = (u16 data0, u16 (Z.shiftr (u32 data0) 16))
  /\ counter_setting h n d' =
     (cut (enable_field h n)
          (if u16 (S626_CLKENAB_ALWAYS h) =? 0 then 0 else 1),
      0,
      cut (STD_LOADSRC h) (S626_LOADSRC_INDX h))
  /\ (forall m, (m < 6)%nat -> m <> n ->
        counter_setting h m d' = counter_setting h m d)
  /\ counter_int_enabs d' =
     u16 (Z.land (counter_int_enabs d)
                 (Z.lnot (event_bits (regs (enc_chan h n)) 3))).
Proof.
  cbv zeta. set (n := Z.to_nat (CR_CHAN c chanspec)). intros Hn.
  open_ops n Hn.
  unfold s626_enc_insn_config. cbv zeta. cbn [fst snd]. fold n.
  destruct (setup_fields (S626_LOADSRC_INDX h) (S626_INDXSRC_SOFT h)
              (S626_ENCMODE_COUNTER h) (S626_CLKPOL_POS e)
              (S626_CLKMULT_1X h) (S626_CLKENAB_INDEX h)) as (F1 & F2 & F3).
  cbv zeta in F1, F2, F3.
  set (setup := u16 (Z.lor _ _)) in *.
  split; [reflexivity|]. split; [|split; [|split]].
  - rewrite Pe, Ps, Pp, (preload_set h Hregs Hlatch n data0 _ Hn).
    reflexivity.
  - rewrite (setting_set_enable h Hok Hregs Hlatch n _ _ Hn), Ss, Sp, Sv,
      (setting_set_mode h Hok Hregs Hlatch n setup 1 d Hn).
    cbn [fst snd nz Z.eqb negb]. rewrite F3. reflexivity.
  - intros m Hm Hne.
    apply (setting_frame h Hok Hregs Hlatch n m d _ Hn Hm Hne).
    repeat (eapply touches_only_seq;
            [|first [apply Te | apply Ts | apply Tp | apply Tv]]).
    apply Tm.
  - rewrite Ee, Es, Ep, Ev, Em. reflexivity.
Qed.

(** One round of the loop of [s626_counters_init]. *)
Lemma counters_init_chan_spec (setup : Z) (n : nat) (d : s626_dev) :
  (n < 6)%nat ->
  let d' := counters_init_chan h setup d n in
  let ev := event_bits (regs (enc_chan h n)) in
  counter_setting h n d' =
  (cut (enable_field h n) (S626_CLKENAB_ALWAYS h), 0,
   fget (STD_LOADSRC h) setup)
  /\ (forall m, (m < 6)%nat -> m <> n ->
        counter_setting h m d' = counter_setting h m d)
  /\ counter_int_enabs d' =
     u16 (Z.lor (Z.land (u16 (Z.land (counter_int_enabs d) (Z.lnot (ev 3))))
                        (Z.lnot (ev 3)))
                (ev 0)).
Proof.
  intros Hn. cbv zeta. open_ops n Hn.
  unfold counters_init_chan. cbv zeta.
  split; [|split].
  - rewrite (setting_set_enable h Hok Hregs Hlatch n _ _ Hn), Sr,
      (setting_set_int_src h Hok Hregs Hlatch n _ _ Hn),
      (setting_set_mode h Hok Hregs Hlatch n setup 1 d Hn).
    cbn [fst snd nz Z.eqb negb]. unfold cut at 2.
    rewrite Z.land_0_l. reflexivity.
  - intros m Hm Hne.
    apply (setting_frame h Hok Hregs Hlatch n m d _ Hn Hm Hne).
    repeat (eapply touches_only_seq;
            [|first [apply Te | apply Tr | apply Ti]]).
    apply Tm.
  - rewrite Ee, Er, Ei, Em. reflexivity.
Qed.

(** The settings after the rounds for the counters of a list. *)
Lemma counters_init_fold (setup : Z) (l : list nat) :
  (forall n, In n l -> (n < 6)%nat) -> NoDup l ->
  forall d n, (n < 6)%nat ->
  counter_setting h n (fold_left (counters_init_chan h setup) l d) =
  if in_dec Nat.eq_dec n l
  then (cut (enable_field h n) (S626_CLKENAB_ALWAYS h), 0,
        fget (STD_LOADSRC h) setup)
  else counter_setting h n d.
Proof.
  induction l as [|a l IH]; intros Hl Hnd d n Hn.
  - reflexivity.
  - cbn [fold_left]. inversion Hnd as [|? ? Ha Hnd']; subst.
    assert (Ha6 : (a < 6)%nat) by (apply Hl; now left).
    destruct (counters_init_chan_spec setup a d Ha6) as (S1 & S2 & _).
    cbv zeta in S1, S2.
    rewrite (IH (fun m Hm => Hl m (or_intror Hm)) Hnd' _ n Hn).
    destruct (in_dec Nat.eq_dec n (a :: l)) as [I | I];
      destruct (in_dec Nat.eq_dec n l) as [I' | I']; try reflexivity.
    + destruct I as [<- | I]; [exact S1 | contradiction].
    + exfalso. apply I. now right.
    + apply S2; [exact Hn|]. intros ->. apply I. now left.
Qed.

(** Clearing the two interrupt bits [ev] of a counter in the image,
    as one round does it. *)
Lemma clear_events_round (x ev : Z) :
  u16 (Z.lor (Z.land (u16 (Z.land x (Z.lnot ev))) (Z.lnot ev)) 0) =
  Z.land x (Z.land 65535 (Z.lnot ev)).
Proof.
  unfold u16. apply Z.bits_inj'. intros i Hi.
  rewrite ?Z.land_spec, ?Z.lor_spec, ?Z.land_spec, ?Z.lnot_spec by lia.
  rewrite Z.bits_0.
  destruct (Z.testbit x i), (Z.testbit ev i), (Z.testbit 65535 i);
    reflexivity.
Qed.

(** X18 (s626_counters_init).  With six encoder channels, initialising
    the counters leaves each of the six enabled as
    [S626_CLKENAB_ALWAYS] says, without an interrupt source and with the
    preload loaded upon index, and clears the overflow and index
    interrupts of all six in the image of the interrupt enables: of the
    image only bits 0 to 3 remain. *)
Theorem counters_init_settings (d : s626_dev) :
  S626_ENCODER_CHANNELS e = 6 ->
  let d' := s626_counters_init h e d in
  (forall n, (n < 6)%nat ->
     counter_setting h n d' =
     (cut (enable_field h n) (S626_CLKENAB_ALWAYS h), 0,
      cut (STD_LOADSRC h) (S626_LOADSRC_INDX h)))
  /\ counter_int_enabs d' = Z.land (counter_int_enabs d) 15.
Proof.
  intros He. cbv zeta. unfold s626_counters_init. rewrite He. cbv zeta.
  destruct (setup_fields (S626_LOADSRC_INDX h) (S626_INDXSRC_SOFT h)
              (S626_ENCMODE_COUNTER h) (S626_CLKPOL_POS e)
              (S626_CLKMULT_1X h) (S626_CLKENAB_INDEX h)) as (_ & _ & F3).
  cbv zeta in F3.
  set (setup := u16 (Z.lor _ _)) in *.
  change (Z.to_nat 6) with 6%nat.
  split.
  - intros n Hn.
    rewrite (counters_init_fold setup (seq 0 6)
               (fun m Hm => proj2 (proj1 (in_seq 6 0 m) Hm))
               (seq_NoDup 6 0) d n Hn).
    destruct (in_dec Nat.eq_dec n (seq 0 6)) as [_ | I].
    + rewrite F3. reflexivity.
    + exfalso. apply I, in_seq. lia.
  - cbn [seq fold_left].
    repeat match goal with
    | |- context [counter_int_enabs (counters_init_chan h setup ?x ?n)] =>
        let E := fresh "E" in
        destruct (counters_init_chan_spec setup n x ltac:(lia))
          as (_ & _ & E);
        cbv zeta in E; rewrite E; clear E
    end.
    cbn [enc_chan nth s626_enc_chan_info enc_info_a enc_info_b regs
         my_event_bits event_bits S626_EVBITS map Z.to_nat Pos.to_nat
         Pos.iter_op Nat.add].
    change (u16 0) with 0.
    rewrite !clear_events_round, <- !Z.land_assoc. reflexivity.
Qed.

End CounterPrograms.

(** Counter 5 loaded as the scan timer after counter 4 was loaded as the
    conversion timer. *)
Lemma timer_load_programs_witness :
  let h := s626_h_ref in
  let d := s626_timer_load h (enc_chan h 4) 399 (idle_dev 0 null_cmd) in
  let d' := s626_timer_load h (enc_chan h 5) 1999 d in
  counter_h_okb h = true /\ counter_regs_okb h = true
  /\ counter_latch_okb h = true /\ (5 < 6)%nat
  /\ counter_preload h 5 d' = (1999, 0)
  /\ counter_setting h 5 d' = (1, 1, 1)
  /\ counter_setting h 4 d' = (1, 1, 1)
  /\ counter_preload h 4 d' = (399, 0)
  /\ counter_int_enabs d' = 0xa000.
Proof.
  cbv zeta.
  destruct (timer_load_programs s626_h_ref eq_refl eq_refl eq_refl
              5 1999
              (s626_timer_load s626_h_ref (enc_chan s626_h_ref 4) 399
                 (idle_dev 0 null_cmd))
              ltac:(lia)) as (P & S & F & E).
  split; [reflexivity|]. split; [reflexivity|]. split; [reflexivity|].
  split; [lia|]. split; [exact P|]. split; [exact S|].
  split; [exact (eq_trans (F 4%nat ltac:(lia) ltac:(discriminate)) eq_refl)|].
  split; [reflexivity | exact E].
Defined.

(** The value 70000 written to counter 4 after counter 1 was loaded as
    a timer. *)
Lemma enc_insn_write_loads_witness :
  let h := s626_h_ref in
  let c := comedi_h_ref in
  let d := s626_timer_load h (enc_chan h 1) 399 (idle_dev 0 null_cmd) in
  let r := s626_enc_insn_write h c 4 70000 d in
  counter_h_okb h = true /\ counter_regs_okb h = true
  /\ counter_latch_okb h = true
  /\ (Z.to_nat (CR_CHAN c 4) < 6)%nat
  /\ fst r = 1
  /\ counter_preload h 4 (snd r) = (4464, 1)
  /\ counter_setting h 4 (snd r) = (0, 0, 2)
  /\ counter_setting h 1 (snd r) = (1, 1, 1)
  /\ counter_int_enabs (snd r) = counter_int_enabs d.
Proof.
  cbv zeta.
  destruct (enc_insn_write_loads s626_h_ref eq_refl eq_refl eq_refl
              comedi_h_ref 4 70000
              (s626_timer_load s626_h_ref (enc_chan s626_h_ref 1) 399
                 (idle_dev 0 null_cmd))
              ltac:(vm_compute; lia)) as (R & P & S & F & E).
  split; [reflexivity|]. split; [reflexivity|]. split; [reflexivity|].
  split; [vm_compute; lia|]. split; [exact R|]. split; [exact P|].
  split; [exact S|].
  split; [exact (eq_trans (F 1%nat ltac:(lia) ltac:(discriminate)) eq_refl)|].
  exact E.
Defined.

(** Counter 1 configured with preload 70000 after it was loaded as a
    timer with its overflow interrupt, counter 4 running as a timer. *)
Lemma enc_insn_config_programs_witness :
  let h := s626_h_ref in
  let c := comedi_h_ref in
  let e := s626_enc_h_ref in
  let d := s626_timer_load h (enc_chan h 4) 399
             (s626_timer_load h (enc_chan h 1) 399 (idle_dev 0 null_cmd)) in
  let r := s626_enc_insn_config h c e 1 1 70000 d in
  counter_h_okb h = true /\ counter_regs_okb h = true
  /\ counter_latch_okb h = true
  /\ (Z.to_nat (CR_CHAN c 1) < 6)%nat
  /\ fst r = 1
  /\ counter_setting h 1 d = (1, 1, 1)
  /\ counter_preload h 1 (snd r) = (4464, 1)
  /\ counter_setting h 1 (snd r) = (0, 0, 0)
  /\ counter_setting h 4 (snd r) = (1, 1, 1)
  /\ counter_int_enabs d = 0x3000
  /\ counter_int_enabs (snd r) = 0x2000.
Proof.
  cbv zeta.
  destruct (enc_insn_config_programs s626_h_ref eq_refl eq_refl eq_refl
              comedi_h_ref s626_enc_h_ref 1 1 70000
              (s626_timer_load s626_h_ref (enc_chan s626_h_ref 4) 399
                 (s626_timer_load s626_h_ref (enc_chan s626_h_ref 1) 399
                    (idle_dev 0 null_cmd)))
              ltac:(vm_compute; lia)) as (R & P & S & F & E).
  split; [reflexivity|]. split; [reflexivity|]. split; [reflexivity|].
  split; [vm_compute; lia|]. split; [exact R|]. split; [reflexivity|].
  split; [exact P|]. split; [exact S|].
  split; [exact (eq_trans (F 4%nat ltac:(lia) ltac:(discriminate)) eq_refl)|].
  split; [reflexivity | exact E].
Defined.

(** The counters initialised on a board whose counters 4 and 5 run as
    timers with their overflow interrupts. *)
Lemma counters_init_settings_witness :
  let h := s626_h_ref in
  let e := s626_enc_h_ref in
  let d := s626_timer_load h (enc_chan h 5) 1999
             (s626_timer_load h (enc_chan h 4) 399
                (with_counter_int_enabs 0xffff (idle_dev 0 null_cmd))) in
  let d' := s626_counters_init h e d in
  counter_h_okb h = true /\ counter_regs_okb h = true
  /\ counter_latch_okb h = true
  /\ S626_ENCODER_CHANNELS e = 6
  /\ counter_setting h 4 d = (1, 1, 1)
  /\ counter_setting h 4 d' = (0, 0, 0)
  /\ counter_setting h 5 d' = (0, 0, 0)
  /\ counter_int_enabs d' = 15.
Proof.
  cbv zeta.
  destruct (counters_init_settings s626_h_ref eq_refl eq_refl eq_refl
              s626_enc_h_ref
              (s626_timer_load s626_h_ref (enc_chan s626_h_ref 5) 1999
                 (s626_timer_load s626_h_ref (enc_chan s626_h_ref 4) 399
                    (with_counter_int_enabs 0xffff (idle_dev 0 null_cmd))))
              eq_refl) as (S & E).
  split; [reflexivity|]. split; [reflexivity|]. split; [reflexivity|].
  split; [reflexivity|]. split; [reflexivity|].
  split; [exact (S 4%nat ltac:(lia))|].
  split; [exact (S 5%nat ltac:(lia))|].
  exact E.
Defined.
